(** * Connection dialog controller and extension configuration

    A shallow embedding of two TypeScript sources of the MSSQL extension:

    - [configurations/extConfig.ts]: the [ExtConfig] class, which reads a
      setting from the extension configuration and falls back to the bundled
      [Config];
    - the connection dialog webview controller (class
      [ConnectionDialogWebviewController]): the schema compiler
      ([convertToFormComponent], [generateConnectionComponents],
      [completeFormComponents], [groupAdvancedOptions]), the visibility and
      validation engines ([updateItemVisibility],
      [validateConnectionProfile]), the MFA side-effect handler
      ([handleAzureMFAEdits]), the [cleanConnection] transform, the loading
      of stored connections ([initializeConnectionForDialog],
      [loadConnections]) and the connect orchestrator ([connectHelper],
      [handleConnectionErrorCodes], the [addFirewallRule] reducer).

    JavaScript values are a small tagged union, JavaScript objects used as
    dictionaries are finite maps ([gmap]) when only lookups matter and
    insertion-ordered association lists when the enumeration order is
    observable.  Asynchronous methods that mutate [this.state] are functions
    in a state-and-exception monad over a [World] that holds the dialog
    state and the trace of observable effects. *)

From Stdlib Require Import ZArith String List Ascii Lia Bool DecimalString.
From stdpp Require Import base option list strings gmap.

Set Warnings "-clear-no-such-hyp".

Open Scope string_scope.
Open Scope Z_scope.
Open Scope list_scope.

(** ** JavaScript values *)

(** The values that travel through a connection profile or a settings file:
    [undefined], [null], booleans, numbers, strings and string arrays.
    Of a number the code below observes its truthiness and, for an error
    number, its decimal text, so numbers are integers. *)
Inductive JsVal : Type :=
| VUndefined
| VNull
| VBool (b : bool)
| VNum (n : Z)
| VStr (s : string)
| VArr (l : list string).

#[global] Instance JsVal_eq_dec : EqDecision JsVal.
Proof. solve_decision. Defined.

(** [String(n)] for an integer [n] of magnitude below [10^21]: its decimal
    text, with a minus sign when negative. *)
Definition numberToString (n : Z) : string :=
  NilZero.string_of_int (Z.to_int n).

(** JavaScript [ToBoolean]: what [if (v)] and [!v] test. *)
Definition truthy (v : JsVal) : bool :=
  match v with
  | VUndefined | VNull => false
  | VBool b => b
  | VNum n => negb (n =? 0)
  | VStr s => negb (String.eqb s "")
  | VArr _ => true
  end.

(** [a === b] on these values; the code compares strings and [undefined]
    only. *)
Definition strict_eq (a b : JsVal) : bool := bool_decide (a = b).

(** [o[k]] on a dictionary object: a missing key reads as [undefined]. *)
Definition js_get (o : gmap string JsVal) (k : string) : JsVal :=
  default VUndefined (o !! k).

(** ** [ExtConfig] (configurations/extConfig.ts) *)

Module ExtConfig.

(** [WorkspaceConfiguration.get(key)]: the stored value, [undefined] when
    the key has none. *)
Definition get (c : gmap string JsVal) (key : string) : JsVal := js_get c key.

(** The three private members of the class.  [_config] is the bundled
    [Config], of which only [getSqlToolsConfigValue] is called. *)
Record t : Type := {
  _config : string → JsVal;
  _extensionConfig : gmap string JsVal;
  _workspaceConfig : gmap string JsVal
}.

Section WithConstants.
(** [Constants.sqlToolsServiceConfigKey]; the constants module is not
    part of the sources at hand, every value is allowed. *)
Variable sqlToolsServiceConfigKey : string.

(** A call without [defaultValue] passes [VUndefined]. *)
Definition getExtensionConfig (this : t) (key : string)
    (defaultValue : JsVal) : JsVal :=
  let configValue := get (_extensionConfig this) key in
  if decide (configValue = VUndefined) then defaultValue else configValue.

Definition getWorkspaceConfig (this : t) (key : string)
    (defaultValue : JsVal) : JsVal :=
  let configValue := get (_workspaceConfig this) key in
  if decide (configValue = VUndefined) then defaultValue else configValue.

(** The key looked up in the extension configuration. *)
Definition derivedKey (configKey : string) : string :=
  sqlToolsServiceConfigKey +:+ "." +:+ configKey.

Definition getSqlToolsConfigValue (this : t) (configKey : string) : JsVal :=
  let configValue :=
    getExtensionConfig this (derivedKey configKey) VUndefined in
  if negb (truthy configValue)
  then _config this configKey
  else configValue.

Definition getSqlToolsServiceDownloadUrl (this : t)
    (sqlToolsServiceDownloadUrlConfigKey : string) : JsVal :=
  getSqlToolsConfigValue this sqlToolsServiceDownloadUrlConfigKey.

(** The falsy values the specification lists: [undefined], [null], the
    empty string, [false] and [0]. *)
Definition listed_falsy (v : JsVal) : bool :=
  match v with
  | VUndefined | VNull | VBool false | VNum 0 | VStr "" => true
  | _ => false
  end.

End WithConstants.

End ExtConfig.

(** ** JavaScript objects with observable key order *)

(** [Object.values] and [Object.keys] enumerate the canonical array-index
    keys first, in ascending numeric order, and then the other string keys
    in insertion order.  An ordered object is the list of its entries in
    that enumeration order.  A lookup sees the object's own properties: the
    keys in use are option and field names, none of which names a member of
    [Object.prototype]. *)
Module Obj.

Definition digit_of (c : ascii) : option N :=
  let n := N_of_ascii c in
  if ((48 <=? n) && (n <=? 57))%N then Some (n - 48)%N else None.

Fixpoint digits_value (acc : N) (s : string) : option N :=
  match s with
  | EmptyString => Some acc
  | String c s' =>
      match digit_of c with
      | Some d => digits_value (acc * 10 + d)%N s'
      | None => None
      end
  end.

(** The number a canonical array-index key denotes: decimal digits, no
    leading zero, below [2^32 - 1]. *)
Definition array_index (k : string) : option N :=
  match k with
  | EmptyString => None
  | String c rest =>
      if (Ascii.eqb c "0" && negb (String.eqb rest ""))%bool then None
      else match digits_value 0%N k with
           | Some n => if (n <? 4294967295)%N then Some n else None
           | None => None
           end
  end.

Section Entries.
Context {V : Type}.

Definition t : Type := list (string * V).

Fixpoint get (k : string) (o : t) : option V :=
  match o with
  | [] => None
  | (k', v) :: o' => if String.eqb k k' then Some v else get k o'
  end.

Definition has (k : string) (o : t) : bool :=
  match get k o with Some _ => true | None => false end.

(** Overwrite the value of a key that is present, keeping its place. *)
Fixpoint replace (k : string) (v : V) (o : t) : t :=
  match o with
  | [] => []
  | (k', v') :: o' =>
      if String.eqb k k' then (k', v) :: o' else (k', v') :: replace k v o'
  end.

(** Place a new array-index key among the array-index keys. *)
Fixpoint insert_index (n : N) (k : string) (v : V) (o : t) : t :=
  match o with
  | [] => [(k, v)]
  | (k', v') :: o' =>
      match array_index k' with
      | Some n' =>
          if (n <? n')%N then (k, v) :: (k', v') :: o'
          else (k', v') :: insert_index n k v o'
      | None => (k, v) :: (k', v') :: o'
      end
  end.

(** [o[k] = v]. *)
Definition set (k : string) (v : V) (o : t) : t :=
  if has k o then replace k v o
  else match array_index k with
       | Some n => insert_index n k v o
       | None => (o ++ [(k, v)])
       end.

(** Mutation through a reference to the value stored under [k]. *)
Fixpoint update (k : string) (f : V → V) (o : t) : t :=
  match o with
  | [] => []
  | (k', v') :: o' =>
      if String.eqb k k' then (k', f v') :: o' else (k', v') :: update k f o'
  end.

Definition keys (o : t) : list string := map fst o.
Definition values (o : t) : list V := map snd o.
End Entries.

Arguments t : clear implicits.

End Obj.

(** [xs.includes(x)] on an array of strings. *)
Definition includes (xs : list string) (x : string) : bool :=
  existsb (String.eqb x) xs.

(** [xs.includes(x)] where [x] may be [undefined]: an array of strings never
    holds [undefined]. *)
Definition includes_opt (xs : list string) (x : option string) : bool :=
  match x with
  | Some s => includes xs s
  | None => false
  end.

(** The property key an expression [o[x]] uses: [undefined] is converted to
    the string ["undefined"]. *)
Definition property_key (x : option string) : string :=
  match x with
  | Some s => s
  | None => "undefined"
  end.

(** ** Shared interfaces of the connection dialog *)

(** Modelled from the spec: the enumerations [ConnectionInputMode],
    [ApiStatus] and [FormItemType] are declared in the shared interface
    modules, which are not among the sources; the members are the input
    modes, the statuses and the field kinds the specification lists and the
    controller names. *)
Inductive ConnectionInputMode : Type := Parameters | ConnectionString | AzureBrowse.
Inductive ApiStatus : Type := NotStarted | Loading | Loaded | Error.
Inductive FormItemType : Type := Input | Dropdown | Checkbox | Password | TextArea.

#[global] Instance ConnectionInputMode_eq_dec : EqDecision ConnectionInputMode.
Proof. solve_decision. Defined.
#[global] Instance ApiStatus_eq_dec : EqDecision ApiStatus.
Proof. solve_decision. Defined.
#[global] Instance FormItemType_eq_dec : EqDecision FormItemType.
Proof. solve_decision. Defined.

(** Modelled from the spec: [AuthenticationType] is declared in the shared
    interface modules, which are not among the sources.  It is a string
    enumeration (a profile stores the member as a string); each member is
    taken to be the string of its name. *)
Module AuthenticationType.
Definition SqlLogin : JsVal := VStr "SqlLogin".
Definition Integrated : JsVal := VStr "Integrated".
Definition AzureMFA : JsVal := VStr "AzureMFA".
End AuthenticationType.

(** A connection profile: property name to value. *)
Abbreviation IConnectionDialogProfile := (gmap string JsVal).

Record FormItemOptions : Type := {
  optDisplayName : string;
  optValue : string
}.

Record FormItemValidationState : Type := {
  isValid : bool;
  validationMessage : string
}.

(** What the validator closures read from [this.state] when they run. *)
Record ValidateCtx : Type := {
  ctxAuthenticationType : JsVal;
  ctxSelectedInputMode : ConnectionInputMode
}.

(** The callbacks of the two action buttons, by name. *)
Inductive ButtonCallback : Type := AzureSignInCallback | RefreshTokenCallback.

Record FormItemActionButton : Type := {
  btnLabel : string;
  btnId : string;
  btnCallback : ButtonCallback
}.

(** [ConnectionDialogFormItemSpec].  A member that an object literal leaves
    out is [None] ([undefined]). *)
Record FormItemSpec : Type := {
  propertyName : option string;
  label : option string;
  required : option bool;
  type : option FormItemType;
  tooltip : option string;
  options : option (list FormItemOptions);
  placeholder : option string;
  actionButtons : option (list FormItemActionButton);
  validate : option (ValidateCtx → JsVal → FormItemValidationState);
  validation : option FormItemValidationState;
  hidden : option bool;
  isAdvancedOption : option bool;
  optionCategory : option string;
  optionCategoryLabel : option string
}.

Record ConnectionComponentGroup : Type := {
  groupName : option string;
  groupOptions : list (option string)
}.

(** [groupedAdvancedOptions] is [Array.from(groupMap.values())]: a slot of a
    seeded category that received no field holds [undefined]. *)
Record ConnectionComponentsInfo : Type := {
  components : Obj.t FormItemSpec;
  mainOptions : list string;
  topAdvancedOptions : list string;
  groupedAdvancedOptions : list (option ConnectionComponentGroup)
}.

(** The recovery dialog, a tagged variant. *)
Inductive IDialogProps : Type :=
| TrustServerCertDialogProps (message : string)
| AddFirewallRuleDialogProps (message : string) (clientIp : string)
    (tenants : list (string * string)).

Record AzureSubscriptionInfo : Type := {
  subInfoId : string;
  subInfoName : string;
  subInfoLoaded : bool
}.

Record ConnectionDialogWebviewState : Type := {
  connectionProfile : IConnectionDialogProfile;
  savedConnections : list IConnectionDialogProfile;
  recentConnections : list IConnectionDialogProfile;
  selectedInputMode : ConnectionInputMode;
  connectionComponents : ConnectionComponentsInfo;
  azureSubscriptions : list AzureSubscriptionInfo;
  azureServers : list string;
  connectionStatus : ApiStatus;
  formError : string;
  loadingAzureSubscriptionsStatus : ApiStatus;
  loadingAzureServersStatus : ApiStatus;
  dialog : option IDialogProps
}.

(** ** Collaborators *)

(** What a [throw] or a rejected promise carries: a [TypeError] raised by
    reading a member of [undefined], or an [Error] with a message. *)
Inductive JsError : Type :=
| JsTypeError (reading : string)
| JsErrorOf (message : string).

(** The result of a call that may throw. *)
Inductive Outcome (A : Type) : Type :=
| Ok (a : A)
| Throw (e : JsError).
Arguments Ok {A} a.
Arguments Throw {A} e.

(** Capability descriptors ([ConnectionOption] of the service contract). *)
Record CategoryValue : Type := {
  cvDisplayName : option string;
  cvName : string
}.

Record ConnectionOption : Type := {
  name : string;
  displayName : string;
  description : string;
  groupName_ : string;
  valueType : string;
  isRequired : bool;
  categoryValues : option (list CategoryValue)
}.

Record CapabilitiesResult : Type := {
  capOptions : list ConnectionOption;
  groupDisplayNames : gmap string string
}.

(** Accounts of the identity provider ([IAccount], [ITenant]). *)
Record ITenant : Type := {
  tenantId_ : string;
  tenantDisplayName : string
}.

Record AccountDisplayInfo : Type := {
  userId : string;
  accountDisplayName : string
}.

Record AccountProperties : Type := {
  accountTenants : option (list (option ITenant))
}.

Record IAccount : Type := {
  displayInfo : option AccountDisplayInfo;
  properties : option AccountProperties;
  keyId : string
}.

Record TokenSession : Type := {
  token : string;
  expiresOn : Z
}.

(** An absent [errorMessage] is only ever tested for truthiness; it is the
    empty string here. *)
Record ConnectionCompleteParams : Type := {
  errorMessage : string;
  errorNumber : Z
}.

Record HandleFirewallRuleResponse : Type := {
  hfrResult : bool;
  hfrIpAddress : string
}.

Record CreateFirewallRuleResponse : Type := {
  cfrResult : bool;
  cfrErrorMessage : string
}.

Record AuthSessionAccount : Type := {
  sessionLabel : string;
  sessionAccountType : string
}.

Record AzureSubscription : Type := {
  subscriptionId : string;
  subscriptionName : string;
  subscriptionTenantId : string;
  credentialGetToken : Outcome string;
  authenticationGetSession : Outcome AuthSessionAccount
}.

Record AzureTenant : Type := {
  azTenantDisplayName : string;
  azTenantId : string
}.

(** The signed-in identity ([confirmVscodeAzureSignin]'s result). *)
Record VSCodeAzureSubscriptionProvider : Type := {
  authGetTenants : Outcome (list AzureTenant);
  authGetSubscriptions : bool → Outcome (list AzureSubscription)
}.

Record FirewallRuleRequest : Type := {
  frAccount : IAccount;
  firewallRuleName : string;
  startIpAddress : string;
  endIpAddress : string;
  serverName : JsVal;
  securityTokenMappings : list (string * string)
}.

(** [payload.ip] of the add-firewall-rule action: one address or a range. *)
Inductive IpPayload : Type :=
| IpString (ip : string)
| IpRange (startIp endIp : string).

Record AddFirewallRulePayload : Type := {
  payloadName : string;
  payloadIp : IpPayload;
  payloadTenantId : string
}.

(** [CredentialsQuickPickItemType]: the controller tells saved profiles
    and recently used connections apart; the enumeration is declared
    outside the sources, [OtherItem] stands for its remaining members. *)
Inductive CredentialsQuickPickItemType : Type :=
| Profile
| Mru
| OtherItem.

#[global] Instance CredentialsQuickPickItemType_eq_dec :
  EqDecision CredentialsQuickPickItemType.
Proof. solve_decision. Defined.

(** An item of [connectionStore.loadAllConnections]. *)
Record IConnectionCredentialsQuickPickItem : Type := {
  quickPickItemType : CredentialsQuickPickItemType;
  connectionCreds : IConnectionDialogProfile
}.

(** Localized strings ([locConstants]). *)
Record LocStrings : Type := {
  Loc_profileName : string;
  Loc_savePassword : string;
  Loc_azureAccount : string;
  Loc_selectAnAccount : string;
  Loc_tenantId : string;
  Loc_selectATenant : string;
  Loc_connectionString : string;
  Loc_azureAccountIsRequired : string;
  Loc_tenantIdIsRequired : string;
  Loc_connectionStringIsRequired : string;
  Loc_serverIsRequired : string;
  Loc_usernameIsRequired : string;
  Loc_signIn : string;
  refreshTokenLabel : string;
  Loc_errorCreatingFirewallRule : string → string → string;
  Loc_errorLoadingAzureAccountInfoForTenantId : string → string
}.

(** Calls into the host that return nothing the controller reads. *)
Inductive HostCall : Type :=
| GetUriForConnection (p : IConnectionDialogProfile)
| RemoveConnectionNodes (p : IConnectionDialogProfile)
| RemoveProfile (p : IConnectionDialogProfile)
| ObjectExplorerRefresh
| SaveProfile (p : IConnectionDialogProfile)
| CreateObjectExplorerSessionFromDialog (p : IConnectionDialogProfile)
| ObjectExplorerReveal
| PanelDispose
| PromptUserForNPSFeedback.

(** Every call the controller makes to a collaborator. *)
Inductive CollaboratorCall : Type :=
| CallGetAccounts
| CallGetAccountSecurityToken (account : IAccount)
| CallGetCapabilities
| CallValidateAndSaveProfileFromDialog (p : IConnectionDialogProfile)
| CallHandleFirewallRule (errorNumber : Z) (errorMessage : string)
| CallCreateFirewallRule (r : FirewallRuleRequest)
| CallConfirmVscodeAzureSignin
| CallAuthGetTenants
| CallAuthGetSubscriptions (filter : bool)
| CallCredentialGetToken (scope : string)
| CallAuthenticationGetSession
| CallLoadAllConnections (addRecentConnections : bool)
| CallHost (c : HostCall).

(** The collaborators' answers, with the localized strings and the two
    error codes of [connectionConstants] (which is not among the sources:
    the codes are whatever that module says).  Within one action a
    collaborator answers the same question the same way.  The credential
    store's [lookupPassword] ([None] when it answers [undefined]) and
    [getConnectionDisplayName] of the connection info module are read as
    functions of the connection: a lookup leaves no event in the trace. *)
Record Env : Type := {
  Loc : LocStrings;
  connectionCertValidationFailedErrorCode : Z;
  connectionFirewallErrorCode : Z;
  getErrorMessage : JsError → string;
  getAccountsService : Outcome (list (option IAccount));
  getAccountSecurityToken : IAccount → Outcome TokenSession;
  isTokenInValid : string → Z → bool;
  getCapabilities : Outcome CapabilitiesResult;
  validateAndSaveProfileFromDialog :
    IConnectionDialogProfile → Outcome ConnectionCompleteParams;
  handleFirewallRule : Z → string → Outcome HandleFirewallRuleResponse;
  createFirewallRule : FirewallRuleRequest → Outcome CreateFirewallRuleResponse;
  confirmVscodeAzureSignin : Outcome (option VSCodeAzureSubscriptionProvider);
  loadAllConnections : bool → Outcome (list IConnectionCredentialsQuickPickItem);
  lookupPassword : IConnectionDialogProfile → bool → Outcome (option string);
  getConnectionDisplayName : IConnectionDialogProfile → string;
  hostCall : HostCall → Outcome unit
}.

(** ** Observable effects *)

Module TelemetryActions.
Inductive t : Type :=
| LoadConnectionProperties
| LoadAzureAccountsForEntraAuth
| LoadAzureTenantsForEntraAuth
| AddFirewallRule
| CreateConnection
| LoadRecentConnections.
End TelemetryActions.

(** A value of a telemetry property. *)
Inductive TelemetryProp : Type :=
| PropStr (s : string)
| PropVal (v : JsVal)
| PropMode (m : ConnectionInputMode).

Inductive Event : Type :=
| LoggerLog (msg : string)
| ConsoleError (msg : string)
| ConsoleWarn (msg : string)
| ConsoleDebug (msg : string)
| SendErrorEvent (action : TelemetryActions.t) (err : JsError)
    (includeErrorMessage : option bool)
    (additionalProperties : list (string * TelemetryProp))
    (additionalMeasurements : list (string * Z))
| SendActionEvent (action : TelemetryActions.t)
    (additionalProperties : list (string * TelemetryProp))
    (additionalMeasurements : list (string * Z))
| UpdateState (snapshot : ConnectionDialogWebviewState)
| ValidatorCall (field : option string) (value : JsVal)
| Call (c : CollaboratorCall).

(** The controller instance and the trace of its effects, oldest first. *)
Record World : Type := {
  state : ConnectionDialogWebviewState;
  _connectionToEditCopy : option IConnectionDialogProfile;
  trace : list Event
}.

(** ** The monad of the controller's methods *)

Definition M (A : Type) : Type := World → Outcome A * World.

#[global] Instance M_ret : MRet M := λ A a w, (Ok a, w).

#[global] Instance M_bind : MBind M := λ A B f m w,
  match m w with
  | (Ok a, w') => f a w'
  | (Throw e, w') => (Throw e, w')
  end.

Definition throw {A : Type} (e : JsError) : M A := λ w, (Throw e, w).

(** [try { m } catch (e) { h e }]. *)
Definition try_catch {A : Type} (m : M A) (h : JsError → M A) : M A := λ w,
  match m w with
  | (Ok a, w') => (Ok a, w')
  | (Throw e, w') => h e w'
  end.

Definition get_state : M ConnectionDialogWebviewState := λ w, (Ok (state w), w).

Definition modify_state
    (f : ConnectionDialogWebviewState → ConnectionDialogWebviewState) : M unit :=
  λ w, (Ok tt, {| state := f (state w);
                  _connectionToEditCopy := _connectionToEditCopy w;
                  trace := trace w |}).

Definition get_connectionToEditCopy : M (option IConnectionDialogProfile) :=
  λ w, (Ok (_connectionToEditCopy w), w).

Definition emit (e : Event) : M unit :=
  λ w, (Ok tt, {| state := state w;
                  _connectionToEditCopy := _connectionToEditCopy w;
                  trace := (trace w ++ [e]) |}).

Definition lift {A : Type} (o : Outcome A) : M A := λ w, (o, w).

(** [await collaborator(...)]: the call is traced, then it answers. *)
Definition call {A : Type} (c : CollaboratorCall) (answer : Outcome A) : M A :=
  emit (Call c);; lift answer.

(** [this.updateState()]: the view receives the current state. *)
Definition updateState : M unit :=
  s ← get_state; emit (UpdateState s).

(** [for (const x of xs) { body x }]. *)
Fixpoint for_of {A : Type} (xs : list A) (body : A → M unit) : M unit :=
  match xs with
  | [] => mret tt
  | x :: xs' => body x;; for_of xs' body
  end.

(** ** Record updates *)

Definition set_hidden (h : option bool) (c : FormItemSpec) : FormItemSpec :=
  {| propertyName := propertyName c; label := label c; required := required c;
     type := type c; tooltip := tooltip c; options := options c;
     placeholder := placeholder c; actionButtons := actionButtons c;
     validate := validate c; validation := validation c; hidden := h;
     isAdvancedOption := isAdvancedOption c; optionCategory := optionCategory c;
     optionCategoryLabel := optionCategoryLabel c |}.

Definition set_validation (v : option FormItemValidationState)
    (c : FormItemSpec) : FormItemSpec :=
  {| propertyName := propertyName c; label := label c; required := required c;
     type := type c; tooltip := tooltip c; options := options c;
     placeholder := placeholder c; actionButtons := actionButtons c;
     validate := validate c; validation := v; hidden := hidden c;
     isAdvancedOption := isAdvancedOption c; optionCategory := optionCategory c;
     optionCategoryLabel := optionCategoryLabel c |}.

Definition set_validate
    (f : option (ValidateCtx → JsVal → FormItemValidationState))
    (c : FormItemSpec) : FormItemSpec :=
  {| propertyName := propertyName c; label := label c; required := required c;
     type := type c; tooltip := tooltip c; options := options c;
     placeholder := placeholder c; actionButtons := actionButtons c;
     validate := f; validation := validation c; hidden := hidden c;
     isAdvancedOption := isAdvancedOption c; optionCategory := optionCategory c;
     optionCategoryLabel := optionCategoryLabel c |}.

Definition set_options (o : option (list FormItemOptions))
    (c : FormItemSpec) : FormItemSpec :=
  {| propertyName := propertyName c; label := label c; required := required c;
     type := type c; tooltip := tooltip c; options := o;
     placeholder := placeholder c; actionButtons := actionButtons c;
     validate := validate c; validation := validation c; hidden := hidden c;
     isAdvancedOption := isAdvancedOption c; optionCategory := optionCategory c;
     optionCategoryLabel := optionCategoryLabel c |}.

Definition set_actionButtons (b : option (list FormItemActionButton))
    (c : FormItemSpec) : FormItemSpec :=
  {| propertyName := propertyName c; label := label c; required := required c;
     type := type c; tooltip := tooltip c; options := options c;
     placeholder := placeholder c; actionButtons := b;
     validate := validate c; validation := validation c; hidden := hidden c;
     isAdvancedOption := isAdvancedOption c; optionCategory := optionCategory c;
     optionCategoryLabel := optionCategoryLabel c |}.

Definition set_components (cs : Obj.t FormItemSpec)
    (i : ConnectionComponentsInfo) : ConnectionComponentsInfo :=
  {| components := cs; mainOptions := mainOptions i;
     topAdvancedOptions := topAdvancedOptions i;
     groupedAdvancedOptions := groupedAdvancedOptions i |}.

Definition set_groupedAdvancedOptions (g : list (option ConnectionComponentGroup))
    (i : ConnectionComponentsInfo) : ConnectionComponentsInfo :=
  {| components := components i; mainOptions := mainOptions i;
     topAdvancedOptions := topAdvancedOptions i;
     groupedAdvancedOptions := g |}.

Definition set_connectionProfile (p : IConnectionDialogProfile)
    (s : ConnectionDialogWebviewState) : ConnectionDialogWebviewState :=
  {| connectionProfile := p; savedConnections := savedConnections s;
     recentConnections := recentConnections s;
     selectedInputMode := selectedInputMode s;
     connectionComponents := connectionComponents s;
     azureSubscriptions := azureSubscriptions s; azureServers := azureServers s;
     connectionStatus := connectionStatus s; formError := formError s;
     loadingAzureSubscriptionsStatus := loadingAzureSubscriptionsStatus s;
     loadingAzureServersStatus := loadingAzureServersStatus s;
     dialog := dialog s |}.

Definition set_loadedConnections
    (saved recent : list IConnectionDialogProfile)
    (s : ConnectionDialogWebviewState) : ConnectionDialogWebviewState :=
  {| connectionProfile := connectionProfile s; savedConnections := saved;
     recentConnections := recent;
     selectedInputMode := selectedInputMode s;
     connectionComponents := connectionComponents s;
     azureSubscriptions := azureSubscriptions s; azureServers := azureServers s;
     connectionStatus := connectionStatus s; formError := formError s;
     loadingAzureSubscriptionsStatus := loadingAzureSubscriptionsStatus s;
     loadingAzureServersStatus := loadingAzureServersStatus s;
     dialog := dialog s |}.

Definition set_connectionComponents (i : ConnectionComponentsInfo)
    (s : ConnectionDialogWebviewState) : ConnectionDialogWebviewState :=
  {| connectionProfile := connectionProfile s;
     savedConnections := savedConnections s;
     recentConnections := recentConnections s;
     selectedInputMode := selectedInputMode s;
     connectionComponents := i;
     azureSubscriptions := azureSubscriptions s; azureServers := azureServers s;
     connectionStatus := connectionStatus s; formError := formError s;
     loadingAzureSubscriptionsStatus := loadingAzureSubscriptionsStatus s;
     loadingAzureServersStatus := loadingAzureServersStatus s;
     dialog := dialog s |}.

Definition set_connectionStatus (a : ApiStatus)
    (s : ConnectionDialogWebviewState) : ConnectionDialogWebviewState :=
  {| connectionProfile := connectionProfile s;
     savedConnections := savedConnections s;
     recentConnections := recentConnections s;
     selectedInputMode := selectedInputMode s;
     connectionComponents := connectionComponents s;
     azureSubscriptions := azureSubscriptions s; azureServers := azureServers s;
     connectionStatus := a; formError := formError s;
     loadingAzureSubscriptionsStatus := loadingAzureSubscriptionsStatus s;
     loadingAzureServersStatus := loadingAzureServersStatus s;
     dialog := dialog s |}.

Definition set_formError (e : string)
    (s : ConnectionDialogWebviewState) : ConnectionDialogWebviewState :=
  {| connectionProfile := connectionProfile s;
     savedConnections := savedConnections s;
     recentConnections := recentConnections s;
     selectedInputMode := selectedInputMode s;
     connectionComponents := connectionComponents s;
     azureSubscriptions := azureSubscriptions s; azureServers := azureServers s;
     connectionStatus := connectionStatus s; formError := e;
     loadingAzureSubscriptionsStatus := loadingAzureSubscriptionsStatus s;
     loadingAzureServersStatus := loadingAzureServersStatus s;
     dialog := dialog s |}.

Definition set_dialog (d : option IDialogProps)
    (s : ConnectionDialogWebviewState) : ConnectionDialogWebviewState :=
  {| connectionProfile := connectionProfile s;
     savedConnections := savedConnections s;
     recentConnections := recentConnections s;
     selectedInputMode := selectedInputMode s;
     connectionComponents := connectionComponents s;
     azureSubscriptions := azureSubscriptions s; azureServers := azureServers s;
     connectionStatus := connectionStatus s; formError := formError s;
     loadingAzureSubscriptionsStatus := loadingAzureSubscriptionsStatus s;
     loadingAzureServersStatus := loadingAzureServersStatus s;
     dialog := d |}.

(** Mutation of the field spec stored under [key]. *)
Definition update_component (key : string) (f : FormItemSpec → FormItemSpec)
    (s : ConnectionDialogWebviewState) : ConnectionDialogWebviewState :=
  set_connectionComponents
    (set_components (Obj.update key f (components (connectionComponents s)))
       (connectionComponents s)) s.

(** ** FormSchemaCompiler *)

(** An object literal with no member. *)
Definition emptySpec : FormItemSpec :=
  {| propertyName := None; label := None; required := None; type := None;
     tooltip := None; options := None; placeholder := None;
     actionButtons := None; validate := None; validation := None;
     hidden := None; isAdvancedOption := None; optionCategory := None;
     optionCategoryLabel := None |}.

(** The five members every [case] of [convertToFormComponent] writes. *)
Definition describedSpec (connOption : ConnectionOption) (t : FormItemType)
    : FormItemSpec :=
  {| propertyName := Some (name connOption);
     label := Some (displayName connOption);
     required := Some (isRequired connOption);
     type := Some t;
     tooltip := Some (description connOption);
     options := None; placeholder := None; actionButtons := None;
     validate := None; validation := None; hidden := None;
     isAdvancedOption := None; optionCategory := None;
     optionCategoryLabel := None |}.

(** [v.displayName ?? v.name]. *)
Definition categoryOption (v : CategoryValue) : FormItemOptions :=
  {| optDisplayName := default (cvName v) (cvDisplayName v);
     optValue := cvName v |}.

(** The [default] branch logs, reports and falls off the end of the
    function: the call evaluates to [undefined] ([None]). *)
Definition convertToFormComponent (connOption : ConnectionOption)
    : M (option FormItemSpec) :=
  if String.eqb (valueType connOption) "boolean" then
    mret (Some (describedSpec connOption Checkbox))
  else if String.eqb (valueType connOption) "string" then
    mret (Some (describedSpec connOption Input))
  else if String.eqb (valueType connOption) "password" then
    mret (Some (describedSpec connOption Password))
  else if String.eqb (valueType connOption) "number" then
    mret (Some (describedSpec connOption Input))
  else if String.eqb (valueType connOption) "category" then
    match categoryValues connOption with
    | Some vs =>
        mret (Some (set_options (Some (map categoryOption vs))
                      (describedSpec connOption Dropdown)))
    | None => throw (JsTypeError "map")
    end
  else
    let error := "Unhandled connection option type: " +:+ valueType connOption in
    emit (LoggerLog error);;
    emit (SendErrorEvent TelemetryActions.LoadConnectionProperties
            (JsErrorOf error) (Some true) [] []);;
    mret None.

Definition _mainOptionNames : list string :=
  [ "server"; "authenticationType"; "user"; "password"; "savePassword";
    "accountId"; "tenantId"; "database"; "trustServerCertificate"; "encrypt";
    "profileName" ].

(** [{ ...converted, isAdvancedOption, optionCategory, optionCategoryLabel }]:
    spreading [undefined] copies nothing. *)
Definition compiledSpec (groupNames : gmap string string)
    (connOption : ConnectionOption) (converted : option FormItemSpec) : FormItemSpec :=
  let c := default emptySpec converted in
  {| propertyName := propertyName c; label := label c; required := required c;
     type := type c; tooltip := tooltip c; options := options c;
     placeholder := placeholder c; actionButtons := actionButtons c;
     validate := validate c; validation := validation c; hidden := hidden c;
     isAdvancedOption := Some (negb (includes _mainOptionNames (name connOption)));
     optionCategory := Some (groupName_ connOption);
     optionCategoryLabel :=
       Some (default (groupName_ connOption) (groupNames !! groupName_ connOption)) |}.

(** One turn of the [for (const option of connectionOptions)] loop of
    [generateConnectionComponents]: the [try] stores the compiled spec
    under the option's name, the [catch] reports and leaves [result] as it
    is. *)
Definition compileOption (env : Env) (groupNames : gmap string string)
    (connOption : ConnectionOption) (result : Obj.t FormItemSpec)
    : M (Obj.t FormItemSpec) :=
  try_catch
    (converted ← convertToFormComponent connOption;
     mret (Obj.set (name connOption)
             (compiledSpec groupNames connOption converted) result))
    (λ err,
       emit (ConsoleError ("Error loading connection option '" +:+
               name connOption +:+ "': " +:+ getErrorMessage env err));;
       emit (SendErrorEvent TelemetryActions.LoadConnectionProperties err
               (Some true)
               [("connectionOptionName", PropStr (name connOption))] []);;
       mret result).

Fixpoint compileOptions (env : Env) (groupNames : gmap string string)
    (connectionOptions : list ConnectionOption) (result : Obj.t FormItemSpec)
    : M (Obj.t FormItemSpec) :=
  match connectionOptions with
  | [] => mret result
  | connOption :: rest =>
      result' ← compileOption env groupNames connOption result;
      compileOptions env groupNames rest result'
  end.

(** *** Identity provider lookups *)

Definition count_where {A : Type} (p : A → bool) (xs : list A) : Z :=
  Z.of_nat (length (filter (λ x, Is_true (p x)) xs)).

Definition is_undefined {A : Type} (x : option A) : bool :=
  match x with None => true | Some _ => false end.

Definition accountOption (account : option IAccount) : Outcome FormItemOptions :=
  match account with
  | None => Throw (JsTypeError "displayInfo")
  | Some a =>
      match displayInfo a with
      | None => Throw (JsTypeError "displayName")
      | Some d => Ok {| optDisplayName := accountDisplayName d;
                        optValue := userId d |}
      end
  end.

(** [xs.map(f)] where [f] may throw. *)
Fixpoint map_outcome {A B : Type} (f : A → Outcome B) (xs : list A)
    : Outcome (list B) :=
  match xs with
  | [] => Ok []
  | x :: xs' =>
      match f x with
      | Throw e => Throw e
      | Ok y =>
          match map_outcome f xs' with
          | Throw e => Throw e
          | Ok ys => Ok (y :: ys)
          end
      end
  end.

Definition getAccounts_catch (env : Env) (accounts : list (option IAccount))
    (error : JsError) : M (list FormItemOptions) :=
  emit (ConsoleError ("Error loading Azure accounts: " +:+
          getErrorMessage env error));;
  emit (SendErrorEvent TelemetryActions.LoadAzureAccountsForEntraAuth error
          (Some false) []
          [ ("accountCount", Z.of_nat (length accounts));
            ("undefinedAccountCount", count_where is_undefined accounts);
            ("undefinedDisplayInfoCount",
             count_where
               (λ x, match x with
                     | Some a => is_undefined (displayInfo a)
                     | None => false
                     end) accounts) ]);;
  mret [].

(** [getAccounts]: the accounts as dropdown options; any failure yields the
    empty list. *)
Definition getAccounts (env : Env) : M (list FormItemOptions) :=
  fetched ← try_catch
    (accounts ← call CallGetAccounts (getAccountsService env);
     mret (inl accounts))
    (λ error, mret (inr error));
  match fetched with
  | inr error => getAccounts_catch env [] error
  | inl accounts =>
      match map_outcome accountOption accounts with
      | Ok opts => mret opts
      | Throw error => getAccounts_catch env accounts error
      end
  end.

(** [account.displayInfo?.userId]. *)
Definition optionalUserId (a : IAccount) : JsVal :=
  match displayInfo a with
  | Some d => VStr (userId d)
  | None => VUndefined
  end.

(** [accounts.find((account) => account.displayInfo?.userId === accountId)]:
    reading [displayInfo] of an [undefined] element throws. *)
Fixpoint findAccountOptional (accountId : JsVal)
    (accounts : list (option IAccount)) : Outcome (option IAccount) :=
  match accounts with
  | [] => Ok None
  | None :: _ => Throw (JsTypeError "displayInfo")
  | Some a :: rest =>
      if decide (optionalUserId a = accountId) then Ok (Some a)
      else findAccountOptional accountId rest
  end.

(** [accounts.find((account) => account.displayInfo.userId === accountId)]. *)
Fixpoint findAccount (accountId : JsVal)
    (accounts : list (option IAccount)) : Outcome (option IAccount) :=
  match accounts with
  | [] => Ok None
  | None :: _ => Throw (JsTypeError "displayInfo")
  | Some a :: rest =>
      match displayInfo a with
      | None => Throw (JsTypeError "userId")
      | Some d =>
          if decide (VStr (userId d) = accountId) then Ok (Some a)
          else findAccount accountId rest
      end
  end.

Definition tenantOption (tenant : option ITenant) : Outcome FormItemOptions :=
  match tenant with
  | None => Throw (JsTypeError "displayName")
  | Some t => Ok {| optDisplayName := tenantDisplayName t;
                    optValue := tenantId_ t |}
  end.

(** The body of the [try] of [getTenants] once the accounts are known: the
    value of the local [tenants] when the block ends, and its result. *)
Definition getTenants_try (accountId : JsVal)
    (accounts : list (option IAccount))
    : list (option ITenant) * Outcome (list FormItemOptions) :=
  match findAccountOptional accountId accounts with
  | Throw e => ([], Throw e)
  | Ok None => ([], Ok [])
  | Ok (Some account) =>
      match properties account with
      | None => ([], Throw (JsTypeError "tenants"))
      | Some p =>
          match accountTenants p with
          | None => ([], Ok [])
          | Some tenants => (tenants, map_outcome tenantOption tenants)
          end
      end
  end.

Definition getTenants_catch (env : Env) (tenants : list (option ITenant))
    (error : JsError) : M (list FormItemOptions) :=
  emit (ConsoleError ("Error loading Azure tenants: " +:+
          getErrorMessage env error));;
  emit (SendErrorEvent TelemetryActions.LoadAzureTenantsForEntraAuth error
          (Some false) []
          [ ("tenant", Z.of_nat (length tenants));
            ("undefinedTenantCount", count_where is_undefined tenants) ]);;
  mret [].

(** [getTenants(accountId)]: the tenants of the account as dropdown
    options; an unknown account or any failure yields the empty list. *)
Definition getTenants (env : Env) (accountId : JsVal) : M (list FormItemOptions) :=
  fetched ← try_catch
    (accounts ← call CallGetAccounts (getAccountsService env);
     mret (inl accounts))
    (λ error, mret (inr error));
  match fetched with
  | inr error => getTenants_catch env [] error
  | inl accounts =>
      match getTenants_try accountId accounts with
      | (_, Ok opts) => mret opts
      | (tenants, Throw error) => getTenants_catch env tenants error
      end
  end.

(** *** Action buttons of the account field *)

Definition profileField (s : ConnectionDialogWebviewState) (key : string) : JsVal :=
  js_get (connectionProfile s) key.

Definition signInButton (env : Env) : FormItemActionButton :=
  {| btnLabel := Loc_signIn (Loc env); btnId := "azureSignIn";
     btnCallback := AzureSignInCallback |}.

Definition refreshTokenButton (env : Env) : FormItemActionButton :=
  {| btnLabel := refreshTokenLabel (Loc env); btnId := "refreshToken";
     btnCallback := RefreshTokenCallback |}.

Definition getAzureActionButtons (env : Env) : M (list FormItemActionButton) :=
  let actionButtons := [signInButton env] in
  s ← get_state;
  if strict_eq (profileField s "authenticationType") AuthenticationType.AzureMFA
     && truthy (profileField s "accountId")
  then
    accounts ← call CallGetAccounts (getAccountsService env);
    account ← lift (findAccount (profileField s "accountId") accounts);
    match account with
    | Some a =>
        session ← call (CallGetAccountSecurityToken a)
                    (getAccountSecurityToken env a);
        let isTokenExpired :=
          isTokenInValid env (token session) (expiresOn session) in
        if isTokenExpired
        then mret (actionButtons ++ [refreshTokenButton env])
        else mret actionButtons
    | None => mret actionButtons
    end
  else mret actionButtons.

(** *** Built-in fields and validators *)

Definition validResult : FormItemValidationState :=
  {| isValid := true; validationMessage := "" |}.

Definition validateAccountId (env : Env) (ctx : ValidateCtx) (value : JsVal)
    : FormItemValidationState :=
  if strict_eq (ctxAuthenticationType ctx) AuthenticationType.AzureMFA
     && negb (truthy value)
  then {| isValid := false;
          validationMessage := Loc_azureAccountIsRequired (Loc env) |}
  else validResult.

Definition validateTenantId (env : Env) (ctx : ValidateCtx) (value : JsVal)
    : FormItemValidationState :=
  if strict_eq (ctxAuthenticationType ctx) AuthenticationType.AzureMFA
     && negb (truthy value)
  then {| isValid := false;
          validationMessage := Loc_tenantIdIsRequired (Loc env) |}
  else validResult.

Definition validateConnectionString (env : Env) (ctx : ValidateCtx)
    (value : JsVal) : FormItemValidationState :=
  if bool_decide (ctxSelectedInputMode ctx = ConnectionString)
     && negb (truthy value)
  then {| isValid := false;
          validationMessage := Loc_connectionStringIsRequired (Loc env) |}
  else validResult.

Definition validateServer (env : Env) (ctx : ValidateCtx) (value : JsVal)
    : FormItemValidationState :=
  if strict_eq (ctxAuthenticationType ctx) AuthenticationType.SqlLogin
     && negb (truthy value)
  then {| isValid := false;
          validationMessage := Loc_serverIsRequired (Loc env) |}
  else validResult.

Definition validateUser (env : Env) (ctx : ValidateCtx) (value : JsVal)
    : FormItemValidationState :=
  if strict_eq (ctxAuthenticationType ctx) AuthenticationType.SqlLogin
     && negb (truthy value)
  then {| isValid := false;
          validationMessage := Loc_usernameIsRequired (Loc env) |}
  else validResult.

Definition profileNameSpec (env : Env) : FormItemSpec :=
  {| propertyName := Some "profileName"; label := Some (Loc_profileName (Loc env));
     required := Some false; type := Some Input; tooltip := None;
     options := None; placeholder := None; actionButtons := None;
     validate := None; validation := None; hidden := None;
     isAdvancedOption := Some false; optionCategory := None;
     optionCategoryLabel := None |}.

Definition savePasswordSpec (env : Env) : FormItemSpec :=
  {| propertyName := Some "savePassword";
     label := Some (Loc_savePassword (Loc env));
     required := Some false; type := Some Checkbox; tooltip := None;
     options := None; placeholder := None; actionButtons := None;
     validate := None; validation := None; hidden := None;
     isAdvancedOption := Some false; optionCategory := None;
     optionCategoryLabel := None |}.

Definition accountIdSpec (env : Env) (accounts : list FormItemOptions)
    (buttons : list FormItemActionButton) : FormItemSpec :=
  {| propertyName := Some "accountId";
     label := Some (Loc_azureAccount (Loc env));
     required := Some true; type := Some Dropdown; tooltip := None;
     options := Some accounts;
     placeholder := Some (Loc_selectAnAccount (Loc env));
     actionButtons := Some buttons;
     validate := Some (validateAccountId env); validation := None;
     hidden := None; isAdvancedOption := Some false; optionCategory := None;
     optionCategoryLabel := None |}.

Definition tenantIdSpec (env : Env) : FormItemSpec :=
  {| propertyName := Some "tenantId"; label := Some (Loc_tenantId (Loc env));
     required := Some true; type := Some Dropdown; tooltip := None;
     options := Some [];
     placeholder := Some (Loc_selectATenant (Loc env));
     actionButtons := None;
     validate := Some (validateTenantId env); validation := None;
     hidden := Some true; isAdvancedOption := Some false;
     optionCategory := None; optionCategoryLabel := None |}.

Definition connectionStringSpec (env : Env) : FormItemSpec :=
  {| propertyName := Some "connectionString";
     label := Some (Loc_connectionString (Loc env));
     required := Some true; type := Some TextArea; tooltip := None;
     options := None; placeholder := None; actionButtons := None;
     validate := Some (validateConnectionString env); validation := None;
     hidden := None; isAdvancedOption := Some false; optionCategory := None;
     optionCategoryLabel := None |}.

(** [components[key].validate = f]: a [TypeError] when the key is absent. *)
Definition assignValidate (key : string)
    (f : ValidateCtx → JsVal → FormItemValidationState)
    (components : Obj.t FormItemSpec) : M (Obj.t FormItemSpec) :=
  if Obj.has key components
  then mret (Obj.update key (set_validate (Some f)) components)
  else throw (JsTypeError "validate").

Definition completeFormComponents (env : Env) (components : Obj.t FormItemSpec)
    : M (Obj.t FormItemSpec) :=
  let components := Obj.set "profileName" (profileNameSpec env) components in
  let components := Obj.set "savePassword" (savePasswordSpec env) components in
  accounts ← getAccounts env;
  buttons ← getAzureActionButtons env;
  let components :=
    Obj.set "accountId" (accountIdSpec env accounts buttons) components in
  let components := Obj.set "tenantId" (tenantIdSpec env) components in
  let components :=
    Obj.set "connectionString" (connectionStringSpec env) components in
  components ← assignValidate "server" (validateServer env) components;
  assignValidate "user" (validateUser env) components.

Definition generateConnectionComponents (env : Env) : M (Obj.t FormItemSpec) :=
  capabilitiesResult ← call CallGetCapabilities (getCapabilities env);
  result ← compileOptions env (groupDisplayNames capabilitiesResult)
             (capOptions capabilitiesResult) [];
  completeFormComponents env result.

(** *** Grouping of the advanced options *)

(** A JavaScript [Map] keyed by a category id (a string or [undefined]):
    entries in insertion order. *)
Module GroupMap.
Definition t : Type := list (option string * option ConnectionComponentGroup).

Fixpoint get (k : option string) (m : t)
    : option (option ConnectionComponentGroup) :=
  match m with
  | [] => None
  | (k', v) :: m' => if decide (k = k') then Some v else get k m'
  end.

Definition has (k : option string) (m : t) : bool :=
  match get k m with Some _ => true | None => false end.

Fixpoint replace (k : option string) (v : option ConnectionComponentGroup)
    (m : t) : t :=
  match m with
  | [] => []
  | (k', v') :: m' =>
      if decide (k = k') then (k', v) :: m' else (k', v') :: replace k v m'
  end.

Definition set (k : option string) (v : option ConnectionComponentGroup)
    (m : t) : t :=
  if has k m then replace k v m else (m ++ [(k, v)]).

Definition values (m : t) : list (option ConnectionComponentGroup) :=
  map snd m.
End GroupMap.

Definition seedGroupMap : GroupMap.t :=
  [ (Some "security", None); (Some "initialization", None);
    (Some "resiliency", None); (Some "pooling", None);
    (Some "context", None) ].

Definition is_true_opt (b : option bool) : bool := default false b.

Definition optionsToGroup (componentsInfo : ConnectionComponentsInfo)
    : list FormItemSpec :=
  filter
    (λ c, Is_true
       (is_true_opt (isAdvancedOption c)
        && negb (includes_opt (mainOptions componentsInfo) (propertyName c))
        && negb (includes_opt (topAdvancedOptions componentsInfo)
                   (propertyName c))))
    (Obj.values (components componentsInfo)).

(** [group.options.push(name)]. *)
Definition pushOption (n : option string) (g : ConnectionComponentGroup)
    : ConnectionComponentGroup :=
  {| groupName := groupName g; groupOptions := (groupOptions g ++ [n]) |}.

(** One turn of the grouping loop. *)
Definition groupOption (groupMap : GroupMap.t) (c : FormItemSpec) : GroupMap.t :=
  match GroupMap.get (optionCategory c) groupMap with
  | Some (Some g) =>
      GroupMap.replace (optionCategory c)
        (Some (pushOption (propertyName c) g)) groupMap
  | _ =>
      GroupMap.set (optionCategory c)
        (Some {| groupName := optionCategoryLabel c;
                 groupOptions := [propertyName c] |}) groupMap
  end.

Definition groupAdvancedOptions_map (componentsInfo : ConnectionComponentsInfo)
    : GroupMap.t :=
  foldl groupOption seedGroupMap (optionsToGroup componentsInfo).

Definition groupAdvancedOptions (componentsInfo : ConnectionComponentsInfo)
    : list (option ConnectionComponentGroup) :=
  GroupMap.values (groupAdvancedOptions_map componentsInfo).

(** ** VisibilityEngine *)

Definition isParametersOrAzureBrowse (m : ConnectionInputMode) : bool :=
  bool_decide (m = Parameters) || bool_decide (m = AzureBrowse).

(** The [hiddenProperties] array once the tenants of the account are known
    ([tenants] is only read under Azure MFA). *)
Definition hiddenPropertiesWith (s : ConnectionDialogWebviewState)
    (tenants : list FormItemOptions) : list string :=
  let hiddenProperties := [] in
  if isParametersOrAzureBrowse (selectedInputMode s) then
    let hiddenProperties :=
      if negb (strict_eq (profileField s "authenticationType")
                 AuthenticationType.SqlLogin)
      then (hiddenProperties ++ ["user"; "password"; "savePassword"])
      else hiddenProperties in
    let hiddenProperties :=
      if negb (strict_eq (profileField s "authenticationType")
                 AuthenticationType.AzureMFA)
      then (hiddenProperties ++ ["accountId"; "tenantId"])
      else hiddenProperties in
    if strict_eq (profileField s "authenticationType") AuthenticationType.AzureMFA
    then
      if (length tenants =? 1)%nat
      then (hiddenProperties ++ ["tenantId"])
      else hiddenProperties
    else hiddenProperties
  else hiddenProperties.

Definition applyHidden (hiddenProperties : list string)
    (s : ConnectionDialogWebviewState) : ConnectionDialogWebviewState :=
  set_connectionComponents
    (set_components
       (map (λ kv, (kv.1,
                    set_hidden
                      (Some (includes_opt hiddenProperties (propertyName kv.2)))
                      kv.2))
          (components (connectionComponents s)))
       (connectionComponents s)) s.

Definition updateItemVisibility (env : Env) : M unit :=
  s ← get_state;
  tenants ←
    (if isParametersOrAzureBrowse (selectedInputMode s)
        && strict_eq (profileField s "authenticationType")
             AuthenticationType.AzureMFA
     then getTenants env (profileField s "accountId")
     else mret []);
  modify_state (applyHidden (hiddenPropertiesWith s tenants)).

Definition getActiveFormComponents (s : ConnectionDialogWebviewState)
    : list string :=
  if isParametersOrAzureBrowse (selectedInputMode s)
  then mainOptions (connectionComponents s)
  else ["connectionString"; "profileName"].

Definition getFormComponent (s : ConnectionDialogWebviewState)
    (property : string) : option FormItemSpec :=
  if includes (getActiveFormComponents s) property
  then Obj.get property (components (connectionComponents s))
  else None.

(** ** ValidationEngine *)

Definition validateCtx (s : ConnectionDialogWebviewState) : ValidateCtx :=
  {| ctxAuthenticationType := profileField s "authenticationType";
     ctxSelectedInputMode := selectedInputMode s |}.

(** [c.validation = c.validate(connectionProfile[c.propertyName])] for the
    spec [c] stored under [key]. *)
Definition runValidator (key : string) (c : FormItemSpec)
    (f : ValidateCtx → JsVal → FormItemValidationState)
    (connectionProfile : IConnectionDialogProfile) : M FormItemValidationState :=
  s ← get_state;
  let value := js_get connectionProfile (property_key (propertyName c)) in
  emit (ValidatorCall (propertyName c) value);;
  let result := f (validateCtx s) value in
  modify_state (update_component key (set_validation (Some result)));;
  mret result.

(** The [forEach] of the whole-form branch, over the keys of the active
    components; [erroredInputs] is the array built so far. *)
Fixpoint validateActive (connectionProfile : IConnectionDialogProfile)
    (active : list string) (erroredInputs : list (option string))
    : M (list (option string)) :=
  match active with
  | [] => mret erroredInputs
  | x :: rest =>
      s ← get_state;
      match Obj.get x (components (connectionComponents s)) with
      | None => throw (JsTypeError "hidden")
      | Some c =>
          if is_true_opt (hidden c) then
            modify_state (update_component x (set_validation (Some validResult)));;
            validateActive connectionProfile rest erroredInputs
          else
            match validate c with
            | Some f =>
                result ← runValidator x c f connectionProfile;
                validateActive connectionProfile rest
                  (if isValid result then erroredInputs
                   else (erroredInputs ++ [propertyName c]))
            | None => validateActive connectionProfile rest erroredInputs
            end
      end
  end.

(** [validateConnectionProfile(connectionProfile, propertyName?)]; the
    optional argument [property] is [None] when omitted. *)
Definition validateConnectionProfile
    (connectionProfile : IConnectionDialogProfile)
    (property : option string) : M (list (option string)) :=
  match property with
  | Some p =>
      if negb (String.eqb p "") then
        s ← get_state;
        match getFormComponent s p with
        | Some component =>
            match validate component with
            | Some f =>
                result ← runValidator p component f connectionProfile;
                if isValid result then mret []
                else mret [propertyName component]
            | None => mret []
            end
        | None => mret []
        end
      else
        s ← get_state;
        validateActive connectionProfile (getActiveFormComponents s) []
  | None =>
      s ← get_state;
      validateActive connectionProfile (getActiveFormComponents s) []
  end.

Definition assignValidationUndefined (x : string) : M unit :=
  s ← get_state;
  if Obj.has x (components (connectionComponents s))
  then modify_state (update_component x (set_validation None))
  else throw (JsTypeError "validation").

Definition clearFormError : M unit :=
  modify_state (set_formError "");;
  s ← get_state;
  for_of (getActiveFormComponents s) assignValidationUndefined.

(** ** The clean transform *)

(** [if (option.hidden) connection[option.propertyName] = undefined]. *)
Definition clearIfHidden (connection : IConnectionDialogProfile)
    (c : FormItemSpec) : IConnectionDialogProfile :=
  if is_true_opt (hidden c)
  then <[property_key (propertyName c) := VUndefined]> connection
  else connection.

(** The callback of [Object.keys(connection).forEach]. *)
Definition keepConnectionStringOnly (key : string) (v : JsVal) : option JsVal :=
  if negb (String.eqb key "connectionString")
     && negb (String.eqb key "profileName")
  then Some VUndefined
  else Some v.

(** [cleanConnection(connection)]: the profile the method leaves in
    [connection], given the state it reads. *)
Definition cleanConnection (s : ConnectionDialogWebviewState)
    (connection : IConnectionDialogProfile) : IConnectionDialogProfile :=
  let connection :=
    foldl clearIfHidden connection
      (Obj.values (components (connectionComponents s))) in
  if isParametersOrAzureBrowse (selectedInputMode s) then
    <["connectionString" := VUndefined]> connection
  else if bool_decide (selectedInputMode s = ConnectionString) then
    map_imap keepConnectionStringOnly connection
  else connection.

(** ** MFA side-effect handler *)

Definition setProfileField (key : string) (v : JsVal)
    (s : ConnectionDialogWebviewState) : ConnectionDialogWebviewState :=
  set_connectionProfile (<[key := v]> (connectionProfile s)) s.

(** The lines the [accountId] and [authenticationType] cases share: fetch
    the tenants, fill the tenant field, select the first tenant, rebuild
    the buttons of the account field. *)
Definition refreshTenantsAndButtons (env : Env)
    (accountComponent tenantComponent : option FormItemSpec) : M unit :=
  s ← get_state;
  tenants ← getTenants env (profileField s "accountId");
  match tenantComponent with
  | Some _ =>
      modify_state (update_component "tenantId" (set_options (Some tenants)));;
      match tenants with
      | first :: _ => modify_state (setProfileField "tenantId" (VStr (optValue first)))
      | [] => mret tt
      end
  | None => mret tt
  end;;
  buttons ← getAzureActionButtons env;
  match accountComponent with
  | Some _ =>
      modify_state (update_component "accountId" (set_actionButtons (Some buttons)))
  | None => throw (JsTypeError "actionButtons")
  end.

Definition handleAzureMFAEdits (env : Env) (property : string) : M unit :=
  let mfaComponents := ["accountId"; "tenantId"; "authenticationType"] in
  if includes mfaComponents property then
    s ← get_state;
    if negb (strict_eq (profileField s "authenticationType")
               AuthenticationType.AzureMFA)
    then mret tt
    else
      let accountComponent := getFormComponent s "accountId" in
      let tenantComponent := getFormComponent s "tenantId" in
      if String.eqb property "accountId" then
        refreshTenantsAndButtons env accountComponent tenantComponent
      else if String.eqb property "tenantId" then
        mret tt
      else if String.eqb property "authenticationType" then
        match accountComponent with
        | None => throw (JsTypeError "options")
        | Some ac =>
            match options ac with
            | None => throw (JsTypeError "0")
            | Some opts =>
                match opts with
                | firstOption :: _ =>
                    modify_state
                      (setProfileField "accountId" (VStr (optValue firstOption)))
                | [] => mret tt
                end;;
                refreshTenantsAndButtons env accountComponent tenantComponent
            end
        end
      else mret tt
  else mret tt.

(** ** ConnectAttemptOrchestrator *)

(** ** The connection store *)

(** [c.toLowerCase()] on one character of ASCII text: the letters [A] to
    [Z] map to [a] to [z], every other character to itself. *)
Definition lowerAscii (c : ascii) : ascii :=
  let n := nat_of_ascii c in
  if ((65 <=? n) && (n <=? 90))%nat then ascii_of_nat (n + 32) else c.

(** [s.toLowerCase()].  A connection string is taken to be ASCII text, one
    character per code unit; on such text the lower-case form has the
    length of the original and differs from it in the letters only. *)
Fixpoint toLowerCase (s : string) : string :=
  match s with
  | EmptyString => EmptyString
  | String c s' => String (lowerAscii c) (toLowerCase s')
  end.

(** [s.indexOf(pattern, from)] for a non-empty pattern: [None] is [-1]. *)
Definition indexOf (s pattern : string) (from : nat) : option nat :=
  String.index from pattern s.

(** [s.substring(start, end)]: the two positions are swapped when
    [start > end]. *)
Definition js_substring (s : string) (start end_ : nat) : string :=
  String.substring (Nat.min start end_) (Nat.max start end_ - Nat.min start end_) s.

(** The lines that take the password out of the stored connection string
    (the [if (passwordIndex !== -1)] block and its guard): the profile they
    leave. *)
Definition extractPassword (connectionString : string)
    (connection : IConnectionDialogProfile) : IConnectionDialogProfile :=
  match indexOf (toLowerCase connectionString) "password=" 0 with
  | Some passwordIndex =>
      let passwordStart := (passwordIndex + String.length "password=")%nat in
      let connection :=
        match indexOf connectionString ";" passwordStart with
        | Some passwordEnd =>
            <["password" :=
                VStr (js_substring connectionString passwordStart passwordEnd)]>
              connection
        | None => connection
        end in
      <["connectionString" := VStr ""]> connection
  | None => connection
  end.

Section ConnectionStore.
(** [connectionStore.lookupPassword(connection, isConnectionString)]: the
    stored secret, [None] when it answers [undefined]. *)
Variable lookupPassword :
  IConnectionDialogProfile → bool → Outcome (option string).
(** [getConnectionDisplayName], of the connection info module, which is
    not among the sources. *)
Variable getConnectionDisplayName : IConnectionDialogProfile → string.

(** [connection.connectionString !== undefined &&
    connection.connectionString !== ""]. *)
Definition isConnectionStringConnection (connection : IConnectionDialogProfile)
    : bool :=
  negb (strict_eq (js_get connection "connectionString") VUndefined)
  && negb (strict_eq (js_get connection "connectionString") (VStr "")).

(** [dialogConnection.displayName = dialogConnection.profileName ? ... ]. *)
Definition withDisplayName (connection : IConnectionDialogProfile)
    : IConnectionDialogProfile :=
  <["displayName" :=
      if truthy (js_get connection "profileName")
      then js_get connection "profileName"
      else VStr (getConnectionDisplayName connection)]> connection.

(** [initializeConnectionForDialog(connection)]: the profile the method
    returns, which is [connection] itself, mutated. *)
Definition initializeConnectionForDialog (connection : IConnectionDialogProfile)
    : Outcome IConnectionDialogProfile :=
  if negb (isConnectionStringConnection connection) then
    match lookupPassword connection false with
    | Throw e => Throw e
    | Ok password =>
        Ok (withDisplayName
              (<["password" := from_option VStr VUndefined password]> connection))
    end
  else
    match lookupPassword connection true with
    | Throw e => Throw e
    | Ok connectionString =>
        Ok (withDisplayName
              match connectionString with
              | Some stored =>
                  if negb (String.eqb stored "")
                  then extractPassword stored connection
                  else connection
              | None => connection
              end)
    end.

End ConnectionStore.

(** The stored connections of one kind, in the store's order:
    [unsortedConnections.filter(...).map((c) => c.connectionCreds)]. *)
Definition connectionsOfType (type : CredentialsQuickPickItemType)
    (unsortedConnections : list IConnectionCredentialsQuickPickItem)
    : list IConnectionDialogProfile :=
  map connectionCreds
    (filter (λ c, quickPickItemType c = type) unsortedConnections).

(** [Promise.all(connections.map((conn) => initializeConnectionForDialog(conn)))].
    The [try] around each call cannot catch anything: an [async] method
    does not throw, it answers a promise, and a promise that rejects makes
    [Promise.all] reject; no promise is [undefined], so the [filter] keeps
    them all.  The lookups are taken to settle in the order asked: the
    error of the whole is that of the first connection whose lookup
    fails. *)
Definition initializeConnections (env : Env)
    (connections : list IConnectionDialogProfile)
    : Outcome (list IConnectionDialogProfile) :=
  map_outcome
    (initializeConnectionForDialog (lookupPassword env)
       (getConnectionDisplayName env))
    connections.

(** [loadConnections()]: the saved and the recent connections, in this
    order in the pair; the recent ones are initialized first. *)
Definition loadConnections (env : Env)
    : M (list IConnectionDialogProfile * list IConnectionDialogProfile) :=
  unsortedConnections ←
    call (CallLoadAllConnections true) (loadAllConnections env true);
  let savedConnections := connectionsOfType Profile unsortedConnections in
  let recentConnections := connectionsOfType Mru unsortedConnections in
  emit (SendActionEvent TelemetryActions.LoadRecentConnections []
          [ ("savedConnectionsCount", Z.of_nat (length savedConnections));
            ("recentConnectionsCount", Z.of_nat (length recentConnections)) ]);;
  recent ← lift (initializeConnections env recentConnections);
  saved ← lift (initializeConnections env savedConnections);
  mret (saved, recent).

Definition updateLoadedConnections (env : Env) : M unit :=
  loadedConnections ← loadConnections env;
  modify_state (set_loadedConnections loadedConnections.1 loadedConnections.2).

(** [xs.join(", ")]: an [undefined] element prints as the empty string. *)
Fixpoint join (xs : list (option string)) : string :=
  match xs with
  | [] => ""
  | [x] => default "" x
  | x :: rest => default "" x +:+ ", " +:+ join rest
  end.

Definition connectionTelemetry (s : ConnectionDialogWebviewState)
    : list (string * TelemetryProp) :=
  [ ("connectionInputType", PropMode (selectedInputMode s));
    ("authMode", PropVal (profileField s "authenticationType")) ].

Definition newOrEdited (copy : option IConnectionDialogProfile) : string :=
  match copy with Some _ => "edited" | None => "new" end.

Definition handleConnectionErrorCodes (env : Env)
    (result : ConnectionCompleteParams) : M unit :=
  if errorNumber result =? connectionCertValidationFailedErrorCode env then
    modify_state (set_connectionStatus Error);;
    modify_state (set_dialog (Some (TrustServerCertDialogProps (errorMessage result))))
  else if errorNumber result =? connectionFirewallErrorCode env then
    modify_state (set_connectionStatus Error);;
    handleFirewallErrorResult ←
      call (CallHandleFirewallRule (errorNumber result) (errorMessage result))
        (handleFirewallRule env (errorNumber result) (errorMessage result));
    ipAddress ←
      (if negb (hfrResult handleFirewallErrorResult) then
         emit (SendErrorEvent TelemetryActions.AddFirewallRule
                 (JsErrorOf (errorMessage result)) (Some true) [] []);;
         mret "0.0.0.0"
       else mret (hfrIpAddress handleFirewallErrorResult));
    auth ← call CallConfirmVscodeAzureSignin (confirmVscodeAzureSignin env);
    match auth with
    | None => throw (JsTypeError "getTenants")
    | Some a =>
        tenants ← call CallAuthGetTenants (authGetTenants a);
        modify_state
          (set_dialog
             (Some (AddFirewallRuleDialogProps (errorMessage result) ipAddress
                      (map (λ t, (azTenantDisplayName t, azTenantId t)) tenants))))
    end
  else
    modify_state (set_formError (errorMessage result));;
    modify_state (set_connectionStatus Error);;
    s ← get_state;
    copy ← get_connectionToEditCopy;
    emit (SendActionEvent TelemetryActions.CreateConnection
            ([ ("result", PropStr "connectionError");
               ("errorNumber", PropStr (numberToString (errorNumber result)));
               ("newOrEditedConnection", PropStr (newOrEdited copy)) ]
             ++ connectionTelemetry s) []).

(** What follows a successful validate-and-save. *)
Definition afterConnect (env : Env) : M unit :=
  s ← get_state;
  copy ← get_connectionToEditCopy;
  emit (SendActionEvent TelemetryActions.CreateConnection
          ([ ("result", PropStr "success");
             ("newOrEditedConnection", PropStr (newOrEdited copy)) ]
           ++ connectionTelemetry s) []);;
  match copy with
  | Some c =>
      call (CallHost (GetUriForConnection c)) (hostCall env (GetUriForConnection c));;
      call (CallHost (RemoveConnectionNodes c))
        (hostCall env (RemoveConnectionNodes c));;
      call (CallHost (RemoveProfile c)) (hostCall env (RemoveProfile c));;
      call (CallHost ObjectExplorerRefresh) (hostCall env ObjectExplorerRefresh)
  | None => mret tt
  end;;
  call (CallHost (SaveProfile (connectionProfile s)))
    (hostCall env (SaveProfile (connectionProfile s)));;
  call (CallHost (CreateObjectExplorerSessionFromDialog (connectionProfile s)))
    (hostCall env (CreateObjectExplorerSessionFromDialog (connectionProfile s)));;
  call (CallHost ObjectExplorerRefresh) (hostCall env ObjectExplorerRefresh);;
  updateLoadedConnections env;;
  updateState;;
  modify_state (set_connectionStatus Loaded);;
  call (CallHost ObjectExplorerReveal) (hostCall env ObjectExplorerReveal);;
  call (CallHost PanelDispose) (hostCall env PanelDispose);;
  call (CallHost PromptUserForNPSFeedback) (hostCall env PromptUserForNPSFeedback).

(** The inner [try] of [connectHelper]: [true] when control goes on to the
    code after it, [false] when the method has returned. *)
Definition attemptConnect (env : Env)
    (cleanedConnection : IConnectionDialogProfile) : M bool :=
  try_catch
    (result ← call (CallValidateAndSaveProfileFromDialog cleanedConnection)
                (validateAndSaveProfileFromDialog env cleanedConnection);
     if negb (String.eqb (errorMessage result) "")
     then handleConnectionErrorCodes env result;; mret false
     else mret true)
    (λ error,
       modify_state (set_formError (getErrorMessage env error));;
       modify_state (set_connectionStatus Error);;
       s ← get_state;
       emit (SendErrorEvent TelemetryActions.CreateConnection error (Some false)
               (connectionTelemetry s) []);;
       mret false).

Definition connectHelper (env : Env) : M unit :=
  clearFormError;;
  modify_state (set_connectionStatus Loading);;
  updateState;;
  s ← get_state;
  let cleanedConnection := cleanConnection s (connectionProfile s) in
  erroredInputs ← validateConnectionProfile cleanedConnection None;
  if (0 <? length erroredInputs)%nat then
    modify_state (set_connectionStatus Error);;
    emit (ConsoleWarn ("One more more inputs have errors: " +:+ join erroredInputs))
  else
    try_catch
      (continue ← attemptConnect env cleanedConnection;
       if continue : bool then afterConnect env else mret tt)
      (λ error,
         modify_state (set_connectionStatus Error);;
         s ← get_state;
         emit (SendErrorEvent TelemetryActions.CreateConnection error None
                 (connectionTelemetry s) [])).

(** *** The add-firewall-rule action *)

Definition constructedAccount (sub : AzureSubscription)
    (session : AuthSessionAccount) : IAccount :=
  {| displayInfo := Some {| userId := sessionLabel session;
                            accountDisplayName := sessionLabel session |};
     properties :=
       Some {| accountTenants :=
                 Some [Some {| tenantId_ := subscriptionTenantId sub;
                               tenantDisplayName := subscriptionTenantId sub |}] |};
     keyId := sessionLabel session |}.

Definition constructAzureAccountForTenant (env : Env) (tenantId : string)
    : M (IAccount * list (string * string)) :=
  auth ← call CallConfirmVscodeAzureSignin (confirmVscodeAzureSignin env);
  match auth with
  | None => throw (JsTypeError "getSubscriptions")
  | Some a =>
      subs ← call (CallAuthGetSubscriptions false) (authGetSubscriptions a false);
      match filter (λ s, subscriptionTenantId s = tenantId) subs with
      | [] =>
          throw (JsErrorOf
                   (Loc_errorLoadingAzureAccountInfoForTenantId (Loc env) tenantId))
      | sub :: _ =>
          token ← call (CallCredentialGetToken ".default") (credentialGetToken sub);
          session ← call CallAuthenticationGetSession (authenticationGetSession sub);
          mret (constructedAccount sub session,
                [(subscriptionTenantId sub, token)])
      end
  end.

Definition doubleQuote : string := String (ascii_of_nat 34) EmptyString.

(** The text ["name" (startIp - endIp)] both error messages quote. *)
Definition ruleDescription (ruleName startIp endIp : string) : string :=
  doubleQuote +:+ ruleName +:+ doubleQuote +:+ " (" +:+ startIp +:+ " - "
    +:+ endIp +:+ ")".

(** [[startIp, endIp]]: a single address stands for the range from itself
    to itself. *)
Definition payloadRange (payload : AddFirewallRulePayload) : string * string :=
  match payloadIp payload with
  | IpString ip => (ip, ip)
  | IpRange startIp endIp => (startIp, endIp)
  end.

Definition addFirewallRule (env : Env) (payload : AddFirewallRulePayload) : M unit :=
  let startIp := (payloadRange payload).1 in
  let endIp := (payloadRange payload).2 in
  emit (ConsoleDebug ("Setting firewall rule: " +:+
          ruleDescription (payloadName payload) startIp endIp));;
  constructed ← try_catch
    (r ← constructAzureAccountForTenant env (payloadTenantId payload);
     mret (inl r))
    (λ err, mret (inr err));
  match constructed with
  | inr err =>
      modify_state
        (set_formError
           (Loc_errorCreatingFirewallRule (Loc env)
              (ruleDescription (payloadName payload) startIp endIp)
              (getErrorMessage env err)));;
      modify_state (set_dialog None);;
      emit (SendErrorEvent TelemetryActions.AddFirewallRule err (Some false)
              [("failure", PropStr "constructAzureAccountForTenant")] [])
  | inl (account, tokenMappings) =>
      s ← get_state;
      let request :=
        {| frAccount := account;
           firewallRuleName := payloadName payload;
           startIpAddress := startIp;
           endIpAddress := endIp;
           serverName := profileField s "server";
           securityTokenMappings := tokenMappings |} in
      result ← call (CallCreateFirewallRule request) (createFirewallRule env request);
      (if negb (cfrResult result) then
         modify_state
           (set_formError
              (Loc_errorCreatingFirewallRule (Loc env)
                 (ruleDescription (payloadName payload) startIp endIp)
                 (cfrErrorMessage result)));;
         emit (SendErrorEvent TelemetryActions.AddFirewallRule
                 (JsErrorOf (cfrErrorMessage result)) (Some false)
                 [("failure", PropStr "firewallService.createFirewallRule")] [])
       else mret tt);;
      emit (SendActionEvent TelemetryActions.AddFirewallRule [] []);;
      modify_state (set_dialog None);;
      updateState;;
      connectHelper env
  end.

(** *** Opening the dialog *)

Definition dialogMainOptions : list string :=
  [ "server"; "trustServerCertificate"; "authenticationType"; "user";
    "password"; "savePassword"; "accountId"; "tenantId"; "database"; "encrypt" ].

Definition dialogTopAdvancedOptions : list string :=
  [ "port"; "applicationName"; "connectTimeout"; "multiSubnetFailover" ].

(** The last step of [initializeDialog]: compile the schema, bucket the
    fields, group the advanced ones, compute the visibility. *)
Definition initializeConnectionComponents (env : Env) : M unit :=
  compiled ← generateConnectionComponents env;
  modify_state
    (set_connectionComponents
       {| components := compiled;
          mainOptions := dialogMainOptions;
          topAdvancedOptions := dialogTopAdvancedOptions;
          groupedAdvancedOptions := [] |});;
  modify_state
    (λ s, set_connectionComponents
            (set_groupedAdvancedOptions
               (groupAdvancedOptions (connectionComponents s))
               (connectionComponents s)) s);;
  updateItemVisibility env;;
  updateState.

(** The state the constructor passes to the panel, and the controller
    before any action. *)
Definition initialState : ConnectionDialogWebviewState :=
  {| connectionProfile := ∅;
     savedConnections := [];
     recentConnections := [];
     selectedInputMode := Parameters;
     connectionComponents :=
       {| components := []; mainOptions := []; topAdvancedOptions := [];
          groupedAdvancedOptions := [] |};
     azureSubscriptions := [];
     azureServers := [];
     connectionStatus := NotStarted;
     formError := "";
     loadingAzureSubscriptionsStatus := NotStarted;
     loadingAzureServersStatus := NotStarted;
     dialog := None |}.

(** [loadEmptyConnection]'s profile. *)
Definition emptyConnection : IConnectionDialogProfile :=
  <["authenticationType" := AuthenticationType.SqlLogin]>
    (<["connectTimeout" := VNum 15]>
       (<["applicationName" := VStr "vscode-mssql"]> ∅)).

Definition worldOf (s : ConnectionDialogWebviewState) : World :=
  {| state := s; _connectionToEditCopy := None; trace := [] |}.

(** ** Worlds and traces *)

(** The world after more effects. *)
Definition extend (w : World) (events : list Event) : World :=
  {| state := state w; _connectionToEditCopy := _connectionToEditCopy w;
     trace := (trace w ++ events) |}.

(** The world with another dialog state. *)
Definition with_state (s : ConnectionDialogWebviewState) (w : World) : World :=
  {| state := s; _connectionToEditCopy := _connectionToEditCopy w;
     trace := trace w |}.

(** The value kinds [convertToFormComponent] has a [case] for. *)
Definition recognizedValueTypes : list string :=
  ["boolean"; "string"; "number"; "password"; "category"].

(** The two effects of the [default] branch. *)
Definition unhandledTypeEvents (connOption : ConnectionOption) : list Event :=
  [ LoggerLog ("Unhandled connection option type: " +:+ valueType connOption);
    SendErrorEvent TelemetryActions.LoadConnectionProperties
      (JsErrorOf ("Unhandled connection option type: " +:+ valueType connOption))
      (Some true) [] [] ].

(** ** The grouping of advanced options, as the specification words it *)

(** The five well-known category ids, in display order. *)
Definition seedCategories : list (option string) :=
  [ Some "security"; Some "initialization"; Some "resiliency";
    Some "pooling"; Some "context" ].

(** Walking a list of category ids, note each id when it is met for the
    first time. *)
Definition encounter (seen : list (option string)) (category : option string)
    : list (option string) :=
  if decide (category ∈ seen) then seen else seen ++ [category].

Definition firstOccurrences (categories : list (option string))
    : list (option string) :=
  foldl encounter [] categories.

(** The category ids after the fields met so far, as the loop builds them. *)
Definition categoriesSeen (fields : list FormItemSpec) : list (option string) :=
  foldl encounter seedCategories (map optionCategory fields).

(** The seeded ids, then the other ids in encounter order. *)
Definition categoriesInOrder (fields : list FormItemSpec) : list (option string) :=
  seedCategories
  ++ firstOccurrences
       (filter (λ k, k ∉ seedCategories) (map optionCategory fields)).

Definition membersOf (category : option string) (fields : list FormItemSpec)
    : list FormItemSpec :=
  filter (λ c, optionCategory c = category) fields.

(** The group of a category: the label its first member carries and the
    names of its members in encounter order; no group without a member. *)
Definition groupOf (category : option string) (fields : list FormItemSpec)
    : option ConnectionComponentGroup :=
  match membersOf category fields with
  | [] => None
  | first :: _ =>
      Some {| groupName := optionCategoryLabel first;
              groupOptions := map propertyName (membersOf category fields) |}
  end.

Definition groupsBySpec (fields : list FormItemSpec) : GroupMap.t :=
  map (λ k, (k, groupOf k fields)) (categoriesInOrder fields).

(** The fields to group: flagged advanced, named in neither bucket. *)
Definition isGroupedField (componentsInfo : ConnectionComponentsInfo)
    (c : FormItemSpec) : Prop :=
  isAdvancedOption c = Some true
  ∧ ¬ Is_true (includes_opt (mainOptions componentsInfo) (propertyName c))
  ∧ ¬ Is_true (includes_opt (topAdvancedOptions componentsInfo) (propertyName c)).

#[global] Instance isGroupedField_dec componentsInfo c :
  Decision (isGroupedField componentsInfo c).
Proof. unfold isGroupedField. apply _. Defined.

(** The label of a category id: the label map's, else the id itself. *)
Definition categoryLabel (groupNames : gmap string string) (id : string) : string :=
  default id (groupNames !! id).

(** A compiled field that is flagged advanced carries a category id and
    that id's label. *)
Definition labelledBy (groupNames : gmap string string) (c : FormItemSpec) : Prop :=
  is_true_opt (isAdvancedOption c) = true →
  ∃ id, optionCategory c = Some id
        ∧ optionCategoryLabel c = Some (categoryLabel groupNames id).

(** ** The visibility rules, as the specification words them *)

(** The answer of the tenant lookup for an account id: the account's
    tenants, and no tenant when the lookup fails. *)
Definition tenantLookup (env : Env) (accountId : JsVal) : list FormItemOptions :=
  match getAccountsService env with
  | Throw _ => []
  | Ok accounts =>
      match getTenants_try accountId accounts with
      | (_, Ok opts) => opts
      | (_, Throw _) => []
      end
  end.

(** The tenant lookup fails: listing the accounts throws, or reading the
    tenants of the account does. *)
Definition tenantLookupFails (env : Env) (accountId : JsVal) : Prop :=
  match getAccountsService env with
  | Throw _ => True
  | Ok accounts =>
      match (getTenants_try accountId accounts).2 with
      | Throw _ => True
      | Ok _ => False
      end
  end.

(** Whether a field is hidden in Parameters or AzureBrowse mode, given the
    authentication type and the number of tenants of the account. *)
Definition hiddenBySpec (authenticationType : JsVal) (tenantCount : nat)
    (field : option string) : bool :=
  match field with
  | None => false
  | Some n =>
      (negb (strict_eq authenticationType AuthenticationType.SqlLogin)
       && includes ["user"; "password"; "savePassword"] n)
      || (negb (strict_eq authenticationType AuthenticationType.AzureMFA)
          && includes ["accountId"; "tenantId"] n)
      || (strict_eq authenticationType AuthenticationType.AzureMFA
          && (tenantCount =? 1)%nat && String.eqb n "tenantId")
  end.

(** The profile keys of the fields that are hidden at present. *)
Definition hiddenKeysOf (cs : list FormItemSpec) : list string :=
  map (λ c, property_key (propertyName c))
    (filter (λ c, is_true_opt (hidden c) = true) cs).

Definition hiddenKeys (s : ConnectionDialogWebviewState) : list string :=
  hiddenKeysOf (Obj.values (components (connectionComponents s))).

(** ** Whole-form validation, as the specification words it *)

(** What the validator of a field answers for a profile; no answer for a
    hidden field or a field without a validator: the validator is not
    asked. *)
Definition fieldVerdict (ctx : ValidateCtx) (p : IConnectionDialogProfile)
    (c : FormItemSpec) : option FormItemValidationState :=
  if is_true_opt (hidden c) then None
  else match validate c with
       | Some f => Some (f ctx (js_get p (property_key (propertyName c))))
       | None => None
       end.

(** The result a visited field holds afterwards: valid with an empty
    message when hidden, the validator's answer when there is one, and
    what it held before otherwise. *)
Definition storedAfter (ctx : ValidateCtx) (p : IConnectionDialogProfile)
    (c : FormItemSpec) : option FormItemValidationState :=
  if is_true_opt (hidden c) then Some validResult
  else match fieldVerdict ctx p c with
       | Some r => Some r
       | None => validation c
       end.

Definition visitField (ctx : ValidateCtx) (p : IConnectionDialogProfile)
    (c : FormItemSpec) : FormItemSpec :=
  set_validation (storedAfter ctx p c) c.

(** The names reported: one for each active field whose validator answers
    invalid, in the order of the active set. *)
Definition invalidNames (ctx : ValidateCtx) (p : IConnectionDialogProfile)
    (comps : Obj.t FormItemSpec) (active : list string) : list (option string) :=
  concat
    (map (λ x,
            match Obj.get x comps with
            | Some c =>
                match fieldVerdict ctx p c with
                | Some r => if isValid r then [] else [propertyName c]
                | None => []
                end
            | None => []
            end) active).

(** The validator calls made: one for each active field that is visible and
    has a validator. *)
Definition validatorCalls (ctx : ValidateCtx) (p : IConnectionDialogProfile)
    (comps : Obj.t FormItemSpec) (active : list string) : list Event :=
  concat
    (map (λ x,
            match Obj.get x comps with
            | Some c =>
                match fieldVerdict ctx p c with
                | Some _ =>
                    [ValidatorCall (propertyName c)
                       (js_get p (property_key (propertyName c)))]
                | None => []
                end
            | None => []
            end) active).

(** The dialog state once the active fields have been visited. *)
Fixpoint validatedState (p : IConnectionDialogProfile) (active : list string)
    (s : ConnectionDialogWebviewState) : ConnectionDialogWebviewState :=
  match active with
  | [] => s
  | x :: rest =>
      validatedState p rest (update_component x (visitField (validateCtx s) p) s)
  end.

(** The names of the active fields that hold an invalid result. *)
Definition storedInvalid (comps : Obj.t FormItemSpec) (active : list string)
    : list (option string) :=
  concat
    (map (λ x,
            match Obj.get x comps with
            | Some c =>
                match validation c with
                | Some r => if isValid r then [] else [propertyName c]
                | None => []
                end
            | None => []
            end) active).

(** ** The first steps of a connect attempt *)

(** The field specs once [clearFormError] has reset the active ones. *)
Definition clearedComponents (o : Obj.t FormItemSpec) (active : list string)
    : Obj.t FormItemSpec :=
  foldl (λ o x, Obj.update x (set_validation None) o) o active.

(** The dialog state after [clearFormError]. *)
Definition clearedState (s : ConnectionDialogWebviewState)
    : ConnectionDialogWebviewState :=
  set_connectionComponents
    (set_components
       (clearedComponents (components (connectionComponents s))
          (getActiveFormComponents s))
       (connectionComponents s))
    (set_formError "" s).

(** The dialog state the view receives when a connect attempt starts. *)
Definition loadingState (s : ConnectionDialogWebviewState)
    : ConnectionDialogWebviewState :=
  set_connectionStatus Loading (clearedState s).

(** The profile a connect attempt validates and submits. *)
Definition cleanedProfile (s : ConnectionDialogWebviewState)
    : IConnectionDialogProfile :=
  cleanConnection s (connectionProfile s).

(** An event that is not a call to a collaborator. *)
Definition isLocalEvent (e : Event) : Prop :=
  match e with
  | Call _ => False
  | _ => True
  end.

(** A computation that only ever adds to the trace. *)
Definition appends {A : Type} (m : M A) : Prop :=
  ∀ w, ∃ events, trace (m w).2 = trace w ++ events.

(** The push of a state with status Loading: how a connect attempt shows. *)
Definition startsConnect (e : Event) : bool :=
  match e with
  | UpdateState s => bool_decide (connectionStatus s = Loading)
  | _ => false
  end.

(** A connect attempt started between the worlds [w] and [w']. *)
Definition connectAttempted (w w' : World) : bool :=
  existsb startsConnect (drop (length (trace w)) (trace w')).

(** The add-firewall-rule action retries the connect flow. *)
Definition firewallActionRetries (env : Env) (payload : AddFirewallRulePayload)
    (w : World) : Prop :=
  connectAttempted w (addFirewallRule env payload w).2 = true.

(** The rule an add-firewall-rule payload asks for, as quoted in messages. *)
Definition payloadDescription (payload : AddFirewallRulePayload) : string :=
  ruleDescription (payloadName payload) (payloadRange payload).1
    (payloadRange payload).2.

(** The request the action sends to the firewall service. *)
Definition firewallRequest (payload : AddFirewallRulePayload)
    (s : ConnectionDialogWebviewState) (account : IAccount)
    (tokenMappings : list (string * string)) : FirewallRuleRequest :=
  {| frAccount := account;
     firewallRuleName := payloadName payload;
     startIpAddress := (payloadRange payload).1;
     endIpAddress := (payloadRange payload).2;
     serverName := profileField s "server";
     securityTokenMappings := tokenMappings |}.

(** The form error a failed rule creation leaves. *)
Definition creationError (env : Env) (payload : AddFirewallRulePayload)
    (reason : string) : string :=
  Loc_errorCreatingFirewallRule (Loc env) (payloadDescription payload) reason.

(** The dialog state from which the action retries the connect flow, given
    what the firewall service answered. *)
Definition retryState (env : Env) (payload : AddFirewallRulePayload)
    (r : CreateFirewallRuleResponse) (s : ConnectionDialogWebviewState)
    : ConnectionDialogWebviewState :=
  set_dialog None
    (if cfrResult r then s
     else set_formError (creationError env payload (cfrErrorMessage r)) s).

(** What [connectHelper] does once the view has the Loading state: clean,
    validate, and attempt the remote connect. *)
Definition connectAfterLoading (env : Env) : M unit :=
  s ← get_state;
  let cleanedConnection := cleanConnection s (connectionProfile s) in
  erroredInputs ← validateConnectionProfile cleanedConnection None;
  if (0 <? length erroredInputs)%nat then
    modify_state (set_connectionStatus Error);;
    emit (ConsoleWarn ("One more more inputs have errors: " +:+ join erroredInputs))
  else
    try_catch
      (continue ← attemptConnect env cleanedConnection;
       if continue : bool then afterConnect env else mret tt)
      (λ error,
         modify_state (set_connectionStatus Error);;
         s ← get_state;
         emit (SendErrorEvent TelemetryActions.CreateConnection error None
                 (connectionTelemetry s) [])).

(** ** The MFA side effects, as the specification words them *)

(** The buttons of the account field for an authentication type and an
    account id: sign-in, then token-refresh when the account is known and
    its cached token is no longer valid.  Listing the accounts, finding the
    account or fetching its token may throw. *)
Definition azureButtonsFor (env : Env) (authenticationType accountId : JsVal)
    : Outcome (list FormItemActionButton) :=
  if strict_eq authenticationType AuthenticationType.AzureMFA && truthy accountId
  then
    match getAccountsService env with
    | Throw e => Throw e
    | Ok accounts =>
        match findAccount accountId accounts with
        | Throw e => Throw e
        | Ok None => Ok [signInButton env]
        | Ok (Some a) =>
            match getAccountSecurityToken env a with
            | Throw e => Throw e
            | Ok session =>
                if isTokenInValid env (token session) (expiresOn session)
                then Ok [signInButton env; refreshTokenButton env]
                else Ok [signInButton env]
            end
        end
    end
  else Ok [signInButton env].

(** The cached token of the account with this id is expired. *)
Definition tokenExpired (env : Env) (accountId : JsVal) : Prop :=
  ∃ accounts a session,
    truthy accountId = true
    ∧ getAccountsService env = Ok accounts
    ∧ findAccount accountId accounts = Ok (Some a)
    ∧ getAccountSecurityToken env a = Ok session
    ∧ isTokenInValid env (token session) (expiresOn session) = true.

(** The account the handler works with: on an edit of the authentication
    type, the first account offered by the account field when there is
    one; the profile's account otherwise. *)
Definition selectedAccount (s : ConnectionDialogWebviewState) (property : string)
    (accountComponent : FormItemSpec) : JsVal :=
  if String.eqb property "authenticationType" then
    match options accountComponent with
    | Some (firstOption :: _) => VStr (optValue firstOption)
    | _ => profileField s "accountId"
    end
  else profileField s "accountId".

(** The tenant the handler leaves selected: the first one of the list, and
    the profile's when the list is empty. *)
Definition selectedTenant (s : ConnectionDialogWebviewState)
    (tenants : list FormItemOptions) : JsVal :=
  match tenants with
  | first :: _ => VStr (optValue first)
  | [] => profileField s "tenantId"
  end.

(** The state the shared lines leave, before the buttons are rebuilt. *)
Definition withTenants (tenants : list FormItemOptions)
    (s : ConnectionDialogWebviewState) : ConnectionDialogWebviewState :=
  match tenants with
  | first :: _ =>
      setProfileField "tenantId" (VStr (optValue first))
        (update_component "tenantId" (set_options (Some tenants)) s)
  | [] => update_component "tenantId" (set_options (Some tenants)) s
  end.

(** ** Sample collaborators and dialogs *)

Module Sample.

Definition loc : LocStrings :=
  {| Loc_profileName := "Profile Name";
     Loc_savePassword := "Save Password";
     Loc_azureAccount := "Azure Account";
     Loc_selectAnAccount := "Select an account";
     Loc_tenantId := "Tenant ID";
     Loc_selectATenant := "Select a tenant";
     Loc_connectionString := "Connection String";
     Loc_azureAccountIsRequired := "Azure Account is required";
     Loc_tenantIdIsRequired := "Tenant ID is required";
     Loc_connectionStringIsRequired := "Connection string is required";
     Loc_serverIsRequired := "Server is required";
     Loc_usernameIsRequired := "User name is required";
     Loc_signIn := "Sign in";
     refreshTokenLabel := "Refresh token";
     Loc_errorCreatingFirewallRule :=
       λ rule err, "Error creating firewall rule " +:+ rule +:+ ": " +:+ err;
     Loc_errorLoadingAzureAccountInfoForTenantId :=
       λ t, "Error loading Azure account information for tenant ID " +:+ t |}.

Definition errorText (e : JsError) : string :=
  match e with
  | JsTypeError member =>
      "Cannot read properties of undefined (reading '" +:+ member +:+ "')"
  | JsErrorOf message => message
  end.

Definition descriptor (n kind group : string) : ConnectionOption :=
  {| name := n; displayName := n; description := n; groupName_ := group;
     valueType := kind; isRequired := false; categoryValues := None |}.

Definition authenticationTypeDescriptor : ConnectionOption :=
  {| name := "authenticationType"; displayName := "Authentication type";
     description := "Specifies the method of authenticating with SQL Server";
     groupName_ := "security"; valueType := "category"; isRequired := false;
     categoryValues :=
       Some [ {| cvDisplayName := Some "SQL Login"; cvName := "SqlLogin" |};
              {| cvDisplayName := None; cvName := "Integrated" |};
              {| cvDisplayName := Some "Microsoft Entra Id"; cvName := "AzureMFA" |} ] |}.

(** A capability list with the main options, two top-advanced options,
    three advanced options and one option of an unknown value kind. *)
Definition descriptors : list ConnectionOption :=
  [ descriptor "server" "string" "source";
    descriptor "database" "string" "source";
    authenticationTypeDescriptor;
    descriptor "user" "string" "security";
    descriptor "password" "password" "security";
    descriptor "encrypt" "boolean" "security";
    descriptor "trustServerCertificate" "boolean" "security";
    descriptor "port" "number" "source";
    descriptor "applicationName" "string" "context";
    descriptor "packetSize" "number" "advanced";
    descriptor "attachedFiles" "multiValued" "source";
    descriptor "columnEncryptionSetting" "boolean" "security";
    descriptor "pooling" "boolean" "pooling";
    descriptor "replication" "boolean" "replication" ].

Definition capabilities : CapabilitiesResult :=
  {| capOptions := descriptors;
     groupDisplayNames :=
       <["security" := "Security"]>
         (<["pooling" := "Pooling"]> (<["source" := "Source"]> ∅)) |}.

Definition tenantA : ITenant :=
  {| tenantId_ := "tenant-a"; tenantDisplayName := "Tenant A" |}.
Definition tenantB : ITenant :=
  {| tenantId_ := "tenant-b"; tenantDisplayName := "Tenant B" |}.

Definition account (user : string) (ts : list (option ITenant)) : IAccount :=
  {| displayInfo := Some {| userId := user; accountDisplayName := user |};
     properties := Some {| accountTenants := Some ts |};
     keyId := user |}.

Definition alice : IAccount := account "alice" [Some tenantA; Some tenantB].
Definition bob : IAccount := account "bob" [Some tenantB].

Definition subscriptionA : AzureSubscription :=
  {| subscriptionId := "sub-1"; subscriptionName := "Subscription 1";
     subscriptionTenantId := "tenant-a";
     credentialGetToken := Ok "token-1";
     authenticationGetSession :=
       Ok {| sessionLabel := "alice"; sessionAccountType := "microsoft" |} |}.

Definition signedIn : VSCodeAzureSubscriptionProvider :=
  {| authGetTenants :=
       Ok [ {| azTenantDisplayName := "Tenant A"; azTenantId := "tenant-a" |};
            {| azTenantDisplayName := "Tenant B"; azTenantId := "tenant-b" |} ];
     authGetSubscriptions := λ _, Ok [subscriptionA] |}.

(** The remote connect attempt fails with the firewall code and the
    client address cannot be found in the message. *)
Definition env : Env :=
  {| Loc := loc;
     connectionCertValidationFailedErrorCode := -2146893019;
     connectionFirewallErrorCode := 40615;
     getErrorMessage := errorText;
     getAccountsService := Ok [Some alice; Some bob];
     getAccountSecurityToken :=
       λ a, Ok {| token := "token-of-" +:+ keyId a;
                  expiresOn := if String.eqb (keyId a) "alice" then 0 else 100 |};
     isTokenInValid := λ _ expires, expires <=? 50;
     getCapabilities := Ok capabilities;
     validateAndSaveProfileFromDialog :=
       λ _, Ok {| errorMessage := "Cannot open server requested by the login.";
                  errorNumber := 40615 |};
     handleFirewallRule := λ _ _, Ok {| hfrResult := false; hfrIpAddress := "" |};
     createFirewallRule := λ _, Ok {| cfrResult := true; cfrErrorMessage := "" |};
     confirmVscodeAzureSignin := Ok (Some signedIn);
     loadAllConnections := λ _, Ok [];
     lookupPassword := λ _ _, Ok None;
     getConnectionDisplayName := λ _, "(unnamed)";
     hostCall := λ _, Ok tt |}.

(** The controller once [initializeConnectionComponents] has run on a
    given working profile. *)
Definition opened (e : Env) (profile : IConnectionDialogProfile) : World :=
  let w :=
    (initializeConnectionComponents e
       (worldOf (set_connectionProfile profile initialState))).2 in
  {| state := state w; _connectionToEditCopy := None; trace := [] |}.

(** The field specs compiled from the sample capabilities, and their
    buckets. *)
Definition compiled : Obj.t FormItemSpec :=
  match generateConnectionComponents env
          (worldOf (set_connectionProfile emptyConnection initialState)) with
  | (Ok c, _) => c
  | (Throw _, _) => []
  end.

Definition info : ConnectionComponentsInfo :=
  {| components := compiled; mainOptions := dialogMainOptions;
     topAdvancedOptions := dialogTopAdvancedOptions;
     groupedAdvancedOptions := [] |}.

(** A working profile under SQL login with a server and a user. *)
Definition sqlProfile : IConnectionDialogProfile :=
  <["authenticationType" := AuthenticationType.SqlLogin]>
    (<["server" := VStr "localhost"]>
       (<["user" := VStr "sa"]> (<["password" := VStr "secret"]> ∅))).

(** A working profile under Azure MFA for an account. *)
Definition mfaProfile (accountId : string) : IConnectionDialogProfile :=
  <["authenticationType" := AuthenticationType.AzureMFA]>
    (<["accountId" := VStr accountId]> (<["server" := VStr "localhost"]> ∅)).

End Sample.


(** ** Outcomes of a connect attempt *)

(** The dialog state in which the remote connect is attempted: the Loading
    state once whole-form validation has visited the active fields. *)
Definition attemptState (s : ConnectionDialogWebviewState)
    : ConnectionDialogWebviewState :=
  validatedState (cleanedProfile s) (getActiveFormComponents s) (loadingState s).

(** The world in which the remote connect is attempted: the view has the
    Loading state and the validators have been asked. *)
Definition attemptWorld (w : World) : World :=
  extend (with_state (attemptState (state w)) w)
    ([UpdateState (loadingState (state w))]
     ++ validatorCalls (validateCtx (state w)) (cleanedProfile (state w))
          (components (connectionComponents (state w)))
          (getActiveFormComponents (state w))).

(** An event that reports to telemetry. *)
Definition isTelemetryEvent (e : Event) : bool :=
  match e with
  | SendErrorEvent _ _ _ _ _ | SendActionEvent _ _ _ => true
  | _ => false
  end.

(** What the preparation of the add-firewall-rule dialog needs from the
    collaborators: the firewall service's reading of the error, a signed-in
    identity and its tenants.  The first failure is the error thrown. *)
Definition firewallRecovery (env : Env) (result : ConnectionCompleteParams)
    : Outcome (HandleFirewallRuleResponse * list AzureTenant) :=
  match handleFirewallRule env (errorNumber result) (errorMessage result) with
  | Throw e => Throw e
  | Ok h =>
      match confirmVscodeAzureSignin env with
      | Throw e => Throw e
      | Ok None => Throw (JsTypeError "getTenants")
      | Ok (Some auth) =>
          match authGetTenants auth with
          | Throw e => Throw e
          | Ok ts => Ok (h, ts)
          end
      end
  end.

(** The telemetry properties of a connect attempt that the server refused. *)
Definition connectionErrorTelemetry (w : World)
    (result : ConnectionCompleteParams) : list (string * TelemetryProp) :=
  [ ("result", PropStr "connectionError");
    ("errorNumber", PropStr (numberToString (errorNumber result)));
    ("newOrEditedConnection", PropStr (newOrEdited (_connectionToEditCopy w))) ]
  ++ connectionTelemetry (state w).

(** The calls that replace the profile being edited, when there is one. *)
Definition removeEditedCalls (copy : option IConnectionDialogProfile)
    : list HostCall :=
  match copy with
  | Some c =>
      [ GetUriForConnection c; RemoveConnectionNodes c; RemoveProfile c;
        ObjectExplorerRefresh ]
  | None => []
  end.

(** The host calls of a successful connect up to the reload of the
    connection lists, and the ones after the view is told. *)
Definition saveCalls (w : World) : list HostCall :=
  removeEditedCalls (_connectionToEditCopy w)
  ++ [ SaveProfile (connectionProfile (state w));
       CreateObjectExplorerSessionFromDialog (connectionProfile (state w));
       ObjectExplorerRefresh ].

Definition revealCalls : list HostCall :=
  [ ObjectExplorerReveal; PanelDispose; PromptUserForNPSFeedback ].

(** The connections a reload initializes, in the order in which their
    secrets are asked for: the recent ones, then the saved ones. *)
Definition listedConnections
    (unsortedConnections : list IConnectionCredentialsQuickPickItem)
    : list IConnectionDialogProfile :=
  connectionsOfType Mru unsortedConnections
  ++ connectionsOfType Profile unsortedConnections.

(** The lookup of the secret of a connection, as
    [initializeConnectionForDialog] asks for it. *)
Definition secretOf (env : Env) (connection : IConnectionDialogProfile)
    : Outcome (option string) :=
  lookupPassword env connection (isConnectionStringConnection connection).

(** The two events of a reload of the connection lists: the store is asked
    for all its connections, and the numbers of saved and of recent ones
    are reported. *)
Definition reloadEvents
    (unsortedConnections : list IConnectionCredentialsQuickPickItem)
    : list Event :=
  [ Call (CallLoadAllConnections true);
    SendActionEvent TelemetryActions.LoadRecentConnections []
      [ ("savedConnectionsCount",
         Z.of_nat (length (connectionsOfType Profile unsortedConnections)));
        ("recentConnectionsCount",
         Z.of_nat (length (connectionsOfType Mru unsortedConnections))) ] ].

(** ** Validation of one field *)

(** [validateConnectionProfile(connectionProfile, propertyName)] when a
    property name is passed (the branch of [if (propertyName)]): the field
    is looked up among the active ones under the name passed in, the value
    validated is [connectionProfile[propertyName]] for that same name, and
    what is reported is the field's own [propertyName].  Whether the field
    is hidden is not looked at.  [validateConnectionProfile] above reads
    the value under the field's own name instead; the two agree on a field
    stored under its own name. *)
Definition validateNamedField (connectionProfile : IConnectionDialogProfile)
    (property : string) : M (list (option string)) :=
  s ← get_state;
  match getFormComponent s property with
  | Some component =>
      match validate component with
      | Some f =>
          let value := js_get connectionProfile property in
          emit (ValidatorCall (propertyName component) value);;
          let result := f (validateCtx s) value in
          modify_state (update_component property (set_validation (Some result)));;
          if isValid result then mret [] else mret [propertyName component]
      | None => mret []
      end
  | None => mret []
  end.

(** ** Reducers *)

Definition set_selectedInputMode (m : ConnectionInputMode)
    (s : ConnectionDialogWebviewState) : ConnectionDialogWebviewState :=
  {| connectionProfile := connectionProfile s;
     savedConnections := savedConnections s;
     recentConnections := recentConnections s;
     selectedInputMode := m;
     connectionComponents := connectionComponents s;
     azureSubscriptions := azureSubscriptions s; azureServers := azureServers s;
     connectionStatus := connectionStatus s; formError := formError s;
     loadingAzureSubscriptionsStatus := loadingAzureSubscriptionsStatus s;
     loadingAzureServersStatus := loadingAzureServersStatus s;
     dialog := dialog s |}.

(** [payload.event] of the form action: an edit of a field carries the new
    value, a click on an action button carries the button's id. *)
Record FormEvent : Type := {
  isAction : bool;
  eventPropertyName : string;
  eventValue : JsVal
}.

Section Reducers.
Variable env : Env.

(** Two callees of the reducers are not embedded, the loader of the Azure
    servers and the bodies of the action buttons' callbacks: the reducers
    take what these do as given. *)
Variable loadAllAzureServers : M unit.
Variable runCallback : ButtonCallback → M unit.

(** The reducer of [setConnectionInputType]. *)
Definition setConnectionInputType (inputMode : ConnectionInputMode) : M unit :=
  modify_state (set_selectedInputMode inputMode);;
  updateItemVisibility env;;
  updateState;;
  s ← get_state;
  if bool_decide (selectedInputMode s = AzureBrowse)
  then loadAllAzureServers
  else mret tt.

(** The reducer of [formAction]. *)
Definition formAction (event : FormEvent) : M unit :=
  (if isAction event then
     s ← get_state;
     match getFormComponent s (eventPropertyName event) with
     | Some component =>
         match actionButtons component with
         | Some buttons =>
             match find (λ b, strict_eq (VStr (btnId b)) (eventValue event))
                     buttons with
             | Some actionButton => runCallback (btnCallback actionButton)
             | None => mret tt
             end
         | None => mret tt
         end
     | None => mret tt
     end
   else
     modify_state
       (setProfileField (eventPropertyName event) (eventValue event));;
     s ← get_state;
     (if negb (String.eqb (eventPropertyName event) "")
      then validateNamedField (connectionProfile s) (eventPropertyName event)
      else validateConnectionProfile (connectionProfile s) None);;
     handleAzureMFAEdits env (eventPropertyName event));;
  updateItemVisibility env.

(** The reducer of [closeDialog]. *)
Definition closeDialog : M unit := modify_state (set_dialog None).

End Reducers.

(** ** What an action leaves alone *)

(** A computation whose final dialog state is related to the initial one,
    whether it returns or throws. *)
Definition keeps (R : relation ConnectionDialogWebviewState) {A : Type}
    (m : M A) : Prop :=
  ∀ w, R (state w) (state (m w).2).

(** The tenants the visibility rules count: looked up under Azure MFA in
    Parameters or AzureBrowse mode only. *)
Definition tenantsCounted (env : Env) (s : ConnectionDialogWebviewState)
    : list FormItemOptions :=
  if isParametersOrAzureBrowse (selectedInputMode s)
     && strict_eq (profileField s "authenticationType") AuthenticationType.AzureMFA
  then tenantLookup env (profileField s "accountId")
  else [].

(** The dialog state once the visibility has been recomputed. *)
Definition visibilityOf (env : Env) (s : ConnectionDialogWebviewState)
    : ConnectionDialogWebviewState :=
  applyHidden (hiddenPropertiesWith s (tenantsCounted env s)) s.

(** Two dialog states whose fields hold the same validation results, but
    for the field stored under one name. *)
Definition sameValidationBut (property : string)
    (s s' : ConnectionDialogWebviewState) : Prop :=
  ∀ key, key ≠ property →
    validation <$> Obj.get key (components (connectionComponents s'))
    = validation <$> Obj.get key (components (connectionComponents s)).

(** What an MFA edit may change of a field: the options of the tenant
    field and the action buttons of the account field. *)
Definition mfaFieldFrame (key : string) (c c' : FormItemSpec) : Prop :=
  if String.eqb key "tenantId" then set_options None c' = set_options None c
  else if String.eqb key "accountId"
       then set_actionButtons None c' = set_actionButtons None c
       else c' = c.

(** What an MFA edit may change of the dialog state: the account and the
    tenant of the profile, and of the fields what [mfaFieldFrame] allows. *)
Definition mfaEditFrame (s s' : ConnectionDialogWebviewState) : Prop :=
  ∃ profile comps,
    s' = set_connectionComponents
           (set_components comps (connectionComponents s))
           (set_connectionProfile profile s)
    ∧ (∀ k, k ≠ "accountId" → k ≠ "tenantId" →
         profile !! k = connectionProfile s !! k)
    ∧ Forall2 (λ kv kv', kv'.1 = kv.1 ∧ mfaFieldFrame kv.1 kv.2 kv'.2)
        (components (connectionComponents s)) comps.

(** The dialog state in which the lines shared by the [accountId] and the
    [authenticationType] cases run: on an edit of the authentication type
    the first account the account field offers has been selected. *)
Definition withSelectedAccount (property : string) (accountComponent : FormItemSpec)
    (s : ConnectionDialogWebviewState) : ConnectionDialogWebviewState :=
  if String.eqb property "authenticationType"
  then match options accountComponent with
       | Some (firstOption :: _) =>
           setProfileField "accountId" (VStr (optValue firstOption)) s
       | _ => s
       end
  else s.

(** ** The compiled schema *)

(** The answer of [getAccounts]: the accounts as options, and no option
    when listing the accounts or reading one of them fails. *)
Definition accountLookup (env : Env) : list FormItemOptions :=
  match getAccountsService env with
  | Throw _ => []
  | Ok accounts =>
      match map_outcome accountOption accounts with
      | Ok opts => opts
      | Throw _ => []
      end
  end.

(** An account the dropdown can show: it is defined and has display
    information. *)
Definition displayable (account : option IAccount) : bool :=
  match account with
  | Some a => negb (is_undefined (displayInfo a))
  | None => false
  end.

(** The names [completeFormComponents] stores a field of its own under. *)
Definition builtInNames : list string :=
  ["profileName"; "savePassword"; "accountId"; "tenantId"; "connectionString"].

(** The names of the fields that carry a validator once the schema is
    complete. *)
Definition validatedNames : list string :=
  ["accountId"; "tenantId"; "connectionString"; "server"; "user"].

(** The two effects of the [catch] of the compilation loop. *)
Definition optionFailureEvents (env : Env) (connOption : ConnectionOption)
    (err : JsError) : list Event :=
  [ ConsoleError ("Error loading connection option '" +:+
      name connOption +:+ "': " +:+ getErrorMessage env err);
    SendErrorEvent TelemetryActions.LoadConnectionProperties err (Some true)
      [("connectionOptionName", PropStr (name connOption))] [] ].

(** The compiled fields once the five built-in fields are stored. *)
Definition withBuiltIns (env : Env) (accounts : list FormItemOptions)
    (buttons : list FormItemActionButton) (components : Obj.t FormItemSpec)
    : Obj.t FormItemSpec :=
  Obj.set "connectionString" (connectionStringSpec env)
    (Obj.set "tenantId" (tenantIdSpec env)
       (Obj.set "accountId" (accountIdSpec env accounts buttons)
          (Obj.set "savePassword" (savePasswordSpec env)
             (Obj.set "profileName" (profileNameSpec env) components)))).

(** The main options that only a capability can provide a field for. *)
Definition capabilityMainOptions : list string :=
  ["trustServerCertificate"; "authenticationType"; "password"; "database";
   "encrypt"].

(** A descriptor whose conversion throws: a category without its values. *)
Definition unconvertible (connOption : ConnectionOption) : Prop :=
  valueType connOption = "category" ∧ categoryValues connOption = None.

(** The field type of a recognized value kind. *)
Definition fieldTypeOf (kind : string) : FormItemType :=
  if String.eqb kind "boolean" then Checkbox
  else if String.eqb kind "password" then Password
  else if String.eqb kind "category" then Dropdown
  else Input.

(** ** Grouping by a key *)

(** A JavaScript [Map]: the entries in insertion order, one per key. *)
Module JsMap.
Section Entries.
Context {K V : Type} `{EqDecision K}.

Definition t : Type := list (K * V).

Fixpoint get (k : K) (m : t) : option V :=
  match m with
  | [] => None
  | (k', v) :: m' => if decide (k = k') then Some v else get k m'
  end.

Definition has (k : K) (m : t) : bool :=
  match get k m with Some _ => true | None => false end.

Fixpoint replace (k : K) (v : V) (m : t) : t :=
  match m with
  | [] => []
  | (k', v') :: m' =>
      if decide (k = k') then (k', v) :: m' else (k', v') :: replace k v m'
  end.

(** [m.set(k, v)]: a new key goes last, a known key keeps its place. *)
Definition set (k : K) (v : V) (m : t) : t :=
  if has k m then replace k v m else m ++ [(k, v)].

(** Mutation through the reference [m.get(k)] returns. *)
Fixpoint update (k : K) (f : V → V) (m : t) : t :=
  match m with
  | [] => []
  | (k', v') :: m' =>
      if decide (k = k') then (k', f v') :: m' else (k', v') :: update k f m'
  end.

Definition keys (m : t) : list K := map fst m.
Definition values (m : t) : list V := map snd m.
End Entries.

Arguments t : clear implicits.
End JsMap.

Section GroupBy.
Context {K V : Type} `{EqDecision K}.

(** The callback of the [reduce]: create the array of a key that is met
    for the first time, then push the value on the array of its key. *)
Definition groupByStep (key : V → K) (rv : JsMap.t K (list V)) (x : V)
    : JsMap.t K (list V) :=
  let keyValue := key x in
  let rv := if negb (JsMap.has keyValue rv) then JsMap.set keyValue [] rv else rv in
  JsMap.update keyValue (λ group, group ++ [x]) rv.

(** [groupBy(values, key)]; the property picked by [key] is a function of
    the value. *)
Definition groupBy (values : list V) (key : V → K) : JsMap.t K (list V) :=
  foldl (groupByStep key) [] values.

(** The distinct elements of a list, each at its first occurrence. *)
Definition firstSeen (ks : list K) : list K :=
  foldl (λ seen k, if decide (k ∈ seen) then seen else seen ++ [k]) [] ks.

End GroupBy.

(** ** Loading the connection to edit *)

Definition set_connectionToEditCopy (copy : option IConnectionDialogProfile)
    : M unit :=
  λ w, (Ok tt, {| state := state w; _connectionToEditCopy := copy;
                  trace := trace w |}).

Section EditedConnection.
(** [connectionStore.lookupPassword(connection, isConnectionString)]: the
    stored secret, [None] when it answers [undefined]. *)
Variable lookupPassword :
  IConnectionDialogProfile → bool → Outcome (option string).
(** [getConnectionDisplayName], of the connection info module, which is
    not among the sources. *)
Variable getConnectionDisplayName : IConnectionDialogProfile → string.

(** [loadConnectionToEdit()]; [_connectionToEdit] is the constructor's
    optional argument.  The copy is taken before the connection is
    touched. *)
Definition loadConnectionToEdit
    (_connectionToEdit : option IConnectionDialogProfile) : M unit :=
  match _connectionToEdit with
  | Some toEdit =>
      set_connectionToEditCopy (Some toEdit);;
      connection ←
        lift (initializeConnectionForDialog lookupPassword
                getConnectionDisplayName toEdit);
      modify_state (set_connectionProfile connection);;
      modify_state
        (set_selectedInputMode
           (if truthy (js_get connection "connectionString")
               && strict_eq (js_get connection "server") VUndefined
            then ConnectionString
            else Parameters));;
      updateState
  | None => mret tt
  end.

(** [loadEmptyConnection()]. *)
Definition loadEmptyConnection : M unit :=
  modify_state (set_connectionProfile emptyConnection).

End EditedConnection.

(** A character sequence that occurs in a text only at its end. *)
Definition occursOnlyAtEnd (pattern text : string) : Prop :=
  ∀ a b, text = a +:+ pattern +:+ b → b = "".

(** A text without a semicolon. *)
Definition semicolonFree (text : string) : Prop :=
  String.index 0 ";" text = None.

(** ** Overriding a setting *)

(** The configuration once the user has stored a value for a tools service
    setting in the extension configuration. *)
Definition withExtensionSetting (sqlToolsServiceConfigKey configKey : string)
    (v : JsVal) (this : ExtConfig.t) : ExtConfig.t :=
  {| ExtConfig._config := ExtConfig._config this;
     ExtConfig._extensionConfig :=
       <[ExtConfig.derivedKey sqlToolsServiceConfigKey configKey := v]>
         (ExtConfig._extensionConfig this);
     ExtConfig._workspaceConfig := ExtConfig._workspaceConfig this |}.

(** ** More sample collaborators *)

Module Outcomes.

(** [Sample.env] with another remote connect and another host. *)
Definition envWith
    (answer : IConnectionDialogProfile → Outcome ConnectionCompleteParams)
    (signin : Outcome (option VSCodeAzureSubscriptionProvider))
    (host : HostCall → Outcome unit) : Env :=
  {| Loc := Loc Sample.env;
     connectionCertValidationFailedErrorCode :=
       connectionCertValidationFailedErrorCode Sample.env;
     connectionFirewallErrorCode := connectionFirewallErrorCode Sample.env;
     getErrorMessage := getErrorMessage Sample.env;
     getAccountsService := getAccountsService Sample.env;
     getAccountSecurityToken := getAccountSecurityToken Sample.env;
     isTokenInValid := isTokenInValid Sample.env;
     getCapabilities := getCapabilities Sample.env;
     validateAndSaveProfileFromDialog := answer;
     handleFirewallRule := handleFirewallRule Sample.env;
     createFirewallRule := createFirewallRule Sample.env;
     confirmVscodeAzureSignin := signin;
     loadAllConnections :=
       λ _, Ok [ {| quickPickItemType := Mru; connectionCreds := Sample.mfaProfile "alice" |};
                 {| quickPickItemType := Profile; connectionCreds := Sample.sqlProfile |} ];
     lookupPassword := lookupPassword Sample.env;
     getConnectionDisplayName := getConnectionDisplayName Sample.env;
     hostCall := host |}.

(** [Sample.env] with other capabilities. *)
Definition envOffering (caps : CapabilitiesResult) : Env :=
  {| Loc := Loc Sample.env;
     connectionCertValidationFailedErrorCode :=
       connectionCertValidationFailedErrorCode Sample.env;
     connectionFirewallErrorCode := connectionFirewallErrorCode Sample.env;
     getErrorMessage := getErrorMessage Sample.env;
     getAccountsService := getAccountsService Sample.env;
     getAccountSecurityToken := getAccountSecurityToken Sample.env;
     isTokenInValid := isTokenInValid Sample.env;
     getCapabilities := Ok caps;
     validateAndSaveProfileFromDialog :=
       validateAndSaveProfileFromDialog Sample.env;
     handleFirewallRule := handleFirewallRule Sample.env;
     createFirewallRule := createFirewallRule Sample.env;
     confirmVscodeAzureSignin := confirmVscodeAzureSignin Sample.env;
     loadAllConnections := loadAllConnections Sample.env;
     lookupPassword := lookupPassword Sample.env;
     getConnectionDisplayName := getConnectionDisplayName Sample.env;
     hostCall := hostCall Sample.env |}.

(** Capabilities that offer a user but no server. *)
Definition userOnly : CapabilitiesResult :=
  {| capOptions := [Sample.descriptor "user" "string" "security"];
     groupDisplayNames := ∅ |}.

Definition refused (code : Z) (p : IConnectionDialogProfile)
    : Outcome ConnectionCompleteParams :=
  Ok {| errorMessage := "Login failed."; errorNumber := code |}.

Definition accepted (p : IConnectionDialogProfile)
    : Outcome ConnectionCompleteParams :=
  Ok {| errorMessage := ""; errorNumber := 0 |}.

Definition unreachable (p : IConnectionDialogProfile)
    : Outcome ConnectionCompleteParams :=
  Throw (JsErrorOf "The service is not running.").

Definition hostOk (c : HostCall) : Outcome unit := Ok tt.

(** A signed-in identity whose tenants cannot be listed. *)
Definition signedInWithoutTenants : VSCodeAzureSubscriptionProvider :=
  {| authGetTenants := Throw (JsErrorOf "The tenants could not be listed.");
     authGetSubscriptions := authGetSubscriptions Sample.signedIn |}.

(** [Sample.env], whose server answers with the firewall code, with that
    identity. *)
Definition envWithoutTenants : Env :=
  envWith (validateAndSaveProfileFromDialog Sample.env)
    (Ok (Some signedInWithoutTenants)) hostOk.

Definition hostFailsOnSave (c : HostCall) : Outcome unit :=
  match c with
  | SaveProfile _ => Throw (JsErrorOf "The settings file is read-only.")
  | _ => Ok tt
  end.

(** [Sample.env] with a firewall service that throws on creation. *)
Definition envWithoutFirewallService : Env :=
  {| Loc := Loc Sample.env;
     connectionCertValidationFailedErrorCode :=
       connectionCertValidationFailedErrorCode Sample.env;
     connectionFirewallErrorCode := connectionFirewallErrorCode Sample.env;
     getErrorMessage := getErrorMessage Sample.env;
     getAccountsService := getAccountsService Sample.env;
     getAccountSecurityToken := getAccountSecurityToken Sample.env;
     isTokenInValid := isTokenInValid Sample.env;
     getCapabilities := getCapabilities Sample.env;
     validateAndSaveProfileFromDialog :=
       validateAndSaveProfileFromDialog Sample.env;
     handleFirewallRule := handleFirewallRule Sample.env;
     createFirewallRule := λ _, Throw (JsErrorOf "The request timed out.");
     confirmVscodeAzureSignin := confirmVscodeAzureSignin Sample.env;
     loadAllConnections := loadAllConnections Sample.env;
     lookupPassword := lookupPassword Sample.env;
     getConnectionDisplayName := getConnectionDisplayName Sample.env;
     hostCall := hostCall Sample.env |}.

(** [Sample.env] with an account service that cannot fetch a token. *)
Definition envWithoutToken : Env :=
  {| Loc := Loc Sample.env;
     connectionCertValidationFailedErrorCode :=
       connectionCertValidationFailedErrorCode Sample.env;
     connectionFirewallErrorCode := connectionFirewallErrorCode Sample.env;
     getErrorMessage := getErrorMessage Sample.env;
     getAccountsService := getAccountsService Sample.env;
     getAccountSecurityToken :=
       λ _, Throw (JsErrorOf "The token could not be fetched.");
     isTokenInValid := isTokenInValid Sample.env;
     getCapabilities := getCapabilities Sample.env;
     validateAndSaveProfileFromDialog :=
       validateAndSaveProfileFromDialog Sample.env;
     handleFirewallRule := handleFirewallRule Sample.env;
     createFirewallRule := createFirewallRule Sample.env;
     confirmVscodeAzureSignin := confirmVscodeAzureSignin Sample.env;
     loadAllConnections := loadAllConnections Sample.env;
     lookupPassword := lookupPassword Sample.env;
     getConnectionDisplayName := getConnectionDisplayName Sample.env;
     hostCall := hostCall Sample.env |}.

(** A server that accepts the connection, a host that answers, and a
    credential store that lists one recent and one saved connection but
    is locked: no secret can be looked up. *)
Definition envWithLockedStore : Env :=
  {| Loc := Loc Sample.env;
     connectionCertValidationFailedErrorCode :=
       connectionCertValidationFailedErrorCode Sample.env;
     connectionFirewallErrorCode := connectionFirewallErrorCode Sample.env;
     getErrorMessage := getErrorMessage Sample.env;
     getAccountsService := getAccountsService Sample.env;
     getAccountSecurityToken := getAccountSecurityToken Sample.env;
     isTokenInValid := isTokenInValid Sample.env;
     getCapabilities := getCapabilities Sample.env;
     validateAndSaveProfileFromDialog := accepted;
     handleFirewallRule := handleFirewallRule Sample.env;
     createFirewallRule := createFirewallRule Sample.env;
     confirmVscodeAzureSignin := confirmVscodeAzureSignin Sample.env;
     loadAllConnections :=
       λ _, Ok [ {| quickPickItemType := Mru;
                    connectionCreds := Sample.mfaProfile "alice" |};
                 {| quickPickItemType := Profile;
                    connectionCreds := Sample.sqlProfile |} ];
     lookupPassword :=
       λ _ _, Throw (JsErrorOf "The credential store is locked.");
     getConnectionDisplayName := getConnectionDisplayName Sample.env;
     hostCall := hostOk |}.

Definition clientAddress : AddFirewallRulePayload :=
  {| payloadName := "ClientIPAddress"; payloadIp := IpString "203.0.113.7";
     payloadTenantId := "tenant-a" |}.

(** A saved connection-string connection: the profile holds the key of
    the credential store, the store holds the connection string. *)
Definition savedConnection : IConnectionDialogProfile :=
  <["connectionString" := VStr "credential-key-1"]>
    (<["authenticationType" := AuthenticationType.SqlLogin]> ∅).

Definition storedSecret (stored : string) (c : IConnectionDialogProfile)
    (isConnectionString : bool) : Outcome (option string) :=
  Ok (Some stored).

Definition unnamed (c : IConnectionDialogProfile) : string := "(unnamed)".

(** The dialog opened on the sample SQL login profile. *)
Definition sqlDialog : World := Sample.opened Sample.env Sample.sqlProfile.

End Outcomes.
(** * Facts *)

(** ** Extension configuration *)

Lemma truthy_listed_falsy (v : JsVal) : truthy v = negb (ExtConfig.listed_falsy v).
Proof.
  destruct v as [| |[]|[]|[]|]; reflexivity.
Qed.

(** C10.  [getSqlToolsConfigValue] answers with the extension setting stored
    under the derived key unless that setting is one of the falsy values
    ([undefined], [null], the empty string, [false], [0]), in which case the
    bundled [Config] answers; [getExtensionConfig] and [getWorkspaceConfig]
    hand out the caller's default only for a setting that is [undefined],
    and a stored [null] or empty string comes back unchanged. *)
Theorem getSqlToolsConfigValue_falls_back_on_falsy
    (serviceKey : string) (this : ExtConfig.t) (configKey key : string)
    (defaultValue : JsVal) :
  let stored :=
    ExtConfig.get (ExtConfig._extensionConfig this)
      (ExtConfig.derivedKey serviceKey configKey) in
  ExtConfig.getSqlToolsConfigValue serviceKey this configKey
    = (if ExtConfig.listed_falsy stored
       then ExtConfig._config this configKey else stored)
  ∧ truthy stored = negb (ExtConfig.listed_falsy stored)
  ∧ ExtConfig.getExtensionConfig this key defaultValue
    = match ExtConfig.get (ExtConfig._extensionConfig this) key with
      | VUndefined => defaultValue
      | v => v
      end
  ∧ ExtConfig.getWorkspaceConfig this key defaultValue
    = match ExtConfig.get (ExtConfig._workspaceConfig this) key with
      | VUndefined => defaultValue
      | v => v
      end
  ∧ (∀ v cfg ext ws,
       v = VNull ∨ v = VStr "" →
       ExtConfig.getExtensionConfig
         {| ExtConfig._config := cfg;
            ExtConfig._extensionConfig := <[key := v]> ext;
            ExtConfig._workspaceConfig := ws |} key defaultValue = v
       ∧ ExtConfig.getWorkspaceConfig
           {| ExtConfig._config := cfg;
              ExtConfig._extensionConfig := ext;
              ExtConfig._workspaceConfig := <[key := v]> ws |} key defaultValue = v).
Proof.
  intros stored. repeat split.
  - unfold ExtConfig.getSqlToolsConfigValue, ExtConfig.getExtensionConfig.
    cbv zeta. subst stored.
    set (v := ExtConfig.get _ _).
    destruct (decide (v = VUndefined)) as [Hv|Hne].
    + rewrite Hv. reflexivity.
    + by rewrite truthy_listed_falsy, negb_involutive.
  - apply truthy_listed_falsy.
  - unfold ExtConfig.getExtensionConfig. simpl.
    destruct (ExtConfig.get _ key); by case_decide.
  - unfold ExtConfig.getWorkspaceConfig. simpl.
    destruct (ExtConfig.get _ key); by case_decide.
  - unfold ExtConfig.getExtensionConfig, ExtConfig.get, js_get. simpl.
    rewrite lookup_insert_eq. simpl. destruct H as [->| ->]; by case_decide.
  - unfold ExtConfig.getWorkspaceConfig, ExtConfig.get, js_get. simpl.
    rewrite lookup_insert_eq. simpl. destruct H as [->| ->]; by case_decide.
Qed.

(** ** Ordered objects *)

Section ObjFacts.
Context {V : Type}.
Implicit Types (o : Obj.t V) (k : string) (v : V).

Lemma Obj_has_get k o : Obj.has k o = true ↔ is_Some (Obj.get k o).
Proof.
  unfold Obj.has. destruct (Obj.get k o); split; intros H; try done.
Qed.

Lemma Obj_has_false k o : Obj.has k o = false ↔ Obj.get k o = None.
Proof. unfold Obj.has. destruct (Obj.get k o); split; done. Qed.

Lemma Obj_get_replace_eq k v o :
  Obj.has k o = true → Obj.get k (Obj.replace k v o) = Some v.
Proof.
  unfold Obj.has. induction o as [|[k' v'] o IH]; simpl; [done|].
  destruct (String.eqb k k') eqn:E; simpl; rewrite E; auto.
Qed.

Lemma Obj_get_replace_ne k k' v o :
  k ≠ k' → Obj.get k' (Obj.replace k v o) = Obj.get k' o.
Proof.
  intros Hne. induction o as [|[k0 v0] o IH]; simpl; [done|].
  destruct (String.eqb k k0) eqn:E; simpl.
  - apply String.eqb_eq in E. subst k0.
    destruct (String.eqb k' k) eqn:E'; [|done].
    apply String.eqb_eq in E'. congruence.
  - by rewrite IH.
Qed.

Lemma Obj_get_insert_index_eq n k v o :
  Obj.get k o = None → Obj.get k (Obj.insert_index n k v o) = Some v.
Proof.
  induction o as [|[k0 v0] o IH]; simpl.
  - by rewrite String.eqb_refl.
  - destruct (String.eqb k k0) eqn:E; [done|]. intros Hget.
    destruct (Obj.array_index k0) as [n'|]; [destruct (n <? n')%N|]; simpl;
      rewrite ?String.eqb_refl, ?E; auto.
Qed.

Lemma Obj_get_insert_index_ne n k k' v o :
  k ≠ k' → Obj.get k' (Obj.insert_index n k v o) = Obj.get k' o.
Proof.
  intros Hne. apply String.eqb_neq in Hne. rewrite String.eqb_sym in Hne.
  induction o as [|[k0 v0] o IH]; simpl.
  - by rewrite Hne.
  - destruct (Obj.array_index k0) as [n'|]; [destruct (n <? n')%N|]; simpl;
      rewrite ?Hne, ?IH; done.
Qed.

Lemma Obj_get_snoc k k' v o :
  Obj.get k' (o ++ [(k, v)]) =
  match Obj.get k' o with
  | Some x => Some x
  | None => if String.eqb k' k then Some v else None
  end.
Proof.
  induction o as [|[k0 v0] o IH]; simpl; [done|].
  by destruct (String.eqb k' k0).
Qed.

Lemma Obj_get_set_eq k v o : Obj.get k (Obj.set k v o) = Some v.
Proof.
  unfold Obj.set. destruct (Obj.has k o) eqn:E.
  - by apply Obj_get_replace_eq.
  - apply Obj_has_false in E. destruct (Obj.array_index k).
    + by apply Obj_get_insert_index_eq.
    + by rewrite Obj_get_snoc, E, String.eqb_refl.
Qed.

Lemma Obj_get_set_ne k k' v o : k ≠ k' → Obj.get k' (Obj.set k v o) = Obj.get k' o.
Proof.
  intros Hne. unfold Obj.set. destruct (Obj.has k o).
  - by apply Obj_get_replace_ne.
  - destruct (Obj.array_index k).
    + by apply Obj_get_insert_index_ne.
    + rewrite Obj_get_snoc. destruct (Obj.get k' o); [done|].
      apply String.eqb_neq in Hne. by rewrite String.eqb_sym, Hne.
Qed.

Lemma Obj_get_update k k' (f : V → V) o :
  Obj.get k' (Obj.update k f o) =
  if String.eqb k k' then f <$> Obj.get k' o else Obj.get k' o.
Proof.
  induction o as [|[k0 v0] o IH]; simpl.
  - by destruct (String.eqb k k').
  - destruct (String.eqb k k0) eqn:E; simpl.
    + apply String.eqb_eq in E. subst k0.
      rewrite (String.eqb_sym k' k). by destruct (String.eqb k k').
    + rewrite IH. destruct (String.eqb k' k0) eqn:E'; [|done].
      apply String.eqb_eq in E'. subst k0. by rewrite E.
Qed.

Lemma Obj_has_update k k' (f : V → V) o :
  Obj.has k' (Obj.update k f o) = Obj.has k' o.
Proof.
  unfold Obj.has. rewrite Obj_get_update.
  destruct (String.eqb k k'); by destruct (Obj.get k' o).
Qed.

Lemma Obj_keys_update k (f : V → V) o : Obj.keys (Obj.update k f o) = Obj.keys o.
Proof.
  unfold Obj.keys. induction o as [|[k0 v0] o IH]; simpl; [done|].
  destruct (String.eqb k k0); simpl; by rewrite ?IH.
Qed.

Lemma Obj_get_map (f : V → V) k o :
  Obj.get k (map (λ kv, (kv.1, f kv.2)) o) = f <$> Obj.get k o.
Proof.
  induction o as [|[k0 v0] o IH]; simpl; [done|].
  by destruct (String.eqb k k0).
Qed.

Lemma Obj_get_Some_values k v o : Obj.get k o = Some v → v ∈ Obj.values o.
Proof.
  unfold Obj.values. induction o as [|[k0 v0] o IH]; simpl; [done|].
  destruct (String.eqb k k0).
  - intros [= ->]. apply list_elem_of_here.
  - intros H. apply list_elem_of_further. auto.
Qed.

End ObjFacts.

(** ** Worlds *)

Lemma extend_nil w : extend w [] = w.
Proof. destruct w. unfold extend. simpl. by rewrite app_nil_r. Qed.

Lemma extend_extend w a b : extend (extend w a) b = extend w (a ++ b).
Proof. unfold extend. simpl. by rewrite app_assoc. Qed.

Lemma emit_extend e w : emit e w = (Ok tt, extend w [e]).
Proof. reflexivity. Qed.

(** Unfold the monad's operations and compute. *)
Ltac msimpl :=
  repeat (unfold mbind, M_bind, mret, M_ret, try_catch, call, lift, emit, throw,
            get_state, modify_state, updateState, get_connectionToEditCopy;
          simpl).

(** ** Schema compilation *)

Lemma convertToFormComponent_unrecognized connOption w :
  includes recognizedValueTypes (valueType connOption) = false →
  convertToFormComponent connOption w
  = (Ok None, extend w (unhandledTypeEvents connOption)).
Proof.
  unfold includes, recognizedValueTypes. simpl. intros H.
  repeat (apply orb_false_elim in H; destruct H as [? H]).
  unfold convertToFormComponent.
  repeat match goal with E : String.eqb _ _ = false |- _ => rewrite E; clear E end.
  unfold mbind, M_bind, emit, extend, unhandledTypeEvents. simpl.
  by rewrite <- app_assoc.
Qed.

(** Whatever the descriptor, converting it only appends to the trace. *)
Lemma convertToFormComponent_extends connOption w :
  ∃ r events, convertToFormComponent connOption w = (r, extend w events).
Proof.
  unfold convertToFormComponent.
  repeat match goal with
         | |- context [if String.eqb ?a ?b then _ else _] =>
             destruct (String.eqb a b)
         end;
    try (eexists _, []; rewrite extend_nil; reflexivity).
  - destruct (categoryValues connOption);
      eexists _, []; rewrite extend_nil; reflexivity.
  - eexists _, (unhandledTypeEvents connOption).
    unfold mbind, M_bind, emit, extend, unhandledTypeEvents. simpl.
    by rewrite <- app_assoc.
Qed.

(** One turn of the loop never throws: it stores a spec under the option's
    name or leaves the map alone. *)
Lemma compileOption_cases env groupNames connOption result w :
  ∃ events result',
    compileOption env groupNames connOption result w = (Ok result', extend w events)
    ∧ (result' = result
       ∨ ∃ converted,
           result' = Obj.set (name connOption)
                       (compiledSpec groupNames connOption converted) result).
Proof.
  unfold compileOption, try_catch.
  destruct (convertToFormComponent_extends connOption w) as (r & events & Hr).
  unfold mbind, M_bind, mret, M_ret. rewrite Hr.
  destruct r as [converted|e].
  - eexists events, _. split; [reflexivity|]. right. by eexists.
  - exists (events ++
             [ ConsoleError ("Error loading connection option '" +:+
                 name connOption +:+ "': " +:+ getErrorMessage env e);
               SendErrorEvent TelemetryActions.LoadConnectionProperties e
                 (Some true)
                 [("connectionOptionName", PropStr (name connOption))] [] ]),
      result.
    split; [|by left].
    unfold emit, extend. simpl. by rewrite <- !app_assoc.
Qed.

Lemma compileOption_unrecognized env groupNames connOption result w :
  includes recognizedValueTypes (valueType connOption) = false →
  compileOption env groupNames connOption result w
  = (Ok (Obj.set (name connOption) (compiledSpec groupNames connOption None) result),
     extend w (unhandledTypeEvents connOption)).
Proof.
  intros H. unfold compileOption, try_catch, mbind, M_bind, mret, M_ret.
  by rewrite convertToFormComponent_unrecognized.
Qed.

Lemma compileOptions_total env groupNames connectionOptions result w :
  ∃ events compiled,
    compileOptions env groupNames connectionOptions result w
    = (Ok compiled, extend w events).
Proof.
  revert result w. induction connectionOptions as [|o rest IH]; intros result w.
  - exists [], result. by rewrite extend_nil.
  - simpl. unfold mbind, M_bind.
    destruct (compileOption_cases env groupNames o result w)
      as (ev1 & r1 & -> & _).
    destruct (IH r1 (extend w ev1)) as (ev2 & compiled & ->).
    eexists _, compiled. by rewrite extend_extend.
Qed.

Lemma compileOptions_app env groupNames xs ys result w :
  compileOptions env groupNames (xs ++ ys) result w
  = match compileOptions env groupNames xs result w with
    | (Ok r, w') => compileOptions env groupNames ys r w'
    | (Throw e, w') => (Throw e, w')
    end.
Proof.
  revert result w. induction xs as [|o rest IH]; intros result w; [done|].
  simpl. unfold mbind, M_bind.
  destruct (compileOption env groupNames o result w) as [[r1|e] w1]; [|done].
  apply IH.
Qed.

(** Later descriptors with other names leave an entry alone. *)
Lemma compileOptions_get_other env groupNames connectionOptions key result w compiled w' :
  Forall (λ o, name o ≠ key) connectionOptions →
  compileOptions env groupNames connectionOptions result w = (Ok compiled, w') →
  Obj.get key compiled = Obj.get key result.
Proof.
  intros Hall. revert result w.
  induction Hall as [|o rest Ho Hrest IH]; intros result w; simpl.
  - by intros [= -> _].
  - unfold mbind, M_bind.
    destruct (compileOption_cases env groupNames o result w)
      as (ev1 & r1 & -> & Hr1).
    intros H. rewrite (IH _ _ H).
    destruct Hr1 as [->|[converted ->]]; [done|].
    by apply Obj_get_set_ne.
Qed.

(** C1 (what the code does).  For every descriptor whose value kind is none
    of boolean, string, number, password and category, the compilation loop
    does not throw, logs the unhandled kind and emits a diagnostic event,
    and then stores a spec under the descriptor's name all the same: one
    with no property name, no label and no type, made of the advanced flag
    and the category alone.  The field is not left out of the result. *)
Theorem unrecognized_value_kind_is_compiled_to_a_stub
    (env : Env) (groupNames : gmap string string)
    (before : list ConnectionOption) (connOption : ConnectionOption)
    (after : list ConnectionOption) (result : Obj.t FormItemSpec) (w : World) :
  includes recognizedValueTypes (valueType connOption) = false →
  Forall (λ o, name o ≠ name connOption) after →
  ∃ compiled events1 events2,
    compileOptions env groupNames (before ++ connOption :: after) result w
    = (Ok compiled,
       extend w (events1 ++ unhandledTypeEvents connOption ++ events2))
    ∧ Obj.get (name connOption) compiled
      = Some (compiledSpec groupNames connOption None)
    ∧ propertyName (compiledSpec groupNames connOption None) = None
    ∧ type (compiledSpec groupNames connOption None) = None
    ∧ label (compiledSpec groupNames connOption None) = None.
Proof.
  intros Hkind Hafter.
  destruct (compileOptions_total env groupNames before result w)
    as (ev1 & r1 & H1).
  rewrite compileOptions_app, H1. simpl. unfold mbind, M_bind.
  rewrite compileOption_unrecognized by done.
  destruct (compileOptions_total env groupNames after
              (Obj.set (name connOption) (compiledSpec groupNames connOption None) r1)
              (extend (extend w ev1) (unhandledTypeEvents connOption)))
    as (ev2 & compiled & H2).
  exists compiled, ev1, ev2. rewrite H2, !extend_extend.
  split; [reflexivity|].
  split; [|done].
  rewrite (compileOptions_get_other _ _ _ _ _ _ _ _ Hafter H2).
  apply Obj_get_set_eq.
Qed.

Lemma unrecognized_value_kind_witness :
  ∃ compiled events1 events2,
    compileOptions Sample.env (groupDisplayNames Sample.capabilities)
      (take 10 Sample.descriptors
       ++ Sample.descriptor "attachedFiles" "multiValued" "source"
       :: drop 11 Sample.descriptors) [] (worldOf initialState)
    = (Ok compiled,
       extend (worldOf initialState)
         (events1
          ++ unhandledTypeEvents
               (Sample.descriptor "attachedFiles" "multiValued" "source")
          ++ events2))
    ∧ Obj.get "attachedFiles" compiled
      = Some (compiledSpec (groupDisplayNames Sample.capabilities)
                (Sample.descriptor "attachedFiles" "multiValued" "source") None)
    ∧ propertyName
        (compiledSpec (groupDisplayNames Sample.capabilities)
           (Sample.descriptor "attachedFiles" "multiValued" "source") None) = None
    ∧ type
        (compiledSpec (groupDisplayNames Sample.capabilities)
           (Sample.descriptor "attachedFiles" "multiValued" "source") None) = None
    ∧ label
        (compiledSpec (groupDisplayNames Sample.capabilities)
           (Sample.descriptor "attachedFiles" "multiValued" "source") None) = None.
Proof.
  apply (unrecognized_value_kind_is_compiled_to_a_stub Sample.env
           (groupDisplayNames Sample.capabilities)
           (take 10 Sample.descriptors)
           (Sample.descriptor "attachedFiles" "multiValued" "source")
           (drop 11 Sample.descriptors) [] (worldOf initialState)).
  - reflexivity.
  - simpl. repeat constructor; discriminate.
Defined.

(** The whole schema compilation on the sample capabilities: the option of
    the unknown kind ["multiValued"] has an entry among the compiled
    fields, between its neighbours, and the entry has no property name. *)
Example generateConnectionComponents_keeps_unknown_kind :
  match generateConnectionComponents Sample.env
          (worldOf (set_connectionProfile emptyConnection initialState)) with
  | (Ok compiled, w) =>
      Obj.keys compiled
      = [ "server"; "database"; "authenticationType"; "user"; "password";
          "encrypt"; "trustServerCertificate"; "port"; "applicationName";
          "packetSize"; "attachedFiles"; "columnEncryptionSetting"; "pooling";
          "replication"; "profileName"; "savePassword"; "accountId";
          "tenantId"; "connectionString" ]
      ∧ (propertyName <$> Obj.get "attachedFiles" compiled) = Some None
      ∧ (type <$> Obj.get "attachedFiles" compiled) = Some None
      ∧ (isAdvancedOption <$> Obj.get "attachedFiles" compiled) = Some (Some true)
      ∧ LoggerLog "Unhandled connection option type: multiValued" ∈ trace w
  | (Throw _, _) => False
  end.
Proof. vm_compute. repeat split; try reflexivity. set_solver. Qed.

(** ** Grouping of the advanced options *)

Section GroupMapFacts.
Implicit Types (k : option string) (ks : list (option string))
  (f : option string → option ConnectionComponentGroup).

Lemma GroupMap_get_keyed f ks k :
  GroupMap.get k (map (λ k', (k', f k')) ks)
  = if decide (k ∈ ks) then Some (f k) else None.
Proof.
  induction ks as [|k0 ks IH]; simpl; [done|].
  destruct (decide (k = k0)) as [->|Hne].
  - by rewrite decide_True by set_solver.
  - rewrite IH.
    destruct (decide (k ∈ ks));
      [rewrite decide_True by set_solver|rewrite decide_False by set_solver];
      done.
Qed.

Lemma GroupMap_replace_keyed f ks k v :
  NoDup ks → k ∈ ks →
  GroupMap.replace k v (map (λ k', (k', f k')) ks)
  = map (λ k', (k', if decide (k' = k) then v else f k')) ks.
Proof.
  induction 1 as [|k0 ks Hnotin Hnodup IH]; simpl; [set_solver|].
  intros Hin. destruct (decide (k = k0)) as [->|Hne].
  - rewrite decide_True by done. f_equal.
    apply map_ext_in. intros k' Hk'. apply list_elem_of_In in Hk'.
    rewrite decide_False; [done|]. intros ->. done.
  - rewrite decide_False by done. f_equal. apply IH. set_solver.
Qed.

Lemma GroupMap_set_keyed_new f ks k v :
  k ∉ ks →
  GroupMap.set k v (map (λ k', (k', f k')) ks)
  = map (λ k', (k', f k')) ks ++ [(k, v)].
Proof.
  intros Hk. unfold GroupMap.set, GroupMap.has.
  by rewrite GroupMap_get_keyed, decide_False.
Qed.

Lemma GroupMap_set_keyed_old f ks k v :
  NoDup ks → k ∈ ks →
  GroupMap.set k v (map (λ k', (k', f k')) ks)
  = map (λ k', (k', if decide (k' = k) then v else f k')) ks.
Proof.
  intros Hnd Hk. unfold GroupMap.set, GroupMap.has.
  rewrite GroupMap_get_keyed, decide_True by done.
  by apply GroupMap_replace_keyed.
Qed.

End GroupMapFacts.

Lemma encounter_from_seeds (seeds acc cats : list (option string)) :
  foldl encounter (seeds ++ acc) cats
  = seeds ++ foldl encounter acc (filter (λ k, k ∉ seeds) cats).
Proof.
  revert acc. induction cats as [|x cats IH]; intros acc; simpl; [done|].
  destruct (decide (x ∈ seeds)) as [Hin|Hnotin].
  - rewrite filter_cons_False by (intros H; by apply H).
    unfold encounter at 2. rewrite decide_True by set_solver. apply IH.
  - rewrite filter_cons_True by done. simpl.
    unfold encounter at 2 4.
    destruct (decide (x ∈ acc)) as [Hacc|Hacc].
    + rewrite decide_True by set_solver. apply IH.
    + rewrite decide_False by set_solver. rewrite <- app_assoc. apply IH.
Qed.

Lemma categoriesSeen_in_order fields :
  categoriesSeen fields = categoriesInOrder fields.
Proof.
  unfold categoriesSeen, categoriesInOrder, firstOccurrences.
  rewrite <- (app_nil_r seedCategories) at 1. apply encounter_from_seeds.
Qed.

Lemma categoriesSeen_snoc fields c :
  categoriesSeen (fields ++ [c]) = encounter (categoriesSeen fields) (optionCategory c).
Proof. unfold categoriesSeen. by rewrite map_app, foldl_app. Qed.

Lemma encounter_NoDup seen k : NoDup seen → NoDup (encounter seen k).
Proof.
  intros H. unfold encounter. case_decide; [done|].
  apply NoDup_app. split_and!; [done| |apply NoDup_singleton].
  intros x Hx ->%list_elem_of_singleton. done.
Qed.

Lemma categoriesSeen_NoDup fields : NoDup (categoriesSeen fields).
Proof.
  induction fields as [|c fields IH] using rev_ind.
  - unfold categoriesSeen, seedCategories. simpl.
    repeat (apply NoDup_cons; split; [set_solver|]). apply NoDup_nil_2.
  - rewrite categoriesSeen_snoc. by apply encounter_NoDup.
Qed.

Lemma encounter_elem seen k x : x ∈ encounter seen k ↔ x ∈ seen ∨ x = k.
Proof. unfold encounter. case_decide; set_solver. Qed.

Lemma categoriesSeen_member fields c :
  c ∈ fields → optionCategory c ∈ categoriesSeen fields.
Proof.
  induction fields as [|c' fields IH] using rev_ind; [set_solver|].
  rewrite categoriesSeen_snoc, encounter_elem, elem_of_app, list_elem_of_singleton.
  intros [?| ->]; auto.
Qed.

Lemma membersOf_snoc k fields c :
  membersOf k (fields ++ [c])
  = membersOf k fields ++ (if decide (optionCategory c = k) then [c] else []).
Proof.
  unfold membersOf. rewrite filter_app. f_equal.
Qed.

Lemma membersOf_nil_notin k fields :
  k ∉ categoriesSeen fields → membersOf k fields = [].
Proof.
  intros Hk. unfold membersOf.
  destruct (filter _ fields) as [|c rest] eqn:E; [done|].
  assert (Hc : c ∈ filter (λ c, optionCategory c = k) fields)
    by (rewrite E; apply list_elem_of_here).
  apply list_elem_of_filter in Hc as [<- Hc].
  exfalso. apply Hk. by apply categoriesSeen_member.
Qed.

Lemma groupOf_snoc_other k fields c :
  optionCategory c ≠ k → groupOf k (fields ++ [c]) = groupOf k fields.
Proof.
  intros Hne. unfold groupOf. rewrite membersOf_snoc, decide_False by done.
  by rewrite app_nil_r.
Qed.

Lemma groupOf_snoc_same fields c :
  groupOf (optionCategory c) (fields ++ [c])
  = match groupOf (optionCategory c) fields with
    | Some g => Some (pushOption (propertyName c) g)
    | None => Some {| groupName := optionCategoryLabel c;
                      groupOptions := [propertyName c] |}
    end.
Proof.
  unfold groupOf. rewrite membersOf_snoc, decide_True by done.
  destruct (membersOf (optionCategory c) fields) as [|first rest]; simpl; [done|].
  unfold pushOption. simpl. by rewrite map_app.
Qed.

(** The loop computes the keyed list of groups over the ids seen. *)
Lemma grouping_loop fields :
  foldl groupOption seedGroupMap fields
  = map (λ k, (k, groupOf k fields)) (categoriesSeen fields).
Proof.
  induction fields as [|c fields IH] using rev_ind; [done|].
  rewrite foldl_app. simpl. rewrite IH. clear IH.
  rewrite categoriesSeen_snoc. unfold groupOption.
  rewrite GroupMap_get_keyed.
  pose proof (categoriesSeen_NoDup fields) as Hnd.
  destruct (decide (optionCategory c ∈ categoriesSeen fields)) as [Hin|Hnotin].
  - unfold encounter. rewrite decide_True by done.
    assert (Hstep : ∀ v,
      v = groupOf (optionCategory c) (fields ++ [c]) →
      map (λ k', (k', if decide (k' = optionCategory c) then v
                      else groupOf k' fields)) (categoriesSeen fields)
      = map (λ k, (k, groupOf k (fields ++ [c]))) (categoriesSeen fields)).
    { intros v ->. apply map_ext_in. intros k _. case_decide as Hk.
      - by subst k.
      - rewrite groupOf_snoc_other; [done|]. by intros Heq. }
    destruct (groupOf (optionCategory c) fields) as [g|] eqn:Hg.
    + rewrite GroupMap_replace_keyed by done. apply Hstep.
      by rewrite groupOf_snoc_same, Hg.
    + rewrite GroupMap_set_keyed_old by done. apply Hstep.
      by rewrite groupOf_snoc_same, Hg.
  - unfold encounter. rewrite decide_False by done.
    rewrite GroupMap_set_keyed_new by done. rewrite map_app. simpl.
    f_equal.
    + apply map_ext_in. intros k Hk%list_elem_of_In.
      rewrite groupOf_snoc_other; [done|]. intros Heq. apply Hnotin.
      by rewrite Heq.
    + rewrite groupOf_snoc_same. unfold groupOf.
      by rewrite membersOf_nil_notin.
Qed.

Lemma optionsToGroup_filter componentsInfo :
  optionsToGroup componentsInfo
  = filter (isGroupedField componentsInfo)
      (Obj.values (components componentsInfo)).
Proof.
  unfold optionsToGroup. apply list_filter_iff. intros c.
  unfold isGroupedField, is_true_opt.
  destruct (isAdvancedOption c) as [[]|]; simpl;
    destruct (includes_opt (mainOptions componentsInfo) (propertyName c));
    destruct (includes_opt (topAdvancedOptions componentsInfo) (propertyName c));
    simpl; naive_solver.
Qed.

Section ObjValues.
Context {V : Type} (P : V → Prop).
Implicit Types (o : Obj.t V) (k : string) (v : V).

Lemma Obj_values_replace_Forall k v o :
  P v → Forall P (Obj.values o) → Forall P (Obj.values (Obj.replace k v o)).
Proof.
  intros Hv. unfold Obj.values.
  induction o as [|[k0 v0] o IH]; simpl; [done|].
  intros [H0 Ho]%Forall_cons. destruct (String.eqb k k0); simpl.
  - by apply Forall_cons.
  - apply Forall_cons. auto.
Qed.

Lemma Obj_values_insert_index_Forall n k v o :
  P v → Forall P (Obj.values o) → Forall P (Obj.values (Obj.insert_index n k v o)).
Proof.
  intros Hv. unfold Obj.values.
  induction o as [|[k0 v0] o IH]; simpl.
  - intros _. by apply Forall_cons.
  - intros Hall. pose proof Hall as [H0 Ho]%Forall_cons.
    destruct (Obj.array_index k0) as [n'|]; [destruct (n <? n')%N|]; simpl.
    + by apply Forall_cons_2.
    + apply Forall_cons_2; auto.
    + by apply Forall_cons_2.
Qed.

Lemma Obj_values_set_Forall k v o :
  P v → Forall P (Obj.values o) → Forall P (Obj.values (Obj.set k v o)).
Proof.
  intros Hv Ho. unfold Obj.set. destruct (Obj.has k o).
  - by apply Obj_values_replace_Forall.
  - destruct (Obj.array_index k).
    + by apply Obj_values_insert_index_Forall.
    + unfold Obj.values. rewrite map_app. apply Forall_app. split; [done|].
      by apply Forall_singleton.
Qed.

Lemma Obj_values_update_Forall k (f : V → V) o :
  (∀ v, P v → P (f v)) →
  Forall P (Obj.values o) → Forall P (Obj.values (Obj.update k f o)).
Proof.
  intros Hf. unfold Obj.values.
  induction o as [|[k0 v0] o IH]; simpl; [done|].
  intros [H0 Ho]%Forall_cons. destruct (String.eqb k k0); simpl;
    apply Forall_cons; auto.
Qed.

End ObjValues.

Lemma compileOptions_Forall (P : FormItemSpec → Prop) env groupNames
    connectionOptions result w compiled w' :
  (∀ o converted, P (compiledSpec groupNames o converted)) →
  Forall P (Obj.values result) →
  compileOptions env groupNames connectionOptions result w = (Ok compiled, w') →
  Forall P (Obj.values compiled).
Proof.
  intros HP. revert result w.
  induction connectionOptions as [|o rest IH]; intros result w Hres; simpl.
  - by intros [= <- _].
  - unfold mbind, M_bind.
    destruct (compileOption_cases env groupNames o result w)
      as (ev1 & r1 & -> & Hr1).
    apply IH. destruct Hr1 as [->|[converted ->]]; [done|].
    by apply Obj_values_set_Forall.
Qed.

Lemma assignValidate_Forall (P : FormItemSpec → Prop) key f comps w compiled w' :
  (∀ c, P c → P (set_validate (Some f) c)) →
  Forall P (Obj.values comps) →
  assignValidate key f comps w = (Ok compiled, w') →
  Forall P (Obj.values compiled).
Proof.
  intros Hf Hall. unfold assignValidate.
  destruct (Obj.has key comps); [|done].
  intros [= <- _]. by apply Obj_values_update_Forall.
Qed.

Lemma completeFormComponents_Forall (P : FormItemSpec → Prop) env comps w
    compiled w' :
  P (profileNameSpec env) → P (savePasswordSpec env) →
  (∀ accounts buttons, P (accountIdSpec env accounts buttons)) →
  P (tenantIdSpec env) → P (connectionStringSpec env) →
  (∀ f c, P c → P (set_validate f c)) →
  Forall P (Obj.values comps) →
  completeFormComponents env comps w = (Ok compiled, w') →
  Forall P (Obj.values compiled).
Proof.
  intros Hpn Hsp Hacc Hten Hcs Hval Hall.
  unfold completeFormComponents, mbind, M_bind.
  destruct (getAccounts env w) as [[accounts|e] w1]; [|done].
  destruct (getAzureActionButtons env w1) as [[buttons|e] w2]; [|done].
  destruct (assignValidate "server" _ _ w2) as [[c1|e] w3] eqn:E1; [|done].
  intros E2.
  eapply assignValidate_Forall in E2; [done|by auto|].
  eapply assignValidate_Forall in E1; [done|by auto|].
  repeat apply Obj_values_set_Forall; auto.
Qed.

Lemma generateConnectionComponents_labelled env w caps compiled w' :
  getCapabilities env = Ok caps →
  generateConnectionComponents env w = (Ok compiled, w') →
  Forall (labelledBy (groupDisplayNames caps)) (Obj.values compiled).
Proof.
  intros Hcaps. unfold generateConnectionComponents, call, lift, mbind, M_bind.
  simpl. rewrite Hcaps.
  destruct (compileOptions env _ _ [] _) as [[result|e] w1] eqn:E; [|done].
  apply completeFormComponents_Forall.
  - intros [=].
  - intros [=].
  - intros accounts buttons [=].
  - intros [=].
  - intros [=].
  - intros f c Hc. apply Hc.
  - eapply compileOptions_Forall in E; [done| |by apply Forall_nil].
    intros o converted _. unfold compiledSpec. simpl. by eexists.
Qed.

(** C9.  Grouping considers exactly the fields flagged advanced whose name
    is in neither the main nor the top-advanced bucket; it yields, keyed by
    category id, the five seeded ids (security, initialization, resiliency,
    pooling, context) in that order followed by the other ids in encounter
    order; each group lists the names of its members in encounter order
    and bears its first member's label, which for the fields the schema
    compiler produced is the category-label map's entry for the id and the
    raw id when the map has none.  The returned array is the sequence of
    the map's values (a seeded id without a member leaves an [undefined]
    slot). *)
Theorem groupAdvancedOptions_groups_by_category
    (componentsInfo : ConnectionComponentsInfo) :
  let fields :=
    filter (isGroupedField componentsInfo)
      (Obj.values (components componentsInfo)) in
  optionsToGroup componentsInfo = fields
  ∧ groupAdvancedOptions_map componentsInfo = groupsBySpec fields
  ∧ groupAdvancedOptions componentsInfo
    = map (λ k, groupOf k fields) (categoriesInOrder fields)
  ∧ (∀ k g, (k, Some g) ∈ groupAdvancedOptions_map componentsInfo →
       membersOf k fields ≠ []
       ∧ groupOptions g = map propertyName (membersOf k fields))
  ∧ (∀ env w caps w',
       getCapabilities env = Ok caps →
       generateConnectionComponents env w = (Ok (components componentsInfo), w') →
       ∀ k g, (k, Some g) ∈ groupAdvancedOptions_map componentsInfo →
         ∃ id, k = Some id
               ∧ groupName g = Some (categoryLabel (groupDisplayNames caps) id)).
Proof.
  intros fields.
  assert (Hfields : optionsToGroup componentsInfo = fields)
    by apply optionsToGroup_filter.
  assert (Hmap : groupAdvancedOptions_map componentsInfo = groupsBySpec fields).
  { unfold groupAdvancedOptions_map, groupsBySpec.
    by rewrite Hfields, grouping_loop, categoriesSeen_in_order. }
  assert (Hgroup : ∀ k g, (k, Some g) ∈ groupAdvancedOptions_map componentsInfo →
            ∃ first rest, membersOf k fields = first :: rest
              ∧ g = {| groupName := optionCategoryLabel first;
                       groupOptions := map propertyName (membersOf k fields) |}).
  { intros k g. rewrite Hmap. unfold groupsBySpec.
    intros (k' & [= -> Hg] & _)%list_elem_of_In%in_map_iff. revert Hg.
    unfold groupOf.
    destruct (membersOf k fields) as [|first rest]; [done|].
    intros [= <-]. by eexists _, _. }
  split_and!; [done|done| | |].
  - unfold groupAdvancedOptions, GroupMap.values. rewrite Hmap.
    unfold groupsBySpec. by rewrite map_map.
  - intros k g (first & rest & Hm & ->)%Hgroup. by rewrite Hm.
  - intros env w caps w' Hcaps Hgen k g (first & rest & Hm & ->)%Hgroup.
    assert (Hfirst : first ∈ membersOf k fields)
      by (rewrite Hm; apply list_elem_of_here).
    apply list_elem_of_filter in Hfirst as [Hcat Hfirst].
    apply list_elem_of_filter in Hfirst as [(Hadv & _) Hfirst].
    pose proof (generateConnectionComponents_labelled _ _ _ _ _ Hcaps Hgen) as Hall.
    rewrite Forall_forall in Hall. apply Hall in Hfirst.
    destruct Hfirst as (id & Hid & Hlabel).
    { unfold is_true_opt. by rewrite Hadv. }
    exists id. simpl. split; congruence.
Qed.

(** The groups of the sample dialog: the seeded ids without a member leave
    an empty slot, the ids [advanced] and [replication] follow in encounter
    order, and the option of the unknown kind is grouped without a name. *)
Example groupAdvancedOptions_sample :
  groupedAdvancedOptions
    (connectionComponents (state (Sample.opened Sample.env emptyConnection)))
  = [ Some {| groupName := Some "Security";
              groupOptions := [Some "columnEncryptionSetting"] |};
      None; None;
      Some {| groupName := Some "Pooling"; groupOptions := [Some "pooling"] |};
      None;
      Some {| groupName := Some "advanced"; groupOptions := [Some "packetSize"] |};
      Some {| groupName := Some "Source"; groupOptions := [None] |};
      Some {| groupName := Some "replication";
              groupOptions := [Some "replication"] |} ].
Proof. vm_compute. reflexivity. Qed.

(** ** Visibility *)

Lemma getTenants_answer env accountId w :
  ∃ events,
    getTenants env accountId w = (Ok (tenantLookup env accountId), extend w events).
Proof.
  unfold getTenants, tenantLookup, getTenants_catch. msimpl.
  destruct (getAccountsService env) as [accounts|e]; msimpl.
  - destruct (getTenants_try accountId accounts) as [tenants [opts|e]]; msimpl.
    + by eexists [_].
    + eexists [_; _; _]. unfold extend. simpl. by rewrite <- !app_assoc.
  - eexists [_; _; _]. unfold extend. simpl. by rewrite <- !app_assoc.
Qed.

Lemma includes_hiddenProperties s tenants field :
  isParametersOrAzureBrowse (selectedInputMode s) = true →
  includes_opt (hiddenPropertiesWith s tenants) field
  = hiddenBySpec (profileField s "authenticationType") (length tenants) field.
Proof.
  intros Hmode. unfold hiddenPropertiesWith, hiddenBySpec. rewrite Hmode.
  destruct field as [n|]; [|done]. unfold includes_opt, includes. simpl.
  destruct (strict_eq _ AuthenticationType.SqlLogin),
    (strict_eq _ AuthenticationType.AzureMFA), (length tenants =? 1)%nat;
    simpl;
    destruct (String.eqb n "user"), (String.eqb n "password"),
      (String.eqb n "savePassword"), (String.eqb n "accountId"),
      (String.eqb n "tenantId"); reflexivity.
Qed.

Lemma tenantLookup_fails env accountId :
  tenantLookupFails env accountId → tenantLookup env accountId = [].
Proof.
  unfold tenantLookupFails, tenantLookup.
  destruct (getAccountsService env) as [accounts|e]; [|done].
  by destruct (getTenants_try accountId accounts) as [tenants [opts|e]].
Qed.

(** C4.  In Parameters or AzureBrowse mode, recomputing the visibility
    never throws and leaves every field spec with [hidden] set to what the
    rules say of its name: user, password and save-password are hidden when
    the authentication type is not SQL login; account-id and tenant-id when
    it is not Azure MFA; tenant-id also under Azure MFA when the tenant
    lookup for the current account yields exactly one tenant; every other
    field gets [hidden = false].  A tenant lookup that fails counts as no
    tenant, so under Azure MFA the tenant-id field is then visible. *)
Theorem updateItemVisibility_hides_by_authentication (env : Env) (w : World) :
  isParametersOrAzureBrowse (selectedInputMode (state w)) = true →
  let s := state w in
  let auth := profileField s "authenticationType" in
  let tenants := tenantLookup env (profileField s "accountId") in
  ∃ w',
    updateItemVisibility env w = (Ok tt, w')
    ∧ connectionProfile (state w') = connectionProfile s
    ∧ selectedInputMode (state w') = selectedInputMode s
    ∧ Obj.keys (components (connectionComponents (state w')))
      = Obj.keys (components (connectionComponents s))
    ∧ (∀ key c,
         Obj.get key (components (connectionComponents s)) = Some c →
         Obj.get key (components (connectionComponents (state w')))
         = Some (set_hidden
                   (Some (hiddenBySpec auth (length tenants) (propertyName c))) c))
    ∧ (tenantLookupFails env (profileField s "accountId") →
       tenants = []
       ∧ (auth = AuthenticationType.AzureMFA →
          ∀ key c,
            Obj.get key (components (connectionComponents (state w'))) = Some c →
            propertyName c = Some "tenantId" → hidden c = Some false)).
Proof.
  intros Hmode s auth tenants.
  assert (Hrun : ∃ events,
    updateItemVisibility env w
    = (Ok tt, with_state (applyHidden (hiddenPropertiesWith s tenants) s)
                (extend w events))).
  { subst s auth tenants.
    unfold updateItemVisibility, mbind, M_bind, get_state. rewrite Hmode.
    simpl. destruct (strict_eq _ AuthenticationType.AzureMFA) eqn:Hmfa.
    - destruct (getTenants_answer env (profileField (state w) "accountId") w)
        as [events ->].
      by exists events.
    - exists []. rewrite extend_nil. unfold mret, M_ret, modify_state. simpl.
      f_equal. unfold with_state. f_equal. f_equal.
      unfold hiddenPropertiesWith. rewrite Hmode. by rewrite Hmfa. }
  destruct Hrun as [events Hrun]. eexists. split; [exact Hrun|]. simpl.
  assert (Hget : ∀ key c,
    Obj.get key (components (connectionComponents s)) = Some c →
    Obj.get key
      (map (λ kv, (kv.1,
                   set_hidden
                     (Some (includes_opt (hiddenPropertiesWith s tenants)
                              (propertyName kv.2))) kv.2))
         (components (connectionComponents s)))
    = Some (set_hidden
              (Some (hiddenBySpec auth (length tenants) (propertyName c))) c)).
  { intros key c Hc.
    induction (components (connectionComponents s)) as [|[k0 c0] o IH];
      simpl in *; [done|].
    destruct (String.eqb key k0); [|by apply IH].
    injection Hc as ->. by rewrite includes_hiddenProperties. }
  split_and!; try done.
  - unfold Obj.keys. rewrite map_map. done.
  - intros Hfail. pose proof (tenantLookup_fails _ _ Hfail) as Hnone.
    split; [done|]. intros Hauth key c Hc Hname.
    assert (∃ c0, Obj.get key (components (connectionComponents s)) = Some c0
                  ∧ c = set_hidden
                          (Some (hiddenBySpec auth (length tenants)
                                   (propertyName c0))) c0)
      as (c0 & Hc0 & ->).
    { destruct (Obj.get key (components (connectionComponents s))) as [c0|] eqn:E.
      - exists c0. split; [done|]. apply Hget in E. congruence.
      - exfalso. revert Hc E. clear.
        induction (components (connectionComponents s)) as [|[k0 c0] o IH];
          simpl; [done|].
        by destruct (String.eqb key k0). }
    simpl in *. rewrite Hname. fold tenants. unfold tenants at 1.
    rewrite Hnone. subst auth. rewrite Hauth. reflexivity.
Qed.

Lemma updateItemVisibility_witness :
  isParametersOrAzureBrowse
    (selectedInputMode (state (Sample.opened Sample.env (Sample.mfaProfile "bob"))))
  = true
  ∧ ∃ w', updateItemVisibility Sample.env
            (Sample.opened Sample.env (Sample.mfaProfile "bob")) = (Ok tt, w').
Proof.
  split; [vm_compute; reflexivity|].
  destruct (updateItemVisibility_hides_by_authentication Sample.env
              (Sample.opened Sample.env (Sample.mfaProfile "bob")))
    as (w' & Hrun & _); [vm_compute; reflexivity|].
  by exists w'.
Defined.

(** On the sample dialog: an account with one tenant hides the tenant
    field, an account with two shows it; the SQL login fields are hidden
    under Azure MFA. *)
Example updateItemVisibility_sample :
  let hiddenAfter account :=
    map (λ kv, (kv.1, hidden kv.2))
      (filter (λ kv, kv.1 ∈ ["server"; "user"; "password"; "savePassword";
                             "accountId"; "tenantId"; "attachedFiles"])
         (components (connectionComponents (state
            (updateItemVisibility Sample.env
               (Sample.opened Sample.env (Sample.mfaProfile account))).2)))) in
  hiddenAfter "bob"
  = [ ("server", Some false); ("user", Some true); ("password", Some true);
      ("attachedFiles", Some false); ("savePassword", Some true);
      ("accountId", Some false); ("tenantId", Some true) ]
  ∧ hiddenAfter "alice"
    = [ ("server", Some false); ("user", Some true); ("password", Some true);
        ("attachedFiles", Some false); ("savePassword", Some true);
        ("accountId", Some false); ("tenantId", Some false) ].
Proof. vm_compute. split; reflexivity. Qed.

(** ** The clean transform *)

Lemma clearIfHidden_lookup p c k :
  clearIfHidden p c !! k
  = if decide (k ∈ hiddenKeysOf [c]) then Some VUndefined else p !! k.
Proof.
  unfold clearIfHidden, hiddenKeysOf.
  destruct (is_true_opt (hidden c)) eqn:E.
  - rewrite filter_cons_True by done. simpl.
    destruct (decide (property_key (propertyName c) = k)) as [<-|Hne].
    + rewrite lookup_insert_eq. by rewrite decide_True by set_solver.
    + rewrite lookup_insert_ne by done. by rewrite decide_False by set_solver.
  - rewrite filter_cons_False by (by rewrite E). done.
Qed.

Lemma hiddenKeysOf_cons c cs :
  hiddenKeysOf (c :: cs) = hiddenKeysOf [c] ++ hiddenKeysOf cs.
Proof.
  unfold hiddenKeysOf. rewrite <- map_app. f_equal.
  change (c :: cs) with ([c] ++ cs). by rewrite filter_app.
Qed.

Lemma foldl_clearIfHidden_lookup cs p k :
  foldl clearIfHidden p cs !! k
  = if decide (k ∈ hiddenKeysOf cs) then Some VUndefined else p !! k.
Proof.
  revert p. induction cs as [|c cs IH]; intros p; simpl; [done|].
  - rewrite IH, clearIfHidden_lookup, (hiddenKeysOf_cons c cs).
    destruct (decide (k ∈ hiddenKeysOf cs)), (decide (k ∈ hiddenKeysOf [c]));
      [rewrite decide_True by set_solver|rewrite decide_True by set_solver
      |rewrite decide_True by set_solver|rewrite decide_False by set_solver];
      done.
Qed.

(** What [cleanConnection] leaves under each key. *)
Lemma cleanConnection_lookup s p k :
  cleanConnection s p !! k
  = let base :=
      if decide (k ∈ hiddenKeys s) then Some VUndefined else p !! k in
    match selectedInputMode s with
    | ConnectionString => base ≫= keepConnectionStringOnly k
    | _ => if decide (k = "connectionString") then Some VUndefined else base
    end.
Proof.
  unfold cleanConnection, hiddenKeys, isParametersOrAzureBrowse.
  destruct (selectedInputMode s); simpl.
  - destruct (decide (k = "connectionString")) as [->|Hne].
    + by rewrite lookup_insert_eq.
    + rewrite lookup_insert_ne by done. apply foldl_clearIfHidden_lookup.
  - rewrite map_lookup_imap, foldl_clearIfHidden_lookup. done.
  - destruct (decide (k = "connectionString")) as [->|Hne].
    + by rewrite lookup_insert_eq.
    + rewrite lookup_insert_ne by done. apply foldl_clearIfHidden_lookup.
Qed.

Lemma keepConnectionStringOnly_other k v :
  k ≠ "connectionString" → k ≠ "profileName" →
  keepConnectionStringOnly k v = Some VUndefined.
Proof.
  intros H1%String.eqb_neq H2%String.eqb_neq.
  unfold keepConnectionStringOnly. by rewrite H1, H2.
Qed.

Lemma keepConnectionStringOnly_kept k v :
  k = "connectionString" ∨ k = "profileName" →
  keepConnectionStringOnly k v = Some v.
Proof. intros [->| ->]; reflexivity. Qed.

(** C2.  In ConnectionString mode [cleanConnection] leaves [undefined]
    under every key other than connection-string and profile-name (every
    such key of the profile is present with the value [undefined]) and
    keeps those two as they are unless their field is hidden.  In
    Parameters or AzureBrowse mode it sets connection-string to
    [undefined], sets the key of every hidden field to [undefined] and
    leaves every other key as it was.  In every mode cleaning a cleaned
    profile changes nothing. *)
Theorem cleanConnection_clears_unused_and_is_idempotent
    (s : ConnectionDialogWebviewState) (p : IConnectionDialogProfile) :
  let cleaned := cleanConnection s p in
  (selectedInputMode s = ConnectionString →
     (∀ k, k ≠ "connectionString" → k ≠ "profileName" →
        js_get cleaned k = VUndefined
        ∧ (is_Some (p !! k) → cleaned !! k = Some VUndefined))
     ∧ (∀ k, k = "connectionString" ∨ k = "profileName" →
          k ∉ hiddenKeys s → cleaned !! k = p !! k))
  ∧ (isParametersOrAzureBrowse (selectedInputMode s) = true →
       cleaned !! "connectionString" = Some VUndefined
       ∧ (∀ k, k ∈ hiddenKeys s → cleaned !! k = Some VUndefined)
       ∧ (∀ k, k ≠ "connectionString" → k ∉ hiddenKeys s →
            cleaned !! k = p !! k))
  ∧ cleanConnection s cleaned = cleaned.
Proof.
  intros cleaned. subst cleaned. split_and!.
  - intros Hmode. split.
    + intros k H1 H2. unfold js_get. rewrite cleanConnection_lookup, Hmode. simpl.
      case_decide; simpl.
      * by rewrite keepConnectionStringOnly_other.
      * destruct (p !! k) as [v|]; simpl.
        -- by rewrite keepConnectionStringOnly_other.
        -- split; [done|]. by intros [? [=]].
    + intros k Hk Hvisible. rewrite cleanConnection_lookup, Hmode. simpl.
      rewrite decide_False by done.
      destruct (p !! k) as [v|]; simpl; [|done].
      by apply keepConnectionStringOnly_kept.
  - intros Hmode. unfold isParametersOrAzureBrowse in Hmode.
    split_and!.
    + rewrite cleanConnection_lookup.
      destruct (selectedInputMode s); try done; simpl;
        by rewrite decide_True.
    + intros k Hk. rewrite cleanConnection_lookup.
      destruct (selectedInputMode s); try done; simpl;
        rewrite (decide_True (P := k ∈ hiddenKeys s)) by done;
        by destruct (decide (k = "connectionString")).
    + intros k Hk Hvisible. rewrite cleanConnection_lookup.
      destruct (selectedInputMode s); try done; simpl;
        by rewrite !decide_False by done.
  - apply map_eq. intros k. rewrite !cleanConnection_lookup. simpl.
    destruct (selectedInputMode s); simpl.
    + repeat case_decide; done.
    + case_decide; [done|].
      destruct (p !! k) as [v|]; simpl; [|done].
      unfold keepConnectionStringOnly.
      by destruct (negb (String.eqb k "connectionString")
                   && negb (String.eqb k "profileName")) eqn:E.
    + repeat case_decide; done.
Qed.

(** ** Validation *)

Lemma Obj_update_ext_get {V : Type} k (f g : V → V) (o : Obj.t V) c :
  Obj.get k o = Some c → f c = g c → Obj.update k f o = Obj.update k g o.
Proof.
  intros Hget Hfg. induction o as [|[k0 v0] o IH]; simpl in *; [done|].
  destruct (String.eqb k k0).
  - injection Hget as ->. by rewrite Hfg.
  - by rewrite IH.
Qed.

Lemma invalidNames_update ctx p comps x g active :
  (∀ c, fieldVerdict ctx p (g c) = fieldVerdict ctx p c) →
  (∀ c, propertyName (g c) = propertyName c) →
  invalidNames ctx p (Obj.update x g comps) active = invalidNames ctx p comps active.
Proof.
  intros Hv Hn. unfold invalidNames. f_equal. apply map_ext. intros y.
  rewrite Obj_get_update.
  destruct (String.eqb x y), (Obj.get y comps) as [c|]; simpl; try done.
  by rewrite Hv, Hn.
Qed.

Lemma validatorCalls_update ctx p comps x g active :
  (∀ c, fieldVerdict ctx p (g c) = fieldVerdict ctx p c) →
  (∀ c, propertyName (g c) = propertyName c) →
  validatorCalls ctx p (Obj.update x g comps) active
  = validatorCalls ctx p comps active.
Proof.
  intros Hv Hn. unfold validatorCalls. f_equal. apply map_ext. intros y.
  rewrite Obj_get_update.
  destruct (String.eqb x y), (Obj.get y comps) as [c|]; simpl; try done.
  by rewrite Hv, Hn.
Qed.

Lemma validatedState_ctx p active s :
  validateCtx (validatedState p active s) = validateCtx s.
Proof.
  revert s. induction active as [|x rest IH]; intros s; simpl; [done|].
  by rewrite IH.
Qed.

Lemma Obj_update_id {V : Type} k (f : V → V) (o : Obj.t V) c :
  Obj.get k o = Some c → f c = c → Obj.update k f o = o.
Proof.
  intros Hget Hf. induction o as [|[k0 v0] o IH]; simpl in *; [done|].
  destruct (String.eqb k k0).
  - injection Hget as ->. by rewrite Hf.
  - by rewrite IH.
Qed.

Lemma update_component_id x f s c :
  Obj.get x (components (connectionComponents s)) = Some c → f c = c →
  update_component x f s = s.
Proof.
  intros Hc Hf. unfold update_component.
  rewrite (Obj_update_id x f _ c Hc Hf).
  destruct s as [? ? ? ? [? ? ? ?] ? ? ? ? ? ? ?]. reflexivity.
Qed.

Lemma update_component_ext x f g s c :
  Obj.get x (components (connectionComponents s)) = Some c → f c = g c →
  update_component x f s = update_component x g s.
Proof.
  intros Hc Hfg. unfold update_component.
  by rewrite (Obj_update_ext_get x f g _ c Hc Hfg).
Qed.

(** One turn of the whole-form loop. *)
Lemma validateActive_cons p x rest acc w c :
  Obj.get x (components (connectionComponents (state w))) = Some c →
  validateActive p (x :: rest) acc w
  = validateActive p rest
      (acc ++ invalidNames (validateCtx (state w)) p
                (components (connectionComponents (state w))) [x])
      (extend
         (with_state
            (update_component x (visitField (validateCtx (state w)) p) (state w)) w)
         (validatorCalls (validateCtx (state w)) p
            (components (connectionComponents (state w))) [x])).
Proof.
  intros Hc. simpl validateActive.
  unfold mbind at 1, M_bind at 1, get_state at 1. rewrite Hc.
  unfold invalidNames, validatorCalls. simpl map. rewrite Hc. simpl concat.
  rewrite !app_nil_r. unfold fieldVerdict.
  destruct (is_true_opt (hidden c)) eqn:Hhidden.
  - msimpl. rewrite app_nil_r.
    rewrite (update_component_ext x _ (visitField (validateCtx (state w)) p) _ c Hc)
      by (unfold visitField, storedAfter; by rewrite Hhidden).
    f_equal. unfold extend, with_state. simpl. by rewrite app_nil_r.
  - destruct (validate c) as [f|] eqn:Hvalidate.
    + unfold runValidator. msimpl.
      rewrite (update_component_ext x _ (visitField (validateCtx (state w)) p) _ c Hc)
        by (unfold visitField, storedAfter, fieldVerdict;
            by rewrite Hhidden, Hvalidate).
      destruct (isValid _); by rewrite ?app_nil_r.
    + rewrite app_nil_r.
      rewrite (update_component_id x (visitField (validateCtx (state w)) p) _ c Hc).
      * f_equal. destruct w. unfold extend, with_state. simpl.
        by rewrite app_nil_r.
      * unfold visitField, storedAfter, fieldVerdict.
        rewrite Hhidden, Hvalidate. by destruct c.
Qed.

Lemma invalidNames_cons ctx p comps x rest :
  invalidNames ctx p comps (x :: rest)
  = invalidNames ctx p comps [x] ++ invalidNames ctx p comps rest.
Proof. unfold invalidNames. simpl. by rewrite app_nil_r. Qed.

Lemma validatorCalls_cons ctx p comps x rest :
  validatorCalls ctx p comps (x :: rest)
  = validatorCalls ctx p comps [x] ++ validatorCalls ctx p comps rest.
Proof. unfold validatorCalls. simpl. by rewrite app_nil_r. Qed.

(** The whole-form loop, run. *)
Lemma validateActive_run p active w acc :
  Forall (λ x, is_Some (Obj.get x (components (connectionComponents (state w)))))
    active →
  validateActive p active acc w
  = (Ok (acc ++ invalidNames (validateCtx (state w)) p
                  (components (connectionComponents (state w))) active),
     extend (with_state (validatedState p active (state w)) w)
       (validatorCalls (validateCtx (state w)) p
          (components (connectionComponents (state w))) active)).
Proof.
  revert w acc. induction active as [|x rest IH]; intros w acc Hall.
  - simpl. unfold mret, M_ret. rewrite app_nil_r. f_equal.
    destruct w. unfold extend, with_state. simpl. by rewrite app_nil_r.
  - apply Forall_cons in Hall as [[c Hc] Hrest].
    rewrite (validateActive_cons p x rest acc w c Hc).
    rewrite IH.
    + simpl. rewrite invalidNames_update, validatorCalls_update by done.
      rewrite (invalidNames_cons _ _ _ x rest), (validatorCalls_cons _ _ _ x rest).
      rewrite <- app_assoc. f_equal.
      unfold extend, with_state. simpl. by rewrite <- app_assoc.
    + eapply Forall_impl; [exact Hrest|]. intros y [cy Hy]. simpl.
      rewrite Obj_get_update, Hy. destruct (String.eqb x y); by eexists.
Qed.

Lemma visitField_idempotent ctx p c :
  visitField ctx p (visitField ctx p c) = visitField ctx p c.
Proof.
  unfold visitField, storedAfter, fieldVerdict. destruct c as [].
  simpl. destruct (is_true_opt hidden0); [done|]. by destruct validate0.
Qed.

Lemma validatedState_get p active s y :
  Obj.get y (components (connectionComponents (validatedState p active s)))
  = (λ c, if decide (y ∈ active) then visitField (validateCtx s) p c else c)
      <$> Obj.get y (components (connectionComponents s)).
Proof.
  revert s. induction active as [|x rest IH]; intros s; simpl.
  - by destruct (Obj.get y _).
  - rewrite IH. simpl. rewrite Obj_get_update.
    change (validateCtx (update_component x (visitField (validateCtx s) p) s))
      with (validateCtx s).
    destruct (String.eqb x y) eqn:E.
    + apply String.eqb_eq in E. subst y.
      destruct (Obj.get x _) as [c|]; simpl; [|done].
      rewrite (decide_True (P := x ∈ x :: rest)) by set_solver.
      destruct (decide (x ∈ rest)); by rewrite ?visitField_idempotent.
    + apply String.eqb_neq in E.
      destruct (Obj.get y _) as [c|]; simpl; [|done].
      destruct (decide (y ∈ rest));
        [rewrite (decide_True (P := y ∈ x :: rest)) by set_solver
        |rewrite (decide_False (P := y ∈ x :: rest)) by set_solver];
        done.
Qed.

Lemma validatedState_frame p active s :
  connectionProfile (validatedState p active s) = connectionProfile s
  ∧ selectedInputMode (validatedState p active s) = selectedInputMode s
  ∧ connectionStatus (validatedState p active s) = connectionStatus s
  ∧ formError (validatedState p active s) = formError s
  ∧ dialog (validatedState p active s) = dialog s
  ∧ mainOptions (connectionComponents (validatedState p active s))
    = mainOptions (connectionComponents s)
  ∧ Obj.keys (components (connectionComponents (validatedState p active s)))
    = Obj.keys (components (connectionComponents s)).
Proof.
  revert s. induction active as [|x rest IH]; intros s; simpl; [done|].
  destruct (IH (update_component x (visitField (validateCtx s) p) s))
    as (-> & -> & -> & -> & -> & -> & ->).
  simpl. by rewrite Obj_keys_update.
Qed.

Lemma storedInvalid_validated ctx p comps comps' active :
  (∀ x c, Obj.get x comps = Some c → validate c = None → validation c = None) →
  (∀ x, x ∈ active →
        Obj.get x comps' = visitField ctx p <$> Obj.get x comps) →
  storedInvalid comps' active = invalidNames ctx p comps active.
Proof.
  intros Hstale Hget. unfold storedInvalid, invalidNames. f_equal.
  apply map_ext_in. intros x Hx%list_elem_of_In. rewrite (Hget x Hx).
  destruct (Obj.get x comps) as [c|] eqn:Hc; simpl; [|done].
  unfold storedAfter, fieldVerdict.
  destruct (is_true_opt (hidden c)); [done|].
  destruct (validate c) eqn:Hv; [done|]. by rewrite (Hstale x c Hc Hv).
Qed.

(** C5.  Whole-form validation visits exactly the active field set of the
    input mode, in order.  When every active name has a field spec the call
    does not throw; a hidden field receives the valid result with the empty
    message and its validator is not called; a visible field with a
    validator receives what the validator answers for the profile's value;
    a field without a validator keeps what it held, is never reported and
    raises nothing; fields outside the active set are untouched.  The list
    returned holds the names of the fields whose validator answered
    invalid, which are the active fields holding an invalid result
    afterwards (no field without a validator holding a result before). *)
Theorem validateConnectionProfile_whole_form
    (w : World) (p : IConnectionDialogProfile) :
  let s := state w in
  let active := getActiveFormComponents s in
  let ctx := validateCtx s in
  let comps := components (connectionComponents s) in
  Forall (λ x, is_Some (Obj.get x comps)) active →
  ∃ w',
    validateConnectionProfile p None w = (Ok (invalidNames ctx p comps active), w')
    ∧ active = (if isParametersOrAzureBrowse (selectedInputMode s)
                then mainOptions (connectionComponents s)
                else ["connectionString"; "profileName"])
    ∧ trace w' = trace w ++ validatorCalls ctx p comps active
    ∧ connectionProfile (state w') = connectionProfile s
    ∧ selectedInputMode (state w') = selectedInputMode s
    ∧ (∀ x c, Obj.get x comps = Some c →
         Obj.get x (components (connectionComponents (state w')))
         = Some (if decide (x ∈ active) then visitField ctx p c else c))
    ∧ (∀ c, is_true_opt (hidden c) = true →
         validation (visitField ctx p c) = Some validResult
         ∧ fieldVerdict ctx p c = None)
    ∧ (∀ c f, is_true_opt (hidden c) = false → validate c = Some f →
         validation (visitField ctx p c)
         = Some (f ctx (js_get p (property_key (propertyName c))))
         ∧ fieldVerdict ctx p c
           = Some (f ctx (js_get p (property_key (propertyName c)))))
    ∧ (∀ c, validate c = None → fieldVerdict ctx p c = None)
    ∧ ((∀ x c, Obj.get x comps = Some c → validate c = None → validation c = None) →
       invalidNames ctx p comps active
       = storedInvalid (components (connectionComponents (state w'))) active).
Proof.
  intros s active ctx comps Hall.
  eexists. split.
  { unfold validateConnectionProfile. msimpl. fold s.
    rewrite (validateActive_run p (getActiveFormComponents s) w [] Hall).
    reflexivity. }
  simpl. destruct (validatedState_frame p active s) as (Hp & Hm & _).
  split_and!; try done.
  - intros x c Hc. rewrite validatedState_get. fold s comps. by rewrite Hc.
  - intros c Hh. unfold visitField, storedAfter, fieldVerdict.
    by rewrite Hh.
  - intros c f Hh Hv. unfold visitField, storedAfter, fieldVerdict.
    by rewrite Hh, Hv.
  - intros c Hv. unfold fieldVerdict. rewrite Hv. by destruct (is_true_opt _).
  - intros Hstale. symmetry. fold s active.
    apply storedInvalid_validated; [exact Hstale|].
    intros x Hx. rewrite validatedState_get.
    destruct (Obj.get x _); simpl; [|done]. by rewrite decide_True.
Qed.

Lemma validateConnectionProfile_whole_form_witness :
  ∃ w',
    validateConnectionProfile emptyConnection None
      (Sample.opened Sample.env emptyConnection)
    = (Ok [Some "server"; Some "user"], w').
Proof.
  destruct (validateConnectionProfile_whole_form
              (Sample.opened Sample.env emptyConnection) emptyConnection)
    as (w' & Hrun & _).
  - apply (bool_decide_unpack _). vm_compute. reflexivity.
  - exists w'. rewrite Hrun. f_equal.
Defined.

(** On the sample dialog under Azure MFA with an account and a tenant, the
    hidden user field is not reported although the profile has no user,
    and nothing is reported at all. *)
Example validateConnectionProfile_sample_mfa :
  (validateConnectionProfile
     (<["tenantId" := VStr "tenant-b"]> (Sample.mfaProfile "bob")) None
     (Sample.opened Sample.env
        (<["tenantId" := VStr "tenant-b"]> (Sample.mfaProfile "bob")))).1
  = Ok [].
Proof. vm_compute. reflexivity. Qed.

(** ** The connect attempt *)

Lemma clearedComponents_get o active y :
  Obj.get y (clearedComponents o active)
  = (λ c, if decide (y ∈ active) then set_validation None c else c)
      <$> Obj.get y o.
Proof.
  unfold clearedComponents. revert o.
  induction active as [|x rest IH]; intros o; simpl.
  - by destruct (Obj.get y o).
  - rewrite IH, Obj_get_update. destruct (String.eqb x y) eqn:E.
    + apply String.eqb_eq in E. subst y.
      destruct (Obj.get x o) as [c|]; simpl; [|done].
      rewrite (decide_True (P := x ∈ x :: rest)) by set_solver.
      by destruct (decide (x ∈ rest)).
    + apply String.eqb_neq in E.
      destruct (Obj.get y o) as [c|]; simpl; [|done].
      destruct (decide (y ∈ rest));
        [rewrite (decide_True (P := y ∈ x :: rest)) by set_solver
        |rewrite (decide_False (P := y ∈ x :: rest)) by set_solver];
        done.
Qed.

Lemma clearedComponents_keys o active :
  Obj.keys (clearedComponents o active) = Obj.keys o.
Proof.
  unfold clearedComponents. revert o.
  induction active as [|x rest IH]; intros o; simpl; [done|].
  by rewrite IH, Obj_keys_update.
Qed.

Lemma Obj_values_update_erased k v (o : Obj.t FormItemSpec) :
  map (set_validation None) (Obj.values (Obj.update k (set_validation v) o))
  = map (set_validation None) (Obj.values o).
Proof.
  unfold Obj.values. induction o as [|[k0 c0] o IH]; simpl; [done|].
  destruct (String.eqb k k0); simpl; by rewrite ?IH.
Qed.

Lemma clearedComponents_erased o active :
  map (set_validation None) (Obj.values (clearedComponents o active))
  = map (set_validation None) (Obj.values o).
Proof.
  unfold clearedComponents. revert o.
  induction active as [|x rest IH]; intros o; simpl; [done|].
  by rewrite IH, Obj_values_update_erased.
Qed.

Lemma foldl_clearIfHidden_erased cs p :
  foldl clearIfHidden p (map (set_validation None) cs) = foldl clearIfHidden p cs.
Proof. revert p. induction cs as [|c cs IH]; intros p; simpl; [done|]. apply IH. Qed.

(** Cleaning reads the hidden flags and the names only. *)
Lemma cleanConnection_erased s s' p :
  selectedInputMode s' = selectedInputMode s →
  map (set_validation None) (Obj.values (components (connectionComponents s')))
  = map (set_validation None) (Obj.values (components (connectionComponents s))) →
  cleanConnection s' p = cleanConnection s p.
Proof.
  intros Hmode Hvalues. unfold cleanConnection. rewrite Hmode.
  rewrite <- (foldl_clearIfHidden_erased (Obj.values (components (connectionComponents s')))).
  rewrite <- (foldl_clearIfHidden_erased (Obj.values (components (connectionComponents s)))).
  by rewrite Hvalues.
Qed.

Lemma invalidNames_cleared ctx p o active l :
  invalidNames ctx p (clearedComponents o active) l = invalidNames ctx p o l.
Proof.
  unfold clearedComponents. revert o.
  induction active as [|x rest IH]; intros o; simpl; [done|].
  rewrite IH. by apply invalidNames_update.
Qed.

Lemma validatorCalls_cleared ctx p o active l :
  validatorCalls ctx p (clearedComponents o active) l = validatorCalls ctx p o l.
Proof.
  unfold clearedComponents. revert o.
  induction active as [|x rest IH]; intros o; simpl; [done|].
  rewrite IH. by apply validatorCalls_update.
Qed.

Lemma assignValidationUndefined_run x w c :
  Obj.get x (components (connectionComponents (state w))) = Some c →
  assignValidationUndefined x w
  = (Ok tt, with_state (update_component x (set_validation None) (state w)) w).
Proof.
  intros Hc. unfold assignValidationUndefined. msimpl.
  unfold Obj.has. by rewrite Hc.
Qed.

Lemma for_of_clear active w :
  Forall (λ x, is_Some (Obj.get x (components (connectionComponents (state w)))))
    active →
  for_of active assignValidationUndefined w
  = (Ok tt,
     with_state
       (set_connectionComponents
          (set_components
             (clearedComponents (components (connectionComponents (state w))) active)
             (connectionComponents (state w)))
          (state w)) w).
Proof.
  revert w. induction active as [|x rest IH]; intros w Hall; simpl.
  - unfold mret, M_ret. f_equal. unfold with_state.
    destruct w as [[? ? ? ? [? ? ? ?] ? ? ? ? ? ? ?] ? ?]. reflexivity.
  - apply Forall_cons in Hall as [[c Hc] Hrest].
    unfold mbind, M_bind.
    rewrite (assignValidationUndefined_run x w c Hc). rewrite IH.
    + reflexivity.
    + eapply Forall_impl; [exact Hrest|]. intros y [cy Hy]. simpl.
      rewrite Obj_get_update, Hy. destruct (String.eqb x y); by eexists.
Qed.

Lemma clearFormError_run w :
  Forall (λ x, is_Some (Obj.get x (components (connectionComponents (state w)))))
    (getActiveFormComponents (state w)) →
  clearFormError w = (Ok tt, with_state (clearedState (state w)) w).
Proof.
  intros Hall. unfold clearFormError. msimpl.
  change (getActiveFormComponents (set_formError "" (state w)))
    with (getActiveFormComponents (state w)).
  rewrite for_of_clear by exact Hall. reflexivity.
Qed.

Lemma loadingState_cleaned s :
  cleanConnection (loadingState s) (connectionProfile (loadingState s))
  = cleanedProfile s.
Proof.
  unfold cleanedProfile. simpl.
  apply cleanConnection_erased; [done|]. simpl.
  apply clearedComponents_erased.
Qed.

Lemma loadingState_has s :
  Forall (λ x, is_Some (Obj.get x (components (connectionComponents s))))
    (getActiveFormComponents s) →
  Forall (λ x, is_Some (Obj.get x (components (connectionComponents (loadingState s)))))
    (getActiveFormComponents (loadingState s)).
Proof.
  intros Hall. eapply Forall_impl; [exact Hall|]. intros y [cy Hy]. simpl.
  rewrite clearedComponents_get, Hy. by eexists.
Qed.

(** A connect attempt whose validation reports a field. *)
Lemma connectHelper_invalid env w :
  let s := state w in
  let active := getActiveFormComponents s in
  let errs :=
    invalidNames (validateCtx s) (cleanedProfile s)
      (components (connectionComponents s)) active in
  Forall (λ x, is_Some (Obj.get x (components (connectionComponents s)))) active →
  errs ≠ [] →
  connectHelper env w
  = (Ok tt,
     extend
       (with_state
          (set_connectionStatus Error
             (validatedState (cleanedProfile s) active (loadingState s))) w)
       ([UpdateState (loadingState s)]
        ++ validatorCalls (validateCtx s) (cleanedProfile s)
             (components (connectionComponents s)) active
        ++ [ConsoleWarn ("One more more inputs have errors: " +:+ join errs)])).
Proof.
  intros s active errs Hall Herrs.
  unfold connectHelper. unfold mbind at 1, M_bind at 1.
  rewrite (clearFormError_run w Hall). msimpl. fold s.
  fold (loadingState s). rewrite loadingState_cleaned.
  unfold validateConnectionProfile. msimpl.
  rewrite validateActive_run by (apply (loadingState_has s Hall)).
  simpl. rewrite invalidNames_cleared, validatorCalls_cleared.
  fold (loadingState s).
  change (getActiveFormComponents (loadingState s)) with active.
  change (validateCtx (loadingState s)) with (validateCtx s).
  fold errs. destruct errs as [|e errs'] eqn:E; [done|].
  simpl. f_equal. unfold extend, with_state. simpl.
  f_equal. by rewrite <- !app_assoc.
Qed.

(** What whole-form validation of the cleaned copy reports, at the point
    where [connectHelper] runs it. *)
Lemma validation_of_cleaned_copy w :
  let s := state w in
  Forall (λ x, is_Some (Obj.get x (components (connectionComponents s))))
    (getActiveFormComponents s) →
  (validateConnectionProfile (cleanedProfile s) None
     (extend (with_state (loadingState s) w) [UpdateState (loadingState s)])).1
  = Ok (invalidNames (validateCtx s) (cleanedProfile s)
          (components (connectionComponents s)) (getActiveFormComponents s)).
Proof.
  intros s Hall. unfold validateConnectionProfile.
  unfold mbind, M_bind, get_state. cbn [state extend with_state].
  rewrite validateActive_run by (apply (loadingState_has s Hall)).
  cbn [fst state extend with_state app].
  change (getActiveFormComponents (loadingState s))
    with (getActiveFormComponents s).
  change (validateCtx (loadingState s)) with (validateCtx s).
  change (components (connectionComponents (loadingState s)))
    with (clearedComponents (components (connectionComponents s))
            (getActiveFormComponents s)).
  by rewrite invalidNames_cleared.
Qed.

Lemma invalidNames_elem ctx p comps active x c r :
  x ∈ active → Obj.get x comps = Some c →
  fieldVerdict ctx p c = Some r → isValid r = false →
  propertyName c ∈ invalidNames ctx p comps active.
Proof.
  intros Hx Hc Hr Hinvalid. unfold invalidNames.
  apply list_elem_of_In, in_concat. eexists. split.
  - apply in_map_iff. exists x. split; [reflexivity|by apply list_elem_of_In].
  - rewrite Hc, Hr, Hinvalid. by left.
Qed.

Lemma validatorCalls_local ctx p comps active :
  Forall isLocalEvent (validatorCalls ctx p comps active).
Proof.
  unfold validatorCalls. induction active as [|x rest IH]; simpl; [done|].
  apply Forall_app. split; [|done].
  destruct (Obj.get x comps) as [c|]; [|done].
  destruct (fieldVerdict ctx p c); [|done]. by apply Forall_singleton.
Qed.

(** C3.  When connect is invoked on a dialog all of whose active names have
    a field spec and whole-form validation of the cleaned copy (run once the
    Loading state is pushed) reports a field, the view first receives a
    state with status Loading, the final status is Error, and no
    collaborator is called: the remote validate-and-save is never
    reached.  In particular, in Parameters or
    AzureBrowse mode, with the server field visible and carrying its
    validator, a profile with SQL login and an empty server is reported:
    the status ends as Error, nothing is called, and the server field
    holds the invalid result with the server-is-required message. *)
Theorem connectHelper_stops_when_validation_fails (env : Env) (w : World) :
  let s := state w in
  let active := getActiveFormComponents s in
  let comps := components (connectionComponents s) in
  let errs := invalidNames (validateCtx s) (cleanedProfile s) comps active in
  Forall (λ x, is_Some (Obj.get x comps)) active →
  (validateConnectionProfile (cleanedProfile s) None
     (extend (with_state (loadingState s) w) [UpdateState (loadingState s)])).1
  = Ok errs
  ∧ (errs ≠ [] →
   ∃ w' events,
     connectHelper env w = (Ok tt, w')
     ∧ connectionStatus (state w') = Error
     ∧ trace w' = trace w ++ UpdateState (loadingState s) :: events
     ∧ connectionStatus (loadingState s) = Loading
     ∧ Forall isLocalEvent events
     ∧ (∀ p, Call (CallValidateAndSaveProfileFromDialog p)
             ∉ UpdateState (loadingState s) :: events))
  ∧ (∀ c env',
       isParametersOrAzureBrowse (selectedInputMode s) = true →
       "server" ∈ active →
       Obj.get "server" comps = Some c →
       is_true_opt (hidden c) = false →
       validate c = Some (validateServer env') →
       propertyName c = Some "server" →
       profileField s "authenticationType" = AuthenticationType.SqlLogin →
       truthy (profileField s "server") = false →
       Some "server" ∈ errs
       ∧ ∃ w' c',
           connectHelper env w = (Ok tt, w')
           ∧ connectionStatus (state w') = Error
           ∧ Forall isLocalEvent (drop (length (trace w)) (trace w'))
           ∧ Obj.get "server" (components (connectionComponents (state w')))
             = Some c'
           ∧ validation c'
             = Some {| isValid := false;
                       validationMessage := Loc_serverIsRequired (Loc env') |}).
Proof.
  intros s active comps errs Hall.
  assert (Hlocal : Forall isLocalEvent
            ([UpdateState (loadingState s)]
             ++ validatorCalls (validateCtx s) (cleanedProfile s) comps active
             ++ [ConsoleWarn ("One more more inputs have errors: " +:+ join errs)])).
  { apply Forall_app. split; [by apply Forall_singleton|].
    apply Forall_app. split; [apply validatorCalls_local|by apply Forall_singleton]. }
  split; [by apply validation_of_cleaned_copy|].
  split.
  - intros Herrs. eexists _, _. split; [by apply connectHelper_invalid|].
    simpl. split_and!; try done.
    + apply Forall_app. split; [apply validatorCalls_local|by apply Forall_singleton].
    + intros p Hnew.
      rewrite Forall_forall in Hlocal. by apply Hlocal in Hnew.
  - intros c env' Hmode Hactive Hc Hvisible Hvalidate Hname Hauth Hserver.
    assert (Hfalsy : truthy (js_get (cleanedProfile s) "server") = false).
    { unfold js_get, cleanedProfile. rewrite cleanConnection_lookup. simpl.
      unfold isParametersOrAzureBrowse in Hmode.
      destruct (selectedInputMode s); try (simpl in Hmode; discriminate);
        (destruct (decide ("server" ∈ hiddenKeys s)); [done|exact Hserver]). }
    assert (Hverdict : fieldVerdict (validateCtx s) (cleanedProfile s) c
              = Some {| isValid := false;
                        validationMessage := Loc_serverIsRequired (Loc env') |}).
    { unfold fieldVerdict. rewrite Hvisible, Hvalidate, Hname. simpl.
      unfold validateServer. simpl. fold (profileField s "authenticationType").
      rewrite Hauth. unfold strict_eq.
      rewrite bool_decide_eq_true_2 by done. by rewrite Hfalsy. }
    assert (Hin : Some "server" ∈ errs).
    { rewrite <- Hname. by eapply invalidNames_elem. }
    split; [done|].
    assert (Herrs : errs ≠ []) by (intros E; rewrite E in Hin; set_solver).
    exists (extend
              (with_state
                 (set_connectionStatus Error
                    (validatedState (cleanedProfile s) active (loadingState s))) w)
              ([UpdateState (loadingState s)]
               ++ validatorCalls (validateCtx s) (cleanedProfile s) comps active
               ++ [ConsoleWarn ("One more more inputs have errors: " +:+ join errs)])),
      (visitField (validateCtx s) (cleanedProfile s) (set_validation None c)).
    split; [by apply connectHelper_invalid|].
    split; [done|]. split.
    { unfold extend, with_state. cbn [trace]. by rewrite drop_app_length. }
    split.
    { unfold extend, with_state.
      cbn [state set_connectionStatus connectionComponents].
      rewrite validatedState_get.
      unfold loadingState, clearedState.
      cbn [connectionComponents set_connectionStatus set_connectionComponents
           set_components components].
      rewrite clearedComponents_get. fold comps active. rewrite Hc.
      cbn [fmap option_fmap option_map]. by rewrite !decide_True by done. }
    unfold visitField. cbn [validation set_validation]. unfold storedAfter.
    change (hidden (set_validation None c)) with (hidden c).
    rewrite Hvisible.
    change (fieldVerdict (validateCtx s) (cleanedProfile s) (set_validation None c))
      with (fieldVerdict (validateCtx s) (cleanedProfile s) c).
    by rewrite Hverdict.
Qed.

Lemma connectHelper_stops_witness :
  ∃ w',
    connectHelper Sample.env (Sample.opened Sample.env emptyConnection) = (Ok tt, w')
    ∧ connectionStatus (state w') = Error.
Proof.
  destruct (connectHelper_stops_when_validation_fails Sample.env
              (Sample.opened Sample.env emptyConnection))
    as (_ & _ & Hserver).
  - apply (bool_decide_unpack _). vm_compute. reflexivity.
  - destruct (Hserver
                (default emptySpec
                   (Obj.get "server"
                      (components (connectionComponents
                         (state (Sample.opened Sample.env emptyConnection))))))
                Sample.env)
      as (_ & w' & c' & Hrun & Hstatus & _).
    + vm_compute. reflexivity.
    + apply (bool_decide_unpack _). vm_compute. reflexivity.
    + vm_compute. reflexivity.
    + vm_compute. reflexivity.
    + vm_compute. reflexivity.
    + vm_compute. reflexivity.
    + vm_compute. reflexivity.
    + vm_compute. reflexivity.
    + exists w'. split; [exact Hrun|exact Hstatus].
Defined.

(** The run on the sample dialog, opened on the blank profile (SQL login,
    no server, no user): the status ends as Error, the server and the user
    are reported, and the trace holds the state push, the two validator
    calls and the warning, and no call to a collaborator. *)
Example connectHelper_sample_missing_server :
  let w' := (connectHelper Sample.env (Sample.opened Sample.env emptyConnection)).2 in
  connectionStatus (state w') = Error
  ∧ map (λ e, match e with
              | UpdateState s => ConsoleDebug "state pushed"
              | e => e
              end) (trace w')
    = [ ConsoleDebug "state pushed";
        ValidatorCall (Some "server") VUndefined;
        ValidatorCall (Some "user") VUndefined;
        ConsoleWarn "One more more inputs have errors: server, user" ]
  ∧ (validation <$> Obj.get "server" (components (connectionComponents (state w'))))
    = Some (Some {| isValid := false; validationMessage := "Server is required" |}).
Proof. vm_compute. repeat split; reflexivity. Qed.

(** ** Traces only grow *)

Create HintDb appends.

Lemma appends_ret {A} (a : A) : appends (mret a).
Proof. intros w. exists []. simpl. by rewrite app_nil_r. Qed.

Lemma appends_throw {A} e : appends (@throw A e).
Proof. intros w. exists []. simpl. by rewrite app_nil_r. Qed.

Lemma appends_lift {A} (o : Outcome A) : appends (lift o).
Proof. intros w. exists []. simpl. by rewrite app_nil_r. Qed.

Lemma appends_emit e : appends (emit e).
Proof. intros w. by exists [e]. Qed.

Lemma appends_get_state : appends get_state.
Proof. intros w. exists []. simpl. by rewrite app_nil_r. Qed.

Lemma appends_get_connectionToEditCopy : appends get_connectionToEditCopy.
Proof. intros w. exists []. simpl. by rewrite app_nil_r. Qed.

Lemma appends_modify_state f : appends (modify_state f).
Proof. intros w. exists []. simpl. by rewrite app_nil_r. Qed.

Lemma appends_bind {A B} (m : M A) (f : A → M B) :
  appends m → (∀ a, appends (f a)) → appends (m ≫= f).
Proof.
  intros Hm Hf w. unfold mbind, M_bind. destruct (Hm w) as [ev1 H1].
  destruct (m w) as [[a|e] w1]; simpl in *.
  - destruct (Hf a w1) as [ev2 H2]. exists (ev1 ++ ev2).
    by rewrite H2, H1, app_assoc.
  - by exists ev1.
Qed.

Lemma appends_try_catch {A} (m : M A) (h : JsError → M A) :
  appends m → (∀ e, appends (h e)) → appends (try_catch m h).
Proof.
  intros Hm Hh w. unfold try_catch. destruct (Hm w) as [ev1 H1].
  destruct (m w) as [[a|e] w1]; simpl in *.
  - by exists ev1.
  - destruct (Hh e w1) as [ev2 H2]. exists (ev1 ++ ev2).
    by rewrite H2, H1, app_assoc.
Qed.

Lemma appends_call {A} c (answer : Outcome A) : appends (call c answer).
Proof.
  unfold call. apply appends_bind; [apply appends_emit|].
  intros _. apply appends_lift.
Qed.

Lemma appends_updateState : appends updateState.
Proof.
  unfold updateState. apply appends_bind; [apply appends_get_state|].
  intros s. apply appends_emit.
Qed.

Lemma appends_for_of {A} (xs : list A) body :
  (∀ x, appends (body x)) → appends (for_of xs body).
Proof.
  intros Hbody. induction xs as [|x xs IH]; simpl.
  - apply appends_ret.
  - apply appends_bind; [apply Hbody|]. intros _. exact IH.
Qed.

#[global] Hint Resolve appends_ret appends_throw appends_lift appends_emit
  appends_get_state appends_get_connectionToEditCopy appends_modify_state
  appends_call appends_updateState : appends.

(** Split a computation along its binds, handlers and case analyses. *)
Ltac appends_step :=
  first
    [ solve [auto with appends]
    | apply appends_bind; [|intros ?]
    | apply appends_try_catch; [|intros ?]
    | apply appends_for_of; intros ?
    | match goal with
      | |- appends (if ?b then _ else _) => destruct b
      | |- appends (match ?x with _ => _ end) => destruct x
      | |- appends (let '(_, _) := ?x in _) => destruct x
      end ].

Ltac appends := repeat appends_step.

Lemma appends_getTenants env accountId : appends (getTenants env accountId).
Proof. unfold getTenants, getTenants_catch. appends. Qed.

Lemma appends_getAzureActionButtons env : appends (getAzureActionButtons env).
Proof. unfold getAzureActionButtons. appends. Qed.

#[global] Hint Resolve appends_getTenants appends_getAzureActionButtons : appends.

Lemma appends_validateActive p active acc : appends (validateActive p active acc).
Proof.
  revert acc. induction active as [|x rest IH]; intros acc; simpl.
  - apply appends_ret.
  - unfold runValidator. appends; apply IH.
Qed.

Lemma appends_validateConnectionProfile p property :
  appends (validateConnectionProfile p property).
Proof.
  unfold validateConnectionProfile, runValidator.
  appends; apply appends_validateActive.
Qed.

Lemma appends_clearFormError : appends clearFormError.
Proof. unfold clearFormError, assignValidationUndefined. appends. Qed.

Lemma appends_handleConnectionErrorCodes env result :
  appends (handleConnectionErrorCodes env result).
Proof. unfold handleConnectionErrorCodes. appends. Qed.

Lemma appends_afterConnect env : appends (afterConnect env).
Proof. unfold afterConnect, updateLoadedConnections. appends. Qed.

#[global] Hint Resolve appends_validateConnectionProfile appends_clearFormError
  appends_handleConnectionErrorCodes appends_afterConnect : appends.

Lemma appends_attemptConnect env p : appends (attemptConnect env p).
Proof. unfold attemptConnect. appends. Qed.

#[global] Hint Resolve appends_attemptConnect : appends.

Lemma appends_connectHelper env : appends (connectHelper env).
Proof. unfold connectHelper. appends. Qed.

(** ** Recovery from a firewall block *)

(** The world in which the remote attempt is made, when validation passes. *)
Lemma connectHelper_valid env w :
  let s := state w in
  let active := getActiveFormComponents s in
  Forall (λ x, is_Some (Obj.get x (components (connectionComponents s)))) active →
  invalidNames (validateCtx s) (cleanedProfile s)
    (components (connectionComponents s)) active = [] →
  connectHelper env w
  = try_catch
      (continue ← attemptConnect env (cleanedProfile s);
       if continue : bool then afterConnect env else mret tt)
      (λ error,
         modify_state (set_connectionStatus Error);;
         s ← get_state;
         emit (SendErrorEvent TelemetryActions.CreateConnection error None
                 (connectionTelemetry s) []))
      (extend
         (with_state (validatedState (cleanedProfile s) active (loadingState s)) w)
         ([UpdateState (loadingState s)]
          ++ validatorCalls (validateCtx s) (cleanedProfile s)
               (components (connectionComponents s)) active)).
Proof.
  intros s active Hall Herrs.
  unfold connectHelper. unfold mbind at 1, M_bind at 1.
  rewrite (clearFormError_run w Hall).
  unfold mbind at 1, M_bind at 1. cbn [modify_state with_state state].
  unfold mbind at 1, M_bind at 1, updateState at 1.
  unfold mbind at 1, M_bind at 1, get_state at 1. cbn [state].
  fold s. fold (loadingState s). cbn [emit state].
  unfold mbind at 1, M_bind at 1, get_state at 1. cbn [state].
  rewrite loadingState_cleaned.
  unfold mbind at 1, M_bind at 1.
  unfold validateConnectionProfile.
  unfold mbind at 1, M_bind at 1, get_state at 1. cbn [state].
  rewrite validateActive_run by (apply (loadingState_has s Hall)).
  cbn [state app].
  change (getActiveFormComponents (loadingState s)) with active.
  change (validateCtx (loadingState s)) with (validateCtx s).
  change (components (connectionComponents (loadingState s)))
    with (clearedComponents (components (connectionComponents s)) active).
  rewrite invalidNames_cleared, validatorCalls_cleared, Herrs.
  cbn [length Nat.ltb Nat.leb]. f_equal.
  unfold extend, with_state. cbn [state _connectionToEditCopy trace].
  by rewrite <- app_assoc.
Qed.

Lemma handleConnectionErrorCodes_firewall env result w h auth ts :
  connectionCertValidationFailedErrorCode env ≠ connectionFirewallErrorCode env →
  errorNumber result = connectionFirewallErrorCode env →
  handleFirewallRule env (errorNumber result) (errorMessage result) = Ok h →
  confirmVscodeAzureSignin env = Ok (Some auth) →
  authGetTenants auth = Ok ts →
  handleConnectionErrorCodes env result w
  = (Ok tt,
     extend
       (with_state
          (set_dialog
             (Some (AddFirewallRuleDialogProps (errorMessage result)
                      (if hfrResult h then hfrIpAddress h else "0.0.0.0")
                      (map (λ t, (azTenantDisplayName t, azTenantId t)) ts)))
             (set_connectionStatus Error (state w))) w)
       ([Call (CallHandleFirewallRule (errorNumber result) (errorMessage result))]
        ++ (if hfrResult h then []
            else [SendErrorEvent TelemetryActions.AddFirewallRule
                    (JsErrorOf (errorMessage result)) (Some true) [] []])
        ++ [Call CallConfirmVscodeAzureSignin; Call CallAuthGetTenants])).
Proof.
  intros Hdistinct Hcode Hhandle Hauth Htenants. unfold handleConnectionErrorCodes.
  rewrite Hcode.
  rewrite (proj2 (Z.eqb_neq _ _)) by (intros Heq; by apply Hdistinct).
  rewrite Z.eqb_refl. msimpl. rewrite <- Hcode, Hhandle. msimpl.
  destruct (hfrResult h); msimpl; rewrite Hauth; msimpl; rewrite Htenants;
    unfold extend, with_state; simpl; by rewrite <- !app_assoc.
Qed.

(** ** The add-firewall-rule action *)

Arguments connectHelper : simpl never.
Arguments constructAzureAccountForTenant : simpl never.

(** Building the identity for a tenant only calls collaborators. *)
Lemma constructAzureAccountForTenant_frame env tenantId w :
  ∃ calls,
    (constructAzureAccountForTenant env tenantId w).2 = extend w calls
    ∧ Forall (λ e, startsConnect e = false) calls.
Proof.
  unfold constructAzureAccountForTenant. msimpl.
  destruct (confirmVscodeAzureSignin env) as [[a|]|e]; msimpl;
    try (by exists [Call CallConfirmVscodeAzureSignin]; split; [done|repeat constructor]).
  destruct (authGetSubscriptions a false) as [subs|e]; msimpl;
    try (by exists [Call CallConfirmVscodeAzureSignin;
                    Call (CallAuthGetSubscriptions false)];
         split; [unfold extend; simpl; by rewrite <- app_assoc|repeat constructor]).
  destruct (filter _ subs) as [|sub rest]; msimpl;
    try (by exists [Call CallConfirmVscodeAzureSignin;
                    Call (CallAuthGetSubscriptions false)];
         split; [unfold extend; simpl; by rewrite <- app_assoc|repeat constructor]).
  destruct (credentialGetToken sub) as [tok|e]; msimpl;
    try (by exists [Call CallConfirmVscodeAzureSignin;
                    Call (CallAuthGetSubscriptions false);
                    Call (CallCredentialGetToken ".default")];
         split; [unfold extend; simpl; by rewrite <- !app_assoc|repeat constructor]).
  destruct (authenticationGetSession sub) as [session|e]; msimpl;
    exists [Call CallConfirmVscodeAzureSignin;
            Call (CallAuthGetSubscriptions false);
            Call (CallCredentialGetToken ".default");
            Call CallAuthenticationGetSession];
    (split; [unfold extend; simpl; by rewrite <- !app_assoc|repeat constructor]).
Qed.

(** The action, run: it stops when the identity cannot be built, and
    otherwise hands over to the connect flow. *)
Lemma addFirewallRule_run env payload w :
  addFirewallRule env payload w
  = match constructAzureAccountForTenant env (payloadTenantId payload)
            (extend w [ConsoleDebug ("Setting firewall rule: " +:+
                                     payloadDescription payload)]) with
    | (Throw err, w1) =>
        (Ok tt,
         extend
           (with_state
              (set_dialog None
                 (set_formError
                    (creationError env payload (getErrorMessage env err))
                    (state w1))) w1)
           [SendErrorEvent TelemetryActions.AddFirewallRule err (Some false)
              [("failure", PropStr "constructAzureAccountForTenant")] []])
    | (Ok (account, tokenMappings), w1) =>
        match createFirewallRule env
                (firewallRequest payload (state w1) account tokenMappings) with
        | Throw e =>
            (Throw e,
             extend w1
               [Call (CallCreateFirewallRule
                        (firewallRequest payload (state w1) account tokenMappings))])
        | Ok r =>
            connectHelper env
              (extend (with_state (retryState env payload r (state w1)) w1)
                 ([Call (CallCreateFirewallRule
                           (firewallRequest payload (state w1) account tokenMappings))]
                  ++ (if cfrResult r then []
                      else [SendErrorEvent TelemetryActions.AddFirewallRule
                              (JsErrorOf (cfrErrorMessage r)) (Some false)
                              [("failure",
                                PropStr "firewallService.createFirewallRule")] []])
                  ++ [SendActionEvent TelemetryActions.AddFirewallRule [] [];
                      UpdateState (retryState env payload r (state w1))]))
        end
    end.
Proof.
  unfold addFirewallRule, payloadDescription, creationError, retryState,
    firewallRequest, extend, with_state.
  msimpl.
  destruct (constructAzureAccountForTenant env _ _)
    as [[[account tokenMappings]|err] w1]; msimpl; [|reflexivity].
  destruct (createFirewallRule env _) as [r|e]; msimpl; [|reflexivity].
  destruct (cfrResult r); msimpl; f_equal; f_equal; by rewrite <- !app_assoc.
Qed.

Lemma connectHelper_after_loading env :
  connectHelper env
  = (clearFormError;;
     modify_state (set_connectionStatus Loading);;
     updateState;;
     connectAfterLoading env).
Proof. reflexivity. Qed.

Lemma appends_connectAfterLoading env : appends (connectAfterLoading env).
Proof. unfold connectAfterLoading. appends. Qed.

(** A connect attempt on a dialog whose active names all have a field spec
    shows: the view receives the Loading state. *)
Lemma connectHelper_pushes_loading env w :
  Forall (λ x, is_Some (Obj.get x (components (connectionComponents (state w)))))
    (getActiveFormComponents (state w)) →
  ∃ events,
    trace (connectHelper env w).2
    = trace w ++ UpdateState (loadingState (state w)) :: events.
Proof.
  intros Hall. rewrite connectHelper_after_loading.
  unfold mbind at 1, M_bind at 1. rewrite (clearFormError_run w Hall).
  msimpl. fold (loadingState (state w)).
  destruct (appends_connectAfterLoading env
              {| state := loadingState (state w);
                 _connectionToEditCopy := _connectionToEditCopy w;
                 trace := trace w ++ [UpdateState (loadingState (state w))] |})
    as [events Hevents].
  exists events. rewrite Hevents. simpl. by rewrite <- app_assoc.
Qed.

Lemma connectAttempted_false w w' events :
  trace w' = trace w ++ events →
  Forall (λ e, startsConnect e = false) events →
  connectAttempted w w' = false.
Proof.
  intros Htrace Hall. unfold connectAttempted. rewrite Htrace, drop_app_length.
  clear Htrace. induction Hall as [|e events He _ IH]; simpl; [done|].
  rewrite He. exact IH.
Qed.

Lemma connectAttempted_true w w' before s after :
  trace w' = trace w ++ before ++ UpdateState s :: after →
  connectionStatus s = Loading →
  connectAttempted w w' = true.
Proof.
  intros Htrace Hs. unfold connectAttempted. rewrite Htrace, drop_app_length.
  rewrite existsb_app. simpl. rewrite Hs.
  rewrite bool_decide_eq_true_2 by done. simpl. apply orb_true_r.
Qed.

(** A connect attempt starts by emptying the form error: it runs the same
    from a state that had none. *)
Lemma connectHelper_clears_formError env w :
  connectHelper env w
  = connectHelper env (with_state (set_formError "" (state w)) w).
Proof. unfold connectHelper, clearFormError. msimpl. reflexivity. Qed.

(** C7 (amended).  The add-firewall-rule action, in the two outcomes in
    which the firewall service does not throw.  When the identity for the
    tenant cannot be built, the recovery dialog is cleared, the failure is
    recorded as the form-level error, and the action stops there: the
    connect flow is not retried.  When the identity is built and the
    firewall service answers, whether or not it created the rule, the
    recovery dialog is cleared, a creation failure the service reports is
    recorded as the form-level error, the resulting state is pushed to the
    view, and the action continues as a connect attempt from that state.
    That attempt starts by emptying the form error, so the creation failure
    is to be seen in the pushed state only. *)
Theorem addFirewallRule_clears_dialog_and_retries_once_identity_is_built
    (env : Env) (payload : AddFirewallRulePayload) (w : World) :
  let built :=
    constructAzureAccountForTenant env (payloadTenantId payload)
      (extend w [ConsoleDebug ("Setting firewall rule: " +:+
                               payloadDescription payload)]) in
  (∀ err, built.1 = Throw err →
     ∃ w',
       addFirewallRule env payload w = (Ok tt, w')
       ∧ dialog (state w') = None
       ∧ formError (state w')
         = creationError env payload (getErrorMessage env err)
       ∧ connectionStatus (state w') = connectionStatus (state w)
       ∧ connectAttempted w w' = false)
  ∧ (∀ account tokenMappings r,
       built.1 = Ok (account, tokenMappings) →
       createFirewallRule env
         (firewallRequest payload (state w) account tokenMappings) = Ok r →
       ∃ w2 before,
         addFirewallRule env payload w = connectHelper env w2
         ∧ state w2 = retryState env payload r (state w)
         ∧ dialog (state w2) = None
         ∧ (cfrResult r = false →
            formError (state w2)
            = creationError env payload (cfrErrorMessage r))
         ∧ trace w2 = trace w ++ before ++ [UpdateState (state w2)]
         ∧ connectHelper env w2
           = connectHelper env (with_state (set_formError "" (state w2)) w2)
         ∧ (Forall (λ x, is_Some (Obj.get x (components
                                    (connectionComponents (state w)))))
              (getActiveFormComponents (state w)) →
            connectAttempted w (connectHelper env w2).2 = true)).
Proof.
  intros built.
  destruct (constructAzureAccountForTenant_frame env (payloadTenantId payload)
              (extend w [ConsoleDebug ("Setting firewall rule: " +:+
                                       payloadDescription payload)]))
    as (calls & Hframe & Hcalls).
  fold built in Hframe. split.
  - intros err Herr. rewrite addFirewallRule_run. fold built.
    destruct built as [[[account tokenMappings]|err'] w1]; simpl in *; [done|].
    injection Herr as ->. subst w1. eexists. split; [reflexivity|].
    simpl. split_and!; try done.
    eapply connectAttempted_false.
    + simpl. rewrite <- !app_assoc. reflexivity.
    + simpl. constructor; [done|]. apply Forall_app. split; [done|].
      by repeat constructor.
  - intros account tokenMappings r Hbuilt Hcreate.
    rewrite addFirewallRule_run. fold built.
    destruct built as [[[account' tokenMappings']|err'] w1]; simpl in *; [|done].
    injection Hbuilt as -> ->. subst w1. simpl. rewrite Hcreate.
    eexists _,
      ([ConsoleDebug ("Setting firewall rule: " +:+ payloadDescription payload)]
       ++ calls
       ++ [Call (CallCreateFirewallRule
                   (firewallRequest payload (state w) account tokenMappings))]
       ++ (if cfrResult r then []
           else [SendErrorEvent TelemetryActions.AddFirewallRule
                   (JsErrorOf (cfrErrorMessage r)) (Some false)
                   [("failure", PropStr "firewallService.createFirewallRule")] []])
       ++ [SendActionEvent TelemetryActions.AddFirewallRule [] []]).
    split; [reflexivity|]. simpl.
    split_and!; try done.
    + intros Hfailed. unfold retryState. by rewrite Hfailed.
    + rewrite <- !app_assoc. simpl. by rewrite <- !app_assoc.
    + intros Hall.
      match goal with |- connectAttempted w (connectHelper env ?w2).2 = true =>
        destruct (connectHelper_pushes_loading env w2) as [events Hevents]
      end.
      { simpl. unfold retryState. by destruct (cfrResult r). }
      apply (connectAttempted_true w _
               ([ConsoleDebug ("Setting firewall rule: " +:+
                               payloadDescription payload)]
                ++ calls
                ++ [Call (CallCreateFirewallRule
                            (firewallRequest payload (state w) account tokenMappings))]
                ++ (if cfrResult r then []
                    else [SendErrorEvent TelemetryActions.AddFirewallRule
                            (JsErrorOf (cfrErrorMessage r)) (Some false)
                            [("failure",
                              PropStr "firewallService.createFirewallRule")] []])
                ++ [SendActionEvent TelemetryActions.AddFirewallRule [] [];
                    UpdateState (retryState env payload r (state w))])
               (loadingState (retryState env payload r (state w))) events);
        [|reflexivity].
      rewrite Hevents. simpl. rewrite <- !app_assoc. simpl.
      by rewrite <- !app_assoc.
Qed.

Lemma addFirewallRule_witness :
  ∃ w2,
    addFirewallRule Sample.env
      {| payloadName := "ClientIPAddress"; payloadIp := IpString "203.0.113.7";
         payloadTenantId := "tenant-a" |}
      (connectHelper Sample.env (Sample.opened Sample.env Sample.sqlProfile)).2
    = connectHelper Sample.env w2
    ∧ dialog (state w2) = None.
Proof.
  destruct (addFirewallRule_clears_dialog_and_retries_once_identity_is_built
              Sample.env
              {| payloadName := "ClientIPAddress"; payloadIp := IpString "203.0.113.7";
                 payloadTenantId := "tenant-a" |}
              (connectHelper Sample.env
                 (Sample.opened Sample.env Sample.sqlProfile)).2)
    as [_ Hretry].
  destruct (Hretry (constructedAccount Sample.subscriptionA
                      {| sessionLabel := "alice"; sessionAccountType := "microsoft" |})
              [("tenant-a", "token-1")]
              {| cfrResult := true; cfrErrorMessage := "" |})
    as (w2 & before & Hrun & _ & Hdialog & _).
  - vm_compute. reflexivity.
  - reflexivity.
  - exists w2. split; [exact Hrun|exact Hdialog].
Defined.

(** The action for a tenant without a subscription, after the sample connect
    attempt opened the firewall dialog: the identity cannot be built, the
    dialog is cleared, the failure is the form error, and no connect
    attempt follows: the connect flow is not retried whatever the
    outcome. *)
Lemma addFirewallRule_identity_failure_is_not_retried :
  let payload :=
    {| payloadName := "ClientIPAddress"; payloadIp := IpString "203.0.113.7";
       payloadTenantId := "tenant-x" |} in
  let w := (connectHelper Sample.env
              (Sample.opened Sample.env Sample.sqlProfile)).2 in
  let w' := (addFirewallRule Sample.env payload w).2 in
  is_Some (dialog (state w))
  ∧ dialog (state w') = None
  ∧ formError (state w') ≠ ""
  ∧ ¬ firewallActionRetries Sample.env payload w.
Proof.
  intros payload w w'. split_and!.
  - vm_compute. by eexists.
  - vm_compute. reflexivity.
  - vm_compute. discriminate.
  - unfold firewallActionRetries. vm_compute. discriminate.
Qed.

(** The same action for a tenant with a subscription: the rule is created,
    the connect flow is retried, and since the sample server keeps
    answering with the firewall code the retry opens the dialog again. *)
Example addFirewallRule_sample_retry :
  let payload :=
    {| payloadName := "ClientIPAddress"; payloadIp := IpString "203.0.113.7";
       payloadTenantId := "tenant-a" |} in
  let w := (connectHelper Sample.env
              (Sample.opened Sample.env Sample.sqlProfile)).2 in
  let w' := (addFirewallRule Sample.env payload w).2 in
  firewallActionRetries Sample.env payload w
  ∧ is_Some (dialog (state w')).
Proof.
  intros payload w w'. split.
  - unfold firewallActionRetries. vm_compute. reflexivity.
  - vm_compute. by eexists.
Qed.

(** ** MFA side effects *)

Arguments getTenants : simpl never.
Arguments getAzureActionButtons : simpl never.

Lemma getAzureActionButtons_answer env w :
  ∃ calls,
    getAzureActionButtons env w
    = (azureButtonsFor env (profileField (state w) "authenticationType")
         (profileField (state w) "accountId"),
       extend w calls).
Proof.
  unfold getAzureActionButtons, azureButtonsFor. msimpl.
  destruct (strict_eq _ _ && truthy _).
  - msimpl. destruct (getAccountsService env) as [accounts|e]; msimpl.
    + destruct (findAccount _ accounts) as [[a|]|e]; msimpl.
      * destruct (getAccountSecurityToken env a) as [session|e]; msimpl.
        -- destruct (isTokenInValid env _ _); msimpl;
             eexists [_; _]; unfold extend; simpl; by rewrite <- app_assoc.
        -- eexists [_; _]. unfold extend. simpl. by rewrite <- app_assoc.
      * by eexists [_].
      * by eexists [_].
    + by eexists [_].
  - exists []. by rewrite extend_nil.
Qed.

Lemma profileField_setProfileField k v s k' :
  profileField (setProfileField k v s) k'
  = if decide (k = k') then v else profileField s k'.
Proof.
  unfold profileField, setProfileField, js_get. simpl.
  case_decide as Hk.
  - subst k'. by rewrite lookup_insert_eq.
  - by rewrite lookup_insert_ne.
Qed.

Lemma getFormComponent_Some s key c :
  getFormComponent s key = Some c →
  Obj.get key (components (connectionComponents s)) = Some c.
Proof. unfold getFormComponent. by destruct (includes _ key). Qed.

Lemma withTenants_profile tenants s key :
  key ≠ "tenantId" →
  profileField (withTenants tenants s) key = profileField s key.
Proof.
  intros Hkey. unfold withTenants. destruct tenants as [|first rest]; [done|].
  rewrite profileField_setProfileField. by rewrite decide_False.
Qed.

Lemma refreshTenantsAndButtons_run env w ac tc buttons :
  let s := state w in
  let tenants := tenantLookup env (profileField s "accountId") in
  azureButtonsFor env (profileField s "authenticationType")
    (profileField s "accountId") = Ok buttons →
  ∃ calls,
    refreshTenantsAndButtons env (Some ac) (Some tc) w
    = (Ok tt,
       extend
         (with_state
            (update_component "accountId" (set_actionButtons (Some buttons))
               (withTenants tenants s)) w)
         calls).
Proof.
  intros s tenants Hbuttons. unfold refreshTenantsAndButtons.
  unfold mbind at 1, M_bind at 1, get_state at 1.
  unfold mbind at 1, M_bind at 1. fold s.
  destruct (getTenants_answer env (profileField s "accountId") w) as [ev1 ->].
  fold tenants.
  set (w1 := extend (with_state (withTenants tenants s) w) ev1).
  assert (Hmid : ∀ (k : M unit),
    ((modify_state (update_component "tenantId" (set_options (Some tenants)));;
      match tenants with
      | first :: _ =>
          modify_state (setProfileField "tenantId" (VStr (optValue first)))
      | [] => mret tt
      end);; k) (extend w ev1) = k w1).
  { intros k. unfold w1, withTenants. destruct tenants as [|first rest]; reflexivity. }
  rewrite Hmid.
  unfold mbind at 1, M_bind at 1.
  destruct (getAzureActionButtons_answer env w1) as [ev2 ->].
  unfold w1 at 1 2. cbn [state extend with_state].
  rewrite !withTenants_profile by done. fold s. rewrite Hbuttons.
  exists (ev1 ++ ev2). unfold modify_state, w1, extend, with_state. simpl.
  by rewrite <- app_assoc.
Qed.

(** C8 (amended).  Under Azure MFA, with the account and tenant fields
    active, an edit of account-id or of the authentication type, when the
    buttons of the account field can be built (listing the accounts,
    finding the account and fetching its token do not throw) and, on an
    edit of the authentication type, the account field carries its list of
    options, makes the handler fetch the tenants of the account at hand (on
    an edit of the authentication type: the first account the account field
    offers, which it selects), fill the tenant field with them, select the
    first tenant whenever there is one, and rebuild the buttons of the
    account field: sign-in first, and token-refresh exactly when the cached
    token of that account is expired.  An edit of tenant-id changes
    nothing, and neither does any edit when the authentication type is not
    Azure MFA. *)
Theorem handleAzureMFAEdits_refreshes_on_account_and_auth_edits
    (env : Env) (w : World) (property : string) :
  let s := state w in
  (property = "tenantId"
   ∨ profileField s "authenticationType" ≠ AuthenticationType.AzureMFA →
   handleAzureMFAEdits env property w = (Ok tt, w))
  ∧ (∀ ac tc buttons,
       profileField s "authenticationType" = AuthenticationType.AzureMFA →
       property = "accountId" ∨ property = "authenticationType" →
       getFormComponent s "accountId" = Some ac →
       getFormComponent s "tenantId" = Some tc →
       (property = "authenticationType" → is_Some (options ac)) →
       let account := selectedAccount s property ac in
       let tenants := tenantLookup env account in
       azureButtonsFor env AuthenticationType.AzureMFA account = Ok buttons →
       ∃ w',
         handleAzureMFAEdits env property w = (Ok tt, w')
         ∧ profileField (state w') "accountId" = account
         ∧ profileField (state w') "tenantId" = selectedTenant s tenants
         ∧ (options <$> Obj.get "tenantId"
                          (components (connectionComponents (state w'))))
           = Some (Some tenants)
         ∧ (actionButtons <$> Obj.get "accountId"
                                (components (connectionComponents (state w'))))
           = Some (Some buttons)
         ∧ head buttons = Some (signInButton env)
         ∧ (refreshTokenButton env ∈ buttons ↔ tokenExpired env account)).
Proof.
  intros s. split.
  - intros Hcase. unfold handleAzureMFAEdits.
    destruct (includes _ property) eqn:Hincl; [|done].
    unfold mbind, M_bind, get_state. fold s.
    destruct (strict_eq (profileField s "authenticationType")
                AuthenticationType.AzureMFA) eqn:Hmfa; [|done].
    destruct Hcase as [->|Hne]; [done|].
    apply bool_decide_eq_true_1 in Hmfa. done.
  - intros ac tc buttons Hauth Hproperty Hac Htc Hoptions account tenants Hbuttons.
    pose proof (getFormComponent_Some _ _ _ Hac) as Hgetac.
    pose proof (getFormComponent_Some _ _ _ Htc) as Hgettc.
    assert (Hhead : head buttons = Some (signInButton env)
                    ∧ (refreshTokenButton env ∈ buttons ↔ tokenExpired env account)).
    { revert Hbuttons. unfold azureButtonsFor, tokenExpired.
      unfold strict_eq. rewrite bool_decide_eq_true_2 by done. simpl.
      destruct (truthy account) eqn:Htruthy.
      - destruct (getAccountsService env) as [accounts|e]; [|done].
        destruct (findAccount account accounts) as [[a|]|e] eqn:Hfind; [| |done].
        + destruct (getAccountSecurityToken env a) as [session|e] eqn:Htoken;
            [|done].
          destruct (isTokenInValid env _ _) eqn:Hexpired; intros [= <-].
          * split; [done|]. split; [|set_solver]. intros _.
            by exists accounts, a, session.
          * split; [done|]. split.
            -- intros Hin. apply list_elem_of_singleton in Hin. discriminate.
            -- intros (accounts' & a' & session' & _ & [= <-] & Hf & Ht & Hx).
               rewrite Hfind in Hf. injection Hf as <-.
               rewrite Htoken in Ht. injection Ht as <-. congruence.
        + intros [= <-]. split; [done|]. split.
          * intros Hin. apply list_elem_of_singleton in Hin. discriminate.
          * intros (accounts' & a' & session' & _ & [= <-] & Hf & _).
            rewrite Hfind in Hf. discriminate.
      - intros [= <-]. split; [done|]. split.
        + intros Hin. apply list_elem_of_singleton in Hin. discriminate.
        + intros (? & ? & ? & Ht & _). discriminate. }
    assert (Hincl : includes ["accountId"; "tenantId"; "authenticationType"]
                      property = true)
      by (destruct Hproperty as [-> | ->]; reflexivity).
    (* the state in which the shared lines run *)
    set (s0 := if String.eqb property "authenticationType"
               then match options ac with
                    | Some (firstOption :: _) =>
                        setProfileField "accountId" (VStr (optValue firstOption)) s
                    | _ => s
                    end
               else s).
    assert (Haccount : profileField s0 "accountId" = account).
    { subst s0 account. unfold selectedAccount.
      destruct (String.eqb property "authenticationType"); [|done].
      destruct (options ac) as [[|firstOption rest]|]; try done.
      by rewrite profileField_setProfileField. }
    assert (Hauth0 : profileField s0 "authenticationType"
                     = AuthenticationType.AzureMFA).
    { subst s0. destruct (String.eqb property "authenticationType"); [|done].
      destruct (options ac) as [[|firstOption rest]|]; try done.
      by rewrite profileField_setProfileField. }
    assert (Htenant0 : profileField s0 "tenantId" = profileField s "tenantId").
    { subst s0. destruct (String.eqb property "authenticationType"); [|done].
      destruct (options ac) as [[|firstOption rest]|]; try done.
      by rewrite profileField_setProfileField. }
    assert (Hcomps0 : connectionComponents s0 = connectionComponents s).
    { subst s0. destruct (String.eqb property "authenticationType"); [|done].
      by destruct (options ac) as [[|firstOption rest]|]. }
    assert (Hrun : handleAzureMFAEdits env property w
                   = refreshTenantsAndButtons env (Some ac) (Some tc)
                       (with_state s0 w)).
    { assert (Hw : with_state s w = w) by (clear; subst s; by destruct w).
      unfold handleAzureMFAEdits. rewrite Hincl.
      unfold mbind at 1, M_bind at 1, get_state at 1. fold s.
      rewrite Hauth. unfold strict_eq at 1. rewrite bool_decide_eq_true_2 by done.
      cbn [negb]. rewrite Hac, Htc. subst s0.
      destruct Hproperty as [-> | ->].
      - cbn [String.eqb Ascii.eqb Bool.eqb]. by rewrite Hw.
      - cbn [String.eqb Ascii.eqb Bool.eqb].
        destruct (Hoptions eq_refl) as [opts Hopts]. rewrite Hopts.
        destruct opts as [|firstOption rest]; msimpl; [|reflexivity].
        by rewrite Hw. }
    rewrite Hrun.
    destruct (refreshTenantsAndButtons_run env (with_state s0 w) ac tc buttons)
      as [calls ->].
    { cbn [state with_state]. by rewrite Hauth0, Haccount. }
    cbn [state with_state]. rewrite Haccount. fold tenants.
    eexists. split; [reflexivity|]. cbn [state extend with_state].
    change (profileField (update_component "accountId"
                            (set_actionButtons (Some buttons))
                            (withTenants tenants s0)) "accountId")
      with (profileField (withTenants tenants s0) "accountId").
    change (profileField (update_component "accountId"
                            (set_actionButtons (Some buttons))
                            (withTenants tenants s0)) "tenantId")
      with (profileField (withTenants tenants s0) "tenantId").
    split_and!; try apply Hhead.
    + by rewrite withTenants_profile.
    + unfold withTenants, selectedTenant.
      destruct tenants as [|first rest]; [exact Htenant0|].
      by rewrite profileField_setProfileField.
    + unfold update_component at 1.
      cbn [connectionComponents set_connectionComponents components set_components].
      rewrite Obj_get_update.
      change ("accountId" =? "tenantId")%string with false. cbn iota.
      unfold withTenants.
      destruct tenants as [|first rest];
        cbn [setProfileField update_component connectionComponents
             set_connectionProfile set_connectionComponents components
             set_components];
        by rewrite Obj_get_update, Hcomps0, Hgettc.
    + unfold update_component at 1.
      cbn [connectionComponents set_connectionComponents components set_components].
      rewrite Obj_get_update.
      change ("accountId" =? "accountId")%string with true. cbn iota.
      unfold withTenants.
      destruct tenants as [|first rest];
        cbn [setProfileField update_component connectionComponents
             set_connectionProfile set_connectionComponents components
             set_components];
        by rewrite Obj_get_update, Hcomps0, Hgetac.
Qed.

Lemma handleAzureMFAEdits_witness :
  ∃ w',
    handleAzureMFAEdits Sample.env "accountId"
      (Sample.opened Sample.env (Sample.mfaProfile "alice")) = (Ok tt, w')
    ∧ profileField (state w') "tenantId" = VStr "tenant-a"
    ∧ (actionButtons <$> Obj.get "accountId"
                           (components (connectionComponents (state w'))))
      = Some (Some [signInButton Sample.env; refreshTokenButton Sample.env]).
Proof.
  destruct (handleAzureMFAEdits_refreshes_on_account_and_auth_edits Sample.env
              (Sample.opened Sample.env (Sample.mfaProfile "alice")) "accountId")
    as [_ Hedit].
  destruct (Hedit
              (default emptySpec
                 (Obj.get "accountId"
                    (components (connectionComponents
                       (state (Sample.opened Sample.env (Sample.mfaProfile "alice")))))))
              (default emptySpec
                 (Obj.get "tenantId"
                    (components (connectionComponents
                       (state (Sample.opened Sample.env (Sample.mfaProfile "alice")))))))
              [signInButton Sample.env; refreshTokenButton Sample.env])
    as (w' & Hrun & _ & Htenant & _ & Hbuttons & _).
  - vm_compute. reflexivity.
  - by left.
  - vm_compute. reflexivity.
  - vm_compute. reflexivity.
  - intros [=].
  - vm_compute. reflexivity.
  - exists w'. split; [exact Hrun|]. split; [|exact Hbuttons].
    rewrite Htenant. vm_compute. reflexivity.
Defined.

(** An edit of tenant-id under Azure MFA on the sample dialog, for an
    account with two tenants and the second one selected: the handler
    fetches nothing and leaves the profile as it is; it does not fetch the
    tenants nor select the first one. *)
Lemma handleAzureMFAEdits_tenant_edit_changes_nothing :
  let w :=
    Sample.opened Sample.env
      (<["tenantId" := VStr "tenant-b"]> (Sample.mfaProfile "alice")) in
  let w' := (handleAzureMFAEdits Sample.env "tenantId" w).2 in
  profileField (state w) "authenticationType" = AuthenticationType.AzureMFA
  ∧ tenantLookup Sample.env (profileField (state w) "accountId")
    = [ {| optDisplayName := "Tenant A"; optValue := "tenant-a" |};
        {| optDisplayName := "Tenant B"; optValue := "tenant-b" |} ]
  ∧ profileField (state w') "tenantId" = VStr "tenant-b"
  ∧ profileField (state w') "tenantId"
    ≠ selectedTenant (state w)
        (tenantLookup Sample.env (profileField (state w) "accountId"))
  ∧ trace w' = []
  ∧ (options <$> Obj.get "tenantId" (components (connectionComponents (state w'))))
    = Some (Some []).
Proof.
  intros w w'. split_and!; try (vm_compute; reflexivity).
  vm_compute. discriminate.
Qed.

(** ** Further checks on the sample dialog *)

(** Array-index keys are the canonical decimal numerals below [2^32 - 1];
    they are enumerated first, in ascending order. *)
Example array_index_keys :
  Obj.array_index "0" = Some 0%N
  ∧ Obj.array_index "42" = Some 42%N
  ∧ Obj.array_index "042" = None
  ∧ Obj.array_index "4294967294" = Some 4294967294%N
  ∧ Obj.array_index "4294967295" = None
  ∧ Obj.array_index "port" = None
  ∧ Obj.keys (Obj.set "7" 1 (Obj.set "b" 2 (Obj.set "10" 3 (Obj.set "a" 4 []))))
    = ["7"; "10"; "a"; "b"].
Proof. vm_compute. repeat split; reflexivity. Qed.

Lemma groupAdvancedOptions_witness :
  ∃ g id,
    (Some "pooling", Some g) ∈ groupAdvancedOptions_map Sample.info
    ∧ Some "pooling" = Some id
    ∧ groupName g
      = Some (categoryLabel (groupDisplayNames Sample.capabilities) id).
Proof.
  assert (Hg : (Some "pooling",
                Some {| groupName := Some "Pooling";
                        groupOptions := [Some "pooling"] |})
               ∈ groupAdvancedOptions_map Sample.info).
  { vm_compute.
    repeat first [apply list_elem_of_here | apply list_elem_of_further]. }
  assert (Hgen : generateConnectionComponents Sample.env
                   (worldOf (set_connectionProfile emptyConnection initialState))
                 = (Ok (components Sample.info),
                    (generateConnectionComponents Sample.env
                       (worldOf (set_connectionProfile emptyConnection
                                   initialState))).2)).
  { vm_compute. reflexivity. }
  destruct (groupAdvancedOptions_groups_by_category Sample.info)
    as (_ & _ & _ & _ & Hlabel).
  destruct (Hlabel Sample.env _ Sample.capabilities _ eq_refl Hgen _ _ Hg)
    as (id & Hid & Hname).
  exists {| groupName := Some "Pooling"; groupOptions := [Some "pooling"] |}, id.
  split; [exact Hg|]. split; [exact Hid|exact Hname].
Defined.

(** Cleaning on the sample dialog.  Under SQL login the account and tenant
    fields are hidden: in Parameters mode their keys and the connection
    string are set to [undefined] and the rest stays; in ConnectionString
    mode only the connection string and the profile name survive. *)
Example cleanConnection_sample :
  let s := state (Sample.opened Sample.env Sample.sqlProfile) in
  let p := <["connectionString" := VStr "Server=localhost"]>
             (<["profileName" := VStr "local"]> Sample.sqlProfile) in
  map_to_list (cleanConnection s p)
  ≡ₚ [ ("authenticationType", VStr "SqlLogin"); ("server", VStr "localhost");
       ("user", VStr "sa"); ("password", VStr "secret");
       ("profileName", VStr "local"); ("connectionString", VUndefined);
       ("accountId", VUndefined); ("tenantId", VUndefined) ]
  ∧ map_to_list
      (cleanConnection
         (set_connectionComponents (connectionComponents s)
            {| connectionProfile := p; savedConnections := [];
               recentConnections := []; selectedInputMode := ConnectionString;
               connectionComponents := connectionComponents s;
               azureSubscriptions := []; azureServers := [];
               connectionStatus := NotStarted; formError := "";
               loadingAzureSubscriptionsStatus := NotStarted;
               loadingAzureServersStatus := NotStarted; dialog := None |}) p)
    ≡ₚ [ ("authenticationType", VUndefined); ("server", VUndefined);
         ("user", VUndefined); ("password", VUndefined);
         ("profileName", VStr "local");
         ("connectionString", VStr "Server=localhost");
         ("accountId", VUndefined); ("tenantId", VUndefined) ].
Proof.
  intros s p. split.
  - apply (bool_decide_unpack _). vm_compute. reflexivity.
  - apply (bool_decide_unpack _). vm_compute. reflexivity.
Qed.

(** An active name without a field spec is not a field: reading its
    members throws, in [clearFormError] before the status is touched and in
    the whole-form loop. *)
Example active_name_without_field_spec :
  let s :=
    set_connectionComponents
      {| components := []; mainOptions := ["server"]; topAdvancedOptions := [];
         groupedAdvancedOptions := [] |} initialState in
  (connectHelper Sample.env (worldOf s)).1 = Throw (JsTypeError "validation")
  ∧ connectionStatus (state (connectHelper Sample.env (worldOf s)).2) = NotStarted
  ∧ (validateConnectionProfile ∅ None (worldOf s)).1 = Throw (JsTypeError "hidden").
Proof. vm_compute. repeat split; reflexivity. Qed.

(** ** Outcomes of a connect attempt *)

Lemma attemptState_frame s :
  connectionProfile (attemptState s) = connectionProfile s
  ∧ selectedInputMode (attemptState s) = selectedInputMode s
  ∧ connectionStatus (attemptState s) = Loading
  ∧ formError (attemptState s) = ""
  ∧ dialog (attemptState s) = dialog s.
Proof.
  unfold attemptState.
  destruct (validatedState_frame (cleanedProfile s) (getActiveFormComponents s)
              (loadingState s)) as (-> & -> & -> & -> & -> & _).
  done.
Qed.

(** The connect flow from the point where the remote connect is attempted. *)
Lemma connectHelper_attempt env w :
  let s := state w in
  let active := getActiveFormComponents s in
  Forall (λ x, is_Some (Obj.get x (components (connectionComponents s)))) active →
  invalidNames (validateCtx s) (cleanedProfile s)
    (components (connectionComponents s)) active = [] →
  connectHelper env w
  = try_catch
      (continue ← attemptConnect env (cleanedProfile s);
       if continue : bool then afterConnect env else mret tt)
      (λ error,
         modify_state (set_connectionStatus Error);;
         s ← get_state;
         emit (SendErrorEvent TelemetryActions.CreateConnection error None
                 (connectionTelemetry s) []))
      (attemptWorld w).
Proof. intros s active Hall Hvalid. by apply connectHelper_valid. Qed.

Lemma connectHelper_stopped env w w1 :
  let s := state w in
  let active := getActiveFormComponents s in
  Forall (λ x, is_Some (Obj.get x (components (connectionComponents s)))) active →
  invalidNames (validateCtx s) (cleanedProfile s)
    (components (connectionComponents s)) active = [] →
  attemptConnect env (cleanedProfile s) (attemptWorld w) = (Ok false, w1) →
  connectHelper env w = (Ok tt, w1).
Proof.
  intros s active Hall Hvalid Hattempt.
  rewrite (connectHelper_attempt env w Hall Hvalid). fold s.
  unfold try_catch, mbind, M_bind. by rewrite Hattempt.
Qed.

(** The remote connect, when the service answers. *)
Lemma attemptConnect_answered env p w r :
  validateAndSaveProfileFromDialog env p = Ok r →
  attemptConnect env p w
  = if String.eqb (errorMessage r) "" then
      (Ok true, extend w [Call (CallValidateAndSaveProfileFromDialog p)])
    else
      match handleConnectionErrorCodes env r
              (extend w [Call (CallValidateAndSaveProfileFromDialog p)]) with
      | (Ok _, w') => (Ok false, w')
      | (Throw e, w') =>
          (Ok false,
           extend
             (with_state
                (set_connectionStatus Error
                   (set_formError (getErrorMessage env e) (state w'))) w')
             [SendErrorEvent TelemetryActions.CreateConnection e (Some false)
                (connectionTelemetry (state w')) []])
      end.
Proof.
  intros Hr. unfold attemptConnect, try_catch at 1.
  unfold mbind at 1, M_bind at 1, call at 1.
  unfold mbind at 1, M_bind at 1. cbn [emit lift]. rewrite Hr.
  fold (extend w [Call (CallValidateAndSaveProfileFromDialog p)]).
  destruct (String.eqb (errorMessage r) ""); cbn [negb]; [reflexivity|].
  unfold mbind at 1, M_bind at 1.
  destruct (handleConnectionErrorCodes env r _) as [[[]|e] w']; [reflexivity|].
  reflexivity.
Qed.

Lemma drop_trace_attemptWorld w events :
  drop (length (trace w)) (trace (attemptWorld w) ++ events)
  = [UpdateState (loadingState (state w))]
    ++ validatorCalls (validateCtx (state w)) (cleanedProfile (state w))
         (components (connectionComponents (state w)))
         (getActiveFormComponents (state w))
    ++ events.
Proof.
  unfold attemptWorld, extend, with_state. cbn [trace].
  rewrite <- !app_assoc. by rewrite drop_app_length.
Qed.

Lemma validatorCalls_no_telemetry ctx p comps active :
  Forall (λ e, isTelemetryEvent e = false) (validatorCalls ctx p comps active).
Proof.
  unfold validatorCalls. induction active as [|x rest IH]; simpl; [done|].
  apply Forall_app. split; [|done].
  destruct (Obj.get x comps) as [c|]; [|done].
  destruct (fieldVerdict ctx p c); [|done]. by apply Forall_singleton.
Qed.

(** X1.  When validation passes and the remote connect answers with an
    error message and the certificate-validation code, the connect attempt
    ends with status Error and the trust-server-certificate dialog open on
    that message; the form error stays empty and nothing is reported to
    telemetry: after the validator calls the only event is the remote
    call. *)
Theorem connectHelper_certificate_error_opens_trust_dialog
    (env : Env) (w : World) (result : ConnectionCompleteParams) :
  let s := state w in
  let active := getActiveFormComponents s in
  Forall (λ x, is_Some (Obj.get x (components (connectionComponents s)))) active →
  invalidNames (validateCtx s) (cleanedProfile s)
    (components (connectionComponents s)) active = [] →
  validateAndSaveProfileFromDialog env (cleanedProfile s) = Ok result →
  errorMessage result ≠ "" →
  errorNumber result = connectionCertValidationFailedErrorCode env →
  ∃ w',
    connectHelper env w = (Ok tt, w')
    ∧ connectionStatus (state w') = Error
    ∧ dialog (state w')
      = Some (TrustServerCertDialogProps (errorMessage result))
    ∧ formError (state w') = ""
    ∧ connectionProfile (state w') = connectionProfile s
    ∧ trace w'
      = trace (attemptWorld w)
        ++ [Call (CallValidateAndSaveProfileFromDialog (cleanedProfile s))]
    ∧ Forall (λ e, isTelemetryEvent e = false) (drop (length (trace w)) (trace w')).
Proof.
  intros s active Hall Hvalid Hsave Hmsg Hcode.
  apply String.eqb_neq in Hmsg.
  eexists. split.
  { apply (connectHelper_stopped env w _ Hall Hvalid). fold s.
    rewrite (attemptConnect_answered env _ _ result Hsave), Hmsg.
    unfold handleConnectionErrorCodes. rewrite Hcode, Z.eqb_refl.
    unfold mbind, M_bind, modify_state. reflexivity. }
  destruct (attemptState_frame s) as (Hprofile & _ & _ & Hform & _).
  cbn [state trace extend with_state attemptWorld connectionStatus dialog formError
       connectionProfile set_dialog set_connectionStatus].
  split_and!; try done.
  rewrite <- app_assoc, drop_app_length.
  apply Forall_app. split; [|by apply Forall_singleton].
  apply Forall_app. split; [by apply Forall_singleton|].
  apply validatorCalls_no_telemetry.
Qed.

Lemma connectHelper_certificate_error_witness :
  ∃ w',
    connectHelper
      (Outcomes.envWith (Outcomes.refused (-2146893019))
         (Ok (Some Sample.signedIn)) Outcomes.hostOk)
      Outcomes.sqlDialog = (Ok tt, w')
    ∧ dialog (state w') = Some (TrustServerCertDialogProps "Login failed.").
Proof.
  destruct (connectHelper_certificate_error_opens_trust_dialog
              (Outcomes.envWith (Outcomes.refused (-2146893019))
                 (Ok (Some Sample.signedIn)) Outcomes.hostOk)
              Outcomes.sqlDialog
              {| errorMessage := "Login failed."; errorNumber := -2146893019 |})
    as (w' & Hrun & _ & Hdialog & _).
  - apply (bool_decide_unpack _). vm_compute. reflexivity.
  - vm_compute. reflexivity.
  - reflexivity.
  - discriminate.
  - reflexivity.
  - exists w'. split; [exact Hrun|exact Hdialog].
Defined.

Lemma connectionTelemetry_attempt s status message d :
  connectionTelemetry
    (set_dialog d (set_connectionStatus status (set_formError message (attemptState s))))
  = connectionTelemetry s.
Proof.
  destruct (attemptState_frame s) as (Hprofile & Hmode & _).
  unfold connectionTelemetry, profileField. simpl. by rewrite Hprofile, Hmode.
Qed.

(** X2.  When validation passes and the remote connect answers with an
    error message and a code that is neither the certificate nor the
    firewall one, the connect attempt ends with status Error and the
    message as the form error; no dialog is opened, and one action event
    reports the error number, as its decimal text. *)
Theorem connectHelper_other_error_is_the_form_error
    (env : Env) (w : World) (result : ConnectionCompleteParams) :
  let s := state w in
  let active := getActiveFormComponents s in
  Forall (λ x, is_Some (Obj.get x (components (connectionComponents s)))) active →
  invalidNames (validateCtx s) (cleanedProfile s)
    (components (connectionComponents s)) active = [] →
  validateAndSaveProfileFromDialog env (cleanedProfile s) = Ok result →
  errorMessage result ≠ "" →
  errorNumber result ≠ connectionCertValidationFailedErrorCode env →
  errorNumber result ≠ connectionFirewallErrorCode env →
  ∃ w',
    connectHelper env w = (Ok tt, w')
    ∧ connectionStatus (state w') = Error
    ∧ formError (state w') = errorMessage result
    ∧ dialog (state w') = dialog s
    ∧ trace w'
      = trace (attemptWorld w)
        ++ [ Call (CallValidateAndSaveProfileFromDialog (cleanedProfile s));
             SendActionEvent TelemetryActions.CreateConnection
               (connectionErrorTelemetry w result) [] ].
Proof.
  intros s active Hall Hvalid Hsave Hmsg Hcert Hfirewall.
  apply String.eqb_neq in Hmsg. apply Z.eqb_neq in Hcert, Hfirewall.
  eexists. split.
  { apply (connectHelper_stopped env w _ Hall Hvalid). fold s.
    rewrite (attemptConnect_answered env _ _ result Hsave), Hmsg.
    unfold handleConnectionErrorCodes. rewrite Hcert, Hfirewall.
    unfold mbind, M_bind, modify_state, get_state, get_connectionToEditCopy, emit.
    cbn [state trace _connectionToEditCopy extend attemptWorld with_state].
    reflexivity. }
  destruct (attemptState_frame s) as (_ & _ & _ & _ & Hdialog).
  cbn [state trace connectionStatus dialog formError set_formError
       set_connectionStatus].
  split_and!; try done.
  unfold connectionErrorTelemetry.
  pose proof (connectionTelemetry_attempt s Error (errorMessage result)
                (dialog (attemptState s))) as Htel.
  simpl in Htel. fold s. rewrite <- Htel. by rewrite <- app_assoc.
Qed.

Lemma connectHelper_other_error_witness :
  ∃ w',
    connectHelper
      (Outcomes.envWith (Outcomes.refused 18456)
         (Ok (Some Sample.signedIn)) Outcomes.hostOk)
      Outcomes.sqlDialog = (Ok tt, w')
    ∧ formError (state w') = "Login failed."
    ∧ last (trace w')
      = Some (SendActionEvent TelemetryActions.CreateConnection
                [ ("result", PropStr "connectionError");
                  ("errorNumber", PropStr "18456");
                  ("newOrEditedConnection", PropStr "new");
                  ("connectionInputType", PropMode Parameters);
                  ("authMode", PropVal AuthenticationType.SqlLogin) ] []).
Proof.
  destruct (connectHelper_other_error_is_the_form_error
              (Outcomes.envWith (Outcomes.refused 18456)
                 (Ok (Some Sample.signedIn)) Outcomes.hostOk)
              Outcomes.sqlDialog
              {| errorMessage := "Login failed."; errorNumber := 18456 |})
    as (w' & Hrun & _ & Hform & _ & Htrace).
  - apply (bool_decide_unpack _). vm_compute. reflexivity.
  - vm_compute. reflexivity.
  - reflexivity.
  - discriminate.
  - discriminate.
  - discriminate.
  - exists w'. split; [exact Hrun|]. split; [exact Hform|].
    rewrite Htrace, last_app. vm_compute. reflexivity.
Defined.

(** The remote connect, when the call itself throws. *)
Lemma attemptConnect_thrown env p w e :
  validateAndSaveProfileFromDialog env p = Throw e →
  attemptConnect env p w
  = (Ok false,
     extend
       (with_state
          (set_connectionStatus Error
             (set_formError (getErrorMessage env e) (state w))) w)
       [ Call (CallValidateAndSaveProfileFromDialog p);
         SendErrorEvent TelemetryActions.CreateConnection e (Some false)
           (connectionTelemetry (state w)) [] ]).
Proof.
  intros He. unfold attemptConnect, try_catch at 1.
  unfold mbind at 1, M_bind at 1, call at 1.
  unfold mbind at 1, M_bind at 1. cbn [emit lift]. rewrite He.
  unfold mbind, M_bind, modify_state, get_state, emit, mret, M_ret.
  cbn [state trace _connectionToEditCopy]. unfold extend, with_state.
  cbn [state trace _connectionToEditCopy]. by rewrite <- app_assoc.
Qed.

(** X3.  When validation passes and the remote connect call throws, the
    connect attempt still returns: the status is Error, the form error is
    the message of what was thrown, no dialog is opened, and one error
    event is reported without the error message. *)
Theorem connectHelper_remote_failure_is_the_form_error
    (env : Env) (w : World) (e : JsError) :
  let s := state w in
  let active := getActiveFormComponents s in
  Forall (λ x, is_Some (Obj.get x (components (connectionComponents s)))) active →
  invalidNames (validateCtx s) (cleanedProfile s)
    (components (connectionComponents s)) active = [] →
  validateAndSaveProfileFromDialog env (cleanedProfile s) = Throw e →
  ∃ w',
    connectHelper env w = (Ok tt, w')
    ∧ connectionStatus (state w') = Error
    ∧ formError (state w') = getErrorMessage env e
    ∧ dialog (state w') = dialog s
    ∧ trace w'
      = trace (attemptWorld w)
        ++ [ Call (CallValidateAndSaveProfileFromDialog (cleanedProfile s));
             SendErrorEvent TelemetryActions.CreateConnection e (Some false)
               (connectionTelemetry s) [] ].
Proof.
  intros s active Hall Hvalid Hsave.
  eexists. split.
  { apply (connectHelper_stopped env w _ Hall Hvalid). fold s.
    apply (attemptConnect_thrown env _ _ e Hsave). }
  destruct (attemptState_frame s) as (Hprofile & Hmode & _ & _ & Hdialog).
  cbn [state trace extend with_state attemptWorld connectionStatus dialog formError
       set_formError set_connectionStatus].
  split_and!; try done.
  unfold connectionTelemetry, profileField. fold s. by rewrite Hprofile, Hmode.
Qed.

Lemma connectHelper_remote_failure_witness :
  ∃ w',
    connectHelper
      (Outcomes.envWith Outcomes.unreachable (Ok (Some Sample.signedIn))
         Outcomes.hostOk)
      Outcomes.sqlDialog = (Ok tt, w')
    ∧ formError (state w') = "The service is not running.".
Proof.
  destruct (connectHelper_remote_failure_is_the_form_error
              (Outcomes.envWith Outcomes.unreachable (Ok (Some Sample.signedIn))
                 Outcomes.hostOk)
              Outcomes.sqlDialog (JsErrorOf "The service is not running."))
    as (w' & Hrun & _ & Hform & _).
  - apply (bool_decide_unpack _). vm_compute. reflexivity.
  - vm_compute. reflexivity.
  - reflexivity.
  - exists w'. split; [exact Hrun|exact Hform].
Defined.

(** The firewall branch when the preparation of the dialog throws: the
    status has been set, the dialog has not. *)
Lemma handleConnectionErrorCodes_firewall_fails env result w e :
  connectionCertValidationFailedErrorCode env ≠ connectionFirewallErrorCode env →
  errorNumber result = connectionFirewallErrorCode env →
  firewallRecovery env result = Throw e →
  ∃ events,
    handleConnectionErrorCodes env result w
    = (Throw e,
       extend (with_state (set_connectionStatus Error (state w)) w)
         (Call (CallHandleFirewallRule (errorNumber result) (errorMessage result))
          :: events)).
Proof.
  intros Hdistinct Hcode. unfold firewallRecovery, handleConnectionErrorCodes.
  rewrite Hcode.
  rewrite (proj2 (Z.eqb_neq _ _)) by (intros Heq; by apply Hdistinct).
  rewrite Z.eqb_refl. msimpl. rewrite <- Hcode.
  destruct (handleFirewallRule env _ _) as [h|e0]; msimpl.
  2: { intros [= ->]. exists []. reflexivity. }
  destruct (hfrResult h); msimpl.
  - destruct (confirmVscodeAzureSignin env) as [[auth|]|e0]; msimpl.
    + destruct (authGetTenants auth) as [ts|e0]; [done|]. intros [= ->].
      eexists [_; _]. unfold extend, with_state. simpl. by rewrite <- !app_assoc.
    + intros [= <-].
      eexists [_]. unfold extend, with_state. simpl. by rewrite <- !app_assoc.
    + intros [= ->].
      eexists [_]. unfold extend, with_state. simpl. by rewrite <- !app_assoc.
  - destruct (confirmVscodeAzureSignin env) as [[auth|]|e0]; msimpl.
    + destruct (authGetTenants auth) as [ts|e0]; [done|]. intros [= ->].
      eexists [_; _; _]. unfold extend, with_state. simpl.
      by rewrite <- !app_assoc.
    + intros [= <-].
      eexists [_; _]. unfold extend, with_state. simpl. by rewrite <- !app_assoc.
    + intros [= ->].
      eexists [_; _]. unfold extend, with_state. simpl. by rewrite <- !app_assoc.
Qed.

(** C6 (amended).  When validation passes and the remote validate-and-save
    answers with an error message and the firewall-block code (a code other
    than the certificate one):

    - if the firewall collaborator answers and the sign-in yields an
      identity whose tenants can be listed, the connect attempt ends with
      status Error and the add-firewall-rule dialog open, carrying the
      error message, the tenants of the identity and, as client address,
      the detected one when the collaborator found it and exactly 0.0.0.0
      when it did not;
    - if the firewall collaborator, the sign-in or the listing of the
      tenants throws, no recovery dialog is opened: the connect attempt
      ends with status Error, the dialog as it was, and the message of
      what was thrown as the form error. *)
Theorem firewall_block_opens_add_firewall_rule_dialog
    (env : Env) (w : World) (result : ConnectionCompleteParams) :
  let s := state w in
  let active := getActiveFormComponents s in
  Forall (λ x, is_Some (Obj.get x (components (connectionComponents s)))) active →
  invalidNames (validateCtx s) (cleanedProfile s)
    (components (connectionComponents s)) active = [] →
  validateAndSaveProfileFromDialog env (cleanedProfile s) = Ok result →
  errorMessage result ≠ "" →
  connectionCertValidationFailedErrorCode env ≠ connectionFirewallErrorCode env →
  errorNumber result = connectionFirewallErrorCode env →
  (∀ h auth ts,
     handleFirewallRule env (errorNumber result) (errorMessage result) = Ok h →
     confirmVscodeAzureSignin env = Ok (Some auth) →
     authGetTenants auth = Ok ts →
     ∃ w',
       connectHelper env w = (Ok tt, w')
       ∧ connectionStatus (state w') = Error
       ∧ dialog (state w')
         = Some (AddFirewallRuleDialogProps (errorMessage result)
                   (if hfrResult h then hfrIpAddress h else "0.0.0.0")
                   (map (λ t, (azTenantDisplayName t, azTenantId t)) ts))
       ∧ (hfrResult h = false →
          ∃ tenants,
            dialog (state w')
            = Some (AddFirewallRuleDialogProps (errorMessage result) "0.0.0.0"
                      tenants))
       ∧ Call (CallValidateAndSaveProfileFromDialog (cleanedProfile s)) ∈ trace w'
       ∧ Call (CallHandleFirewallRule (errorNumber result) (errorMessage result))
         ∈ trace w')
  ∧ (∀ e,
       handleFirewallRule env (errorNumber result) (errorMessage result) = Throw e
       ∨ (∃ h,
            handleFirewallRule env (errorNumber result) (errorMessage result)
            = Ok h
            ∧ (confirmVscodeAzureSignin env = Throw e
               ∨ ∃ auth,
                   confirmVscodeAzureSignin env = Ok (Some auth)
                   ∧ authGetTenants auth = Throw e)) →
       ∃ w',
         connectHelper env w = (Ok tt, w')
         ∧ connectionStatus (state w') = Error
         ∧ dialog (state w') = dialog s
         ∧ formError (state w') = getErrorMessage env e).
Proof.
  intros s active Hall Hvalid Hsave Hmsg Hdistinct Hcode.
  apply String.eqb_neq in Hmsg. split.
  - intros h auth ts Hhandle Hauth Htenants.
    eexists. split.
    { apply (connectHelper_stopped env w _ Hall Hvalid). fold s.
      rewrite (attemptConnect_answered env _ _ result Hsave), Hmsg.
      rewrite (handleConnectionErrorCodes_firewall env result _ h auth ts
                 Hdistinct Hcode Hhandle Hauth Htenants).
      reflexivity. }
    cbn [state extend with_state connectionStatus dialog set_dialog
         set_connectionStatus trace].
    split_and!; try done.
    + intros Hnone. rewrite Hnone. by eexists.
    + set_solver.
    + set_solver.
  - intros e Hthrows.
    assert (Hrecovery : firewallRecovery env result = Throw e).
    { unfold firewallRecovery.
      destruct Hthrows as [-> | (h & -> & [-> | (auth & -> & ->)])]; done. }
    destruct (handleConnectionErrorCodes_firewall_fails env result
                (extend (attemptWorld w)
                   [Call (CallValidateAndSaveProfileFromDialog (cleanedProfile s))])
                e Hdistinct Hcode Hrecovery) as [events Hhandle].
    eexists. split.
    { apply (connectHelper_stopped env w _ Hall Hvalid). fold s.
      rewrite (attemptConnect_answered env _ _ result Hsave), Hmsg.
      rewrite Hhandle. reflexivity. }
    destruct (attemptState_frame s) as (_ & _ & _ & _ & Hdialog).
    cbn [state trace extend with_state attemptWorld connectionStatus dialog
         formError set_formError set_connectionStatus].
    by split_and!.
Qed.

Lemma firewall_block_witness :
  (∃ w',
     connectHelper Sample.env (Sample.opened Sample.env Sample.sqlProfile)
     = (Ok tt, w')
     ∧ connectionStatus (state w') = Error
     ∧ dialog (state w')
       = Some (AddFirewallRuleDialogProps
                 "Cannot open server requested by the login." "0.0.0.0"
                 [("Tenant A", "tenant-a"); ("Tenant B", "tenant-b")]))
  ∧ (∃ w',
       connectHelper Outcomes.envWithoutTenants Outcomes.sqlDialog = (Ok tt, w')
       ∧ connectionStatus (state w') = Error
       ∧ dialog (state w') = None
       ∧ formError (state w') = "The tenants could not be listed.").
Proof.
  split.
  - destruct (firewall_block_opens_add_firewall_rule_dialog Sample.env
                (Sample.opened Sample.env Sample.sqlProfile)
                {| errorMessage := "Cannot open server requested by the login.";
                   errorNumber := 40615 |})
      as [Hopens _].
    + apply (bool_decide_unpack _). vm_compute. reflexivity.
    + vm_compute. reflexivity.
    + reflexivity.
    + discriminate.
    + discriminate.
    + reflexivity.
    + destruct (Hopens {| hfrResult := false; hfrIpAddress := "" |}
                  Sample.signedIn
                  [ {| azTenantDisplayName := "Tenant A"; azTenantId := "tenant-a" |};
                    {| azTenantDisplayName := "Tenant B"; azTenantId := "tenant-b" |} ]
                  eq_refl eq_refl eq_refl)
        as (w' & Hrun & Hstatus & Hdialog & _).
      exists w'. split; [exact Hrun|]. split; [exact Hstatus|exact Hdialog].
  - destruct (firewall_block_opens_add_firewall_rule_dialog
                Outcomes.envWithoutTenants Outcomes.sqlDialog
                {| errorMessage := "Cannot open server requested by the login.";
                   errorNumber := 40615 |})
      as [_ Hthrows].
    + apply (bool_decide_unpack _). vm_compute. reflexivity.
    + vm_compute. reflexivity.
    + reflexivity.
    + discriminate.
    + discriminate.
    + reflexivity.
    + destruct (Hthrows (JsErrorOf "The tenants could not be listed."))
        as (w' & Hrun & Hstatus & Hdialog & Hform).
      { right. exists {| hfrResult := false; hfrIpAddress := "" |}.
        split; [reflexivity|]. right. exists Outcomes.signedInWithoutTenants.
        split; reflexivity. }
      exists w'. split; [exact Hrun|]. split; [exact Hstatus|].
      split; [exact Hdialog|exact Hform].
Defined.

(** The sample server answers with the firewall code and the client
    address cannot be found in its message, the user is signed in, but the
    tenants of the identity cannot be listed: the status is Error, yet no
    add-firewall-rule dialog is opened; what the user gets is the form
    error. *)
Lemma firewall_block_without_tenants_opens_no_dialog :
  let env := Outcomes.envWithoutTenants in
  let w := Outcomes.sqlDialog in
  let w' := (connectHelper env w).2 in
  validateAndSaveProfileFromDialog env (cleanedProfile (state w))
  = Ok {| errorMessage := "Cannot open server requested by the login.";
          errorNumber := connectionFirewallErrorCode env |}
  ∧ handleFirewallRule env (connectionFirewallErrorCode env)
      "Cannot open server requested by the login."
    = Ok {| hfrResult := false; hfrIpAddress := "" |}
  ∧ confirmVscodeAzureSignin env = Ok (Some Outcomes.signedInWithoutTenants)
  ∧ (connectHelper env w).1 = Ok tt
  ∧ connectionStatus (state w') = Error
  ∧ dialog (state w') = None
  ∧ formError (state w') = "The tenants could not be listed."
  ∧ Call CallAuthGetTenants ∈ trace w'.
Proof.
  intros env w w'. split_and!; try (vm_compute; reflexivity).
  vm_compute. repeat first [apply list_elem_of_here | apply list_elem_of_further].
Qed.

(** X4.  When the remote connect answers with the firewall code but the
    add-firewall-rule dialog cannot be prepared (the firewall service
    throws, there is no signed-in identity, or its tenants cannot be
    listed), the connect attempt still returns: the status is Error, the
    dialog is not opened, and the form error is the message of what was
    thrown, reported in one error event. *)
Theorem connectHelper_firewall_recovery_failure_is_the_form_error
    (env : Env) (w : World) (result : ConnectionCompleteParams) (e : JsError) :
  let s := state w in
  let active := getActiveFormComponents s in
  Forall (λ x, is_Some (Obj.get x (components (connectionComponents s)))) active →
  invalidNames (validateCtx s) (cleanedProfile s)
    (components (connectionComponents s)) active = [] →
  validateAndSaveProfileFromDialog env (cleanedProfile s) = Ok result →
  errorMessage result ≠ "" →
  connectionCertValidationFailedErrorCode env ≠ connectionFirewallErrorCode env →
  errorNumber result = connectionFirewallErrorCode env →
  firewallRecovery env result = Throw e →
  ∃ w' events,
    connectHelper env w = (Ok tt, w')
    ∧ connectionStatus (state w') = Error
    ∧ formError (state w') = getErrorMessage env e
    ∧ dialog (state w') = dialog s
    ∧ trace w'
      = trace (attemptWorld w)
        ++ Call (CallValidateAndSaveProfileFromDialog (cleanedProfile s))
           :: Call (CallHandleFirewallRule (errorNumber result) (errorMessage result))
           :: events
        ++ [ SendErrorEvent TelemetryActions.CreateConnection e (Some false)
               (connectionTelemetry s) [] ].
Proof.
  intros s active Hall Hvalid Hsave Hmsg Hdistinct Hcode Hrecovery.
  apply String.eqb_neq in Hmsg.
  destruct (handleConnectionErrorCodes_firewall_fails env result
              (extend (attemptWorld w)
                 [Call (CallValidateAndSaveProfileFromDialog (cleanedProfile s))])
              e Hdistinct Hcode Hrecovery) as [events Hhandle].
  eexists _, events. split.
  { apply (connectHelper_stopped env w _ Hall Hvalid). fold s.
    rewrite (attemptConnect_answered env _ _ result Hsave), Hmsg.
    rewrite Hhandle. reflexivity. }
  destruct (attemptState_frame s) as (Hprofile & Hmode & _ & _ & Hdialog).
  cbn [state trace extend with_state attemptWorld connectionStatus dialog formError
       set_formError set_connectionStatus].
  split_and!; try done.
  unfold connectionTelemetry, profileField. cbn [selectedInputMode connectionProfile
    set_connectionStatus]. fold s. rewrite Hprofile, Hmode.
  rewrite <- !app_assoc. reflexivity.
Qed.

Lemma connectHelper_firewall_recovery_failure_witness :
  ∃ w',
    connectHelper
      (Outcomes.envWith (Outcomes.refused 40615) (Ok None) Outcomes.hostOk)
      Outcomes.sqlDialog = (Ok tt, w')
    ∧ dialog (state w') = None
    ∧ formError (state w')
      = "Cannot read properties of undefined (reading 'getTenants')".
Proof.
  destruct (connectHelper_firewall_recovery_failure_is_the_form_error
              (Outcomes.envWith (Outcomes.refused 40615) (Ok None) Outcomes.hostOk)
              Outcomes.sqlDialog
              {| errorMessage := "Login failed."; errorNumber := 40615 |}
              (JsTypeError "getTenants"))
    as (w' & events & Hrun & _ & Hform & Hdialog & _).
  - apply (bool_decide_unpack _). vm_compute. reflexivity.
  - vm_compute. reflexivity.
  - reflexivity.
  - discriminate.
  - discriminate.
  - reflexivity.
  - reflexivity.
  - exists w'. split; [exact Hrun|]. split; [exact Hdialog|exact Hform].
Defined.

(** A reload of the connection lists, run: the store is asked, the counts
    are reported, and the recent connections are initialized before the
    saved ones.  The dialog state is not touched. *)
Lemma loadConnections_run env w :
  loadConnections env w
  = match loadAllConnections env true with
    | Throw e => (Throw e, extend w [Call (CallLoadAllConnections true)])
    | Ok unsortedConnections =>
        (match initializeConnections env
                 (connectionsOfType Mru unsortedConnections) with
         | Throw e => Throw e
         | Ok recent =>
             match initializeConnections env
                     (connectionsOfType Profile unsortedConnections) with
             | Throw e => Throw e
             | Ok saved => Ok (saved, recent)
             end
         end,
         extend w (reloadEvents unsortedConnections))
    end.
Proof.
  unfold loadConnections, reloadEvents. msimpl.
  destruct (loadAllConnections env true) as [unsortedConnections|e]; msimpl;
    [|reflexivity].
  destruct (initializeConnections env (connectionsOfType Mru _));
    msimpl; [|unfold extend; simpl; by rewrite <- app_assoc].
  destruct (initializeConnections env (connectionsOfType Profile _));
    msimpl; unfold extend; simpl; by rewrite <- app_assoc.
Qed.

Arguments loadConnections : simpl never.

(** What follows a successful remote connect, when the host and the reload
    of the connection lists all answer. *)
Lemma afterConnect_succeeds env w unsortedConnections saved recent :
  Forall (λ c, hostCall env c = Ok tt) (saveCalls w ++ revealCalls) →
  loadAllConnections env true = Ok unsortedConnections →
  initializeConnections env (connectionsOfType Mru unsortedConnections)
  = Ok recent →
  initializeConnections env (connectionsOfType Profile unsortedConnections)
  = Ok saved →
  afterConnect env w
  = (Ok tt,
     extend
       (with_state
          (set_connectionStatus Loaded (set_loadedConnections saved recent (state w)))
          w)
       ([SendActionEvent TelemetryActions.CreateConnection
           ([ ("result", PropStr "success");
              ("newOrEditedConnection",
               PropStr (newOrEdited (_connectionToEditCopy w))) ]
            ++ connectionTelemetry (state w)) []]
        ++ map (λ c, Call (CallHost c)) (saveCalls w)
        ++ reloadEvents unsortedConnections
        ++ [UpdateState (set_loadedConnections saved recent (state w))]
        ++ map (λ c, Call (CallHost c)) revealCalls)).
Proof.
  intros Hhosts Hload Hrecent Hsaved.
  unfold saveCalls, revealCalls, removeEditedCalls in *.
  unfold afterConnect, updateLoadedConnections.
  destruct w as [s copy tr]. cbn [_connectionToEditCopy state] in *.
  destruct copy as [c|]; cbn [app] in Hhosts;
    repeat match goal with
           | H : Forall _ (_ :: _) |- _ =>
               let Hc := fresh "Hc" in apply Forall_cons in H as [Hc H]
           end;
    msimpl;
    repeat match goal with
           | H : hostCall env _ = Ok tt |- _ => rewrite H; clear H; msimpl
           end;
    rewrite loadConnections_run, Hload, Hrecent, Hsaved; msimpl;
    unfold extend, with_state, reloadEvents;
    cbn [state trace _connectionToEditCopy];
    rewrite <- !app_assoc; reflexivity.
Qed.

(** X5.  When validation passes, the remote connect answers without an
    error message, the host answers, the connection store lists its
    connections and the secret of every recent and every saved one can be
    looked up, the connect attempt ends with status Loaded, an empty form
    error and, as connection lists, the store's recent and saved
    connections, each initialized for the dialog, in the store's order.
    The effects come in this order: the remote connect, the success event,
    the removal of the profile being edited (when there is one), the save
    of the working profile, the object explorer session and refresh, the
    reload (the store is asked for all connections and the two counts are
    reported), one state push, and then reveal, dispose and the feedback
    prompt.  The state pushed still has status Loading. *)
Theorem connectHelper_success_saves_then_reveals
    (env : Env) (w : World) (result : ConnectionCompleteParams)
    (unsortedConnections : list IConnectionCredentialsQuickPickItem)
    (saved recent : list IConnectionDialogProfile) :
  let s := state w in
  let active := getActiveFormComponents s in
  Forall (λ x, is_Some (Obj.get x (components (connectionComponents s)))) active →
  invalidNames (validateCtx s) (cleanedProfile s)
    (components (connectionComponents s)) active = [] →
  validateAndSaveProfileFromDialog env (cleanedProfile s) = Ok result →
  errorMessage result = "" →
  Forall (λ c, hostCall env c = Ok tt) (saveCalls w ++ revealCalls) →
  loadAllConnections env true = Ok unsortedConnections →
  initializeConnections env (connectionsOfType Mru unsortedConnections)
  = Ok recent →
  initializeConnections env (connectionsOfType Profile unsortedConnections)
  = Ok saved →
  ∃ w',
    connectHelper env w = (Ok tt, w')
    ∧ connectionStatus (state w') = Loaded
    ∧ formError (state w') = ""
    ∧ savedConnections (state w') = saved
    ∧ recentConnections (state w') = recent
    ∧ connectionProfile (state w') = connectionProfile s
    ∧ trace w'
      = trace (attemptWorld w)
        ++ [ Call (CallValidateAndSaveProfileFromDialog (cleanedProfile s));
             SendActionEvent TelemetryActions.CreateConnection
               ([ ("result", PropStr "success");
                  ("newOrEditedConnection",
                   PropStr (newOrEdited (_connectionToEditCopy w))) ]
                ++ connectionTelemetry s) [] ]
        ++ map (λ c, Call (CallHost c)) (saveCalls w)
        ++ reloadEvents unsortedConnections
        ++ [UpdateState (set_loadedConnections saved recent (attemptState s))]
        ++ map (λ c, Call (CallHost c)) revealCalls
    ∧ connectionStatus (set_loadedConnections saved recent (attemptState s))
      = Loading.
Proof.
  intros s active Hall Hvalid Hsave Hmsg Hhosts Hload Hrecent Hsaved.
  apply String.eqb_eq in Hmsg.
  destruct (attemptState_frame s) as (Hprofile & Hmode & Hstatus & Hform & _).
  set (w1 := extend (attemptWorld w)
               [Call (CallValidateAndSaveProfileFromDialog (cleanedProfile s))]).
  assert (Hcalls : saveCalls w1 = saveCalls w).
  { unfold saveCalls, w1, attemptWorld, extend, with_state.
    cbn [state _connectionToEditCopy]. fold s. by rewrite Hprofile. }
  assert (Htel : connectionTelemetry (state w1) = connectionTelemetry s).
  { unfold connectionTelemetry, profileField, w1, attemptWorld, extend, with_state.
    cbn [state]. fold s. by rewrite Hprofile, Hmode. }
  eexists. split.
  { rewrite (connectHelper_attempt env w Hall Hvalid). fold s.
    unfold try_catch at 1. unfold mbind at 1, M_bind at 1.
    rewrite (attemptConnect_answered env _ _ result Hsave), Hmsg. fold w1.
    rewrite (afterConnect_succeeds env w1 unsortedConnections saved recent);
      [reflexivity|by rewrite Hcalls|exact Hload|exact Hrecent|exact Hsaved]. }
  rewrite Hcalls, Htel.
  cbn [state trace extend with_state w1 attemptWorld connectionStatus formError
       savedConnections recentConnections connectionProfile
       set_connectionStatus set_loadedConnections _connectionToEditCopy].
  split_and!; try done.
  by rewrite <- !app_assoc.
Qed.

Lemma connectHelper_success_witness :
  ∃ w',
    connectHelper
      (Outcomes.envWith Outcomes.accepted (Ok (Some Sample.signedIn)) Outcomes.hostOk)
      Outcomes.sqlDialog = (Ok tt, w')
    ∧ connectionStatus (state w') = Loaded
    ∧ savedConnections (state w')
      = [ <["displayName" := VStr "(unnamed)"]>
            (<["password" := VUndefined]> Sample.sqlProfile) ]
    ∧ recentConnections (state w')
      = [ <["displayName" := VStr "(unnamed)"]>
            (<["password" := VUndefined]> (Sample.mfaProfile "alice")) ].
Proof.
  destruct (connectHelper_success_saves_then_reveals
              (Outcomes.envWith Outcomes.accepted (Ok (Some Sample.signedIn))
                 Outcomes.hostOk)
              Outcomes.sqlDialog {| errorMessage := ""; errorNumber := 0 |}
              [ {| quickPickItemType := Mru;
                   connectionCreds := Sample.mfaProfile "alice" |};
                {| quickPickItemType := Profile;
                   connectionCreds := Sample.sqlProfile |} ]
              [ <["displayName" := VStr "(unnamed)"]>
                  (<["password" := VUndefined]> Sample.sqlProfile) ]
              [ <["displayName" := VStr "(unnamed)"]>
                  (<["password" := VUndefined]> (Sample.mfaProfile "alice")) ])
    as (w' & Hrun & Hstatus & _ & Hsaved & Hrecent & _).
  - apply (bool_decide_unpack _). vm_compute. reflexivity.
  - vm_compute. reflexivity.
  - reflexivity.
  - reflexivity.
  - repeat constructor.
  - reflexivity.
  - reflexivity.
  - reflexivity.
  - exists w'. split; [exact Hrun|]. split; [exact Hstatus|].
    split; [exact Hsaved|exact Hrecent].
Defined.

(** Whatever the answer of the remote connect, the status after the
    handling of an error is Error. *)
Lemma handleConnectionErrorCodes_status env result w :
  connectionStatus (state (handleConnectionErrorCodes env result w).2) = Error.
Proof.
  unfold handleConnectionErrorCodes.
  destruct (errorNumber result =? connectionCertValidationFailedErrorCode env);
    [done|].
  destruct (errorNumber result =? connectionFirewallErrorCode env); [|done].
  msimpl.
  destruct (handleFirewallRule env _ _) as [h|e]; msimpl; [|done].
  destruct (hfrResult h); msimpl;
    (destruct (confirmVscodeAzureSignin env) as [[auth|]|e]; msimpl; try done;
     by destruct (authGetTenants auth)).
Qed.

(** The remote connect never throws; when it tells the flow to stop, the
    status is Error. *)
Lemma attemptConnect_cases env p w :
  ∃ continue w',
    attemptConnect env p w = (Ok continue, w')
    ∧ if continue : bool
      then ∃ r, validateAndSaveProfileFromDialog env p = Ok r ∧ errorMessage r = ""
      else connectionStatus (state w') = Error.
Proof.
  destruct (validateAndSaveProfileFromDialog env p) as [r|e] eqn:Hr.
  - rewrite (attemptConnect_answered env p w r Hr).
    destruct (String.eqb (errorMessage r) "") eqn:Hmsg.
    + eexists true, _. split; [reflexivity|]. exists r.
      by apply String.eqb_eq in Hmsg.
    + pose proof (handleConnectionErrorCodes_status env r
                    (extend w [Call (CallValidateAndSaveProfileFromDialog p)]))
        as Hstatus.
      destruct (handleConnectionErrorCodes env r _) as [[[]|e] w'];
        eexists false, _; (split; [reflexivity|]); [exact Hstatus|reflexivity].
  - rewrite (attemptConnect_thrown env p w e Hr). by eexists false, _.
Qed.

(** When the steps after a successful remote connect all return, the
    status is Loaded. *)
Lemma afterConnect_status env w w' :
  afterConnect env w = (Ok tt, w') → connectionStatus (state w') = Loaded.
Proof.
  unfold afterConnect, updateLoadedConnections. destruct w as [s copy tr].
  msimpl.
  destruct copy as [c|]; msimpl;
    repeat match goal with
           | |- context [hostCall env ?c] =>
               destruct (hostCall env c) as [[]|?]; msimpl; try done
           | |- context [loadConnections env ?w0] =>
               rewrite (loadConnections_run env w0);
               destruct (loadAllConnections env true); msimpl; try done;
               destruct (initializeConnections env (connectionsOfType Mru _));
               msimpl; try done;
               destruct (initializeConnections env (connectionsOfType Profile _));
               msimpl; try done
           end;
    by intros [= <-].
Qed.

(** X6.  On a dialog all of whose active names have a field spec, a connect
    attempt never throws and never leaves the status at Loading: it ends
    with status Loaded or Error, whatever the collaborators answer or
    throw.  It ends Loaded only when validation reported nothing and the
    remote connect answered without an error message. *)
Theorem connectHelper_always_returns_with_loaded_or_error
    (env : Env) (w : World) :
  let s := state w in
  let active := getActiveFormComponents s in
  Forall (λ x, is_Some (Obj.get x (components (connectionComponents s)))) active →
  ∃ w',
    connectHelper env w = (Ok tt, w')
    ∧ (connectionStatus (state w') = Loaded ∨ connectionStatus (state w') = Error)
    ∧ (connectionStatus (state w') = Loaded →
       invalidNames (validateCtx s) (cleanedProfile s)
         (components (connectionComponents s)) active = []
       ∧ ∃ r, validateAndSaveProfileFromDialog env (cleanedProfile s) = Ok r
              ∧ errorMessage r = "").
Proof.
  intros s active Hall.
  destruct (invalidNames (validateCtx s) (cleanedProfile s)
              (components (connectionComponents s)) active) as [|x errs] eqn:Hvalid.
  - rewrite (connectHelper_attempt env w Hall Hvalid). fold s.
    unfold try_catch at 1. unfold mbind at 1, M_bind at 1.
    destruct (attemptConnect_cases env (cleanedProfile s) (attemptWorld w))
      as (continue & w1 & -> & Hcontinue).
    destruct continue.
    + destruct (afterConnect env w1) as [[[]|e] w2] eqn:Hafter.
      * apply afterConnect_status in Hafter. eexists. split; [reflexivity|].
        split; [by left|]. by intros _.
      * eexists. split; [reflexivity|]. simpl. split; [by right|done].
    + eexists. split; [reflexivity|]. rewrite Hcontinue. split; [by right|done].
  - eexists. split.
    { apply (connectHelper_invalid env w Hall). fold s active. by rewrite Hvalid. }
    simpl. split; [by right|done].
Qed.

Lemma connectHelper_always_returns_witness :
  ∃ w',
    connectHelper
      (Outcomes.envWith Outcomes.unreachable (Throw (JsErrorOf "offline"))
         (λ _, Throw (JsErrorOf "disposed")))
      Outcomes.sqlDialog = (Ok tt, w')
    ∧ (connectionStatus (state w') = Loaded ∨ connectionStatus (state w') = Error).
Proof.
  destruct (connectHelper_always_returns_with_loaded_or_error
              (Outcomes.envWith Outcomes.unreachable (Throw (JsErrorOf "offline"))
                 (λ _, Throw (JsErrorOf "disposed")))
              Outcomes.sqlDialog)
    as (w' & Hrun & Hstatus & _).
  - apply (bool_decide_unpack _). vm_compute. reflexivity.
  - exists w'. split; [exact Hrun|exact Hstatus].
Defined.

(** When a call that replaces or saves the profile throws, the steps after
    the remote connect stop there; the state has not been touched. *)
Lemma afterConnect_save_fails env w c e0 :
  c ∈ saveCalls w → hostCall env c = Throw e0 →
  ∃ e events,
    afterConnect env w = (Throw e, extend w events)
    ∧ Forall (λ ev, ∀ s, ev ≠ UpdateState s) events.
Proof.
  unfold saveCalls, removeEditedCalls, afterConnect. destruct w as [s copy tr].
  cbn [_connectionToEditCopy state]. intros Hc He0.
  assert (Hnot : ∀ c', c' = c → hostCall env c' ≠ Ok tt) by (intros c' ->; congruence).
  destruct copy as [p|]; cbn [app] in Hc; msimpl;
    repeat match goal with
           | |- context [hostCall env ?c'] =>
               let H := fresh "Hhost" in
               destruct (hostCall env c') as [[]|?] eqn:H; msimpl
           end;
    try (eexists _, _; split;
         [unfold extend; cbn [state trace _connectionToEditCopy];
          rewrite <- ?app_assoc; reflexivity
         |repeat constructor; by intros ?]);
    exfalso; set_unfold;
    repeat match goal with
           | H : _ ∨ _ |- _ => destruct H as [H|H]
           end;
    try done;
    match goal with H : c = _ |- _ => symmetry in H; by apply Hnot in H end.
Qed.

Lemma connectionTelemetry_status s status :
  connectionTelemetry (set_connectionStatus status (attemptState s))
  = connectionTelemetry s.
Proof.
  destruct (attemptState_frame s) as (Hprofile & Hmode & _).
  unfold connectionTelemetry, profileField. simpl. by rewrite Hprofile, Hmode.
Qed.

Lemma validatedState_lists p active s :
  savedConnections (validatedState p active s) = savedConnections s
  ∧ recentConnections (validatedState p active s) = recentConnections s.
Proof.
  revert s. induction active as [|x rest IH]; intros s; simpl; [done|].
  by destruct (IH (update_component x (visitField (validateCtx s) p) s)) as [-> ->].
Qed.

(** X7.  When the server has accepted the connection but replacing or
    saving the profile throws, the connect attempt returns with status
    Error and tells the user nothing: the form error stays empty, no dialog
    is opened, the connection lists are not reloaded and the view gets no
    further state.  The failure is reported in one error event, the last
    of the trace. *)
Theorem connectHelper_save_failure_is_silent
    (env : Env) (w : World) (result : ConnectionCompleteParams)
    (c : HostCall) (e0 : JsError) :
  let s := state w in
  let active := getActiveFormComponents s in
  Forall (λ x, is_Some (Obj.get x (components (connectionComponents s)))) active →
  invalidNames (validateCtx s) (cleanedProfile s)
    (components (connectionComponents s)) active = [] →
  validateAndSaveProfileFromDialog env (cleanedProfile s) = Ok result →
  errorMessage result = "" →
  c ∈ saveCalls w →
  hostCall env c = Throw e0 →
  ∃ w' e events,
    connectHelper env w = (Ok tt, w')
    ∧ connectionStatus (state w') = Error
    ∧ formError (state w') = ""
    ∧ dialog (state w') = dialog s
    ∧ savedConnections (state w') = savedConnections s
    ∧ recentConnections (state w') = recentConnections s
    ∧ trace w'
      = trace (attemptWorld w)
        ++ events
        ++ [ SendErrorEvent TelemetryActions.CreateConnection e None
               (connectionTelemetry s) [] ]
    ∧ Forall (λ ev, ∀ s', ev ≠ UpdateState s') events.
Proof.
  intros s active Hall Hvalid Hsave Hmsg Hc He0.
  apply String.eqb_eq in Hmsg.
  destruct (attemptState_frame s) as (Hprofile & Hmode & Hstatus & Hform & Hdialog).
  set (w1 := extend (attemptWorld w)
               [Call (CallValidateAndSaveProfileFromDialog (cleanedProfile s))]).
  assert (Hcalls : saveCalls w1 = saveCalls w).
  { unfold saveCalls, w1, attemptWorld, extend, with_state.
    cbn [state _connectionToEditCopy]. fold s. by rewrite Hprofile. }
  destruct (afterConnect_save_fails env w1 c e0) as (e & events & Hafter & Hnone);
    [by rewrite Hcalls|done|].
  exists (extend (with_state (set_connectionStatus Error (attemptState s)) w)
            ([UpdateState (loadingState s)]
             ++ validatorCalls (validateCtx s) (cleanedProfile s)
                  (components (connectionComponents s)) active
             ++ [Call (CallValidateAndSaveProfileFromDialog (cleanedProfile s))]
             ++ events
             ++ [SendErrorEvent TelemetryActions.CreateConnection e None
                   (connectionTelemetry s) []])),
    e, (Call (CallValidateAndSaveProfileFromDialog (cleanedProfile s)) :: events).
  split.
  { rewrite (connectHelper_attempt env w Hall Hvalid). fold s.
    unfold try_catch at 1. unfold mbind at 1, M_bind at 1.
    rewrite (attemptConnect_answered env _ _ result Hsave), Hmsg. fold w1.
    rewrite Hafter.
    unfold mbind, M_bind, modify_state, get_state, emit.
    cbn [state trace _connectionToEditCopy extend w1 attemptWorld with_state].
    unfold extend, with_state. cbn [state trace _connectionToEditCopy].
    fold s active. rewrite (connectionTelemetry_status s Error).
    by rewrite <- !app_assoc. }
  cbn [state trace extend with_state attemptWorld connectionStatus formError dialog
       savedConnections recentConnections set_connectionStatus].
  unfold attemptState.
  split_and!; try done.
  - by rewrite (proj1 (validatedState_lists _ _ _)).
  - by rewrite (proj2 (validatedState_lists _ _ _)).
  - fold s active. by rewrite <- !app_assoc.
  - apply Forall_cons_2; [by intros ?|done].
Qed.

Lemma connectHelper_save_failure_witness :
  ∃ w',
    connectHelper
      (Outcomes.envWith Outcomes.accepted (Ok (Some Sample.signedIn))
         Outcomes.hostFailsOnSave)
      Outcomes.sqlDialog = (Ok tt, w')
    ∧ connectionStatus (state w') = Error
    ∧ formError (state w') = "".
Proof.
  destruct (connectHelper_save_failure_is_silent
              (Outcomes.envWith Outcomes.accepted (Ok (Some Sample.signedIn))
                 Outcomes.hostFailsOnSave)
              Outcomes.sqlDialog {| errorMessage := ""; errorNumber := 0 |}
              (SaveProfile (connectionProfile (state Outcomes.sqlDialog)))
              (JsErrorOf "The settings file is read-only."))
    as (w' & e & events & Hrun & Hstatus & Hform & _).
  - apply (bool_decide_unpack _). vm_compute. reflexivity.
  - vm_compute. reflexivity.
  - reflexivity.
  - reflexivity.
  - apply list_elem_of_here.
  - reflexivity.
  - exists w'. split; [exact Hrun|]. split; [exact Hstatus|exact Hform].
Defined.

(** ** Validation of one field *)

(** On a field stored under its own name the two readings of the
    single-field branch agree. *)
Lemma validateNamedField_agrees p property w c :
  property ≠ "" →
  getFormComponent (state w) property = Some c →
  propertyName c = Some property →
  validateConnectionProfile p (Some property) w = validateNamedField p property w.
Proof.
  intros Hname Hc Hown. apply String.eqb_neq in Hname.
  unfold validateConnectionProfile, validateNamedField, runValidator.
  rewrite Hname. cbn [negb].
  unfold mbind, M_bind, get_state, mret, M_ret. rewrite Hc.
  destruct (validate c) as [f|]; [|done].
  rewrite Hown. cbn [property_key emit modify_state state trace].
  by destruct (isValid _).
Qed.

(** X8.  Validating one named field looks the field up among the active
    ones.  When the name is not active or the field has no validator,
    nothing is reported and nothing changes.  Otherwise the validator is
    asked once, about the profile's value under that name, even when the
    field is hidden; its answer is stored on that field and the field is
    reported exactly when the answer is invalid.  In every case the other
    fields and the rest of the dialog state are left as they were. *)
Theorem validateNamedField_validates_that_field_only
    (p : IConnectionDialogProfile) (property : string) (w : World) :
  let s := state w in
  let comps := components (connectionComponents s) in
  ∃ errs w',
    validateNamedField p property w = (Ok errs, w')
    ∧ (∀ key, key ≠ property →
         Obj.get key (components (connectionComponents (state w')))
         = Obj.get key comps)
    ∧ match getFormComponent s property with
      | Some c =>
          match validate c with
          | Some f =>
              let r := f (validateCtx s) (js_get p property) in
              errs = (if isValid r then [] else [propertyName c])
              ∧ state w' = update_component property (set_validation (Some r)) s
              ∧ Obj.get property (components (connectionComponents (state w')))
                = Some (set_validation (Some r) c)
              ∧ trace w' = trace w ++ [ValidatorCall (propertyName c) (js_get p property)]
          | None => errs = [] ∧ w' = w
          end
      | None => errs = [] ∧ w' = w
      end.
Proof.
  intros s comps. unfold validateNamedField.
  unfold mbind at 1, M_bind at 1, get_state at 1. fold s.
  destruct (getFormComponent s property) as [c|] eqn:Hc;
    [|by eexists [], w].
  destruct (validate c) as [f|] eqn:Hf; [|by eexists [], w].
  assert (Hget : Obj.get property comps = Some c).
  { unfold getFormComponent in Hc. by destruct (includes _ property). }
  exists (if isValid (f (validateCtx s) (js_get p property))
          then [] else [propertyName c]),
    {| state := update_component property
                  (set_validation (Some (f (validateCtx s) (js_get p property)))) s;
       _connectionToEditCopy := _connectionToEditCopy w;
       trace := trace w ++ [ValidatorCall (propertyName c) (js_get p property)] |}.
  split.
  { msimpl. destruct (isValid _); reflexivity. }
  cbn [state trace]. split_and!; try done.
  - intros key Hkey. simpl. rewrite Obj_get_update.
    destruct (String.eqb property key) eqn:E; [|done].
    apply String.eqb_eq in E. congruence.
  - simpl. fold s comps. rewrite Obj_get_update, String.eqb_refl. fold comps.
    by rewrite Hget.
Qed.

(** ** What an action leaves alone *)

Section Keeps.
Context (R : relation ConnectionDialogWebviewState) `{!PreOrder R}.

Lemma keeps_ret {A} (a : A) : keeps R (mret a).
Proof. intros w. simpl. reflexivity. Qed.

Lemma keeps_throw {A} e : keeps R (@throw A e).
Proof. intros w. simpl. reflexivity. Qed.

Lemma keeps_lift {A} (o : Outcome A) : keeps R (lift o).
Proof. intros w. simpl. reflexivity. Qed.

Lemma keeps_emit e : keeps R (emit e).
Proof. intros w. simpl. reflexivity. Qed.

Lemma keeps_get_state : keeps R get_state.
Proof. intros w. simpl. reflexivity. Qed.

Lemma keeps_get_connectionToEditCopy : keeps R get_connectionToEditCopy.
Proof. intros w. simpl. reflexivity. Qed.

Lemma keeps_modify_state f : (∀ s, R s (f s)) → keeps R (modify_state f).
Proof. intros Hf w. simpl. apply Hf. Qed.

Lemma keeps_bind {A B} (m : M A) (f : A → M B) :
  keeps R m → (∀ a, keeps R (f a)) → keeps R (m ≫= f).
Proof.
  intros Hm Hf w. unfold mbind, M_bind. pose proof (Hm w) as H1.
  destruct (m w) as [[a|e] w1]; simpl in *; [|done].
  by etrans; [exact H1|apply Hf].
Qed.

Lemma keeps_try_catch {A} (m : M A) (h : JsError → M A) :
  keeps R m → (∀ e, keeps R (h e)) → keeps R (try_catch m h).
Proof.
  intros Hm Hh w. unfold try_catch. pose proof (Hm w) as H1.
  destruct (m w) as [[a|e] w1]; simpl in *; [done|].
  by etrans; [exact H1|apply Hh].
Qed.

Lemma keeps_call {A} c (answer : Outcome A) : keeps R (call c answer).
Proof.
  unfold call. apply keeps_bind; [apply keeps_emit|]. intros _. apply keeps_lift.
Qed.

Lemma keeps_updateState : keeps R updateState.
Proof.
  unfold updateState. apply keeps_bind; [apply keeps_get_state|].
  intros s. apply keeps_emit.
Qed.

Lemma keeps_for_of {A} (xs : list A) body :
  (∀ x, keeps R (body x)) → keeps R (for_of xs body).
Proof.
  intros Hbody. induction xs as [|x xs IH]; simpl.
  - apply keeps_ret.
  - apply keeps_bind; [apply Hbody|]. intros _. exact IH.
Qed.

End Keeps.

Create HintDb keeps.

#[global] Hint Resolve keeps_ret keeps_throw keeps_lift keeps_emit keeps_get_state
  keeps_get_connectionToEditCopy keeps_call keeps_updateState : keeps.

#[global] Hint Extern 1 (PreOrder _) => exact _ : keeps.

(** Split a computation along its binds, handlers and case analyses. *)
Ltac keeps_step :=
  first
    [ solve [auto with keeps]
    | apply keeps_bind; try exact _; [|intros ?]
    | apply keeps_try_catch; try exact _; [|intros ?]
    | apply keeps_for_of; try exact _; intros ?
    | match goal with
      | |- keeps _ (if ?b then _ else _) => destruct b
      | |- keeps _ (match ?x with _ => _ end) => destruct x
      | |- keeps _ (let '(_, _) := ?x in _) => destruct x
      end ].

Ltac keeps := repeat keeps_step.

(** The identity provider lookups do not touch the dialog state. *)
Lemma keeps_getTenants R `{!PreOrder R} env accountId :
  keeps R (getTenants env accountId).
Proof. unfold getTenants, getTenants_catch. keeps. Qed.

Lemma keeps_getAccounts R `{!PreOrder R} env : keeps R (getAccounts env).
Proof. unfold getAccounts, getAccounts_catch. keeps. Qed.

Lemma keeps_getAzureActionButtons R `{!PreOrder R} env :
  keeps R (getAzureActionButtons env).
Proof. unfold getAzureActionButtons. keeps. Qed.

#[global] Hint Resolve keeps_getTenants keeps_getAccounts
  keeps_getAzureActionButtons : keeps.

(** *** Validation results of the other fields *)

#[global] Instance sameValidationBut_preorder property :
  PreOrder (sameValidationBut property).
Proof.
  split.
  - by intros s key Hkey.
  - intros s1 s2 s3 H12 H23 key Hkey. by rewrite (H23 key Hkey), (H12 key Hkey).
Qed.

Lemma sameValidationBut_update key f property s :
  (key ≠ property → ∀ c, validation (f c) = validation c) →
  sameValidationBut property s (update_component key f s).
Proof.
  intros Hf k Hk. simpl. rewrite Obj_get_update.
  destruct (String.eqb key k) eqn:E; [|done].
  apply String.eqb_eq in E. subst k.
  destruct (Obj.get key _) as [c|]; [|done]. simpl. f_equal. by apply Hf.
Qed.

Lemma sameValidationBut_applyHidden h property s :
  sameValidationBut property s (applyHidden h s).
Proof.
  intros k Hk. simpl.
  induction (components (connectionComponents s)) as [|[k0 c0] o IH];
    simpl; [done|].
  by destruct (String.eqb k k0).
Qed.

(** *** The frame of an MFA edit *)

Lemma mfaFieldFrame_refl key c : mfaFieldFrame key c c.
Proof.
  unfold mfaFieldFrame.
  by destruct (String.eqb key "tenantId"), (String.eqb key "accountId").
Qed.

Lemma mfaFieldFrame_trans key c1 c2 c3 :
  mfaFieldFrame key c1 c2 → mfaFieldFrame key c2 c3 → mfaFieldFrame key c1 c3.
Proof.
  unfold mfaFieldFrame.
  destruct (String.eqb key "tenantId"), (String.eqb key "accountId"); congruence.
Qed.

#[global] Instance mfaEditFrame_preorder : PreOrder mfaEditFrame.
Proof.
  split.
  - intros s. exists (connectionProfile s), (components (connectionComponents s)).
    split_and!; [by destruct s as [? ? ? ? [? ? ? ?] ? ? ? ? ? ? ?]|done|].
    induction (components (connectionComponents s)) as [|kv o IH]; constructor;
      [split; [done|apply mfaFieldFrame_refl]|done].
  - intros s1 s2 s3 (p2 & c2 & -> & Hp2 & Hc2) (p3 & c3 & -> & Hp3 & Hc3).
    exists p3, c3. split_and!; [done| |].
    + intros k Ha Ht. rewrite (Hp3 k Ha Ht). simpl. by apply Hp2.
    + simpl in Hc3. clear Hp2 Hp3. revert c3 Hc3.
      induction Hc2 as [|kv1 kv2 o1 o2 [Hk12 Hf12] _ IH]; intros c3 Hc3.
      * by inversion Hc3.
      * inversion Hc3 as [|? kv3 ? o3 [Hk23 Hf23] Hrest]; subst.
        constructor; [|by apply IH].
        split; [congruence|]. rewrite Hk12 in Hf23.
        by eapply mfaFieldFrame_trans.
Qed.

Lemma mfaEditFrame_update_component key f s :
  (∀ c, mfaFieldFrame key c (f c)) → mfaEditFrame s (update_component key f s).
Proof.
  intros Hf.
  exists (connectionProfile s), (Obj.update key f (components (connectionComponents s))).
  split_and!; [by destruct s as [? ? ? ? [? ? ? ?] ? ? ? ? ? ? ?]|done|].
  induction (components (connectionComponents s)) as [|[k0 c0] o IH]; simpl;
    [constructor|].
  destruct (String.eqb key k0) eqn:E.
  - apply String.eqb_eq in E. subst k0. constructor; [by split|].
    clear. induction o as [|kv o IH]; constructor;
      [split; [done|apply mfaFieldFrame_refl]|done].
  - constructor; [split; [done|apply mfaFieldFrame_refl]|done].
Qed.

Lemma mfaEditFrame_setProfileField key v s :
  key = "accountId" ∨ key = "tenantId" →
  mfaEditFrame s (setProfileField key v s).
Proof.
  intros Hkey.
  exists (<[key := v]> (connectionProfile s)), (components (connectionComponents s)).
  split_and!; [by destruct s as [? ? ? ? [? ? ? ?] ? ? ? ? ? ? ?]| |].
  - intros k Ha Ht. apply lookup_insert_ne. by destruct Hkey as [-> | ->].
  - induction (components (connectionComponents s)) as [|kv o IH]; constructor;
      [split; [done|apply mfaFieldFrame_refl]|done].
Qed.

Lemma keeps_refreshTenantsAndButtons env ac tc :
  keeps mfaEditFrame (refreshTenantsAndButtons env ac tc).
Proof.
  unfold refreshTenantsAndButtons.
  keeps; apply keeps_modify_state; intros s;
    first [ apply mfaEditFrame_setProfileField; by right
          | apply mfaEditFrame_update_component; intros c;
            unfold mfaFieldFrame; by destruct c ].
Qed.

#[global] Hint Resolve keeps_refreshTenantsAndButtons : keeps.

Lemma keeps_handleAzureMFAEdits env property :
  keeps mfaEditFrame (handleAzureMFAEdits env property).
Proof.
  unfold handleAzureMFAEdits.
  keeps. apply keeps_modify_state. intros s.
  apply mfaEditFrame_setProfileField. by left.
Qed.

Lemma Forall2_mfaFieldFrame_get comps comps' key :
  Forall2 (λ kv kv' : string * FormItemSpec,
             kv'.1 = kv.1 ∧ mfaFieldFrame kv.1 kv.2 kv'.2) comps comps' →
  match Obj.get key comps, Obj.get key comps' with
  | Some c, Some c' => mfaFieldFrame key c c'
  | None, None => True
  | _, _ => False
  end.
Proof.
  induction 1 as [|[k c] [k' c'] o o' [Hk Hf] _ IH]; simpl; [done|].
  simpl in Hk, Hf. subst k'.
  destruct (String.eqb key k) eqn:E; [|exact IH].
  apply String.eqb_eq in E. by subst k.
Qed.

(** X9.  Whatever the edited property and whether it returns or throws,
    the MFA side-effect handler leaves the dialog state alone but for the
    account and the tenant of the profile, the options of the tenant field
    and the action buttons of the account field: the input mode, the
    status, the form error and the dialog are untouched, every other
    profile key keeps its value, the fields keep their keys and order,
    every field other than those two is unchanged, and no field's
    visibility or validation result changes. *)
Theorem handleAzureMFAEdits_touches_account_and_tenant_only
    (env : Env) (property : string) (w : World) :
  let s := state w in
  let s' := state (handleAzureMFAEdits env property w).2 in
  let comps := components (connectionComponents s) in
  let comps' := components (connectionComponents s') in
  mfaEditFrame s s'
  ∧ selectedInputMode s' = selectedInputMode s
  ∧ connectionStatus s' = connectionStatus s
  ∧ formError s' = formError s
  ∧ dialog s' = dialog s
  ∧ (∀ k, k ≠ "accountId" → k ≠ "tenantId" → profileField s' k = profileField s k)
  ∧ Obj.keys comps' = Obj.keys comps
  ∧ (∀ key, key ≠ "accountId" → key ≠ "tenantId" →
       Obj.get key comps' = Obj.get key comps)
  ∧ (∀ key c', Obj.get key comps' = Some c' →
       ∃ c, Obj.get key comps = Some c
            ∧ hidden c' = hidden c
            ∧ validation c' = validation c
            ∧ propertyName c' = propertyName c).
Proof.
  intros s s' comps comps'.
  pose proof (keeps_handleAzureMFAEdits env property w) as Hframe.
  fold s s' in Hframe. split; [exact Hframe|].
  destruct Hframe as (profile & cs & Hs' & Hprofile & Hcs).
  subst comps'. rewrite Hs'. cbn. fold comps in Hcs |- *.
  split_and!; try done.
  - intros k Ha Ht. unfold profileField, js_get. cbn. by rewrite Hprofile.
  - clear Hs'. induction Hcs as [|kv kv' o o' [Hk _] _ IH]; [done|].
    simpl. by rewrite Hk, IH.
  - intros key Ha Ht.
    pose proof (Forall2_mfaFieldFrame_get comps cs key Hcs) as Hget.
    unfold mfaFieldFrame in Hget.
    apply String.eqb_neq in Ha, Ht. rewrite Ha, Ht in Hget.
    destruct (Obj.get key comps), (Obj.get key cs); by subst.
  - intros key c' Hc'.
    pose proof (Forall2_mfaFieldFrame_get comps cs key Hcs) as Hget.
    rewrite Hc' in Hget. destruct (Obj.get key comps) as [c|]; [|done].
    exists c. split; [done|]. unfold mfaFieldFrame in Hget.
    destruct (String.eqb key "tenantId"), (String.eqb key "accountId");
      try (subst; done);
      destruct c, c'; simpl in *; by injection Hget as -> -> -> -> -> -> -> -> -> -> ->.
Qed.

(** ** Recomputing the visibility *)

(** The visibility engine, run in any mode. *)
Lemma updateItemVisibility_run env w :
  ∃ events,
    updateItemVisibility env w
    = (Ok tt, with_state (visibilityOf env (state w)) (extend w events))
    ∧ Forall (λ e, ∀ s, e ≠ UpdateState s) events
    ∧ (isParametersOrAzureBrowse (selectedInputMode (state w))
       && strict_eq (profileField (state w) "authenticationType")
            AuthenticationType.AzureMFA = false → events = []).
Proof.
  unfold updateItemVisibility, visibilityOf, tenantsCounted.
  unfold mbind at 1, M_bind at 1, get_state at 1.
  destruct (isParametersOrAzureBrowse _ && strict_eq _ _) eqn:Hlookup.
  - unfold mbind, M_bind.
    unfold getTenants, tenantLookup, getTenants_catch. msimpl.
    destruct (getAccountsService env) as [accounts|e]; msimpl.
    + destruct (getTenants_try _ accounts) as [tenants [opts|e]]; msimpl.
      * eexists [_]. split; [reflexivity|]. split; [|done].
        repeat constructor; by intros ?.
      * eexists [_; _; _]. split.
        { unfold extend, with_state. simpl. by rewrite <- !app_assoc. }
        split; [|done]. repeat constructor; by intros ?.
    + eexists [_; _; _]. split.
      { unfold extend, with_state. simpl. by rewrite <- !app_assoc. }
      split; [|done]. repeat constructor; by intros ?.
  - exists []. rewrite extend_nil. by split.
Qed.

Lemma applyHidden_get h s key :
  Obj.get key (components (connectionComponents (applyHidden h s)))
  = (λ c, set_hidden (Some (includes_opt h (propertyName c))) c)
      <$> Obj.get key (components (connectionComponents s)).
Proof.
  simpl. induction (components (connectionComponents s)) as [|[k0 c0] o IH];
    simpl; [done|].
  by destruct (String.eqb key k0).
Qed.

Lemma applyHidden_applyHidden h1 h2 s :
  applyHidden h2 (applyHidden h1 s) = applyHidden h2 s.
Proof.
  unfold applyHidden. simpl. unfold set_connectionComponents. f_equal.
  unfold set_components. simpl. f_equal. rewrite map_map. apply map_ext.
  by intros [k c].
Qed.

Lemma visibilityOf_applyHidden env h s :
  visibilityOf env (applyHidden h s) = visibilityOf env s.
Proof. unfold visibilityOf. simpl. apply applyHidden_applyHidden. Qed.

(** X10.  In connection-string mode recomputing the visibility shows every
    field: it never throws, asks no collaborator and emits nothing, sets
    [hidden] to false on every field spec, whatever the authentication
    type, and changes nothing else. *)
Theorem updateItemVisibility_connection_string_mode_shows_every_field
    (env : Env) (w : World) :
  selectedInputMode (state w) = ConnectionString →
  ∃ w',
    updateItemVisibility env w = (Ok tt, w')
    ∧ trace w' = trace w
    ∧ state w' = applyHidden [] (state w)
    ∧ connectionProfile (state w') = connectionProfile (state w)
    ∧ Obj.keys (components (connectionComponents (state w')))
      = Obj.keys (components (connectionComponents (state w)))
    ∧ (∀ key c, Obj.get key (components (connectionComponents (state w))) = Some c →
         Obj.get key (components (connectionComponents (state w')))
         = Some (set_hidden (Some false) c)).
Proof.
  intros Hmode.
  destruct (updateItemVisibility_run env w) as (events & Hrun & _ & Hnone).
  rewrite Hnone in Hrun by (by rewrite Hmode). rewrite extend_nil in Hrun.
  eexists. split; [exact Hrun|].
  unfold visibilityOf, hiddenPropertiesWith. rewrite Hmode.
  cbn [isParametersOrAzureBrowse bool_decide decide_rel orb].
  split_and!; try done.
  - simpl. unfold Obj.keys. by rewrite map_map.
  - intros key c Hc. cbn [state with_state]. rewrite applyHidden_get, Hc.
    simpl. do 2 f_equal. by destruct (propertyName c).
Qed.

Lemma updateItemVisibility_connection_string_witness :
  ∃ w',
    updateItemVisibility Sample.env
      (with_state
         (set_selectedInputMode ConnectionString
            (state (Sample.opened Sample.env (Sample.mfaProfile "bob"))))
         (Sample.opened Sample.env (Sample.mfaProfile "bob")))
    = (Ok tt, w')
    ∧ (hidden <$> Obj.get "password" (components (connectionComponents (state w'))))
      = Some (Some false).
Proof.
  destruct (updateItemVisibility_connection_string_mode_shows_every_field
              Sample.env
              (with_state
                 (set_selectedInputMode ConnectionString
                    (state (Sample.opened Sample.env (Sample.mfaProfile "bob"))))
                 (Sample.opened Sample.env (Sample.mfaProfile "bob"))))
    as (w' & Hrun & _ & Hstate & _).
  - reflexivity.
  - exists w'. split; [exact Hrun|]. rewrite Hstate. vm_compute. reflexivity.
Defined.

(** ** The reducers *)

(** Selecting an input mode other than AzureBrowse: the mode is set, the
    visibility recomputed and the state pushed. *)
Lemma setConnectionInputType_run env loadAll inputMode w :
  inputMode ≠ AzureBrowse →
  ∃ events,
    setConnectionInputType env loadAll inputMode w
    = (Ok tt,
       with_state (visibilityOf env (set_selectedInputMode inputMode (state w)))
         (extend w
            (events
             ++ [UpdateState
                   (visibilityOf env (set_selectedInputMode inputMode (state w)))])))
    ∧ Forall (λ e, ∀ s, e ≠ UpdateState s) events.
Proof.
  intros Hmode. unfold setConnectionInputType.
  unfold mbind at 1, M_bind at 1, modify_state at 1.
  unfold mbind at 1, M_bind at 1.
  destruct (updateItemVisibility_run env
              {| state := set_selectedInputMode inputMode (state w);
                 _connectionToEditCopy := _connectionToEditCopy w;
                 trace := trace w |}) as (events & -> & Hevents & _).
  exists events. split; [|exact Hevents].
  msimpl. rewrite bool_decide_eq_false_2 by done.
  unfold extend, with_state. simpl. by rewrite <- app_assoc.
Qed.

Lemma visibilityOf_connection_string env s :
  selectedInputMode s = ConnectionString → visibilityOf env s = applyHidden [] s.
Proof.
  intros Hmode. unfold visibilityOf, hiddenPropertiesWith. by rewrite Hmode.
Qed.

(** X11.  Switching the dialog to connection-string mode and back to
    Parameters never throws and leaves the dialog state exactly as
    selecting Parameters directly does.  In between every field is
    visible.  When the dialog was in Parameters mode with its visibility up
    to date, the round trip restores the state it started from. *)
Theorem setConnectionInputType_round_trip_restores_visibility
    (env : Env) (loadAllAzureServers : M unit) (w : World) :
  let via := setConnectionInputType env loadAllAzureServers ConnectionString w in
  let back := setConnectionInputType env loadAllAzureServers Parameters via.2 in
  let direct := setConnectionInputType env loadAllAzureServers Parameters w in
  via.1 = Ok tt ∧ back.1 = Ok tt ∧ direct.1 = Ok tt
  ∧ selectedInputMode (state via.2) = ConnectionString
  ∧ (∀ key c, Obj.get key (components (connectionComponents (state via.2))) = Some c →
       hidden c = Some false)
  ∧ state back.2 = state direct.2
  ∧ state direct.2 = visibilityOf env (set_selectedInputMode Parameters (state w))
  ∧ (selectedInputMode (state w) = Parameters →
     visibilityOf env (state w) = state w →
     state back.2 = state w).
Proof.
  intros via back direct.
  destruct (setConnectionInputType_run env loadAllAzureServers ConnectionString w)
    as (ev1 & Hvia & _); [done|].
  destruct (setConnectionInputType_run env loadAllAzureServers Parameters w)
    as (ev3 & Hdirect & _); [done|].
  destruct (setConnectionInputType_run env loadAllAzureServers Parameters via.2)
    as (ev2 & Hback & _); [done|].
  fold via in Hvia. fold direct in Hdirect. fold back in Hback.
  assert (Hviastate : state via.2
            = applyHidden [] (set_selectedInputMode ConnectionString (state w))).
  { rewrite Hvia. cbn [snd state with_state].
    by apply visibilityOf_connection_string. }
  assert (Hbackstate : state back.2 = state direct.2).
  { rewrite Hback, Hdirect. cbn [snd state with_state]. rewrite Hviastate.
    change (set_selectedInputMode Parameters
              (applyHidden [] (set_selectedInputMode ConnectionString (state w))))
      with (applyHidden [] (set_selectedInputMode Parameters (state w))).
    apply visibilityOf_applyHidden. }
  split_and!.
  - by rewrite Hvia.
  - by rewrite Hback.
  - by rewrite Hdirect.
  - by rewrite Hviastate.
  - intros key c. rewrite Hviastate, applyHidden_get.
    destruct (Obj.get key _) as [c0|]; [|done]. simpl. intros [= <-]. simpl.
    by destruct (propertyName c0).
  - exact Hbackstate.
  - by rewrite Hdirect.
  - intros Hmode Hfix. rewrite Hbackstate, Hdirect. cbn [snd state with_state].
    replace (set_selectedInputMode Parameters (state w)) with (state w); [done|].
    destruct (state w). simpl in Hmode. by subst.
Qed.

(** A dialog that has been opened has its visibility up to date. *)
Example opened_dialog_visibility_is_up_to_date :
  visibilityOf Sample.env (state (Sample.opened Sample.env (Sample.mfaProfile "bob")))
  = state (Sample.opened Sample.env (Sample.mfaProfile "bob")).
Proof. vm_compute. reflexivity. Qed.

Lemma hiddenBySpec_tenantsCounted env s field :
  isParametersOrAzureBrowse (selectedInputMode s) = true →
  hiddenBySpec (profileField s "authenticationType")
    (length (tenantsCounted env s)) field
  = hiddenBySpec (profileField s "authenticationType")
      (length (tenantLookup env (profileField s "accountId"))) field.
Proof.
  intros Hmode. unfold tenantsCounted, hiddenBySpec. rewrite Hmode. simpl.
  destruct (strict_eq _ AuthenticationType.AzureMFA); [done|].
  destruct field as [n|]; [|done]. simpl. by rewrite !orb_false_r.
Qed.

(** Every field's visibility once it has been recomputed. *)
Lemma visibilityOf_hidden env s key c :
  Obj.get key (components (connectionComponents (visibilityOf env s))) = Some c →
  if isParametersOrAzureBrowse (selectedInputMode s)
  then hidden c
       = Some (hiddenBySpec (profileField s "authenticationType")
                 (length (tenantLookup env (profileField s "accountId")))
                 (propertyName c))
  else hidden c = Some false.
Proof.
  unfold visibilityOf. rewrite applyHidden_get.
  destruct (Obj.get key _) as [c0|]; [|done]. simpl. intros [= <-]. simpl.
  destruct (isParametersOrAzureBrowse (selectedInputMode s)) eqn:Hmode.
  - by rewrite includes_hiddenProperties, hiddenBySpec_tenantsCounted.
  - unfold hiddenPropertiesWith. rewrite Hmode. by destruct (propertyName c0).
Qed.

(** X12.  A form action that completes, be it an edit or a click on an
    action button, leaves the visibility up to date with the profile and
    the mode it leaves: recomputing it again would change nothing.  In
    Parameters or AzureBrowse mode every field's [hidden] is what the rules
    say for the resulting authentication type and account; in
    connection-string mode every field is visible. *)
Theorem formAction_leaves_visibility_up_to_date
    (env : Env) (runCallback : ButtonCallback → M unit) (event : FormEvent)
    (w w' : World) :
  formAction env runCallback event w = (Ok tt, w') →
  let s' := state w' in
  visibilityOf env s' = s'
  ∧ ∀ key c,
      Obj.get key (components (connectionComponents s')) = Some c →
      if isParametersOrAzureBrowse (selectedInputMode s')
      then hidden c
           = Some (hiddenBySpec (profileField s' "authenticationType")
                     (length (tenantLookup env (profileField s' "accountId")))
                     (propertyName c))
      else hidden c = Some false.
Proof.
  unfold formAction. unfold mbind at 1, M_bind at 1.
  destruct (_ w) as [[[]|e] w1]; [|done].
  destruct (updateItemVisibility_run env w1) as (events & -> & _).
  intros [= <-]. cbn [state with_state extend].
  split; [apply visibilityOf_applyHidden|].
  intros key c Hc. by apply (visibilityOf_hidden env (state w1) key c).
Qed.

Lemma formAction_visibility_witness :
  ∃ w',
    formAction Sample.env (λ _, mret tt)
      {| isAction := false; eventPropertyName := "authenticationType";
         eventValue := AuthenticationType.AzureMFA |}
      Outcomes.sqlDialog = (Ok tt, w')
    ∧ visibilityOf Sample.env (state w') = state w'.
Proof.
  destruct (formAction Sample.env (λ _, mret tt)
              {| isAction := false; eventPropertyName := "authenticationType";
                 eventValue := AuthenticationType.AzureMFA |}
              Outcomes.sqlDialog) as [[[]|e] w'] eqn:Hrun.
  - exists w'. split; [reflexivity|].
    exact (proj1 (formAction_leaves_visibility_up_to_date _ _ _ _ _ Hrun)).
  - exfalso. revert Hrun. vm_compute. discriminate.
Defined.

Lemma keeps_mono (R1 R2 : relation ConnectionDialogWebviewState) {A} (m : M A) :
  (∀ s s', R1 s s' → R2 s s') → keeps R1 m → keeps R2 m.
Proof. intros Hsub Hm w. apply Hsub, Hm. Qed.

Lemma mfaEditFrame_sameValidation property s s' :
  mfaEditFrame s s' → sameValidationBut property s s'.
Proof.
  intros (profile & cs & -> & _ & Hcs) key _. simpl.
  pose proof (Forall2_mfaFieldFrame_get _ cs key Hcs) as Hget.
  destruct (Obj.get key (components (connectionComponents s))) as [c|],
    (Obj.get key cs) as [c'|]; try done.
  simpl. f_equal. unfold mfaFieldFrame in Hget.
  destruct (String.eqb key "tenantId"), (String.eqb key "accountId");
    try (by subst);
    destruct c, c'; simpl in *; by injection Hget as -> -> -> -> -> -> -> -> -> -> ->.
Qed.

Lemma keeps_validateNamedField p property :
  keeps (sameValidationBut property) (validateNamedField p property).
Proof.
  unfold validateNamedField. keeps.
  apply keeps_modify_state. intros s. by apply sameValidationBut_update.
Qed.

Lemma keeps_updateItemVisibility env property :
  keeps (sameValidationBut property) (updateItemVisibility env).
Proof.
  unfold updateItemVisibility. keeps.
  apply keeps_modify_state. intros s. apply sameValidationBut_applyHidden.
Qed.

(** X13.  The edit of a named field re-validates that field only: whether
    the form action returns or throws, every field stored under another
    name holds the validation result it held before, stale or not. *)
Theorem formAction_edit_revalidates_the_edited_field_only
    (env : Env) (runCallback : ButtonCallback → M unit) (event : FormEvent)
    (w : World) :
  isAction event = false →
  eventPropertyName event ≠ "" →
  ∀ key, key ≠ eventPropertyName event →
    validation
      <$> Obj.get key
            (components (connectionComponents
               (state (formAction env runCallback event w).2)))
    = validation <$> Obj.get key (components (connectionComponents (state w))).
Proof.
  intros Hedit Hname. apply String.eqb_neq in Hname.
  change (sameValidationBut (eventPropertyName event) (state w)
            (state (formAction env runCallback event w).2)).
  revert w. change (keeps (sameValidationBut (eventPropertyName event))
                      (formAction env runCallback event)).
  unfold formAction. rewrite Hedit, Hname. cbn [negb].
  apply keeps_bind; [exact _| |intros _; apply keeps_updateItemVisibility].
  apply keeps_bind; [exact _| |intros _].
  { apply keeps_modify_state. by intros s key Hkey. }
  apply keeps_bind; [exact _|apply keeps_get_state; exact _|intros s].
  apply keeps_bind; [exact _|apply keeps_validateNamedField|intros _].
  eapply keeps_mono; [|apply keeps_handleAzureMFAEdits].
  intros s1 s2. apply mfaEditFrame_sameValidation.
Qed.

Lemma formAction_edit_witness :
  validation
    <$> Obj.get "user"
          (components (connectionComponents
             (state (formAction Sample.env (λ _, mret tt)
                       {| isAction := false; eventPropertyName := "server";
                          eventValue := VStr "" |}
                       Outcomes.sqlDialog).2)))
  = validation
      <$> Obj.get "user" (components (connectionComponents (state Outcomes.sqlDialog))).
Proof.
  apply (formAction_edit_revalidates_the_edited_field_only Sample.env
           (λ _, mret tt)
           {| isAction := false; eventPropertyName := "server";
              eventValue := VStr "" |}
           Outcomes.sqlDialog).
  - reflexivity.
  - discriminate.
  - discriminate.
Defined.

(** ** The identity provider lookups *)

Lemma getAccounts_answer env w :
  ∃ events, getAccounts env w = (Ok (accountLookup env), extend w events).
Proof.
  unfold getAccounts, accountLookup, getAccounts_catch. msimpl.
  destruct (getAccountsService env) as [accounts|e]; msimpl.
  - destruct (map_outcome accountOption accounts) as [opts|e]; msimpl.
    + by eexists [_].
    + eexists [_; _; _]. unfold extend. simpl. by rewrite <- !app_assoc.
  - eexists [_; _; _]. unfold extend. simpl. by rewrite <- !app_assoc.
Qed.

Lemma map_outcome_accountOption_displayable accounts :
  forallb displayable accounts = true →
  ∃ opts, map_outcome accountOption accounts = Ok opts
          ∧ map optValue opts
            = map (λ a, match a with
                        | Some {| displayInfo := Some d |} => userId d
                        | _ => ""
                        end) accounts
          ∧ length opts = length accounts.
Proof.
  induction accounts as [|[[[d|] ? ?]|] rest IH]; simpl; try done.
  - by exists [].
  - intros (opts & -> & Hvalues & Hlen)%IH. eexists. split; [reflexivity|].
    simpl. by rewrite Hvalues, Hlen.
Qed.

Lemma map_outcome_accountOption_malformed accounts :
  forallb displayable accounts = false →
  ∃ e, map_outcome accountOption accounts = Throw e.
Proof.
  induction accounts as [|[[[d|] ? ?]|] rest IH]; simpl; try done;
    try by eexists.
  intros (e & ->)%IH. by eexists.
Qed.

(** X14.  Listing the accounts for the account dropdown never throws and
    is all or nothing.  When the account service answers and every account
    is defined and has display information, the options are the accounts
    in order, one each, valued by user id, and the only effect is the call.
    When the service throws, or a single account is undefined or lacks
    display information, the answer is the empty list, and the failure is
    written to the console and reported in one error event. *)
Theorem getAccounts_is_all_or_nothing (env : Env) (w : World) :
  ∃ events,
    getAccounts env w = (Ok (accountLookup env), extend w events)
    ∧ match getAccountsService env with
      | Ok accounts =>
          if forallb displayable accounts
          then length (accountLookup env) = length accounts
               ∧ map optValue (accountLookup env)
                 = map (λ a, match a with
                             | Some {| displayInfo := Some d |} => userId d
                             | _ => ""
                             end) accounts
               ∧ events = [Call CallGetAccounts]
          else accountLookup env = []
               ∧ ∃ e measurements,
                   events
                   = [ Call CallGetAccounts;
                       ConsoleError ("Error loading Azure accounts: " +:+
                                     getErrorMessage env e);
                       SendErrorEvent TelemetryActions.LoadAzureAccountsForEntraAuth
                         e (Some false) [] measurements ]
      | Throw e =>
          accountLookup env = []
          ∧ ∃ measurements,
              events
              = [ Call CallGetAccounts;
                  ConsoleError ("Error loading Azure accounts: " +:+
                                getErrorMessage env e);
                  SendErrorEvent TelemetryActions.LoadAzureAccountsForEntraAuth
                    e (Some false) [] measurements ]
      end.
Proof.
  unfold getAccounts, accountLookup, getAccounts_catch. msimpl.
  destruct (getAccountsService env) as [accounts|e]; msimpl.
  - destruct (forallb displayable accounts) eqn:Hall.
    + destruct (map_outcome_accountOption_displayable accounts Hall)
        as (opts & -> & Hvalues & Hlen).
      msimpl. by exists [Call CallGetAccounts].
    + destruct (map_outcome_accountOption_malformed accounts Hall) as (e & ->).
      msimpl. eexists [_; _; _]. split.
      { unfold extend. simpl. by rewrite <- !app_assoc. }
      split; [done|]. by eexists _, _.
  - eexists [_; _; _]. split.
    { unfold extend. simpl. by rewrite <- !app_assoc. }
    split; [done|]. by eexists.
Qed.

(** ** The compiled schema *)

Lemma compileOption_category_without_values env groupNames connOption result w :
  valueType connOption = "category" →
  categoryValues connOption = None →
  compileOption env groupNames connOption result w
  = (Ok result, extend w (optionFailureEvents env connOption (JsTypeError "map"))).
Proof.
  intros Hkind Hvalues. unfold compileOption, convertToFormComponent.
  rewrite Hkind, Hvalues. msimpl. unfold extend. simpl. by rewrite <- !app_assoc.
Qed.

(** X15.  A capability of kind category that comes without its list of
    values makes the conversion throw; the compilation loop catches that,
    writes the failure to the console, reports it with the option's name,
    stores nothing for the descriptor and goes on with the next one.  When
    no other descriptor has that name, the compiled map has for it what the
    map held before: no field, when it started empty. *)
Theorem category_without_values_is_left_out
    (env : Env) (groupNames : gmap string string)
    (before : list ConnectionOption) (connOption : ConnectionOption)
    (after : list ConnectionOption) (result : Obj.t FormItemSpec) (w : World) :
  valueType connOption = "category" →
  categoryValues connOption = None →
  Forall (λ o, name o ≠ name connOption) (before ++ after) →
  ∃ compiled events1 events2,
    compileOptions env groupNames (before ++ connOption :: after) result w
    = (Ok compiled,
       extend w
         (events1 ++ optionFailureEvents env connOption (JsTypeError "map")
          ++ events2))
    ∧ Obj.get (name connOption) compiled = Obj.get (name connOption) result
    ∧ (result = [] → Obj.has (name connOption) compiled = false).
Proof.
  intros Hkind Hvalues [Hbefore Hafter]%Forall_app.
  destruct (compileOptions_total env groupNames before result w)
    as (ev1 & r1 & H1).
  rewrite compileOptions_app, H1. simpl. unfold mbind, M_bind.
  rewrite compileOption_category_without_values by done.
  destruct (compileOptions_total env groupNames after r1
              (extend (extend w ev1)
                 (optionFailureEvents env connOption (JsTypeError "map"))))
    as (ev2 & compiled & H2).
  exists compiled, ev1, ev2. rewrite H2, !extend_extend.
  assert (Hget : Obj.get (name connOption) compiled
                 = Obj.get (name connOption) result).
  { rewrite (compileOptions_get_other _ _ _ _ _ _ _ _ Hafter H2).
    by rewrite (compileOptions_get_other _ _ _ _ _ _ _ _ Hbefore H1). }
  split_and!; [reflexivity|exact Hget|].
  intros ->. unfold Obj.has. by rewrite Hget.
Qed.

Lemma category_without_values_witness :
  ∃ compiled events,
    compileOptions Sample.env ∅
      ([Sample.descriptor "server" "string" "source"]
       ++ Sample.descriptor "encrypt" "category" "security"
       :: [Sample.descriptor "user" "string" "security"])
      [] (worldOf initialState)
    = (Ok compiled, extend (worldOf initialState) events)
    ∧ Obj.has "encrypt" compiled = false.
Proof.
  destruct (category_without_values_is_left_out Sample.env ∅
              [Sample.descriptor "server" "string" "source"]
              (Sample.descriptor "encrypt" "category" "security")
              [Sample.descriptor "user" "string" "security"]
              [] (worldOf initialState))
    as (compiled & ev1 & ev2 & Hrun & _ & Hnone).
  - reflexivity.
  - reflexivity.
  - repeat constructor; discriminate.
  - eexists compiled, _. split; [exact Hrun|by apply Hnone].
Defined.

(** What the conversion of a descriptor leaves unset. *)
Lemma convertToFormComponent_plain connOption w c w' :
  convertToFormComponent connOption w = (Ok (Some c), w') →
  validate c = None ∧ validation c = None ∧ hidden c = None
  ∧ actionButtons c = None ∧ placeholder c = None
  ∧ propertyName c = Some (name connOption)
  ∧ label c = Some (displayName connOption)
  ∧ required c = Some (isRequired connOption)
  ∧ tooltip c = Some (description connOption)
  ∧ type c = Some (fieldTypeOf (valueType connOption))
  ∧ options c
    = if String.eqb (valueType connOption) "category"
      then map categoryOption <$> categoryValues connOption
      else None.
Proof.
  unfold convertToFormComponent, fieldTypeOf.
  destruct (String.eqb (valueType connOption) "boolean") eqn:Eb.
  { apply String.eqb_eq in Eb. rewrite Eb. by intros [= <- _]. }
  destruct (String.eqb (valueType connOption) "string") eqn:Es.
  { apply String.eqb_eq in Es. rewrite Es. by intros [= <- _]. }
  destruct (String.eqb (valueType connOption) "password") eqn:Ep.
  { apply String.eqb_eq in Ep. rewrite Ep. by intros [= <- _]. }
  destruct (String.eqb (valueType connOption) "number") eqn:En.
  { apply String.eqb_eq in En. rewrite En. by intros [= <- _]. }
  destruct (String.eqb (valueType connOption) "category") eqn:Ec.
  { destruct (categoryValues connOption); [|done]. by intros [= <- _]. }
  msimpl. by intros [= _].
Qed.

Lemma compileOptions_no_validator env groupNames connectionOptions result w
    compiled w' :
  Forall (λ c, validate c = None) (Obj.values result) →
  compileOptions env groupNames connectionOptions result w = (Ok compiled, w') →
  Forall (λ c, validate c = None) (Obj.values compiled).
Proof.
  revert result w. induction connectionOptions as [|o rest IH]; intros result w Hres.
  - by intros [= <- _].
  - simpl. unfold mbind, M_bind.
    destruct (compileOption env groupNames o result w) as [[r1|e] w1] eqn:Hone;
      [|done].
    apply IH. revert Hone. unfold compileOption, try_catch, mbind, M_bind.
    destruct (convertToFormComponent o w) as [[converted|e] w2] eqn:Hconv.
    + intros [= <- _]. apply Obj_values_set_Forall; [|done].
      destruct converted as [c|]; [|done].
      apply convertToFormComponent_plain in Hconv. simpl. apply Hconv.
    + msimpl. by intros [= <- _].
Qed.

(** The second half of the schema compilation, run. *)
Lemma completeFormComponents_run env comps w :
  ∃ events,
    completeFormComponents env comps w
    = match azureButtonsFor env (profileField (state w) "authenticationType")
              (profileField (state w) "accountId") with
      | Throw e => (Throw e, extend w events)
      | Ok buttons =>
          let cs := withBuiltIns env (accountLookup env) buttons comps in
          if Obj.has "server" cs && Obj.has "user" cs
          then (Ok (Obj.update "user" (set_validate (Some (validateUser env)))
                      (Obj.update "server" (set_validate (Some (validateServer env)))
                         cs)),
                extend w events)
          else (Throw (JsTypeError "validate"), extend w events)
      end.
Proof.
  unfold completeFormComponents, withBuiltIns.
  unfold mbind at 1, M_bind at 1.
  destruct (getAccounts_answer env w) as [ev1 ->].
  unfold mbind at 1, M_bind at 1.
  destruct (getAzureActionButtons_answer env (extend w ev1)) as [ev2 ->].
  cbn [state extend]. exists (ev1 ++ ev2). rewrite extend_extend.
  destruct (azureButtonsFor env _ _) as [buttons|e]; [|done].
  unfold assignValidate, mbind, M_bind.
  destruct (Obj.has "server" _) eqn:Hserver; [|done].
  cbn [mret M_ret andb]. rewrite Obj_has_update.
  by destruct (Obj.has "user" _).
Qed.

Lemma withBuiltIns_get_other env accounts buttons comps key :
  key ∉ builtInNames →
  Obj.get key (withBuiltIns env accounts buttons comps) = Obj.get key comps.
Proof.
  intros Hkey. unfold withBuiltIns, builtInNames in *.
  rewrite !Obj_get_set_ne; [done|set_solver..].
Qed.

(** X16.  Whenever the schema compilation returns, whatever the
    capabilities list, the five built-in fields are stored as the
    controller defines them, replacing any capability of the same name:
    profile name, save password, tenant id, connection string, and account
    id with the account options and the action buttons of the moment.  The
    server and user fields exist and carry their validators, and no field
    outside account id, tenant id, connection string, server and user has
    a validator. *)
Theorem generateConnectionComponents_stores_the_built_in_fields
    (env : Env) (w w' : World) (compiled : Obj.t FormItemSpec) :
  generateConnectionComponents env w = (Ok compiled, w') →
  Obj.get "profileName" compiled = Some (profileNameSpec env)
  ∧ Obj.get "savePassword" compiled = Some (savePasswordSpec env)
  ∧ Obj.get "tenantId" compiled = Some (tenantIdSpec env)
  ∧ Obj.get "connectionString" compiled = Some (connectionStringSpec env)
  ∧ (∃ buttons,
       azureButtonsFor env (profileField (state w) "authenticationType")
         (profileField (state w) "accountId") = Ok buttons
       ∧ Obj.get "accountId" compiled
         = Some (accountIdSpec env (accountLookup env) buttons))
  ∧ (∃ c, Obj.get "server" compiled = Some c
          ∧ validate c = Some (validateServer env))
  ∧ (∃ c, Obj.get "user" compiled = Some c
          ∧ validate c = Some (validateUser env))
  ∧ (∀ key c, Obj.get key compiled = Some c → key ∉ validatedNames →
       validate c = None)
  ∧ state w' = state w.
Proof.
  unfold generateConnectionComponents.
  unfold mbind at 1, M_bind at 1, call at 1.
  unfold mbind at 1, M_bind at 1. cbn [emit lift].
  destruct (getCapabilities env) as [caps|e]; [|done].
  unfold mbind at 1, M_bind at 1.
  destruct (compileOptions_total env (groupDisplayNames caps) (capOptions caps) []
              {| state := state w; _connectionToEditCopy := _connectionToEditCopy w;
                 trace := trace w ++ [Call CallGetCapabilities] |})
    as (ev1 & result & Hcompile).
  rewrite Hcompile.
  destruct (completeFormComponents_run env result
              (extend
                 {| state := state w;
                    _connectionToEditCopy := _connectionToEditCopy w;
                    trace := trace w ++ [Call CallGetCapabilities] |} ev1))
    as (ev2 & ->).
  cbn [state extend].
  destruct (azureButtonsFor env _ _) as [buttons|e] eqn:Hbuttons; [|done].
  cbn zeta.
  destruct (Obj.has "server" _ && Obj.has "user" _) eqn:Hhas; [|done].
  apply andb_prop in Hhas as [Hserver Huser].
  apply Obj_has_get in Hserver as [cs Hcs]. apply Obj_has_get in Huser as [cu Hcu].
  intros [= <- <-].
  assert (Hget : ∀ key,
    Obj.get key
      (Obj.update "user" (set_validate (Some (validateUser env)))
         (Obj.update "server" (set_validate (Some (validateServer env)))
            (withBuiltIns env (accountLookup env) buttons result)))
    = (if String.eqb "user" key then set_validate (Some (validateUser env))
       else if String.eqb "server" key
            then set_validate (Some (validateServer env))
            else id)
        <$> Obj.get key (withBuiltIns env (accountLookup env) buttons result)).
  { intros key. rewrite !Obj_get_update.
    destruct (String.eqb "user" key) eqn:Eu, (String.eqb "server" key) eqn:Es;
      try done.
    - apply String.eqb_eq in Eu, Es. congruence.
    - by destruct (Obj.get key _). }
  unfold withBuiltIns in Hget |- *.
  split_and!.
  - rewrite Hget. simpl. rewrite !Obj_get_set_ne by done.
    by rewrite Obj_get_set_eq.
  - rewrite Hget. simpl. rewrite !Obj_get_set_ne by done.
    by rewrite Obj_get_set_eq.
  - rewrite Hget. simpl. rewrite !Obj_get_set_ne by done.
    by rewrite Obj_get_set_eq.
  - rewrite Hget. simpl. by rewrite Obj_get_set_eq.
  - exists buttons. split; [done|]. rewrite Hget. simpl.
    rewrite !Obj_get_set_ne by done. by rewrite Obj_get_set_eq.
  - rewrite Hget. unfold withBuiltIns in Hcs. rewrite Hcs. by eexists.
  - rewrite Hget. unfold withBuiltIns in Hcu. rewrite Hcu. by eexists.
  - intros key c Hc Hkey. rewrite Hget in Hc.
    assert (key ≠ "user" ∧ key ≠ "server" ∧ key ≠ "accountId"
            ∧ key ≠ "tenantId" ∧ key ≠ "connectionString")
      as (Hu & Hs & Ha & Ht & Hc0)
      by (unfold validatedNames in Hkey; set_solver).
    rewrite (proj2 (String.eqb_neq "user" key)) in Hc by done.
    rewrite (proj2 (String.eqb_neq "server" key)) in Hc by done.
    rewrite option_fmap_id in Hc.
    rewrite !(Obj_get_set_ne _ key) in Hc by done.
    destruct (decide (key = "savePassword")) as [->|Hsp].
    { rewrite Obj_get_set_eq in Hc. by injection Hc as <-. }
    rewrite Obj_get_set_ne in Hc by done.
    destruct (decide (key = "profileName")) as [->|Hpn].
    { rewrite Obj_get_set_eq in Hc. by injection Hc as <-. }
    rewrite Obj_get_set_ne in Hc by done.
    apply Obj_get_Some_values in Hc.
    apply compileOptions_no_validator in Hcompile; [|by apply Forall_nil].
    rewrite Forall_forall in Hcompile. by apply Hcompile.
  - done.
Qed.

Lemma generateConnectionComponents_built_in_witness :
  ∃ compiled w',
    generateConnectionComponents Sample.env
      (worldOf (set_connectionProfile emptyConnection initialState))
    = (Ok compiled, w')
    ∧ Obj.get "profileName" compiled = Some (profileNameSpec Sample.env).
Proof.
  destruct (generateConnectionComponents Sample.env
              (worldOf (set_connectionProfile emptyConnection initialState)))
    as [[compiled|e] w'] eqn:Hrun.
  - exists compiled, w'. split; [reflexivity|].
    exact (proj1 (generateConnectionComponents_stores_the_built_in_fields
                    _ _ _ _ Hrun)).
  - exfalso. revert Hrun. vm_compute. discriminate.
Defined.

(** X17.  The schema compilation cannot do without a server and a user
    capability: when the capabilities name no option [server], or no option
    [user], the compilation throws instead of returning a schema, and the
    dialog state is left as it was.  Unless building the action buttons
    threw first, what is thrown is the type error of assigning the
    validator to a field that does not exist. *)
Theorem generateConnectionComponents_needs_server_and_user
    (env : Env) (w : World) (caps : CapabilitiesResult) :
  getCapabilities env = Ok caps →
  Forall (λ o, name o ≠ "server") (capOptions caps)
  ∨ Forall (λ o, name o ≠ "user") (capOptions caps) →
  ∃ e w',
    generateConnectionComponents env w = (Throw e, w')
    ∧ state w' = state w
    ∧ (∀ buttons,
         azureButtonsFor env (profileField (state w) "authenticationType")
           (profileField (state w) "accountId") = Ok buttons →
         e = JsTypeError "validate").
Proof.
  intros Hcaps Hmissing. unfold generateConnectionComponents.
  unfold mbind at 1, M_bind at 1, call at 1.
  unfold mbind at 1, M_bind at 1. cbn [emit lift]. rewrite Hcaps.
  unfold mbind at 1, M_bind at 1.
  destruct (compileOptions_total env (groupDisplayNames caps) (capOptions caps) []
              {| state := state w; _connectionToEditCopy := _connectionToEditCopy w;
                 trace := trace w ++ [Call CallGetCapabilities] |})
    as (ev1 & result & Hcompile).
  rewrite Hcompile.
  destruct (completeFormComponents_run env result
              (extend
                 {| state := state w;
                    _connectionToEditCopy := _connectionToEditCopy w;
                    trace := trace w ++ [Call CallGetCapabilities] |} ev1))
    as (ev2 & ->).
  cbn [state extend].
  destruct (azureButtonsFor env _ _) as [buttons|e] eqn:Hbuttons;
    [|by eexists _, _].
  cbn zeta.
  assert (Hnone : Obj.has "server" (withBuiltIns env (accountLookup env) buttons result)
                  && Obj.has "user" (withBuiltIns env (accountLookup env) buttons result)
                  = false).
  { apply andb_false_iff. unfold Obj.has.
    destruct Hmissing as [Hm|Hm]; [left|right];
      (rewrite withBuiltIns_get_other
         by (unfold builtInNames; set_solver));
      by rewrite (compileOptions_get_other _ _ _ _ _ _ _ _ Hm Hcompile). }
  rewrite Hnone. by eexists _, _.
Qed.

Lemma generateConnectionComponents_needs_server_witness :
  ∃ w',
    generateConnectionComponents (Outcomes.envOffering Outcomes.userOnly)
      (worldOf initialState)
    = (Throw (JsTypeError "validate"), w').
Proof.
  destruct (generateConnectionComponents_needs_server_and_user
              (Outcomes.envOffering Outcomes.userOnly) (worldOf initialState)
              Outcomes.userOnly)
    as (e & w' & Hrun & _ & He).
  - reflexivity.
  - left. repeat constructor. discriminate.
  - exists w'. rewrite Hrun. f_equal. f_equal. by eapply He.
Defined.

Lemma convertToFormComponent_recognized connOption w :
  includes recognizedValueTypes (valueType connOption) = true →
  (valueType connOption = "category" → is_Some (categoryValues connOption)) →
  ∃ c, convertToFormComponent connOption w = (Ok (Some c), w).
Proof.
  unfold includes, recognizedValueTypes. simpl. intros Hkind Hvalues.
  unfold convertToFormComponent.
  destruct (String.eqb (valueType connOption) "boolean"); [by eexists|].
  destruct (String.eqb (valueType connOption) "string"); [by eexists|].
  destruct (String.eqb (valueType connOption) "password"); [by eexists|].
  destruct (String.eqb (valueType connOption) "number"); [by eexists|].
  destruct (String.eqb (valueType connOption) "category") eqn:Ec; [|done].
  apply String.eqb_eq in Ec. destruct (Hvalues Ec) as [vs ->]. by eexists.
Qed.

(** X18.  A descriptor of a recognized value kind (a category coming with
    its values) is compiled without any diagnostic to a field stored under
    its name, and the last descriptor of a name decides.  The field takes
    the descriptor's name, display name, required flag and description; its
    type is Checkbox for boolean, Password for password, Dropdown for
    category (with one option per value, labelled by the display name or,
    failing that, the value's name) and Input for string and number; it is
    flagged advanced exactly when its name is not one of the main option
    names, and it carries the descriptor's category id and that id's label
    (the id itself when the label map has none).  It has no validator yet
    and is neither hidden nor validated. *)
Theorem recognized_descriptor_is_compiled_to_its_field
    (env : Env) (groupNames : gmap string string)
    (before : list ConnectionOption) (connOption : ConnectionOption)
    (after : list ConnectionOption) (result : Obj.t FormItemSpec) (w : World) :
  includes recognizedValueTypes (valueType connOption) = true →
  (valueType connOption = "category" → is_Some (categoryValues connOption)) →
  Forall (λ o, name o ≠ name connOption) after →
  ∃ compiled events c,
    compileOptions env groupNames (before ++ connOption :: after) result w
    = (Ok compiled, extend w events)
    ∧ (∀ r w1,
         compileOption env groupNames connOption r w1
         = (Ok (Obj.set (name connOption) c r), w1))
    ∧ Obj.get (name connOption) compiled = Some c
    ∧ propertyName c = Some (name connOption)
    ∧ label c = Some (displayName connOption)
    ∧ required c = Some (isRequired connOption)
    ∧ tooltip c = Some (description connOption)
    ∧ type c = Some (fieldTypeOf (valueType connOption))
    ∧ options c
      = (if String.eqb (valueType connOption) "category"
         then map categoryOption <$> categoryValues connOption
         else None)
    ∧ isAdvancedOption c
      = Some (negb (includes _mainOptionNames (name connOption)))
    ∧ optionCategory c = Some (groupName_ connOption)
    ∧ optionCategoryLabel c
      = Some (categoryLabel groupNames (groupName_ connOption))
    ∧ validate c = None ∧ validation c = None ∧ hidden c = None.
Proof.
  intros Hkind Hvalues Hafter.
  destruct (compileOptions_total env groupNames before result w)
    as (ev1 & r1 & H1).
  rewrite compileOptions_app, H1. simpl. unfold mbind at 1, M_bind at 1.
  destruct (convertToFormComponent_recognized connOption (extend w ev1)
              Hkind Hvalues) as [c0 Hconv].
  unfold compileOption at 1, try_catch, mbind at 1, M_bind at 1.
  rewrite Hconv. cbn [mret M_ret].
  destruct (compileOptions_total env groupNames after
              (Obj.set (name connOption)
                 (compiledSpec groupNames connOption (Some c0)) r1)
              (extend w ev1))
    as (ev2 & compiled & H2).
  exists compiled, (ev1 ++ ev2), (compiledSpec groupNames connOption (Some c0)).
  rewrite H2, extend_extend.
  assert (Hstep : ∀ r w1,
    compileOption env groupNames connOption r w1
    = (Ok (Obj.set (name connOption)
             (compiledSpec groupNames connOption (Some c0)) r), w1)).
  { intros r w1.
    destruct (convertToFormComponent_recognized connOption w1 Hkind Hvalues)
      as [c1 Hconv1].
    unfold compileOption, try_catch, mbind, M_bind. rewrite Hconv1.
    cbn [mret M_ret]. do 2 f_equal.
    f_equal. unfold compiledSpec. simpl.
    apply convertToFormComponent_plain in Hconv
      as (Hv & Hvn & Hh & Hb & Hp & Hn & Hl & Hr & Ht & Hty & Ho).
    apply convertToFormComponent_plain in Hconv1
      as (Hv1 & Hvn1 & Hh1 & Hb1 & Hp1 & Hn1 & Hl1 & Hr1 & Ht1 & Hty1 & Ho1).
    by rewrite Hv, Hvn, Hh, Hb, Hp, Hn, Hl, Hr, Ht, Hty, Ho,
      Hv1, Hvn1, Hh1, Hb1, Hp1, Hn1, Hl1, Hr1, Ht1, Hty1, Ho1. }
  apply convertToFormComponent_plain in Hconv
    as (Hv & Hvn & Hh & _ & _ & Hn & Hl & Hr & Ht & Hty & Ho).
  split_and!; try done.
  rewrite (compileOptions_get_other _ _ _ _ _ _ _ _ Hafter H2).
  apply Obj_get_set_eq.
Qed.

Lemma recognized_descriptor_witness :
  ∃ compiled c,
    (compileOptions Sample.env (groupDisplayNames Sample.capabilities)
       (take 2 Sample.descriptors ++ Sample.authenticationTypeDescriptor
        :: drop 3 Sample.descriptors) [] (worldOf initialState)).1
    = Ok compiled
    ∧ Obj.get "authenticationType" compiled = Some c
    ∧ type c = Some Dropdown
    ∧ options c
      = Some [ {| optDisplayName := "SQL Login"; optValue := "SqlLogin" |};
               {| optDisplayName := "Integrated"; optValue := "Integrated" |};
               {| optDisplayName := "Microsoft Entra Id"; optValue := "AzureMFA" |} ].
Proof.
  destruct (recognized_descriptor_is_compiled_to_its_field Sample.env
              (groupDisplayNames Sample.capabilities)
              (take 2 Sample.descriptors) Sample.authenticationTypeDescriptor
              (drop 3 Sample.descriptors) [] (worldOf initialState))
    as (compiled & events & c & Hrun & _ & Hget & _ & _ & _ & _ & Hty & Ho & _).
  - reflexivity.
  - intros _. by eexists.
  - simpl. repeat constructor; discriminate.
  - exists compiled, c. rewrite Hrun. split; [reflexivity|].
    split; [exact Hget|]. split; [exact Hty|exact Ho].
Defined.

(** ** Grouping by a key *)

Section GroupByFacts.
Context {K V : Type} `{EqDecision K}.
Implicit Types (ks : list K) (m : JsMap.t K (list V)) (key : V → K).

Lemma firstSeen_snoc ks k :
  firstSeen (ks ++ [k])
  = if decide (k ∈ firstSeen ks) then firstSeen ks else firstSeen ks ++ [k].
Proof. unfold firstSeen. by rewrite foldl_app. Qed.

Lemma firstSeen_elem ks k : k ∈ firstSeen ks ↔ k ∈ ks.
Proof.
  induction ks as [|k0 ks IH] using rev_ind; [done|].
  rewrite firstSeen_snoc. case_decide; set_solver.
Qed.

Lemma firstSeen_NoDup ks : NoDup (firstSeen ks).
Proof.
  induction ks as [|k0 ks IH] using rev_ind; [constructor|].
  rewrite firstSeen_snoc. case_decide; [done|].
  apply NoDup_app. split_and!; [done|set_solver|apply NoDup_singleton].
Qed.

Lemma JsMap_get_keyed (f : K → list V) ks k :
  JsMap.get k (map (λ k', (k', f k')) ks)
  = if decide (k ∈ ks) then Some (f k) else None.
Proof.
  induction ks as [|k0 ks IH]; simpl; [done|].
  destruct (decide (k = k0)) as [->|Hne].
  - by rewrite decide_True by set_solver.
  - rewrite IH. destruct (decide (k ∈ ks));
      [by rewrite decide_True by set_solver
      |by rewrite decide_False by set_solver].
Qed.

Lemma JsMap_update_keyed (f : K → list V) (g : list V → list V) ks k :
  NoDup ks →
  JsMap.update k g (map (λ k', (k', f k')) ks)
  = map (λ k', (k', if decide (k' = k) then g (f k') else f k')) ks.
Proof.
  induction 1 as [|k0 ks Hnotin _ IH]; simpl; [done|].
  destruct (decide (k = k0)) as [->|Hne].
  - rewrite decide_True by done. f_equal. apply map_ext_in.
    intros k' Hk'%list_elem_of_In. rewrite decide_False; [done|].
    by intros ->.
  - rewrite decide_False by done. by rewrite IH.
Qed.

Lemma groupBy_snoc (values : list V) key x :
  groupBy (values ++ [x]) key = groupByStep key (groupBy values key) x.
Proof. unfold groupBy. by rewrite foldl_app. Qed.

Lemma filter_other_key key (values : list V) k :
  k ∉ map key values → filter (λ v, key v = k) values = [].
Proof.
  induction values as [|v values IH]; simpl; [done|].
  intros Hnotin. rewrite filter_cons_False by set_solver. apply IH. set_solver.
Qed.

(** The map [groupBy] builds, entry by entry. *)
Lemma groupBy_entries (values : list V) key :
  groupBy values key
  = map (λ k, (k, filter (λ v, key v = k) values)) (firstSeen (map key values)).
Proof.
  induction values as [|x values IH] using rev_ind; [done|].
  rewrite groupBy_snoc, IH, map_app.
  change (map key [x]) with [key x]. rewrite firstSeen_snoc.
  unfold groupByStep, JsMap.set, JsMap.has.
  rewrite JsMap_get_keyed.
  pose proof (firstSeen_NoDup (map key values)) as Hnodup.
  destruct (decide (key x ∈ firstSeen (map key values))) as [Hin|Hnotin]; simpl.
  - rewrite JsMap_update_keyed by done. apply map_ext.
    intros k. rewrite filter_app. f_equal.
    destruct (decide (k = key x)) as [->|Hne].
    + by rewrite filter_cons_True, filter_nil by done.
    + by rewrite filter_cons_False, filter_nil, app_nil_r by done.
  - assert (Hempty : filter (λ v, key v = key x) values = []).
    { apply filter_other_key. by rewrite <- firstSeen_elem. }
    replace [(key x, @nil V)]
      with (map (λ k, (k, filter (λ v, key v = k) values)) [key x])
      by (simpl; by rewrite Hempty).
    rewrite <- map_app.
    rewrite JsMap_update_keyed
      by (apply NoDup_app; split_and!; [done|set_solver|apply NoDup_singleton]).
    apply map_ext. intros k. rewrite filter_app. f_equal.
    destruct (decide (k = key x)) as [->|Hne].
    + by rewrite filter_cons_True, filter_nil by done.
    + by rewrite filter_cons_False, filter_nil, app_nil_r by done.
Qed.

Lemma concat_groups_update m k x :
  JsMap.has k m = true →
  concat (JsMap.values (JsMap.update k (λ group, group ++ [x]) m))
  ≡ₚ concat (JsMap.values m) ++ [x].
Proof.
  unfold JsMap.has, JsMap.values.
  induction m as [|[k0 g0] m IH]; simpl; [done|].
  destruct (decide (k = k0)) as [->|Hne]; simpl.
  - intros _. rewrite <- !app_assoc. f_equiv. apply Permutation_app_comm.
  - intros Hhas. rewrite IH by done. by rewrite app_assoc.
Qed.

Lemma groupBy_concat (values : list V) key :
  concat (JsMap.values (groupBy values key)) ≡ₚ values.
Proof.
  induction values as [|x values IH] using rev_ind; [done|].
  rewrite groupBy_snoc. unfold groupByStep.
  destruct (JsMap.has (key x) (groupBy values key)) eqn:Hhas; simpl.
  - rewrite concat_groups_update by done. by rewrite IH.
  - rewrite concat_groups_update.
    + unfold JsMap.set. rewrite Hhas. unfold JsMap.values.
      rewrite map_app, concat_app. simpl. rewrite app_nil_r.
      fold (JsMap.values (groupBy values key)). by rewrite IH.
    + unfold JsMap.set. rewrite Hhas. unfold JsMap.has.
      clear. induction (groupBy values key) as [|[k0 g0] m IHm]; simpl.
      * by rewrite decide_True.
      * by destruct (decide (key x = k0)).
Qed.

End GroupByFacts.

(** X19.  [groupBy] partitions the values by their key without losing,
    repeating or reordering any: the keys of the map are the distinct keys
    of the values in the order in which each is first met, the group of a
    key lists the values of that key in their original order, no group is
    empty, and the groups taken together are a rearrangement of the
    values. *)
Theorem groupBy_partitions_in_first_seen_order
    {K V : Type} `{EqDecision K} (values : list V) (key : V → K) :
  JsMap.keys (groupBy values key) = firstSeen (map key values)
  ∧ NoDup (JsMap.keys (groupBy values key))
  ∧ (∀ k, k ∈ JsMap.keys (groupBy values key) ↔ ∃ v, v ∈ values ∧ key v = k)
  ∧ (∀ k, JsMap.get k (groupBy values key)
          = if decide (k ∈ map key values)
            then Some (filter (λ v, key v = k) values)
            else None)
  ∧ (∀ k group, (k, group) ∈ groupBy values key →
       group ≠ [] ∧ group = filter (λ v, key v = k) values)
  ∧ concat (JsMap.values (groupBy values key)) ≡ₚ values.
Proof.
  assert (Hkeys : JsMap.keys (groupBy values key) = firstSeen (map key values)).
  { rewrite groupBy_entries. unfold JsMap.keys. rewrite map_map. apply map_id. }
  split_and!.
  - exact Hkeys.
  - rewrite Hkeys. apply firstSeen_NoDup.
  - intros k. rewrite Hkeys, firstSeen_elem. rewrite list_elem_of_fmap.
    naive_solver.
  - intros k. rewrite groupBy_entries, JsMap_get_keyed.
    destruct (decide (k ∈ map key values)) as [Hin|Hnotin].
    + by rewrite decide_True by (by apply firstSeen_elem).
    + by rewrite decide_False by (by rewrite firstSeen_elem).
  - intros k group. rewrite groupBy_entries.
    intros (k' & [= -> ->] & Hk')%list_elem_of_fmap. split; [|done].
    apply firstSeen_elem, list_elem_of_fmap in Hk' as (v & -> & Hv).
    intros Hnil. eapply (filter_nil_not_elem_of _ _ v Hnil); done.
  - apply groupBy_concat.
Qed.

(** ** Strings *)

Section StringFacts.
Implicit Types (s t u v : string).

Lemma string_app_cons c s t : String c s +:+ t = String c (s +:+ t).
Proof. reflexivity. Qed.

Lemma string_app_nil t : "" +:+ t = t.
Proof. reflexivity. Qed.

(** Unfold an append whose left operand is known. *)
Ltac app_simpl := rewrite ?string_app_cons, ?string_app_nil; simpl.

Lemma string_length_app u v :
  String.length (u +:+ v) = (String.length u + String.length v)%nat.
Proof. induction u as [|c u IH]; app_simpl; [done|]. by rewrite IH. Qed.

Lemma string_app_assoc s t u : (s +:+ t) +:+ u = s +:+ (t +:+ u).
Proof. induction s as [|c s IH]; app_simpl; [done|]. by rewrite IH. Qed.

Lemma string_app_nil_r s : s +:+ "" = s.
Proof. induction s as [|c s IH]; app_simpl; [done|]. by rewrite IH. Qed.

Lemma substring_0_app u v : String.substring 0 (String.length u) (u +:+ v) = u.
Proof. induction u as [|c u IH]; app_simpl; [by destruct v|]. by rewrite IH. Qed.

Lemma substring_skip u v p m :
  String.substring (String.length u + p) m (u +:+ v) = String.substring p m v.
Proof. induction u as [|c u IH]; app_simpl; [done|]. exact IH. Qed.

Lemma substring_app_l u v p m :
  (p + m ≤ String.length u)%nat →
  String.substring p m (u +:+ v) = String.substring p m u.
Proof.
  revert p m. induction u as [|c u IH]; intros p m Hlen; app_simpl; simpl in Hlen.
  - assert (p = 0 ∧ m = 0)%nat as [-> ->] by lia. by destruct v.
  - destruct p as [|p].
    + destruct m as [|m]; [done|]. f_equal. apply IH. lia.
    + apply IH. lia.
Qed.

Lemma substring_0_0 u : String.substring 0 0 u = "".
Proof. by destruct u. Qed.

Lemma substring_all u : String.substring 0 (String.length u) u = u.
Proof. induction u as [|c u IH]; simpl; [done|]. by rewrite IH. Qed.

Lemma substring_split u p m :
  (p + m ≤ String.length u)%nat →
  u = String.substring 0 p u +:+ String.substring p m u
      +:+ String.substring (p + m) (String.length u - (p + m)) u.
Proof.
  revert p m. induction u as [|c u IH]; intros p m Hlen; simpl in Hlen.
  - by assert (p = 0 ∧ m = 0)%nat as [-> ->] by lia.
  - destruct p as [|p].
    + rewrite substring_0_0, string_app_nil. destruct m as [|m].
      * rewrite substring_0_0, string_app_nil. simpl. by rewrite substring_all.
      * simpl. rewrite string_app_cons. f_equal.
        pose proof (IH 0%nat m) as H0. rewrite substring_0_0, string_app_nil in H0.
        apply H0. lia.
    + simpl. rewrite string_app_cons. f_equal. apply (IH p m). lia.
Qed.

Lemma substring_length u p m :
  (p + m ≤ String.length u)%nat → String.length (String.substring p m u) = m.
Proof.
  revert p m. induction u as [|c u IH]; intros p m Hlen; simpl in *.
  - by assert (p = 0 ∧ m = 0)%nat as [-> ->] by lia.
  - destruct p as [|p].
    + destruct m as [|m]; [done|]. simpl. f_equal. apply IH. lia.
    + apply IH. lia.
Qed.

Lemma index_ge n pattern s m : String.index n pattern s = Some m → (n ≤ m)%nat.
Proof.
  revert n m. induction s as [|c s IH]; intros n m; simpl.
  - destruct n; [lia|done].
  - destruct n as [|n]; [lia|].
    destruct (String.index n pattern s) as [m'|] eqn:E; [|done].
    intros [= <-]. apply IH in E. lia.
Qed.

(** [index] finds the first occurrence at or after the start. *)
Lemma index_first n pattern s m :
  pattern ≠ "" → (n ≤ m)%nat →
  String.substring m (String.length pattern) s = pattern →
  (∀ p, (n ≤ p)%nat → (p < m)%nat →
        String.substring p (String.length pattern) s ≠ pattern) →
  String.index n pattern s = Some m.
Proof.
  intros Hne Hnm Hat Hbefore.
  destruct (String.index n pattern s) as [m'|] eqn:E.
  - f_equal. pose proof (index_ge _ _ _ _ E) as Hge.
    pose proof (index_correct1 _ _ _ _ E) as Hat'.
    pose proof (index_correct2 _ _ _ _ E) as Hbefore'.
    destruct (Nat.lt_trichotomy m' m) as [Hlt|[->|Hgt]]; [|done|].
    + by destruct (Hbefore m' Hge Hlt).
    + by destruct (Hbefore' m Hnm Hgt).
  - by destruct (index_correct3 n m pattern s E Hne Hnm).
Qed.

Lemma index_none n pattern s :
  (∀ m, (n ≤ m)%nat → String.substring m (String.length pattern) s ≠ pattern) →
  String.index n pattern s = None.
Proof.
  intros Hno. destruct (String.index n pattern s) as [m|] eqn:E; [|done].
  destruct (Hno m (index_ge _ _ _ _ E)). by apply (index_correct1 n).
Qed.

Lemma toLowerCase_app u v : toLowerCase (u +:+ v) = toLowerCase u +:+ toLowerCase v.
Proof.
  induction u as [|c u IH]; app_simpl; [done|].
  by rewrite string_app_cons, IH.
Qed.

Lemma toLowerCase_length u : String.length (toLowerCase u) = String.length u.
Proof. induction u as [|c u IH]; simpl; [done|]. by rewrite IH. Qed.

End StringFacts.

(** ** Loading the connection to edit *)

Lemma indexOf_password_key pre key rest :
  toLowerCase key = "password=" →
  occursOnlyAtEnd "password=" (toLowerCase (pre +:+ key)) →
  indexOf (toLowerCase (pre +:+ key +:+ rest)) "password=" 0
  = Some (String.length pre).
Proof.
  intros Hkey Honly. unfold indexOf.
  rewrite !toLowerCase_app, Hkey in *.
  apply index_first; [done|lia| |].
  - rewrite <- (toLowerCase_length pre), <- (Nat.add_0_r (String.length _)).
    rewrite substring_skip.
    apply (substring_0_app "password=" (toLowerCase rest)).
  - intros p _ Hp Hocc. rewrite <- (toLowerCase_length pre) in Hp.
    rewrite <- string_app_assoc in Hocc.
    rewrite substring_app_l in Hocc
      by (rewrite string_length_app; simpl; lia).
    pose proof (substring_split (toLowerCase pre +:+ "password=") p
                  (String.length "password=")) as Hsplit.
    rewrite Hocc in Hsplit.
    specialize (Hsplit ltac:(rewrite string_length_app; simpl; lia)).
    apply Honly in Hsplit.
    apply (f_equal String.length) in Hsplit.
    rewrite substring_length in Hsplit
      by (rewrite string_length_app; simpl; lia).
    rewrite string_length_app in Hsplit. simpl in Hsplit. lia.
Qed.

Lemma semicolonFree_at pw q : semicolonFree pw → String.substring q 1 pw ≠ ";".
Proof.
  intros Hfree. apply (index_correct3 0 q ";" pw Hfree); [done|lia].
Qed.

Lemma indexOf_semicolon u pw rest :
  semicolonFree pw →
  indexOf (u +:+ pw +:+ ";" +:+ rest) ";" (String.length u)
  = Some (String.length u + String.length pw)%nat.
Proof.
  intros Hfree. unfold indexOf. apply index_first; [done|lia| |].
  - rewrite substring_skip.
    rewrite <- (Nat.add_0_r (String.length pw)), substring_skip.
    apply (substring_0_app ";" rest).
  - intros p Hge Hlt.
    replace p with (String.length u + (p - String.length u))%nat by lia.
    rewrite substring_skip, substring_app_l by (simpl; lia).
    by apply semicolonFree_at.
Qed.

Lemma indexOf_no_semicolon u pw :
  semicolonFree pw → indexOf (u +:+ pw) ";" (String.length u) = None.
Proof.
  intros Hfree. unfold indexOf. apply index_none. intros m Hge.
  replace m with (String.length u + (m - String.length u))%nat by lia.
  rewrite substring_skip. by apply semicolonFree_at.
Qed.

Lemma password_key_length key :
  toLowerCase key = "password=" → String.length key = 9%nat.
Proof. intros Hkey. by rewrite <- toLowerCase_length, Hkey. Qed.

(** The password between the key and the next semicolon is taken out. *)
Lemma extractPassword_found pre key pw post connection :
  toLowerCase key = "password=" →
  occursOnlyAtEnd "password=" (toLowerCase (pre +:+ key)) →
  semicolonFree pw →
  extractPassword (pre +:+ key +:+ pw +:+ ";" +:+ post) connection
  = <["connectionString" := VStr ""]> (<["password" := VStr pw]> connection).
Proof.
  intros Hkey Honly Hfree. unfold extractPassword.
  rewrite (indexOf_password_key pre key _ Hkey Honly).
  assert (Hstart : (String.length pre + String.length "password=")%nat
                   = String.length (pre +:+ key)).
  { rewrite string_length_app, (password_key_length key Hkey). done. }
  cbn zeta. rewrite Hstart.
  rewrite <- (string_app_assoc pre key).
  rewrite (indexOf_semicolon (pre +:+ key) pw post Hfree).
  unfold js_substring.
  rewrite Nat.min_l, Nat.max_r by lia.
  replace (String.length (pre +:+ key) + String.length pw
           - String.length (pre +:+ key))%nat with (String.length pw) by lia.
  rewrite <- (Nat.add_0_r (String.length (pre +:+ key))), substring_skip.
  by rewrite substring_0_app.
Qed.

(** A password that runs to the end of the stored string is not taken
    out; the connection string is cleared all the same. *)
Lemma extractPassword_unterminated pre key pw connection :
  toLowerCase key = "password=" →
  occursOnlyAtEnd "password=" (toLowerCase (pre +:+ key)) →
  semicolonFree pw →
  extractPassword (pre +:+ key +:+ pw) connection
  = <["connectionString" := VStr ""]> connection.
Proof.
  intros Hkey Honly Hfree. unfold extractPassword.
  rewrite (indexOf_password_key pre key _ Hkey Honly).
  assert (Hstart : (String.length pre + String.length "password=")%nat
                   = String.length (pre +:+ key)).
  { rewrite string_length_app, (password_key_length key Hkey). done. }
  cbn zeta. rewrite Hstart.
  rewrite <- (string_app_assoc pre key).
  by rewrite (indexOf_no_semicolon (pre +:+ key) pw Hfree).
Qed.

Lemma occursOnlyAtEnd_of_index pattern text :
  pattern ≠ "" →
  String.index 0 pattern text
  = Some (String.length text - String.length pattern)%nat →
  occursOnlyAtEnd pattern text.
Proof.
  intros Hne Hindex a b Htext.
  assert (Hlen : String.length text
                 = (String.length a + String.length pattern + String.length b)%nat).
  { rewrite Htext, !string_length_app. lia. }
  destruct b as [|c b]; [done|]. exfalso. simpl in Hlen.
  apply (index_correct2 _ _ _ _ Hindex (String.length a)); [lia|lia|].
  rewrite Htext, <- (Nat.add_0_r (String.length a)), substring_skip.
  apply substring_0_app.
Qed.

Lemma js_get_withDisplayName getName connection k :
  k ≠ "displayName" →
  js_get (withDisplayName getName connection) k = js_get connection k.
Proof.
  intros Hk. unfold js_get, withDisplayName. by rewrite lookup_insert_ne.
Qed.

(** X20.  For a connection-string connection whose stored connection
    string reads [pre Password=pw; post], where the key (in any letter
    case) occurs there for the first time and [pw] has no semicolon, the
    dialog profile gets [pw] as its password and the empty string as its
    connection string; apart from these two and the display name every
    property is as the saved connection has it. *)
Theorem initializeConnectionForDialog_extracts_the_password
    (lookupPassword : IConnectionDialogProfile → bool → Outcome (option string))
    (getConnectionDisplayName : IConnectionDialogProfile → string)
    (connection : IConnectionDialogProfile) (pre key pw post : string) :
  isConnectionStringConnection connection = true →
  lookupPassword connection true
  = Ok (Some (pre +:+ key +:+ pw +:+ ";" +:+ post)) →
  toLowerCase key = "password=" →
  occursOnlyAtEnd "password=" (toLowerCase (pre +:+ key)) →
  semicolonFree pw →
  ∃ profile,
    initializeConnectionForDialog lookupPassword getConnectionDisplayName connection
    = Ok profile
    ∧ js_get profile "password" = VStr pw
    ∧ js_get profile "connectionString" = VStr ""
    ∧ (∀ k, k ≠ "password" → k ≠ "connectionString" → k ≠ "displayName" →
         profile !! k = connection !! k).
Proof.
  intros Hcs Hstored Hkey Honly Hfree. unfold initializeConnectionForDialog.
  rewrite Hcs, Hstored. cbn [negb].
  assert (Hnonempty : String.eqb (pre +:+ key +:+ pw +:+ ";" +:+ post) "" = false).
  { apply String.eqb_neq. intros H0. apply (f_equal String.length) in H0.
    rewrite !string_length_app, (password_key_length key Hkey) in H0.
    simpl in H0. lia. }
  rewrite Hnonempty. cbn [negb].
  rewrite (extractPassword_found pre key pw post connection Hkey Honly Hfree).
  eexists. split; [reflexivity|]. split_and!.
  - rewrite js_get_withDisplayName by done. unfold js_get.
    by rewrite lookup_insert_ne, lookup_insert_eq.
  - rewrite js_get_withDisplayName by done. unfold js_get.
    by rewrite lookup_insert_eq.
  - intros k Hp Hc Hd. unfold withDisplayName.
    by rewrite !lookup_insert_ne.
Qed.

Lemma initializeConnectionForDialog_extracts_witness :
  ∃ profile,
    initializeConnectionForDialog
      (Outcomes.storedSecret "Server=db;Password=s3cret;Encrypt=true")
      Outcomes.unnamed Outcomes.savedConnection
    = Ok profile
    ∧ js_get profile "password" = VStr "s3cret"
    ∧ js_get profile "connectionString" = VStr "".
Proof.
  destruct (initializeConnectionForDialog_extracts_the_password
              (Outcomes.storedSecret "Server=db;Password=s3cret;Encrypt=true")
              Outcomes.unnamed Outcomes.savedConnection
              "Server=db;" "Password=" "s3cret" "Encrypt=true")
    as (profile & Hrun & Hpassword & Hcs & _).
  - reflexivity.
  - reflexivity.
  - reflexivity.
  - apply occursOnlyAtEnd_of_index; [discriminate|reflexivity].
  - reflexivity.
  - exists profile. split; [exact Hrun|]. split; [exact Hpassword|exact Hcs].
Defined.

(** X21.  When the password is the last item of the stored connection
    string and no semicolon follows it, [pre Password=pw], no password is
    taken out: the dialog profile keeps the password property of the saved
    connection, and its connection string is cleared all the same. *)
Theorem initializeConnectionForDialog_needs_the_closing_semicolon
    (lookupPassword : IConnectionDialogProfile → bool → Outcome (option string))
    (getConnectionDisplayName : IConnectionDialogProfile → string)
    (connection : IConnectionDialogProfile) (pre key pw : string) :
  isConnectionStringConnection connection = true →
  lookupPassword connection true = Ok (Some (pre +:+ key +:+ pw)) →
  toLowerCase key = "password=" →
  occursOnlyAtEnd "password=" (toLowerCase (pre +:+ key)) →
  semicolonFree pw →
  ∃ profile,
    initializeConnectionForDialog lookupPassword getConnectionDisplayName connection
    = Ok profile
    ∧ profile !! "password" = connection !! "password"
    ∧ js_get profile "connectionString" = VStr ""
    ∧ (∀ k, k ≠ "connectionString" → k ≠ "displayName" →
         profile !! k = connection !! k).
Proof.
  intros Hcs Hstored Hkey Honly Hfree. unfold initializeConnectionForDialog.
  rewrite Hcs, Hstored. cbn [negb].
  assert (Hnonempty : String.eqb (pre +:+ key +:+ pw) "" = false).
  { apply String.eqb_neq. intros H0. apply (f_equal String.length) in H0.
    rewrite !string_length_app, (password_key_length key Hkey) in H0.
    simpl in H0. lia. }
  rewrite Hnonempty. cbn [negb].
  rewrite (extractPassword_unterminated pre key pw connection Hkey Honly Hfree).
  eexists. split; [reflexivity|]. split_and!.
  - unfold withDisplayName. by rewrite !lookup_insert_ne.
  - rewrite js_get_withDisplayName by done. unfold js_get.
    by rewrite lookup_insert_eq.
  - intros k Hc Hd. unfold withDisplayName. by rewrite !lookup_insert_ne.
Qed.

Lemma initializeConnectionForDialog_semicolon_witness :
  ∃ profile,
    initializeConnectionForDialog
      (Outcomes.storedSecret "Server=db;Password=s3cret")
      Outcomes.unnamed Outcomes.savedConnection
    = Ok profile
    ∧ profile !! "password" = None
    ∧ js_get profile "connectionString" = VStr "".
Proof.
  destruct (initializeConnectionForDialog_needs_the_closing_semicolon
              (Outcomes.storedSecret "Server=db;Password=s3cret")
              Outcomes.unnamed Outcomes.savedConnection
              "Server=db;" "Password=" "s3cret")
    as (profile & Hrun & Hpassword & Hcs & _).
  - reflexivity.
  - reflexivity.
  - reflexivity.
  - apply occursOnlyAtEnd_of_index; [discriminate|reflexivity].
  - reflexivity.
  - exists profile. split; [exact Hrun|]. split; [exact Hpassword|exact Hcs].
Defined.

(** X22.  Loading the connection to edit records a copy of the saved
    connection as it was given, before its secret is looked up.  When the
    lookup throws, the method throws with that copy recorded and the
    dialog state untouched.  When the connection is initialized, the
    profile becomes the initialized one, the mode is connection-string
    exactly when that profile has a truthy connection string and no server,
    and the state is pushed once.  So a connection-string connection whose
    stored secret yields a password, its connection string then being
    empty, opens in Parameters mode. *)
Theorem loadConnectionToEdit_copies_then_selects_the_mode
    (lookupPassword : IConnectionDialogProfile → bool → Outcome (option string))
    (getConnectionDisplayName : IConnectionDialogProfile → string)
    (connection : IConnectionDialogProfile) (w : World) :
  let load :=
    loadConnectionToEdit lookupPassword getConnectionDisplayName (Some connection) w in
  _connectionToEditCopy load.2 = Some connection
  ∧ match initializeConnectionForDialog lookupPassword getConnectionDisplayName
            connection with
    | Throw e => load.1 = Throw e ∧ state load.2 = state w ∧ trace load.2 = trace w
    | Ok profile =>
        load.1 = Ok tt
        ∧ connectionProfile (state load.2) = profile
        ∧ (selectedInputMode (state load.2) = ConnectionString
           ↔ truthy (js_get profile "connectionString") = true
             ∧ js_get profile "server" = VUndefined)
        ∧ (selectedInputMode (state load.2) = ConnectionString
           ∨ selectedInputMode (state load.2) = Parameters)
        ∧ (js_get profile "connectionString" = VStr "" →
           selectedInputMode (state load.2) = Parameters)
        ∧ trace load.2 = trace w ++ [UpdateState (state load.2)]
    end.
Proof.
  intros load. subst load. unfold loadConnectionToEdit. msimpl.
  destruct (initializeConnectionForDialog _ _ connection) as [profile|e];
    msimpl; [|done].
  split; [done|]. split_and!; try done.
  - unfold strict_eq.
    destruct (truthy (js_get profile "connectionString")); simpl;
      [|by split; [|intros [? _]]].
    destruct (decide (js_get profile "server" = VUndefined)) as [Hs|Hs].
    + by rewrite bool_decide_eq_true_2.
    + rewrite bool_decide_eq_false_2 by done. by split; [|intros [_ ?]].
  - destruct (truthy _ && strict_eq _ _); [by left|by right].
  - by intros ->.
Qed.

(** The saved connection of the two samples above opens in Parameters
    mode, and the copy kept for the save still names its credential. *)
Example loadConnectionToEdit_sample :
  let w :=
    (loadConnectionToEdit
       (Outcomes.storedSecret "Server=db;Password=s3cret;Encrypt=true")
       Outcomes.unnamed (Some Outcomes.savedConnection) (worldOf initialState)).2 in
  selectedInputMode (state w) = Parameters
  ∧ profileField (state w) "password" = VStr "s3cret"
  ∧ profileField (state w) "connectionString" = VStr ""
  ∧ (λ c, js_get c "connectionString") <$> _connectionToEditCopy w
    = Some (VStr "credential-key-1").
Proof. vm_compute. repeat split; reflexivity. Qed.

(** ** The add-firewall-rule action, when the service throws *)

(** X23.  When the identity for the tenant is built but the call that
    creates the firewall rule throws, the add-firewall-rule action throws
    what the service threw: the dialog state is left as it was, with the
    recovery dialog still open and the form error untouched, nothing is
    reported to telemetry, the view gets no state and the connect flow is
    not retried. *)
Theorem addFirewallRule_service_failure_keeps_the_dialog
    (env : Env) (payload : AddFirewallRulePayload) (w : World)
    (account : IAccount) (tokenMappings : list (string * string)) (e : JsError) :
  (constructAzureAccountForTenant env (payloadTenantId payload)
     (extend w [ConsoleDebug ("Setting firewall rule: " +:+
                              payloadDescription payload)])).1
  = Ok (account, tokenMappings) →
  createFirewallRule env (firewallRequest payload (state w) account tokenMappings)
  = Throw e →
  ∃ w',
    addFirewallRule env payload w = (Throw e, w')
    ∧ state w' = state w
    ∧ connectAttempted w w' = false
    ∧ Forall (λ ev, isTelemetryEvent ev = false ∧ ∀ s, ev ≠ UpdateState s)
        (drop (length (trace w)) (trace w')).
Proof.
  intros Hbuilt Hcreate.
  destruct (constructAzureAccountForTenant_frame env (payloadTenantId payload)
              (extend w [ConsoleDebug ("Setting firewall rule: " +:+
                                       payloadDescription payload)]))
    as (calls & Hframe & Hcalls).
  assert (Hlocal : Forall (λ ev, isTelemetryEvent ev = false
                                 ∧ ∀ s, ev ≠ UpdateState s) calls).
  { clear -Hframe. revert Hframe.
    unfold constructAzureAccountForTenant. msimpl.
    destruct (confirmVscodeAzureSignin env) as [[a|]|e0]; msimpl;
      try (intros H; apply (f_equal trace) in H; simpl in H;
           rewrite <- !app_assoc in H; do 2 apply app_inv_head in H; subst calls;
           repeat constructor; by intros ?).
    destruct (authGetSubscriptions a false) as [subs|e0]; msimpl;
      try (intros H; apply (f_equal trace) in H; simpl in H;
           rewrite <- !app_assoc in H; do 2 apply app_inv_head in H; subst calls;
           repeat constructor; by intros ?).
    destruct (filter _ subs) as [|sub rest]; msimpl;
      try (intros H; apply (f_equal trace) in H; simpl in H;
           rewrite <- !app_assoc in H; do 2 apply app_inv_head in H; subst calls;
           repeat constructor; by intros ?).
    destruct (credentialGetToken sub) as [tok|e0]; msimpl;
      try (intros H; apply (f_equal trace) in H; simpl in H;
           rewrite <- !app_assoc in H; do 2 apply app_inv_head in H; subst calls;
           repeat constructor; by intros ?).
    destruct (authenticationGetSession sub) as [session|e0]; msimpl;
      intros H; apply (f_equal trace) in H; simpl in H;
      rewrite <- !app_assoc in H; do 2 apply app_inv_head in H; subst calls;
      repeat constructor; by intros ?. }
  rewrite addFirewallRule_run.
  destruct (constructAzureAccountForTenant env _ _)
    as [[[account' tokenMappings']|err] w1]; simpl in *; [|done].
  injection Hbuilt as -> ->. subst w1. simpl. rewrite Hcreate.
  eexists. split; [reflexivity|]. simpl. split_and!; [done| |].
  - eapply connectAttempted_false.
    + simpl. rewrite <- !app_assoc. reflexivity.
    + simpl. constructor; [done|]. apply Forall_app. split; [done|].
      by repeat constructor.
  - rewrite <- !app_assoc, drop_app_length. simpl.
    constructor; [by split; [|intros ?]|].
    apply Forall_app. split; [done|]. repeat constructor. by intros ?.
Qed.

Lemma addFirewallRule_service_failure_witness :
  ∃ w',
    addFirewallRule Outcomes.envWithoutFirewallService Outcomes.clientAddress
      (connectHelper Sample.env Outcomes.sqlDialog).2
    = (Throw (JsErrorOf "The request timed out."), w')
    ∧ is_Some (dialog (state w')).
Proof.
  destruct (addFirewallRule_service_failure_keeps_the_dialog
              Outcomes.envWithoutFirewallService Outcomes.clientAddress
              (connectHelper Sample.env Outcomes.sqlDialog).2
              (constructedAccount Sample.subscriptionA
                 {| sessionLabel := "alice"; sessionAccountType := "microsoft" |})
              [("tenant-a", "token-1")]
              (JsErrorOf "The request timed out."))
    as (w' & Hrun & Hstate & _).
  - vm_compute. reflexivity.
  - reflexivity.
  - exists w'. split; [exact Hrun|]. rewrite Hstate. vm_compute. by eexists.
Defined.

(** ** The identity for a tenant *)

Lemma filter_tenant_none (subs : list AzureSubscription) (tenantId : string) :
  Forall (λ s, subscriptionTenantId s ≠ tenantId) subs →
  filter (λ s, subscriptionTenantId s = tenantId) subs = [].
Proof.
  induction 1 as [|s subs Hs _ IH]; [done|]. by rewrite filter_cons_False.
Qed.

(** X24.  With a signed-in identity whose unfiltered subscriptions can be
    listed, building the account for a tenant goes by the first
    subscription of that tenant.  When no subscription belongs to the
    tenant it throws the localized error naming the tenant, having asked
    for no token.  Otherwise it asks that subscription for a token and a
    session, and answers an account labelled by the session whose only
    tenant is the requested one, with the token mapped to that tenant; the
    dialog state is not touched. *)
Theorem constructAzureAccountForTenant_goes_by_the_first_subscription
    (env : Env) (tenantId : string) (w : World)
    (auth : VSCodeAzureSubscriptionProvider) (subs : list AzureSubscription) :
  confirmVscodeAzureSignin env = Ok (Some auth) →
  authGetSubscriptions auth false = Ok subs →
  (Forall (λ s, subscriptionTenantId s ≠ tenantId) subs →
   constructAzureAccountForTenant env tenantId w
   = (Throw (JsErrorOf
               (Loc_errorLoadingAzureAccountInfoForTenantId (Loc env) tenantId)),
      extend w [ Call CallConfirmVscodeAzureSignin;
                 Call (CallAuthGetSubscriptions false) ]))
  ∧ (∀ before sub after token session,
       subs = before ++ sub :: after →
       Forall (λ s, subscriptionTenantId s ≠ tenantId) before →
       subscriptionTenantId sub = tenantId →
       credentialGetToken sub = Ok token →
       authenticationGetSession sub = Ok session →
       ∃ account,
         constructAzureAccountForTenant env tenantId w
         = (Ok (account, [(tenantId, token)]),
            extend w [ Call CallConfirmVscodeAzureSignin;
                       Call (CallAuthGetSubscriptions false);
                       Call (CallCredentialGetToken ".default");
                       Call CallAuthenticationGetSession ])
         ∧ optionalUserId account = VStr (sessionLabel session)
         ∧ (accountTenants <$> properties account)
           = Some (Some [Some {| tenantId_ := tenantId;
                                 tenantDisplayName := tenantId |}])).
Proof.
  intros Hauth Hsubs. unfold constructAzureAccountForTenant.
  msimpl. rewrite Hauth. msimpl. rewrite Hsubs. msimpl.
  split.
  - intros Hnone. rewrite (filter_tenant_none subs tenantId Hnone).
    unfold throw, extend. simpl. by rewrite <- !app_assoc.
  - intros before sub after token session -> Hbefore Hsub Htoken Hsession.
    rewrite filter_app, filter_cons_True by done.
    rewrite (filter_tenant_none before tenantId Hbefore). cbn [app].
    msimpl. rewrite Htoken. msimpl. rewrite Hsession. msimpl.
    eexists. split.
    { unfold extend. simpl. rewrite <- !app_assoc. simpl. by rewrite Hsub. }
    simpl. by rewrite Hsub.
Qed.

Lemma constructAzureAccountForTenant_witness :
  ∃ account w',
    constructAzureAccountForTenant Sample.env "tenant-a" (worldOf initialState)
    = (Ok (account, [("tenant-a", "token-1")]), w')
    ∧ optionalUserId account = VStr "alice".
Proof.
  destruct (constructAzureAccountForTenant_goes_by_the_first_subscription
              Sample.env "tenant-a" (worldOf initialState)
              Sample.signedIn [Sample.subscriptionA]) as [_ Hbuilt].
  - reflexivity.
  - reflexivity.
  - destruct (Hbuilt [] Sample.subscriptionA [] "token-1"
                {| sessionLabel := "alice"; sessionAccountType := "microsoft" |})
      as (account & Hrun & Huser & _); try reflexivity.
    + constructor.
    + exists account. eexists. split; [exact Hrun|exact Huser].
Defined.

(** ** Opening the dialog *)

Lemma Obj_has_set {V : Type} k k' (v : V) o :
  Obj.has k' (Obj.set k v o) = String.eqb k k' || Obj.has k' o.
Proof.
  unfold Obj.has. destruct (String.eqb k k') eqn:E.
  - apply String.eqb_eq in E. subst k'. by rewrite Obj_get_set_eq.
  - apply String.eqb_neq in E. by rewrite Obj_get_set_ne.
Qed.

Lemma convertToFormComponent_throws connOption w e w' :
  convertToFormComponent connOption w = (Throw e, w') → unconvertible connOption.
Proof.
  unfold convertToFormComponent, unconvertible.
  repeat match goal with
         | |- context [if String.eqb ?a ?b then _ else _] =>
             let E := fresh "E" in destruct (String.eqb a b) eqn:E
         end; try done.
  apply String.eqb_eq in E3. by destruct (categoryValues connOption).
Qed.

Lemma compileOption_has env groupNames connOption result w r w' key :
  compileOption env groupNames connOption result w = (Ok r, w') →
  Obj.has key result = true → Obj.has key r = true.
Proof.
  intros Hone Hhas.
  destruct (compileOption_cases env groupNames connOption result w)
    as (events & r' & Hrun & Hr').
  rewrite Hrun in Hone. injection Hone as <- _.
  destruct Hr' as [->|[converted ->]]; [done|].
  rewrite Obj_has_set, Hhas. apply orb_true_r.
Qed.

Lemma compileOptions_has env groupNames connectionOptions result w compiled w' key :
  compileOptions env groupNames connectionOptions result w = (Ok compiled, w') →
  Obj.has key result = true → Obj.has key compiled = true.
Proof.
  revert result w. induction connectionOptions as [|o rest IH]; intros result w.
  - by intros [= <- _].
  - simpl. unfold mbind, M_bind.
    destruct (compileOption env groupNames o result w) as [[r1|e] w1] eqn:Hone;
      [|done].
    intros Hrest Hhas. eapply IH; [exact Hrest|].
    by eapply compileOption_has.
Qed.

(** A descriptor whose conversion does not throw gets a field. *)
Lemma compileOptions_has_converted env groupNames connectionOptions result w
    compiled w' connOption :
  connOption ∈ connectionOptions → ¬ unconvertible connOption →
  compileOptions env groupNames connectionOptions result w = (Ok compiled, w') →
  Obj.has (name connOption) compiled = true.
Proof.
  intros (before & after & ->)%list_elem_of_split Hconv.
  rewrite compileOptions_app.
  destruct (compileOptions env groupNames before result w) as [[r1|e] w1]; [|done].
  simpl. unfold mbind, M_bind.
  destruct (compileOption env groupNames connOption r1 w1) as [[r2|e] w2] eqn:Hone;
    [|done].
  intros Hrest. eapply compileOptions_has; [exact Hrest|].
  revert Hone. unfold compileOption, try_catch, mbind, M_bind.
  destruct (convertToFormComponent connOption w1) as [[converted|e] w3] eqn:E.
  - intros [= <- _]. by rewrite Obj_has_set, String.eqb_refl.
  - by apply convertToFormComponent_throws in E.
Qed.

(** The schema compilation, when it returns. *)
Lemma generateConnectionComponents_run env w compiled w' :
  generateConnectionComponents env w = (Ok compiled, w') →
  ∃ caps result w1 buttons,
    getCapabilities env = Ok caps
    ∧ compileOptions env (groupDisplayNames caps) (capOptions caps) []
        (extend w [Call CallGetCapabilities]) = (Ok result, w1)
    ∧ compiled
      = Obj.update "user" (set_validate (Some (validateUser env)))
          (Obj.update "server" (set_validate (Some (validateServer env)))
             (withBuiltIns env (accountLookup env) buttons result))
    ∧ Obj.has "server" (withBuiltIns env (accountLookup env) buttons result) = true
    ∧ Obj.has "user" (withBuiltIns env (accountLookup env) buttons result) = true
    ∧ state w' = state w
    ∧ _connectionToEditCopy w' = _connectionToEditCopy w.
Proof.
  unfold generateConnectionComponents.
  unfold mbind at 1, M_bind at 1, call at 1.
  unfold mbind at 1, M_bind at 1. cbn [emit lift].
  destruct (getCapabilities env) as [caps|e]; [|done].
  unfold mbind at 1, M_bind at 1.
  fold (extend w [Call CallGetCapabilities]).
  destruct (compileOptions_total env (groupDisplayNames caps) (capOptions caps) []
              (extend w [Call CallGetCapabilities]))
    as (ev1 & result & Hcompile).
  rewrite Hcompile.
  destruct (completeFormComponents_run env result
              (extend (extend w [Call CallGetCapabilities]) ev1))
    as (ev2 & ->).
  cbn [state extend].
  destruct (azureButtonsFor env _ _) as [buttons|e] eqn:Hbuttons; [|done].
  cbn zeta.
  destruct (Obj.has "server" _ && Obj.has "user" _) eqn:Hhas; [|done].
  apply andb_prop in Hhas as [Hserver Huser].
  intros [= <- <-]. by eexists caps, result, _, buttons.
Qed.

Lemma withBuiltIns_has env accounts buttons comps key :
  Obj.has key comps = true ∨ key ∈ builtInNames →
  Obj.has key (withBuiltIns env accounts buttons comps) = true.
Proof.
  unfold withBuiltIns, builtInNames. rewrite !Obj_has_set. intros [->|Hkey].
  - by rewrite !orb_true_r.
  - repeat (apply elem_of_cons in Hkey as [->|Hkey]);
      rewrite ?String.eqb_refl, ?orb_true_r; try done.
    by apply elem_of_nil in Hkey.
Qed.

(** X25.  When the dialog's components are initialized without a throw and
    the capabilities name each of trust-server-certificate, authentication
    type, password, database and encrypt by a descriptor whose conversion
    does not throw, every active name has a field spec afterwards, in the
    mode the dialog is in: the main options are the ten the controller
    lists, and server, user and the built-in fields are always there.  The
    visibility is up to date, the profile and the mode are untouched, and
    the last thing the view received is the resulting state. *)
Theorem initializeConnectionComponents_gives_every_active_name_a_field
    (env : Env) (w w' : World) (caps : CapabilitiesResult) :
  getCapabilities env = Ok caps →
  initializeConnectionComponents env w = (Ok tt, w') →
  (∀ n, n ∈ capabilityMainOptions →
     ∃ o, o ∈ capOptions caps ∧ name o = n ∧ ¬ unconvertible o) →
  let s' := state w' in
  Forall (λ x, is_Some (Obj.get x (components (connectionComponents s'))))
    (getActiveFormComponents s')
  ∧ mainOptions (connectionComponents s') = dialogMainOptions
  ∧ topAdvancedOptions (connectionComponents s') = dialogTopAdvancedOptions
  ∧ visibilityOf env s' = s'
  ∧ connectionProfile s' = connectionProfile (state w)
  ∧ selectedInputMode s' = selectedInputMode (state w)
  ∧ last (trace w') = Some (UpdateState s').
Proof.
  intros Hcaps Hinit Hnames. unfold initializeConnectionComponents in Hinit.
  unfold mbind at 1, M_bind at 1 in Hinit.
  destruct (generateConnectionComponents env w) as [[compiled|e] w1] eqn:Hgen;
    [|done].
  apply generateConnectionComponents_run in Hgen
    as (caps' & result & w0 & buttons & Hcaps' & Hcompile & -> & Hserver & Huser
        & Hstate & _).
  rewrite Hcaps in Hcaps'. injection Hcaps' as <-.
  unfold mbind at 1, M_bind at 1, modify_state at 1 in Hinit.
  unfold mbind at 1, M_bind at 1, modify_state at 1 in Hinit.
  unfold mbind at 1, M_bind at 1 in Hinit.
  match type of Hinit with
  | context [updateItemVisibility env ?w2] =>
      destruct (updateItemVisibility_run env w2) as (events & Hvis & _)
  end.
  rewrite Hvis in Hinit. clear Hvis.
  unfold updateState, mbind, M_bind, get_state, emit in Hinit.
  injection Hinit as <-.
  cbn [state trace with_state extend]. rewrite Hstate.
  set (comps := Obj.update "user" _ _).
  assert (Hhas : ∀ x, x ∈ dialogMainOptions ∨ x ∈ ["connectionString"; "profileName"] →
            Obj.has x comps = true).
  { intros x Hx. unfold comps. rewrite !Obj_has_update.
    assert (Hcap : ∀ n, n ∈ capabilityMainOptions →
              Obj.has n (withBuiltIns env (accountLookup env) buttons result) = true).
    { intros n (o & Ho & <- & Hconv)%Hnames. apply withBuiltIns_has. left.
      by eapply compileOptions_has_converted. }
    unfold dialogMainOptions, capabilityMainOptions in *.
    destruct Hx as [Hx|Hx];
      repeat (apply elem_of_cons in Hx as [->|Hx]);
      try (by apply elem_of_nil in Hx);
      try done;
      try (apply Hcap; set_solver);
      apply withBuiltIns_has; right; unfold builtInNames; set_solver. }
  split_and!; try done.
  - unfold visibilityOf at 1. cbn [connectionComponents components applyHidden
      set_connectionComponents set_components].
    unfold getActiveFormComponents. cbn [selectedInputMode connectionComponents
      mainOptions set_connectionComponents set_components
      set_groupedAdvancedOptions visibilityOf applyHidden].
    assert (Hmapped : ∀ x h, Obj.has x comps = true →
              is_Some (Obj.get x
                (map (λ kv : string * FormItemSpec,
                        (kv.1, set_hidden (Some (includes_opt h (propertyName kv.2)))
                                 kv.2)) comps))).
    { intros x h Hx. apply Obj_has_get in Hx as [c Hc].
      rewrite (Obj_get_map
                 (λ c, set_hidden (Some (includes_opt h (propertyName c))) c)), Hc.
      by eexists. }
    destruct (isParametersOrAzureBrowse (selectedInputMode (state w))).
    + apply Forall_forall. intros x Hx. apply Hmapped, Hhas. by left.
    + apply Forall_forall. intros x Hx. apply Hmapped, Hhas. by right.
  - apply visibilityOf_applyHidden.
  - by rewrite last_snoc.
Qed.

Lemma sample_capabilities_cover_the_main_options n :
  n ∈ capabilityMainOptions →
  ∃ o, o ∈ capOptions Sample.capabilities ∧ name o = n ∧ ¬ unconvertible o.
Proof.
  intros Hn. unfold capabilityMainOptions in Hn.
  assert (Hcases : n = "trustServerCertificate" ∨ n = "authenticationType"
                   ∨ n = "password" ∨ n = "database" ∨ n = "encrypt")
    by set_solver.
  destruct Hcases as [->|[->|[->|[->| ->]]]];
    [ exists (Sample.descriptor "trustServerCertificate" "boolean" "security")
    | exists Sample.authenticationTypeDescriptor
    | exists (Sample.descriptor "password" "password" "security")
    | exists (Sample.descriptor "database" "string" "source")
    | exists (Sample.descriptor "encrypt" "boolean" "security") ];
    (split;
     [ unfold Sample.capabilities, Sample.descriptors; cbn [capOptions];
       repeat first [apply list_elem_of_here | apply list_elem_of_further]
     | split; [reflexivity|intros [H1 H2]; (discriminate H1 || discriminate H2)] ]).
Defined.

Lemma initializeConnectionComponents_witness :
  ∃ w',
    initializeConnectionComponents Sample.env
      (worldOf (set_connectionProfile Sample.sqlProfile initialState))
    = (Ok tt, w')
    ∧ Forall (λ x, is_Some (Obj.get x (components (connectionComponents (state w')))))
        (getActiveFormComponents (state w')).
Proof.
  destruct (initializeConnectionComponents Sample.env
              (worldOf (set_connectionProfile Sample.sqlProfile initialState)))
    as [[[]|e] w'] eqn:Hrun.
  - exists w'. split; [reflexivity|].
    exact (proj1 (initializeConnectionComponents_gives_every_active_name_a_field
                    Sample.env _ w' Sample.capabilities eq_refl Hrun
                    sample_capabilities_cover_the_main_options)).
  - exfalso. revert Hrun. vm_compute. discriminate.
Defined.

(** ** The MFA handler outside the active set *)

(** X26.  Under Azure MFA in connection-string mode, where the account
    field is not among the active ones, the MFA side-effect handler cannot
    do its work and throws a type error.  On an edit of the authentication
    type it throws at once, before any collaborator is asked and with the
    dialog state untouched.  On an edit of the account it first fetches the
    tenants and builds the action buttons, and then throws on assigning
    them, the dialog state still untouched; when building the buttons
    throws, that is what it throws. *)
Theorem handleAzureMFAEdits_throws_in_connection_string_mode
    (env : Env) (w : World) :
  selectedInputMode (state w) = ConnectionString →
  profileField (state w) "authenticationType" = AuthenticationType.AzureMFA →
  handleAzureMFAEdits env "authenticationType" w = (Throw (JsTypeError "options"), w)
  ∧ ∃ calls,
      handleAzureMFAEdits env "accountId" w
      = (match azureButtonsFor env AuthenticationType.AzureMFA
                 (profileField (state w) "accountId") with
         | Ok _ => Throw (JsTypeError "actionButtons")
         | Throw e => Throw e
         end,
         extend w calls)
      ∧ Call CallGetAccounts ∈ calls.
Proof.
  intros Hmode Hauth.
  assert (Hnone : ∀ key, key ≠ "connectionString" → key ≠ "profileName" →
                         getFormComponent (state w) key = None).
  { intros key Hc Hp. unfold getFormComponent, getActiveFormComponents.
    rewrite Hmode. cbn [isParametersOrAzureBrowse bool_decide decide_rel orb].
    unfold includes. simpl.
    apply String.eqb_neq in Hc, Hp. by rewrite Hc, Hp. }
  split.
  - unfold handleAzureMFAEdits.
    cbn [includes existsb String.eqb Ascii.eqb Bool.eqb orb].
    unfold mbind, M_bind, get_state.
    rewrite Hauth, !Hnone by done. unfold strict_eq.
    by rewrite bool_decide_eq_true_2 by done.
  - unfold handleAzureMFAEdits.
    cbn [includes existsb String.eqb Ascii.eqb Bool.eqb orb].
    unfold mbind at 1, M_bind at 1, get_state at 1.
    rewrite Hauth, !Hnone by done. unfold strict_eq.
    rewrite bool_decide_eq_true_2 by done. cbn [negb String.eqb Ascii.eqb Bool.eqb].
    unfold refreshTenantsAndButtons.
    unfold mbind at 1, M_bind at 1, get_state at 1.
    unfold mbind at 1, M_bind at 1.
    assert (Htenants : ∃ ev1,
      getTenants env (profileField (state w) "accountId") w
      = (Ok (tenantLookup env (profileField (state w) "accountId")),
         extend w (Call CallGetAccounts :: ev1))).
    { unfold getTenants, tenantLookup, getTenants_catch. msimpl.
      destruct (getAccountsService env) as [accounts|e]; msimpl.
      - destruct (getTenants_try _ accounts) as [tenants [opts|e]]; msimpl.
        + by exists [].
        + eexists [_; _]. unfold extend. simpl. by rewrite <- !app_assoc.
      - eexists [_; _]. unfold extend. simpl. by rewrite <- !app_assoc. }
    destruct Htenants as [ev1 ->].
    unfold mbind at 1, M_bind at 1. cbn [mret M_ret].
    unfold mbind at 1, M_bind at 1.
    destruct (getAzureActionButtons_answer env
                (extend w (Call CallGetAccounts :: ev1))) as [ev2 ->].
    cbn [state extend]. rewrite Hauth.
    exists ((Call CallGetAccounts :: ev1) ++ ev2). rewrite extend_extend. split.
    + by destruct (azureButtonsFor env _ _).
    + apply list_elem_of_here.
Qed.

Lemma handleAzureMFAEdits_throws_witness :
  (handleAzureMFAEdits Sample.env "accountId"
     (with_state
        (set_selectedInputMode ConnectionString
           (state (Sample.opened Sample.env (Sample.mfaProfile "bob"))))
        (Sample.opened Sample.env (Sample.mfaProfile "bob")))).1
  = Throw (JsTypeError "actionButtons").
Proof.
  destruct (handleAzureMFAEdits_throws_in_connection_string_mode Sample.env
              (with_state
                 (set_selectedInputMode ConnectionString
                    (state (Sample.opened Sample.env (Sample.mfaProfile "bob"))))
                 (Sample.opened Sample.env (Sample.mfaProfile "bob"))))
    as (_ & calls & Hrun & _).
  - reflexivity.
  - reflexivity.
  - rewrite Hrun. reflexivity.
Defined.

(** ** Overriding a setting *)

Lemma derivedKey_inj serviceKey : Inj (=) (=) (ExtConfig.derivedKey serviceKey).
Proof.
  intros k1 k2. unfold ExtConfig.derivedKey. intros H.
  by do 2 apply (inj (String.app _)) in H.
Qed.

(** X27.  Storing a value for a tools service setting in the extension
    configuration overrides the bundled value exactly when the stored value
    is truthy: the setting then reads as the stored value, and as the
    bundled value when what is stored is falsy.  The other tools service
    settings read as before. *)
Theorem getSqlToolsConfigValue_reads_the_stored_override
    (serviceKey : string) (this : ExtConfig.t) (configKey : string) (v : JsVal) :
  ExtConfig.getSqlToolsConfigValue serviceKey
    (withExtensionSetting serviceKey configKey v this) configKey
  = (if truthy v then v else ExtConfig._config this configKey)
  ∧ ∀ other, other ≠ configKey →
      ExtConfig.getSqlToolsConfigValue serviceKey
        (withExtensionSetting serviceKey configKey v this) other
      = ExtConfig.getSqlToolsConfigValue serviceKey this other.
Proof.
  unfold ExtConfig.getSqlToolsConfigValue, ExtConfig.getExtensionConfig,
    ExtConfig.get, js_get, withExtensionSetting. cbn.
  split.
  - rewrite lookup_insert_eq. cbn.
    destruct (decide (v = VUndefined)) as [->|Hv]; [done|].
    by destruct (truthy v).
  - intros other Hother. rewrite lookup_insert_ne; [done|].
    intros Heq. by apply derivedKey_inj in Heq.
Qed.

(** ** The MFA handler when the buttons cannot be built *)

(** Under Azure MFA with both fields active, an edit of the account or of
    the authentication type comes down to the shared lines, run once the
    account is selected. *)
Lemma handleAzureMFAEdits_shared_lines env w property ac tc :
  let s := state w in
  profileField s "authenticationType" = AuthenticationType.AzureMFA →
  property = "accountId" ∨ property = "authenticationType" →
  getFormComponent s "accountId" = Some ac →
  getFormComponent s "tenantId" = Some tc →
  (property = "authenticationType" → is_Some (options ac)) →
  handleAzureMFAEdits env property w
  = refreshTenantsAndButtons env (Some ac) (Some tc)
      (with_state (withSelectedAccount property ac s) w).
Proof.
  intros s Hauth Hproperty Hac Htc Hoptions.
  assert (Hw : with_state s w = w) by (clear; subst s; by destruct w).
  assert (Hincl : includes ["accountId"; "tenantId"; "authenticationType"]
                    property = true)
    by (destruct Hproperty as [-> | ->]; reflexivity).
  unfold handleAzureMFAEdits, withSelectedAccount. rewrite Hincl.
  unfold mbind at 1, M_bind at 1, get_state at 1. fold s.
  rewrite Hauth. unfold strict_eq at 1. rewrite bool_decide_eq_true_2 by done.
  cbn [negb]. rewrite Hac, Htc.
  destruct Hproperty as [-> | ->].
  - cbn [String.eqb Ascii.eqb Bool.eqb]. by rewrite Hw.
  - cbn [String.eqb Ascii.eqb Bool.eqb].
    destruct (Hoptions eq_refl) as [opts Hopts]. rewrite Hopts.
    destruct opts as [|firstOption rest]; msimpl; [|reflexivity].
    by rewrite Hw.
Qed.

Lemma withSelectedAccount_frame property ac s :
  profileField s "authenticationType" = AuthenticationType.AzureMFA →
  profileField (withSelectedAccount property ac s) "accountId"
  = selectedAccount s property ac
  ∧ profileField (withSelectedAccount property ac s) "authenticationType"
    = AuthenticationType.AzureMFA
  ∧ profileField (withSelectedAccount property ac s) "tenantId"
    = profileField s "tenantId"
  ∧ connectionComponents (withSelectedAccount property ac s)
    = connectionComponents s.
Proof.
  intros Hauth. unfold withSelectedAccount, selectedAccount.
  destruct (String.eqb property "authenticationType"); [|done].
  destruct (options ac) as [[|firstOption rest]|]; try done.
  by rewrite !profileField_setProfileField.
Qed.

(** The shared lines when the buttons cannot be built: the tenants have
    been fetched and stored by then, and the error is thrown on. *)
Lemma refreshTenantsAndButtons_throws env w ac tc e :
  let s := state w in
  let tenants := tenantLookup env (profileField s "accountId") in
  azureButtonsFor env (profileField s "authenticationType")
    (profileField s "accountId") = Throw e →
  ∃ calls,
    refreshTenantsAndButtons env (Some ac) (Some tc) w
    = (Throw e, extend (with_state (withTenants tenants s) w) calls).
Proof.
  intros s tenants Hbuttons. unfold refreshTenantsAndButtons.
  unfold mbind at 1, M_bind at 1, get_state at 1.
  unfold mbind at 1, M_bind at 1. fold s.
  destruct (getTenants_answer env (profileField s "accountId") w) as [ev1 ->].
  fold tenants.
  set (w1 := extend (with_state (withTenants tenants s) w) ev1).
  assert (Hmid : ∀ (k : M unit),
    ((modify_state (update_component "tenantId" (set_options (Some tenants)));;
      match tenants with
      | first :: _ =>
          modify_state (setProfileField "tenantId" (VStr (optValue first)))
      | [] => mret tt
      end);; k) (extend w ev1) = k w1).
  { intros k. unfold w1, withTenants. destruct tenants as [|first rest]; reflexivity. }
  rewrite Hmid.
  unfold mbind at 1, M_bind at 1.
  destruct (getAzureActionButtons_answer env w1) as [ev2 ->].
  unfold w1 at 1 2. cbn [state extend with_state].
  rewrite !withTenants_profile by done. fold s. rewrite Hbuttons.
  exists (ev1 ++ ev2). unfold w1, extend, with_state. simpl.
  by rewrite <- app_assoc.
Qed.

(** X28.  Under Azure MFA with the account and tenant fields active, when
    the buttons of the account field cannot be built on an edit of the
    account or of the authentication type (listing the accounts, finding
    the account or fetching its token throws), the handler throws that
    error with half of its work done: the account is selected, the tenant
    field holds the tenants fetched and the first of them is the profile's
    tenant, while the account field keeps the buttons it had. *)
Theorem handleAzureMFAEdits_button_failure_keeps_the_tenant_refresh
    (env : Env) (w : World) (property : string) (ac tc : FormItemSpec)
    (e : JsError) :
  let s := state w in
  let account := selectedAccount s property ac in
  let tenants := tenantLookup env account in
  profileField s "authenticationType" = AuthenticationType.AzureMFA →
  property = "accountId" ∨ property = "authenticationType" →
  getFormComponent s "accountId" = Some ac →
  getFormComponent s "tenantId" = Some tc →
  (property = "authenticationType" → is_Some (options ac)) →
  azureButtonsFor env AuthenticationType.AzureMFA account = Throw e →
  ∃ w',
    handleAzureMFAEdits env property w = (Throw e, w')
    ∧ profileField (state w') "accountId" = account
    ∧ profileField (state w') "tenantId" = selectedTenant s tenants
    ∧ Obj.get "tenantId" (components (connectionComponents (state w')))
      = Some (set_options (Some tenants) tc)
    ∧ Obj.get "accountId" (components (connectionComponents (state w')))
      = Some ac.
Proof.
  intros s account tenants Hauth Hproperty Hac Htc Hoptions Hbuttons.
  pose proof (getFormComponent_Some _ _ _ Hac) as Hgetac.
  pose proof (getFormComponent_Some _ _ _ Htc) as Hgettc.
  destruct (withSelectedAccount_frame property ac s Hauth)
    as (Haccount & Hauth0 & Htenant0 & Hcomps0).
  fold account in Haccount.
  rewrite (handleAzureMFAEdits_shared_lines env w property ac tc
             Hauth Hproperty Hac Htc Hoptions). fold s.
  destruct (refreshTenantsAndButtons_throws env
              (with_state (withSelectedAccount property ac s) w) ac tc e)
    as [calls ->].
  { cbn [state with_state]. by rewrite Hauth0, Haccount. }
  cbn [state with_state]. rewrite Haccount. fold tenants.
  eexists. split; [reflexivity|]. cbn [state extend with_state].
  split_and!.
  - by rewrite withTenants_profile.
  - unfold withTenants, selectedTenant.
    destruct tenants as [|first rest]; [exact Htenant0|].
    by rewrite profileField_setProfileField.
  - unfold withTenants.
    destruct tenants as [|first rest];
      cbn [setProfileField update_component connectionComponents
           set_connectionProfile set_connectionComponents components
           set_components];
      by rewrite Obj_get_update, Hcomps0, Hgettc.
  - unfold withTenants.
    destruct tenants as [|first rest];
      cbn [setProfileField update_component connectionComponents
           set_connectionProfile set_connectionComponents components
           set_components];
      by rewrite Obj_get_update, Hcomps0, Hgetac.
Qed.

Lemma handleAzureMFAEdits_button_failure_witness :
  ∃ w',
    handleAzureMFAEdits Outcomes.envWithoutToken "accountId"
      (Sample.opened Sample.env (Sample.mfaProfile "alice"))
    = (Throw (JsErrorOf "The token could not be fetched."), w')
    ∧ profileField (state w') "tenantId" = VStr "tenant-a".
Proof.
  destruct (handleAzureMFAEdits_button_failure_keeps_the_tenant_refresh
              Outcomes.envWithoutToken
              (Sample.opened Sample.env (Sample.mfaProfile "alice")) "accountId"
              (default emptySpec
                 (Obj.get "accountId"
                    (components (connectionComponents
                       (state (Sample.opened Sample.env
                                 (Sample.mfaProfile "alice")))))))
              (default emptySpec
                 (Obj.get "tenantId"
                    (components (connectionComponents
                       (state (Sample.opened Sample.env
                                 (Sample.mfaProfile "alice")))))))
              (JsErrorOf "The token could not be fetched."))
    as (w' & Hrun & _ & Htenant & _).
  - vm_compute. reflexivity.
  - by left.
  - vm_compute. reflexivity.
  - vm_compute. reflexivity.
  - intros [=].
  - vm_compute. reflexivity.
  - exists w'. split; [exact Hrun|].
    rewrite Htenant. vm_compute. reflexivity.
Defined.

(** ** Reloading the connection lists *)

Section MapOutcome.
Context {A B : Type} (f : A → Outcome B).

Lemma map_outcome_answers xs :
  Forall (λ x, ∃ y, f x = Ok y) xs →
  ∃ ys, map_outcome f xs = Ok ys ∧ Forall2 (λ x y, f x = Ok y) xs ys.
Proof.
  induction 1 as [|x xs [y Hy] _ (ys & IH & Hall)]; simpl.
  - by exists [].
  - rewrite Hy, IH. exists (y :: ys). split; [done|]. by constructor.
Qed.

Lemma map_outcome_throws xs x e :
  x ∈ xs → f x = Throw e → ∃ e', map_outcome f xs = Throw e'.
Proof.
  intros Hx Hthrow. induction Hx as [x xs|x x' xs _ IH]; simpl.
  - rewrite Hthrow. by eexists.
  - destruct (f x') as [y|e']; [|by eexists].
    destruct (IH Hthrow) as [e' ->]. by eexists.
Qed.

End MapOutcome.

(** Initializing a connection for the dialog throws exactly when the
    lookup of its secret does. *)
Lemma initializeConnectionForDialog_answers env connection :
  match secretOf env connection with
  | Ok _ =>
      ∃ profile,
        initializeConnectionForDialog (lookupPassword env)
          (getConnectionDisplayName env) connection = Ok profile
  | Throw e =>
      initializeConnectionForDialog (lookupPassword env)
        (getConnectionDisplayName env) connection = Throw e
  end.
Proof.
  unfold secretOf, initializeConnectionForDialog.
  destruct (isConnectionStringConnection connection); cbn [negb];
    destruct (lookupPassword env connection _); try done; by eexists.
Qed.

(** A single failing lookup makes the reload throw. *)
Lemma loadConnections_failing_lookup_throws env w unsortedConnections c e :
  loadAllConnections env true = Ok unsortedConnections →
  c ∈ listedConnections unsortedConnections →
  secretOf env c = Throw e →
  ∃ e', (loadConnections env w).1 = Throw e'.
Proof.
  intros Hload Hc Hsecret. rewrite loadConnections_run, Hload. cbn [fst].
  unfold initializeConnections.
  pose proof (initializeConnectionForDialog_answers env c) as Hthrows.
  rewrite Hsecret in Hthrows.
  apply elem_of_app in Hc as [Hc|Hc].
  - destruct (map_outcome_throws _ _ c e Hc Hthrows) as [e' ->]. by exists e'.
  - destruct (map_outcome _ (connectionsOfType Mru unsortedConnections));
      [|by eexists].
    destruct (map_outcome_throws _ _ c e Hc Hthrows) as [e' ->]. by exists e'.
Qed.

(** X29.  Reloading the connection lists is all or nothing.  It asks the
    store for all connections, reports how many are saved and how many are
    recent, and leaves the dialog state alone.  When the secret of every
    recent and every saved connection can be looked up, it answers the
    saved and the recent connections, each initialized for the dialog, in
    the store's order, and items of another kind are left out.  When the
    lookup fails for a single one of them, the whole reload throws: the
    [catch] written around each initialization does not apply to a promise
    that rejects. *)
Theorem loadConnections_is_all_or_nothing
    (env : Env) (w : World)
    (unsortedConnections : list IConnectionCredentialsQuickPickItem) :
  loadAllConnections env true = Ok unsortedConnections →
  let initialize :=
    initializeConnectionForDialog (lookupPassword env)
      (getConnectionDisplayName env) in
  let answer := loadConnections env w in
  answer.2 = extend w (reloadEvents unsortedConnections)
  ∧ (Forall (λ c, ∃ secret, secretOf env c = Ok secret)
       (listedConnections unsortedConnections) →
     ∃ saved recent,
       answer.1 = Ok (saved, recent)
       ∧ Forall2 (λ c profile, initialize c = Ok profile)
           (connectionsOfType Profile unsortedConnections) saved
       ∧ Forall2 (λ c profile, initialize c = Ok profile)
           (connectionsOfType Mru unsortedConnections) recent)
  ∧ (∀ c e,
       c ∈ listedConnections unsortedConnections →
       secretOf env c = Throw e →
       ∃ e', answer.1 = Throw e').
Proof.
  intros Hload initialize answer. subst answer.
  rewrite loadConnections_run, Hload. cbn [fst snd].
  split; [reflexivity|]. unfold initializeConnections. fold initialize.
  split.
  - intros Hall. apply Forall_app in Hall as [Hrecent Hsaved].
    destruct (map_outcome_answers initialize
                (connectionsOfType Mru unsortedConnections))
      as (recent & -> & Hrecents).
    { eapply Forall_impl; [exact Hrecent|]. intros c [secret Hsecret].
      pose proof (initializeConnectionForDialog_answers env c) as Hc.
      by rewrite Hsecret in Hc. }
    destruct (map_outcome_answers initialize
                (connectionsOfType Profile unsortedConnections))
      as (saved & -> & Hsaveds).
    { eapply Forall_impl; [exact Hsaved|]. intros c [secret Hsecret].
      pose proof (initializeConnectionForDialog_answers env c) as Hc.
      by rewrite Hsecret in Hc. }
    by exists saved, recent.
  - intros c e Hc Hsecret.
    destruct (loadConnections_failing_lookup_throws env w unsortedConnections
                c e Hload Hc Hsecret) as [e' He'].
    rewrite loadConnections_run, Hload in He'. by exists e'.
Qed.

Lemma loadConnections_witness :
  (loadConnections
     (Outcomes.envWith Outcomes.accepted (Ok (Some Sample.signedIn)) Outcomes.hostOk)
     Outcomes.sqlDialog).2
  = extend Outcomes.sqlDialog
      [ Call (CallLoadAllConnections true);
        SendActionEvent TelemetryActions.LoadRecentConnections []
          [("savedConnectionsCount", 1); ("recentConnectionsCount", 1)] ].
Proof.
  exact (proj1 (loadConnections_is_all_or_nothing
                  (Outcomes.envWith Outcomes.accepted (Ok (Some Sample.signedIn))
                     Outcomes.hostOk)
                  Outcomes.sqlDialog
                  [ {| quickPickItemType := Mru;
                       connectionCreds := Sample.mfaProfile "alice" |};
                    {| quickPickItemType := Profile;
                       connectionCreds := Sample.sqlProfile |} ]
                  eq_refl)).
Defined.

(** What follows a successful remote connect, when the host answers but
    the reload of the connection lists throws. *)
Lemma afterConnect_reload_fails env w unsortedConnections e :
  Forall (λ c, hostCall env c = Ok tt) (saveCalls w) →
  loadAllConnections env true = Ok unsortedConnections →
  (loadConnections env w).1 = Throw e →
  afterConnect env w
  = (Throw e,
     extend w
       ([SendActionEvent TelemetryActions.CreateConnection
           ([ ("result", PropStr "success");
              ("newOrEditedConnection",
               PropStr (newOrEdited (_connectionToEditCopy w))) ]
            ++ connectionTelemetry (state w)) []]
        ++ map (λ c, Call (CallHost c)) (saveCalls w)
        ++ reloadEvents unsortedConnections)).
Proof.
  intros Hhosts Hload. rewrite loadConnections_run, Hload. cbn [fst].
  intros Hthrows.
  unfold saveCalls, removeEditedCalls in *.
  unfold afterConnect, updateLoadedConnections.
  destruct w as [s copy tr]. cbn [_connectionToEditCopy state] in *.
  destruct copy as [c|]; cbn [app] in Hhosts;
    repeat match goal with
           | H : Forall _ (_ :: _) |- _ =>
               let Hc := fresh "Hc" in apply Forall_cons in H as [Hc H]
           end;
    msimpl;
    repeat match goal with
           | H : hostCall env _ = Ok tt |- _ => rewrite H; clear H; msimpl
           end;
    rewrite loadConnections_run, Hload; msimpl;
    (destruct (initializeConnections env (connectionsOfType Mru _));
     [destruct (initializeConnections env (connectionsOfType Profile _));
      [done|]|]);
    injection Hthrows as ->; msimpl;
    unfold extend, with_state, reloadEvents;
    cbn [state trace _connectionToEditCopy];
    rewrite <- !app_assoc; reflexivity.
Qed.

(** X30.  When the server has accepted the connection and the profile has
    been saved, but the secret of one of the store's recent or saved
    connections cannot be looked up, the connect attempt ends with status
    Error: the reload of the connection lists throws, so the lists are as
    they were, the view gets no further state, and nothing is revealed.
    The success event has been sent by then; the error event is the last of
    the trace, and the form error stays empty. *)
Theorem connectHelper_reload_failure_ends_in_error
    (env : Env) (w : World) (result : ConnectionCompleteParams)
    (unsortedConnections : list IConnectionCredentialsQuickPickItem)
    (c : IConnectionDialogProfile) (e0 : JsError) :
  let s := state w in
  let active := getActiveFormComponents s in
  Forall (λ x, is_Some (Obj.get x (components (connectionComponents s)))) active →
  invalidNames (validateCtx s) (cleanedProfile s)
    (components (connectionComponents s)) active = [] →
  validateAndSaveProfileFromDialog env (cleanedProfile s) = Ok result →
  errorMessage result = "" →
  Forall (λ c, hostCall env c = Ok tt) (saveCalls w) →
  loadAllConnections env true = Ok unsortedConnections →
  c ∈ listedConnections unsortedConnections →
  secretOf env c = Throw e0 →
  ∃ w' e,
    connectHelper env w = (Ok tt, w')
    ∧ connectionStatus (state w') = Error
    ∧ formError (state w') = ""
    ∧ savedConnections (state w') = savedConnections s
    ∧ recentConnections (state w') = recentConnections s
    ∧ trace w'
      = trace (attemptWorld w)
        ++ [ Call (CallValidateAndSaveProfileFromDialog (cleanedProfile s));
             SendActionEvent TelemetryActions.CreateConnection
               ([ ("result", PropStr "success");
                  ("newOrEditedConnection",
                   PropStr (newOrEdited (_connectionToEditCopy w))) ]
                ++ connectionTelemetry s) [] ]
        ++ map (λ c, Call (CallHost c)) (saveCalls w)
        ++ reloadEvents unsortedConnections
        ++ [ SendErrorEvent TelemetryActions.CreateConnection e None
               (connectionTelemetry s) [] ].
Proof.
  intros s active Hall Hvalid Hsave Hmsg Hhosts Hload Hc Hsecret.
  apply String.eqb_eq in Hmsg.
  destruct (attemptState_frame s) as (Hprofile & Hmode & Hstatus & Hform & Hdialog).
  set (w1 := extend (attemptWorld w)
               [Call (CallValidateAndSaveProfileFromDialog (cleanedProfile s))]).
  assert (Hcalls : saveCalls w1 = saveCalls w).
  { unfold saveCalls, w1, attemptWorld, extend, with_state.
    cbn [state _connectionToEditCopy]. fold s. by rewrite Hprofile. }
  assert (Htel : connectionTelemetry (state w1) = connectionTelemetry s).
  { unfold connectionTelemetry, profileField, w1, attemptWorld, extend, with_state.
    cbn [state]. fold s. by rewrite Hprofile, Hmode. }
  destruct (loadConnections_failing_lookup_throws env w1 unsortedConnections
              c e0 Hload Hc Hsecret) as [e Hthrows].
  exists (extend (with_state (set_connectionStatus Error (attemptState s)) w)
            ([UpdateState (loadingState s)]
             ++ validatorCalls (validateCtx s) (cleanedProfile s)
                  (components (connectionComponents s)) active
             ++ [ Call (CallValidateAndSaveProfileFromDialog (cleanedProfile s));
                  SendActionEvent TelemetryActions.CreateConnection
                    ([ ("result", PropStr "success");
                       ("newOrEditedConnection",
                        PropStr (newOrEdited (_connectionToEditCopy w))) ]
                     ++ connectionTelemetry s) [] ]
             ++ map (λ c, Call (CallHost c)) (saveCalls w)
             ++ reloadEvents unsortedConnections
             ++ [SendErrorEvent TelemetryActions.CreateConnection e None
                   (connectionTelemetry s) []])), e.
  split.
  { rewrite (connectHelper_attempt env w Hall Hvalid). fold s.
    unfold try_catch at 1. unfold mbind at 1, M_bind at 1.
    rewrite (attemptConnect_answered env _ _ result Hsave), Hmsg. fold w1.
    rewrite (afterConnect_reload_fails env w1 unsortedConnections e);
      [|by rewrite Hcalls|exact Hload|exact Hthrows].
    rewrite Hcalls, Htel.
    unfold mbind, M_bind, modify_state, get_state, emit.
    cbn [state trace _connectionToEditCopy extend w1 attemptWorld with_state].
    unfold extend, with_state. cbn [state trace _connectionToEditCopy].
    fold s active. rewrite (connectionTelemetry_status s Error).
    by rewrite <- !app_assoc. }
  cbn [state trace extend with_state attemptWorld connectionStatus formError
       savedConnections recentConnections set_connectionStatus].
  unfold attemptState.
  split_and!; try done.
  - by rewrite (proj1 (validatedState_lists _ _ _)).
  - by rewrite (proj2 (validatedState_lists _ _ _)).
  - fold s active. by rewrite <- !app_assoc.
Qed.

Lemma connectHelper_reload_failure_witness :
  ∃ w',
    connectHelper Outcomes.envWithLockedStore Outcomes.sqlDialog = (Ok tt, w')
    ∧ connectionStatus (state w') = Error
    ∧ formError (state w') = ""
    ∧ savedConnections (state w') = [].
Proof.
  destruct (connectHelper_reload_failure_ends_in_error
              Outcomes.envWithLockedStore Outcomes.sqlDialog
              {| errorMessage := ""; errorNumber := 0 |}
              [ {| quickPickItemType := Mru;
                   connectionCreds := Sample.mfaProfile "alice" |};
                {| quickPickItemType := Profile;
                   connectionCreds := Sample.sqlProfile |} ]
              Sample.sqlProfile
              (JsErrorOf "The credential store is locked."))
    as (w' & e & Hrun & Hstatus & Hform & Hsaved & _).
  - apply (bool_decide_unpack _). vm_compute. reflexivity.
  - vm_compute. reflexivity.
  - reflexivity.
  - reflexivity.
  - repeat constructor.
  - reflexivity.
  - unfold listedConnections, connectionsOfType. simpl.
    apply list_elem_of_further, list_elem_of_here.
  - reflexivity.
  - exists w'. split; [exact Hrun|]. split; [exact Hstatus|].
    split; [exact Hform|]. rewrite Hsaved. vm_compute. reflexivity.
Defined.
